(** * Anonymous voting client: fingerprinting, voter registration, vote
    submission and the admin election API

    A shallow embedding of the fingerprint module and the REST
    integration layer of the voter page ([site/js/fingerprint.js]), of
    the fingerprint function of [site/js/voting.js] and of the election
    operations of [admin/js/api.js], followed by the properties of the
    specification.  The embedding goes on to the rest of these files:
    the session status functions of the integration layer, the ballot
    page of [site/js/voting.js] with its [escapeHtml], and the reports,
    statistics and CSV export of [admin/js/api.js].

    Conventions of the embedding:
    - a JavaScript string is the list of its UTF-16 code units
      ([jsstring], a [list Z]); [charCodeAt] reads a list element and the
      default [Array.prototype.sort] order is the lexicographic order on
      these lists;
    - numbers that the modelled code handles are integers ([Z]); 32-bit
      operators wrap explicitly through [ToInt32];
    - a computation that may throw returns a [Completion];
    - code that reads or writes module-level state or talks to the
      network is a function of an explicit [World];
    - what the browser and the backend provide is a parameter: the probes
      and the digest are fields of the environment, the server is a
      function from requests to answers. For concrete runs the digest is
      SHA-256 ([Sha256]) and the server is the store the specification
      describes ([Store]). *)

From Stdlib Require Import ZArith List String Ascii Bool Lia Permutation.
From stdpp Require Import base decidable list sorting.
From Equations Require Import Equations.
Import ListNotations.

#[local] Open Scope Z_scope.

(* ===================================================================== *)
(** * JavaScript values                                                    *)
(* ===================================================================== *)

Module Js.

(** A string is its sequence of UTF-16 code units. *)
Abbreviation jsstring := (list Z).

(** A string literal of the source, as code units. *)
Definition lit (s : string) : jsstring :=
  List.map (fun a => Z.of_N (N_of_ascii a)) (list_ascii_of_string s).

(** Primitive values. *)
Inductive JsVal : Type :=
| JUndefined
| JNull
| JBool (b : bool)
| JNum (n : Z)
| JStr (s : jsstring).

(** Objects with primitive fields, in property insertion order. *)
Abbreviation JsObject := (list (jsstring * JsVal)).

(** Outcome of evaluating code that may throw. *)
Inductive Completion (E A : Type) : Type :=
| Normal (a : A)
| Throw (e : E).
Arguments Normal {E A} a.
Arguments Throw {E A} e.

(** Built-in errors raised by the engine or the platform. *)
Inductive JsError : Type :=
| TypeError
| ReferenceError
| SyntaxError
| DOMException.

(** [ToBoolean]. *)
Definition truthy (v : JsVal) : bool :=
  match v with
  | JUndefined | JNull => false
  | JBool b => b
  | JNum n => negb (n =? 0)
  | JStr s => match s with [] => false | _ => true end
  end.

(** [a || b]. *)
Definition js_or (a b : JsVal) : JsVal := if truthy a then a else b.

(** Digit of [Number.prototype.toString]: [0-9] then [a-z]. *)
Definition digitChar (d : Z) : Z := if d <? 10 then 48 + d else 87 + d.

(** Digits of a non-negative integer, most significant first. *)
Equations? digits (radix n : Z) : jsstring by wf (Z.to_nat n) lt :=
  digits radix n with (Z_lt_dec radix 2, Z_lt_dec n radix) := {
    | (left _, _) => [digitChar n]
    | (right _, left _) => [digitChar n]
    | (right _, right _) => digits radix (n / radix) ++ [digitChar (n mod radix)] }.
Proof.
  assert (0 < n / radix < n); [| lia].
  split; [apply Z.div_str_pos; lia | apply Z.div_lt; lia].
Qed.

(** [n.toString(radix)] for an integer [n]: its digits, which is what
    JavaScript prints for every safe integer (in radix 10, for every
    integer below [10^21], from where on it prints an exponent). *)
Definition numberToString (n radix : Z) : jsstring :=
  if n <? 0 then 45 :: digits radix (- n) else digits radix n.

(** [String.prototype.padStart(len, fill)] with a one-unit fill. *)
Definition padStart (s : jsstring) (len : nat) (fill : Z) : jsstring :=
  List.repeat fill (len - List.length s) ++ s.

(** [ToString] on primitives. *)
Definition ToString (v : JsVal) : jsstring :=
  match v with
  | JUndefined => lit "undefined"
  | JNull => lit "null"
  | JBool true => lit "true"
  | JBool false => lit "false"
  | JNum n => numberToString n 10
  | JStr s => s
  end.

(** [ToInt32]: reduction modulo 2^32 into [-2^31, 2^31). *)
Definition ToInt32 (x : Z) : Z := (x + 2 ^ 31) mod 2 ^ 32 - 2 ^ 31.

(** [x << k] on numbers. *)
Definition shl (x k : Z) : Z := ToInt32 (Z.shiftl (ToInt32 x) (k mod 32)).

(** [x & y] on numbers. *)
Definition band (x y : Z) : Z := Z.land (ToInt32 x) (ToInt32 y).

(** Strict equality [a === b] on primitives. *)
Definition strict_eq (a b : JsVal) : bool :=
  match a, b with
  | JUndefined, JUndefined => true
  | JNull, JNull => true
  | JBool x, JBool y => Bool.eqb x y
  | JNum x, JNum y => x =? y
  | JStr x, JStr y => bool_decide (x = y)
  | _, _ => false
  end.

(** Sequencing of computations that may throw. *)
Definition bind {E A B} (c : Completion E A) (k : A -> Completion E B) : Completion E B :=
  match c with
  | Normal a => k a
  | Throw e => Throw e
  end.

(** [try { c } catch (e) { handler e }]. *)
Definition try_catch {E A} (c : Completion E A) (handler : E -> Completion E A) : Completion E A :=
  match c with
  | Normal a => Normal a
  | Throw e => handler e
  end.

(** Property read [o[k]]: the value of the first binding of [k], or
    [undefined]. *)
Fixpoint Get (o : JsObject) (k : jsstring) : JsVal :=
  match o with
  | [] => JUndefined
  | (k', v) :: rest => if bool_decide (k' = k) then v else Get rest k
  end.

(** [Object.keys(o)]. *)
Definition Object_keys (o : JsObject) : list jsstring := List.map fst o.

(** Order of the default [Array.prototype.sort] on strings: code units
    compared lexicographically. *)
Fixpoint units_leb (a b : jsstring) : bool :=
  match a, b with
  | [], _ => true
  | _ :: _, [] => false
  | x :: a', y :: b' => (x <? y) || ((x =? y) && units_leb a' b')
  end.

Definition units_le (a b : jsstring) : Prop := units_leb a b = true.

#[global] Instance units_le_dec : RelDecision units_le :=
  fun a b => decide (units_leb a b = true).

(** [keys.sort()]. *)
Definition Array_sort (keys : list jsstring) : list jsstring :=
  merge_sort units_le keys.

(** [Array.prototype.join]: [undefined] and [null] elements print as
    the empty string. *)
Definition join_item (v : JsVal) : jsstring :=
  match v with
  | JUndefined | JNull => []
  | _ => ToString v
  end.

Fixpoint Array_join (sep : jsstring) (items : list JsVal) : jsstring :=
  match items with
  | [] => []
  | [v] => join_item v
  | v :: rest => join_item v ++ sep ++ Array_join sep rest
  end.

(** ** [JSON.stringify] on flat objects *)

Definition hex4 (c : Z) : jsstring := padStart (numberToString c 16) 4 48.

(** [\uXXXX]. *)
Definition unicodeEscape (c : Z) : jsstring := 92 :: 117 :: hex4 c.

Definition isHighSurrogate (c : Z) : bool := (55296 <=? c) && (c <=? 56319).
Definition isLowSurrogate (c : Z) : bool := (56320 <=? c) && (c <=? 57343).

(** Escape of one code unit that is not a surrogate. *)
Definition escapeUnit (c : Z) : jsstring :=
  if c =? 8 then lit "\b"
  else if c =? 9 then lit "\t"
  else if c =? 10 then lit "\n"
  else if c =? 12 then lit "\f"
  else if c =? 13 then lit "\r"
  else if c =? 34 then [92; 34]
  else if c =? 92 then [92; 92]
  else if c <? 32 then unicodeEscape c
  else [c].

(** Body of [QuoteJSONString]: surrogate pairs pass, lone surrogates
    are escaped. *)
Fixpoint quoteUnits (s : jsstring) : jsstring :=
  match s with
  | [] => []
  | c :: rest =>
      if isHighSurrogate c then
        match rest with
        | d :: rest' =>
            if isLowSurrogate d then c :: d :: quoteUnits rest'
            else unicodeEscape c ++ quoteUnits rest
        | [] => unicodeEscape c
        end
      else if isLowSurrogate c then unicodeEscape c ++ quoteUnits rest
      else escapeUnit c ++ quoteUnits rest
  end.

Definition QuoteJSONString (s : jsstring) : jsstring := 34 :: quoteUnits s ++ [34].

(** [SerializeJSONProperty] on a primitive: [None] when the property is
    left out ([undefined]). *)
Definition SerializeJSONProperty (v : JsVal) : option jsstring :=
  match v with
  | JUndefined => None
  | JNull => Some (lit "null")
  | JBool _ | JNum _ => Some (ToString v)
  | JStr s => Some (QuoteJSONString s)
  end.

(** Members ["key":value] of the properties named by [K], in the order
    of [K]. *)
Fixpoint members (o : JsObject) (K : list jsstring) : list jsstring :=
  match K with
  | [] => []
  | P :: K' =>
      match SerializeJSONProperty (Get o P) with
      | Some strP => (QuoteJSONString P ++ 58 :: strP) :: members o K'
      | None => members o K'
      end
  end.

Fixpoint joinComma (parts : list jsstring) : jsstring :=
  match parts with
  | [] => []
  | [m] => m
  | m :: rest => m ++ 44 :: joinComma rest
  end.

Definition SerializeJSONObject (o : JsObject) (K : list jsstring) : jsstring :=
  123 :: joinComma (members o K) ++ [125].

(** The names of [names] not in [seen], each at its first occurrence. *)
Fixpoint firstOccurrences (seen names : list jsstring) : list jsstring :=
  match names with
  | [] => []
  | P :: rest =>
      if bool_decide (P ∈ seen) then firstOccurrences seen rest
      else P :: firstOccurrences (P :: seen) rest
  end.

(** [JSON.stringify(o, replacer)] with an array of names as replacer:
    the property list is the array without its repetitions. *)
Definition JSON_stringify_with (o : JsObject) (replacer : list jsstring) : jsstring :=
  SerializeJSONObject o (firstOccurrences [] replacer).

(** [JSON.stringify(o)]: own properties in insertion order. *)
Definition JSON_stringify (o : JsObject) : jsstring :=
  SerializeJSONObject o (firstOccurrences [] (Object_keys o)).

(** ** [ToNumber] of a string, as far as its sign *)

(** [StrWhiteSpaceChar]: white space and line terminators. *)
Definition isStrWhiteSpaceChar (c : Z) : bool :=
  bool_decide (In c [9; 10; 11; 12; 13; 32; 160; 5760; 8192; 8193; 8194; 8195; 8196;
                     8197; 8198; 8199; 8200; 8201; 8202; 8232; 8233; 8239; 8287;
                     12288; 65279]).

Fixpoint trimStart (s : jsstring) : jsstring :=
  match s with
  | c :: rest => if isStrWhiteSpaceChar c then trimStart rest else s
  | [] => []
  end.

Definition trim (s : jsstring) : jsstring :=
  List.rev (trimStart (List.rev (trimStart s))).

(** The value of a code unit as a digit of the radix, if it is one. *)
Definition digitIn (radix c : Z) : option Z :=
  let d :=
    if (48 <=? c) && (c <=? 57) then c - 48
    else if (97 <=? c) && (c <=? 122) then c - 87
    else if (65 <=? c) && (c <=? 90) then c - 55
    else radix in
  if d <? radix then Some d else None.

Fixpoint digitsValue (radix acc : Z) (s : jsstring) : option Z :=
  match s with
  | [] => Some acc
  | c :: rest =>
      match digitIn radix c with
      | Some d => digitsValue radix (acc * radix + d) rest
      | None => None
      end
  end.

(** The value of a run of digits that is not empty. *)
Definition integerValue (radix : Z) (s : jsstring) : option Z :=
  match s with
  | [] => None
  | _ => digitsValue radix 0 s
  end.

(** The decimal digits a string starts with, and what follows them. *)
Fixpoint spanDigits (s : jsstring) : jsstring * jsstring :=
  match s with
  | c :: rest =>
      if (48 <=? c) && (c <=? 57) then
        let (ds, after) := spanDigits rest in (c :: ds, after)
      else ([], s)
  | [] => ([], [])
  end.

(** [ExponentPart], optional: its value, 0 when there is none; [None]
    when the text is not an exponent part. *)
Definition exponentPart (s : jsstring) : option Z :=
  match s with
  | [] => Some 0
  | e :: rest =>
      if (e =? 101) || (e =? 69) then
        match rest with
        | 43 :: ds => integerValue 10 ds
        | 45 :: ds => option_map Z.opp (integerValue 10 ds)
        | ds => integerValue 10 ds
        end
      else None
  end.

(** [StrUnsignedDecimalLiteral] other than [Infinity]: [(m, e)] for the
    value [m * 10^e]. *)
Definition unsignedDecimal (s : jsstring) : option (Z * Z) :=
  let (whole, rest) := spanDigits s in
  match rest with
  | 46 :: rest' =>
      let (fraction, rest'') := spanDigits rest' in
      match whole ++ fraction with
      | [] => None
      | ds =>
          match digitsValue 10 0 ds, exponentPart rest'' with
          | Some m, Some e => Some (m, e - Z.of_nat (List.length fraction))
          | _, _ => None
          end
      end
  | _ =>
      match integerValue 10 whole, exponentPart rest with
      | Some m, Some e => Some (m, e)
      | _, _ => None
      end
  end.

(** A positive [m * 10^e] is a positive number unless it rounds to 0:
    it does when it is at most [2^-1075], half of the least positive
    number. *)
Definition roundsToPositive (m e : Z) : bool :=
  (0 <? m) && ((0 <=? e) || (10 ^ (- e) <? m * 2 ^ 1075)).

(** [StrDecimalLiteral] with a positive value. *)
Definition decimalIsPositive (s : jsstring) : bool :=
  let unsigned :=
    match s with
    | 43 :: u => Some u
    | 45 :: _ => None
    | _ => Some s
    end in
  match unsigned with
  | None => false
  | Some u =>
      if bool_decide (u = lit "Infinity") then true
      else
        match unsignedDecimal u with
        | Some (m, e) => roundsToPositive m e
        | None => false
        end
  end.

Definition someIsPositive (n : option Z) : bool :=
  match n with
  | Some n => 0 <? n
  | None => false
  end.

(** [ToNumber(s) > 0]: the text of [s] without the white space around it
    is a [StrNumericLiteral] - a decimal literal with an optional sign,
    [Infinity], or a binary, octal or hexadecimal integer - whose number
    is positive. What is not such a literal is [NaN], and not greater.
    (The number is the correctly rounded one, also for literals of more
    than 20 significant digits.) *)
Definition stringIsPositive (s : jsstring) : bool :=
  let text := trim s in
  match text with
  | 48 :: x :: ds =>
      if (x =? 120) || (x =? 88) then someIsPositive (integerValue 16 ds)
      else if (x =? 111) || (x =? 79) then someIsPositive (integerValue 8 ds)
      else if (x =? 98) || (x =? 66) then someIsPositive (integerValue 2 ds)
      else decimalIsPositive text
  | _ => decimalIsPositive text
  end.

End Js.
Import Js.

Declare Scope completion_scope.
Notation "x <- c ;; k" := (Js.bind c (fun x => k))
  (at level 100, c at next level, right associativity) : completion_scope.
Notation "c ;;; k" := (Js.bind c (fun _ => k))
  (at level 100, right associativity) : completion_scope.
#[local] Open Scope completion_scope.

(* ===================================================================== *)
(** * Device fingerprinting ([site/js/fingerprint.js])                     *)
(* ===================================================================== *)

Module Fingerprint.

(** What probing the browser yields. Every read of the source is a field:
    it produces a value ([JUndefined] when the feature is absent) or
    throws. *)
Record BrowserEnv : Type := {
  navigator_userAgent : Completion JsError JsVal;
  navigator_language : Completion JsError JsVal;
  (** [navigator.languages]: [None] when falsy, else the array *)
  navigator_languages : Completion JsError (option (list JsVal));
  navigator_platform : Completion JsError JsVal;
  navigator_hardwareConcurrency : Completion JsError JsVal;
  navigator_deviceMemory : Completion JsError JsVal;
  navigator_maxTouchPoints : Completion JsError JsVal;
  screen_width : Completion JsError JsVal;
  screen_height : Completion JsError JsVal;
  screen_colorDepth : Completion JsError JsVal;
  screen_pixelDepth : Completion JsError JsVal;
  screen_availWidth : Completion JsError JsVal;
  screen_availHeight : Completion JsError JsVal;
  (** [Intl.DateTimeFormat().resolvedOptions().timeZone] *)
  Intl_timeZone : Completion JsError JsVal;
  (** [new Date().getTimezoneOffset()] *)
  Date_getTimezoneOffset : Completion JsError JsVal;
  navigator_cookieEnabled : Completion JsError JsVal;
  navigator_doNotTrack : Completion JsError JsVal;
  (** [navigator.plugins]: [None] when falsy, else the [name] of each *)
  navigator_plugins : Completion JsError (option (list JsVal));
  (** [document.createElement('canvas')] *)
  document_createCanvas : Completion JsError unit;
  (** [canvas.getContext(kind)]: [true] when the context is not null *)
  canvas_getContext_2d : Completion JsError bool;
  (** sizing the canvas and the style, [fillRect] and [fillText] calls *)
  canvas_draw : Completion JsError unit;
  canvas_toDataURL : Completion JsError JsVal;
  canvas_getContext_webgl : Completion JsError bool;
  canvas_getContext_experimental_webgl : Completion JsError bool;
  (** [gl.getExtension('WEBGL_debug_renderer_info')], [true] when not null *)
  gl_getExtension_debug : Completion JsError bool;
  gl_getParameter_vendor : Completion JsError JsVal;
  gl_getParameter_renderer : Completion JsError JsVal;
  (** [crypto.subtle.digest('SHA-256', new TextEncoder().encode(m))]: the
      bytes of the digest *)
  crypto_digest : jsstring -> Completion JsError (list Z)
}.

Section WithEnv.
Variable env : BrowserEnv.

Definition getCanvasFingerprint : Completion JsError JsVal :=
  try_catch
    (document_createCanvas env ;;;
     ctx <- canvas_getContext_2d env ;;
     if negb ctx then Normal (JStr [])
     else
       canvas_draw env ;;;
       canvas_toDataURL env)
    (fun _ => Normal (JStr [])).

Definition getWebGLFingerprint : Completion JsError JsVal :=
  try_catch
    (document_createCanvas env ;;;
     gl1 <- canvas_getContext_webgl env ;;
     gl <- (if gl1 then Normal true else canvas_getContext_experimental_webgl env) ;;
     if negb gl then Normal (JStr [])
     else
       debugInfo <- gl_getExtension_debug env ;;
       if negb debugInfo then Normal (JStr [])
       else
         vendor <- gl_getParameter_vendor env ;;
         renderer <- gl_getParameter_renderer env ;;
         Normal (JStr (ToString vendor ++ lit "~" ++ ToString renderer)))
    (fun _ => Normal (JStr [])).

(** [x ? x.join(',') : ''] and [Array.from(x || []).map(p => p.name).join(',')]
    agree on the model of an array-valued probe. *)
Definition joined (a : option (list JsVal)) : JsVal :=
  match a with
  | Some items => JStr (Array_join (lit ",") items)
  | None => JStr []
  end.


Definition collectSignals : Completion JsError JsObject :=
  userAgent <- navigator_userAgent env ;;
  language <- navigator_language env ;;
  languages <- navigator_languages env ;;
  platform <- navigator_platform env ;;
  hardwareConcurrency <- navigator_hardwareConcurrency env ;;
  deviceMemory <- navigator_deviceMemory env ;;
  maxTouchPoints <- navigator_maxTouchPoints env ;;
  screenWidth <- screen_width env ;;
  screenHeight <- screen_height env ;;
  screenColorDepth <- screen_colorDepth env ;;
  screenPixelDepth <- screen_pixelDepth env ;;
  availWidth <- screen_availWidth env ;;
  availHeight <- screen_availHeight env ;;
  timezone <- Intl_timeZone env ;;
  timezoneOffset <- Date_getTimezoneOffset env ;;
  canvas <- getCanvasFingerprint ;;
  cookieEnabled <- navigator_cookieEnabled env ;;
  doNotTrack <- navigator_doNotTrack env ;;
  plugins <- navigator_plugins env ;;
  webgl <- getWebGLFingerprint ;;
  Normal
    [ (lit "userAgent", js_or userAgent (JStr []));
      (lit "language", js_or language (JStr []));
      (lit "languages", joined languages);
      (lit "platform", js_or platform (JStr []));
      (lit "hardwareConcurrency", js_or hardwareConcurrency (JNum 0));
      (lit "deviceMemory", js_or deviceMemory (JNum 0));
      (lit "maxTouchPoints", js_or maxTouchPoints (JNum 0));
      (lit "screenWidth", js_or screenWidth (JNum 0));
      (lit "screenHeight", js_or screenHeight (JNum 0));
      (lit "screenColorDepth", js_or screenColorDepth (JNum 0));
      (lit "screenPixelDepth", js_or screenPixelDepth (JNum 0));
      (lit "availWidth", js_or availWidth (JNum 0));
      (lit "availHeight", js_or availHeight (JNum 0));
      (lit "timezone", js_or timezone (JStr []));
      (lit "timezoneOffset", timezoneOffset);
      (lit "canvas", canvas);
      (lit "cookieEnabled", cookieEnabled);
      (lit "doNotTrack", js_or doNotTrack (JStr []));
      (lit "plugins", joined plugins);
      (lit "webgl", webgl) ].

(** One round of the loop of [fallbackHash]. *)
Definition fallbackHash_step (hash char : Z) : Z :=
  let hash := (shl hash 5 - hash) + char in
  band hash hash.

Definition fallbackHash (str : jsstring) : jsstring :=
  let hash := List.fold_left fallbackHash_step str 0 in
  numberToString (Z.abs hash) 36.

(** [hashArray.map(b => b.toString(16).padStart(2, '0')).join('')]. *)
Definition hexOfBytes (hashArray : list Z) : jsstring :=
  List.concat (List.map (fun b => padStart (numberToString b 16) 2 48) hashArray).

Definition sha256Hash (message : jsstring) : Completion JsError jsstring :=
  try_catch
    (hashArray <- crypto_digest env message ;;
     Normal (hexOfBytes hashArray))
    (fun _ => Normal (fallbackHash message)).

(** The statements of [generateHashedFingerprint] that follow the
    collection: canonical string, then digest. *)
Definition hashSignals (signals : JsObject) : Completion JsError jsstring :=
  let fingerprintString :=
    JSON_stringify_with signals (Array_sort (Object_keys signals)) in
  sha256Hash fingerprintString.

Definition minimalSignals : Completion JsError JsObject :=
  userAgent <- navigator_userAgent env ;;
  language <- navigator_language env ;;
  platform <- navigator_platform env ;;
  screenWidth <- screen_width env ;;
  screenHeight <- screen_height env ;;
  timezone <- Date_getTimezoneOffset env ;;
  Normal
    [ (lit "userAgent", js_or userAgent (JStr []));
      (lit "language", js_or language (JStr []));
      (lit "platform", js_or platform (JStr []));
      (lit "screenWidth", js_or screenWidth (JNum 0));
      (lit "screenHeight", js_or screenHeight (JNum 0));
      (lit "timezone", timezone) ].

Definition generateHashedFingerprint : Completion JsError jsstring :=
  try_catch
    (signals <- collectSignals ;;
     hashSignals signals)
    (fun _ =>
       minimalSignals <- minimalSignals ;;
       let fallbackString := JSON_stringify minimalSignals in
       Normal (fallbackHash fallbackString)).

(** [isFingerprintingSupported] reads [window.crypto.subtle]; the model
    has the digest probe only, so it is not embedded. *)

(** ** [generateFingerprint] of [site/js/voting.js] *)

(** The statements that follow the collection of [components]. *)
Definition hashComponents (components : JsObject) : Completion JsError jsstring :=
  let fingerprintString := JSON_stringify components in
  hashArray <- crypto_digest env fingerprintString ;;
  Normal (hexOfBytes hashArray).

Definition generateFingerprint : Completion JsError jsstring :=
  userAgent <- navigator_userAgent env ;;
  language <- navigator_language env ;;
  platform <- navigator_platform env ;;
  width <- screen_width env ;;
  height <- screen_height env ;;
  timezone <- Intl_timeZone env ;;
  cpuCores <- navigator_hardwareConcurrency env ;;
  hashComponents
    [ (lit "userAgent", userAgent);
      (lit "language", language);
      (lit "platform", platform);
      (lit "screenResolution", JStr (ToString width ++ lit "x" ++ ToString height));
      (lit "timezone", timezone);
      (lit "cpuCores", js_or cpuCores (JStr (lit "unknown"))) ].

End WithEnv.
End Fingerprint.


(* ===================================================================== *)
(** * REST integration layer ([site/js/api.js])                            *)
(* ===================================================================== *)

(** The module that [app.js] imports as [./api.js]; its text follows the
    fingerprint module in [site/js/fingerprint.js]. [console.error] calls
    are left out throughout. *)

Module Api.

Inductive ErrorCode : Type :=
| ALREADY_VOTED
| INVALID_DATA
| RATE_LIMIT
| SERVER_ERROR
| UNKNOWN_ERROR
| NETWORK_ERROR.

(** [class ApiError extends Error]. *)
Record ApiError : Type := {
  message : jsstring;
  status : Z;
  code : ErrorCode
}.

(** What an async function of the module may reject with: a built-in
    error, or an [ApiError] ([error instanceof ApiError]). *)
Inductive Exn : Type :=
| Raw (e : JsError)
| Api (e : ApiError).

(** Parsed JSON as the module reads it: a primitive, one object, or an
    array of rows. *)
Inductive Json : Type :=
| JPrim (v : JsVal)
| JRow (o : JsObject)
| JRows (rows : list JsObject).

Inductive Method : Type := GET | POST.

(** A URL of the REST interface, [origin ++ path ++ "?" ++ query]; the
    query is kept as its [name=value] pairs. *)
Record Url : Type := {
  origin : jsstring;
  path : jsstring;
  query : list (jsstring * jsstring)
}.

(** The [options] argument of [fetchWithRetry]; [body] is the object
    whose [JSON.stringify] text is sent. *)
Record Options : Type := {
  method : Method;
  body : option JsObject;
  headers : list (jsstring * jsstring)
}.

Record Request : Type := {
  request_url : Url;
  request_options : Options
}.

(** A [Response]: its status and what [response.json()] settles to. *)
Record Response : Type := {
  response_status : Z;
  response_json : Completion JsError Json
}.

(** [response.ok]. *)
Definition ok (response : Response) : bool :=
  (200 <=? response_status response) && (response_status response <=? 299).

(** [MOCK_DATA], the in-memory data of mock mode. [voters] is a [Set]:
    its members in insertion order, [add] appending a new member only. *)
Record MockData : Type := {
  candidates : list JsObject;
  voters : list jsstring;
  votes : list JsObject
}.

Definition MOCK_DATA_initial : MockData := {|
  candidates :=
    [ [ (lit "id", JNum 1); (lit "name", JStr (lit "Alice Johnson"));
        (lit "description", JStr (lit "Experienced leader")); (lit "image_url", JStr []) ];
      [ (lit "id", JNum 2); (lit "name", JStr (lit "Bob Smith"));
        (lit "description", JStr (lit "Innovation focused")); (lit "image_url", JStr []) ];
      [ (lit "id", JNum 3); (lit "name", JStr (lit "Carol Davis"));
        (lit "description", JStr (lit "Community advocate")); (lit "image_url", JStr []) ] ];
  voters := [];
  votes := []
|}.

(** What the client does that the outside can observe. *)
Inductive Event : Type :=
| EvFetch (request : Request)
| EvSleep (ms : Z).

(** The module-level state of [api.js], the state [net] of everything
    behind [fetch], the clock, and the trace of requests and timers. *)
Record World (Net : Type) : Type := {
  MOCK_MODE : bool;
  MOCK_DATA : MockData;
  net : Net;
  now : Z;
  trace : list Event
}.
Arguments MOCK_MODE {Net} w.
Arguments MOCK_DATA {Net} w.
Arguments net {Net} w.
Arguments now {Net} w.
Arguments trace {Net} w.

Definition MAX_RETRIES : Z := 3.
Definition RETRY_DELAY : Z := 1000.

Section WithBackend.

(** The remote side: how a request is answered (a response, or a
    transport failure) and how it changes what is behind [fetch]. *)
Context {Net : Type}.
Variable backend : Request -> Net -> Completion JsError Response * Net.

(** [SUPABASE_CONFIG] of [config.js]. *)
Variable SUPABASE_CONFIG_url : JsVal.
Variable SUPABASE_CONFIG_anonKey : JsVal.

(** [new Date(t).toISOString()]. *)
Variable toISOString : Z -> jsstring.

Definition SUPABASE_URL : jsstring :=
  ToString (js_or SUPABASE_CONFIG_url (JStr (lit "https://your-project.supabase.co"))).
Definition SUPABASE_ANON_KEY : jsstring :=
  ToString (js_or SUPABASE_CONFIG_anonKey (JStr (lit "your-anon-key"))).

(** The state the module starts in. *)
Definition initial_World (n : Net) (t : Z) : World Net := {|
  MOCK_MODE := negb (truthy SUPABASE_CONFIG_url) || negb (truthy SUPABASE_CONFIG_anonKey);
  MOCK_DATA := MOCK_DATA_initial;
  net := n;
  now := t;
  trace := []
|}.

(** Async code of the module: a function of the world that returns or
    rejects. *)
Definition M (A : Type) : Type := World Net -> Completion Exn A * World Net.

Definition ret {A} (a : A) : M A := fun w => (Normal a, w).

Definition throw {A} (e : Exn) : M A := fun w => (Throw e, w).

Definition bindM {A B} (m : M A) (k : A -> M B) : M B :=
  fun w =>
    match m w with
    | (Normal a, w') => k a w'
    | (Throw e, w') => (Throw e, w')
    end.

(** [try { m } catch (error) { handler error }]. *)
Definition catchM {A} (m : M A) (handler : Exn -> M A) : M A :=
  fun w =>
    match m w with
    | (Normal a, w') => (Normal a, w')
    | (Throw e, w') => handler e w'
    end.

(** Settling of a promise of the platform inside the module. *)
Definition await {A} (c : Completion JsError A) : M A :=
  fun w =>
    match c with
    | Normal a => (Normal a, w)
    | Throw e => (Throw (Raw e), w)
    end.

Definition get_world : M (World Net) := fun w => (Normal w, w).

Definition set_MOCK_DATA (d : MockData) : M unit :=
  fun w => (Normal tt,
            {| MOCK_MODE := MOCK_MODE w; MOCK_DATA := d; net := net w;
               now := now w; trace := trace w |}).

Definition setMockMode (enabled : bool) : M unit :=
  fun w => (Normal tt,
            {| MOCK_MODE := enabled; MOCK_DATA := MOCK_DATA w; net := net w;
               now := now w; trace := trace w |}).

Definition isMockMode : M bool := fun w => (Normal (MOCK_MODE w), w).

(** [sleep(ms)]: the timer fires after [ms]. *)
Definition sleep (ms : Z) : M unit :=
  fun w => (Normal tt,
            {| MOCK_MODE := MOCK_MODE w; MOCK_DATA := MOCK_DATA w; net := net w;
               now := now w + ms; trace := trace w ++ [EvSleep ms] |}).

(** The world after one [fetch] that left [n] behind it. The clock
    [now] counts the delays of the timers only: the time a request takes
    is not modelled. *)
Definition fetched (request : Request) (n : Net) (w : World Net) : World Net :=
  {| MOCK_MODE := MOCK_MODE w; MOCK_DATA := MOCK_DATA w; net := n;
     now := now w; trace := trace w ++ [EvFetch request] |}.

(** [fetch(url, options)]. *)
Definition fetch (request : Request) : M Response :=
  fun w =>
    let (outcome, n) := backend request (net w) in
    match outcome with
    | Normal response => (Normal response, fetched request n w)
    | Throw e => (Throw (Raw e), fetched request n w)
    end.

(** The request [fetchWithRetry] sends: the fixed headers, then the
    caller's. *)
Definition withHeaders (url : Url) (options : Options) : Request := {|
  request_url := url;
  request_options := {|
    method := method options;
    body := body options;
    headers :=
      [ (lit "apikey", SUPABASE_ANON_KEY);
        (lit "Authorization", lit "Bearer " ++ SUPABASE_ANON_KEY);
        (lit "Content-Type", lit "application/json");
        (lit "Prefer", lit "return=representation") ] ++ headers options |}
|}.

(** [status >= 400 && status < 500 && status !== 429]. *)
Definition clientError (response : Response) : bool :=
  (400 <=? response_status response) && (response_status response <? 500)
  && negb (response_status response =? 429).

(** [RETRY_DELAY * Math.pow(2, retryCount)]. *)
Definition backoff (retryCount : Z) : Z := RETRY_DELAY * 2 ^ retryCount.

(** [fetchWithRetry(url, options, retryCount)]. The recursive calls are
    returned without [await], so their rejection is not caught by the
    [try] of the caller's frame. *)
Equations? fetchWithRetry (url : Url) (options : Options) (retryCount : Z) (w : World Net)
  : Completion Exn Response * World Net by wf (Z.to_nat (MAX_RETRIES - retryCount)) lt :=
fetchWithRetry url options retryCount w with fetch (withHeaders url options) w := {
  | (Normal response, w1) with clientError response := {
      | true => (Normal response, w1)
      | false with (negb (ok response), Z_lt_dec retryCount MAX_RETRIES) := {
          | (true, left _) =>
              fetchWithRetry url options (retryCount + 1) (snd (sleep (backoff retryCount) w1))
          | (_, _) => (Normal response, w1) } }
  | (Throw error, w1) with Z_lt_dec retryCount MAX_RETRIES := {
      | left _ =>
          fetchWithRetry url options (retryCount + 1) (snd (sleep (backoff retryCount) w1))
      | right _ => (Throw error, w1) } }.
Proof. all: lia. Qed.


#[local] Notation "x <- c ;; k" := (bindM c (fun x => k))
  (at level 100, c at next level, right associativity).
#[local] Notation "c ;;; k" := (bindM c (fun _ => k))
  (at level 100, right associativity).

(** [data?.message]. *)
Definition data_message (data : Json) : JsVal :=
  match data with
  | JRow o => Get o (lit "message")
  | _ => JUndefined
  end.

Definition mapError (status : Z) (data : Json) : ApiError :=
  if status =? 409 then
    {| message := lit "You have already voted"; status := status; code := ALREADY_VOTED |}
  else if status =? 422 then
    {| message := lit "Invalid request data"; status := status; code := INVALID_DATA |}
  else if status =? 429 then
    {| message := lit "Too many requests. Please try again later"; status := status;
       code := RATE_LIMIT |}
  else if (status =? 500) || (status =? 502) || (status =? 503) then
    {| message := lit "Server error. Please try again"; status := status;
       code := SERVER_ERROR |}
  else
    {| message := ToString (js_or (data_message data) (JStr (lit "An error occurred")));
       status := status; code := UNKNOWN_ERROR |}.

(** [await response.json().catch(() => ({}))]. *)
Definition json_or_empty (response : Response) : Json :=
  match response_json response with
  | Normal data => data
  | Throw _ => JRow []
  end.

(** [x > 0] on the value of a [length] property: [ToNumber(x) > 0],
    where [undefined] is [NaN] and [null] is 0. *)
Definition gt_zero (v : JsVal) : bool :=
  match v with
  | JUndefined | JNull => false
  | JBool b => b
  | JNum n => 0 <? n
  | JStr s => stringIsPositive s
  end.

(** [j.length > 0]. *)
Definition length_gt_zero (j : Json) : Completion JsError bool :=
  match j with
  | JPrim JUndefined | JPrim JNull => Throw TypeError
  | JPrim (JStr s) => Normal (0 <? Z.of_nat (List.length s))
  | JPrim _ => Normal false
  | JRow o => Normal (gt_zero (Get o (lit "length")))
  | JRows rows => Normal (0 <? Z.of_nat (List.length rows))
  end.

(** [j[0]]. *)
Definition index_zero (j : Json) : Completion JsError Json :=
  match j with
  | JPrim JUndefined | JPrim JNull => Throw TypeError
  | JPrim (JStr (c :: _)) => Normal (JPrim (JStr [c]))
  | JPrim _ => Normal (JPrim JUndefined)
  | JRow o => Normal (JPrim (Get o (lit "0")))
  | JRows (row :: _) => Normal (JRow row)
  | JRows [] => Normal (JPrim JUndefined)
  end.

(** The [catch] clause shared by the three operations. *)
Definition rethrowAsNetworkError {A} (text : jsstring) (error : Exn) : M A :=
  match error with
  | Api _ => throw error
  | Raw _ => throw (Api {| message := text; status := 0; code := NETWORK_ERROR |})
  end.

Definition restUrl (table : jsstring) (q : list (jsstring * jsstring)) : Url :=
  {| origin := SUPABASE_URL; path := lit "/rest/v1/" ++ table; query := q |}.

Definition fetchCandidates : M Json :=
  w <- get_world ;;
  if MOCK_MODE w then
    sleep 300 ;;;
    w <- get_world ;;
    ret (JRows (candidates (MOCK_DATA w)))
  else
    catchM
      (let url := restUrl (lit "candidates") [(lit "select", lit "*"); (lit "order", lit "id.asc")] in
       response <- fetchWithRetry url {| method := GET; body := None; headers := [] |} 0 ;;
       if negb (ok response) then
         let data := json_or_empty response in
         throw (Api (mapError (response_status response) data))
       else
         candidates <- await (response_json response) ;;
         ret candidates)
      (rethrowAsNetworkError (lit "Failed to fetch candidates")).

(** The object both mock branches of [ensureVoter] return. *)
Definition mockVoter (fingerprint : jsstring) (t : Z) : JsObject :=
  [ (lit "id", JStr fingerprint); (lit "fingerprint", JStr fingerprint);
    (lit "created_at", JStr (toISOString t)) ].

Definition ensureVoter (fingerprint : jsstring) : M Json :=
  w <- get_world ;;
  if MOCK_MODE w then
    sleep 200 ;;;
    w <- get_world ;;
    if bool_decide (fingerprint ∈ voters (MOCK_DATA w)) then
      ret (JRow (mockVoter fingerprint (now w)))
    else
      set_MOCK_DATA {| candidates := candidates (MOCK_DATA w);
                       voters := voters (MOCK_DATA w) ++ [fingerprint];
                       votes := votes (MOCK_DATA w) |} ;;;
      ret (JRow (mockVoter fingerprint (now w)))
  else
    catchM
      (let getUrl := restUrl (lit "voters")
                       [(lit "fingerprint", lit "eq." ++ fingerprint); (lit "select", lit "*")] in
       getResponse <- fetchWithRetry getUrl {| method := GET; body := None; headers := [] |} 0 ;;
       existing <-
         (if ok getResponse then
            voters <- await (response_json getResponse) ;;
            nonEmpty <- await (length_gt_zero voters) ;;
            if nonEmpty then
              first <- await (index_zero voters) ;;
              ret (Some first)
            else ret None
          else ret None) ;;
       match existing with
       | Some voter => ret voter
       | None =>
           let createUrl := restUrl (lit "voters") [] in
           createResponse <-
             fetchWithRetry createUrl
               {| method := POST; body := Some [(lit "fingerprint", JStr fingerprint)];
                  headers := [] |} 0 ;;
           if negb (ok createResponse) then
             let data := json_or_empty createResponse in
             throw (Api (mapError (response_status createResponse) data))
           else
             newVoters <- await (response_json createResponse) ;;
             await (index_zero newVoters)
       end)
      (rethrowAsNetworkError (lit "Failed to register voter")).

Definition submitVote (voterId candidateId : JsVal) : M Json :=
  w <- get_world ;;
  if MOCK_MODE w then
    sleep 400 ;;;
    w <- get_world ;;
    let existingVote :=
      List.find (fun v => strict_eq (Get v (lit "voter_id")) voterId) (votes (MOCK_DATA w)) in
    match existingVote with
    | Some _ =>
        throw (Api {| message := lit "You have already voted"; status := 409;
                      code := ALREADY_VOTED |})
    | None =>
        let candidate :=
          List.find (fun c => strict_eq (Get c (lit "id")) candidateId)
                    (candidates (MOCK_DATA w)) in
        match candidate with
        | None =>
            throw (Api {| message := lit "Invalid candidate"; status := 422;
                          code := INVALID_DATA |})
        | Some _ =>
            let vote :=
              [ (lit "id", JNum (now w)); (lit "voter_id", voterId);
                (lit "candidate_id", candidateId);
                (lit "created_at", JStr (toISOString (now w))) ] in
            set_MOCK_DATA {| candidates := candidates (MOCK_DATA w);
                             voters := voters (MOCK_DATA w);
                             votes := votes (MOCK_DATA w) ++ [vote] |} ;;;
            ret (JRow vote)
        end
    end
  else
    catchM
      (let url := restUrl (lit "votes") [] in
       response <-
         fetchWithRetry url
           {| method := POST;
              body := Some [(lit "voter_id", voterId); (lit "candidate_id", candidateId)];
              headers := [] |} 0 ;;
       if negb (ok response) then
         let data := json_or_empty response in
         throw (Api (mapError (response_status response) data))
       else
         votes <- await (response_json response) ;;
         await (index_zero votes))
      (rethrowAsNetworkError (lit "Failed to submit vote")).

End WithBackend.
End Api.

(* ===================================================================== *)
(** * The remote store                                                     *)
(* ===================================================================== *)

(** The persistence service behind the REST interface is not part of
    the repository; this module models it from the specification. *)
Module Store.
Import Api.

Record Db : Type := {
  voters_table : list JsObject;
  votes_table : list JsObject;
  candidates_table : list JsObject;
  next_id : Z;
  (** the election a voter is filed under when the insert names none
      (the default of the column; [null] where there is none) *)
  default_election : JsVal
}.

(** The value [v] of a query pair [(column, "eq." ++ v)]. *)
Fixpoint eq_filter (column : jsstring) (q : list (jsstring * jsstring)) : option jsstring :=
  match q with
  | [] => None
  | (k, v) :: rest =>
      if bool_decide (k = column) then
        match v with
        | 101 :: 113 :: 46 :: value => Some value
        | _ => eq_filter column rest
        end
      else eq_filter column rest
  end.

Definition has_value (column : jsstring) (v : JsVal) (row : JsObject) : bool :=
  strict_eq (Get row column) v.

Definition respond (code : Z) (payload : Json) : Response :=
  {| response_status := code; response_json := Normal payload |}.

Definition conflict : Response :=
  respond 409 (JRow [ (lit "code", JStr (lit "23505"));
                      (lit "message", JStr (lit "duplicate key value violates unique constraint")) ]).

Definition notFound : Response :=
  respond 404 (JRow [ (lit "message", JStr (lit "Not Found")) ]).

Definition voters_path : jsstring := lit "/rest/v1/voters".
Definition votes_path : jsstring := lit "/rest/v1/votes".
Definition candidates_path : jsstring := lit "/rest/v1/candidates".

(** The election an inserted voter is filed under: the one the insert
    names, the default of the store when it names none. *)
Definition election_of (o : JsObject) (db : Db) : JsVal :=
  match Get o (lit "election_id") with
  | JUndefined => default_election db
  | election => election
  end.

(** The row the store makes of an insert: it adds the id and the
    creation stamp. *)
Definition voter_row (election fingerprint : JsVal) (db : Db) : JsObject :=
  [ (lit "id", JNum (next_id db)); (lit "election_id", election);
    (lit "fingerprint", fingerprint); (lit "created_at", JNum (next_id db)) ].

(** A row of the voter of [election] with [fingerprint]. *)
Definition same_voter (election fingerprint : JsVal) (row : JsObject) : bool :=
  has_value (lit "election_id") election row && has_value (lit "fingerprint") fingerprint row.

Definition vote_row (voter_id candidate_id : JsVal) (db : Db) : JsObject :=
  [ (lit "id", JNum (next_id db)); (lit "voter_id", voter_id);
    (lit "candidate_id", candidate_id); (lit "created_at", JNum (next_id db)) ].

Definition add_voter (row : JsObject) (db : Db) : Db :=
  {| voters_table := voters_table db ++ [row]; votes_table := votes_table db;
     candidates_table := candidates_table db; next_id := next_id db + 1;
     default_election := default_election db |}.

Definition add_vote (row : JsObject) (db : Db) : Db :=
  {| voters_table := voters_table db; votes_table := votes_table db ++ [row];
     candidates_table := candidates_table db; next_id := next_id db + 1;
     default_election := default_election db |}.

(** Uniqueness of [(voters.election_id, voters.fingerprint)]. *)
Definition insert_voter (o : JsObject) (db : Db) : Response * Db :=
  let election := election_of o db in
  let fingerprint := Get o (lit "fingerprint") in
  if existsb (same_voter election fingerprint) (voters_table db) then (conflict, db)
  else
    let row := voter_row election fingerprint db in
    (respond 201 (JRows [row]), add_voter row db).

(** The row the store makes of the insert [{ fingerprint }]. *)
Definition newVoter (fingerprint : jsstring) (db : Db) : JsObject :=
  voter_row (default_election db) (JStr fingerprint) db.

(** The voter rows of the store for a pair of election and fingerprint. *)
Definition voters_for (election : JsVal) (fingerprint : jsstring) (db : Db) : list JsObject :=
  List.filter (same_voter election (JStr fingerprint)) (voters_table db).

(** Uniqueness of [votes.voter_id]. *)
Definition insert_vote (o : JsObject) (db : Db) : Response * Db :=
  let voter_id := Get o (lit "voter_id") in
  if existsb (has_value (lit "voter_id") voter_id) (votes_table db) then (conflict, db)
  else
    let row := vote_row voter_id (Get o (lit "candidate_id")) db in
    (respond 201 (JRows [row]), add_vote row db).

(** Modelled from the spec: the store behind the REST interface, which
    the repository does not contain. [GET] with an [eq] filter lists the
    matching rows, [POST] inserts and returns the inserted row, and a
    uniqueness constraint - one voter per election and fingerprint, one
    vote per voter - rejects an insert with status 409. *)
Definition serve (request : Request) (db : Db) : Response * Db :=
  let url := request_url request in
  let options := request_options request in
  if bool_decide (path url = voters_path) then
    match method options, body options with
    | GET, _ =>
        match eq_filter (lit "fingerprint") (query url) with
        | Some f =>
            (respond 200 (JRows (List.filter (has_value (lit "fingerprint") (JStr f))
                                             (voters_table db))), db)
        | None => (respond 200 (JRows (voters_table db)), db)
        end
    | POST, Some o => insert_voter o db
    | POST, None => (respond 400 (JRow [(lit "message", JStr (lit "Empty body"))]), db)
    end
  else if bool_decide (path url = votes_path) then
    match method options, body options with
    | GET, _ => (respond 200 (JRows (votes_table db)), db)
    | POST, Some o => insert_vote o db
    | POST, None => (respond 400 (JRow [(lit "message", JStr (lit "Empty body"))]), db)
    end
  else if bool_decide (path url = candidates_path) then
    match method options with
    | GET => (respond 200 (JRows (candidates_table db)), db)
    | POST => (respond 401 (JRow [(lit "message", JStr (lit "Not allowed"))]), db)
    end
  else (notFound, db).

(** The store together with what other sessions will do: after the
    client's next request is served, the requests at the head of
    [others] are served, and so on. *)
Record Remote : Type := {
  db : Db;
  others : list (list Request)
}.

Definition serve_all (requests : list Request) (d : Db) : Db :=
  List.fold_left (fun d r => snd (serve r d)) requests d.

(** A reliable network in front of the store. *)
Definition backend (request : Request) (r : Remote) : Completion JsError Response * Remote :=
  let (response, d) := serve request (db r) in
  match others r with
  | [] => (Normal response, {| db := d; others := [] |})
  | rs :: rest => (Normal response, {| db := serve_all rs d; others := rest |})
  end.

End Store.

(* ===================================================================== *)
(** * Admin API ([admin/js/api.js])                                        *)
(* ===================================================================== *)

Module Admin.

(** The queries the election operations build with the client library,
    each ending in [.select().single()]. *)
Inductive Query : Type :=
| Insert (table : jsstring) (rows : list JsObject)
| UpdateEq (table : jsstring) (changes : JsObject) (column : jsstring) (value : JsVal)
| SelectEq (table : jsstring) (column : jsstring) (value : JsVal).

(** The [error] of a query result, or a thrown error: both are read
    through [error.message]. *)
Record QueryError : Type := {
  error_message : JsVal;
  error_code : JsVal
}.

(** [{ data, error }]. *)
Record QueryResult : Type := {
  data : option JsObject;
  error : option QueryError
}.

(** [{ success, data, error }] as the operations return it. *)
Record Outcome : Type := {
  success : bool;
  outcome_data : option JsObject;
  outcome_error : option JsVal
}.

Section WithClient.

(** The client library and the service behind it: a query settles to a
    result, or throws, and changes the database. *)
Context {Db : Type}.
Variable supabase : Query -> Db -> Completion QueryError QueryResult * Db.

(** [try { const { data, error } = await q; if (error) throw error;
    return { success: true, data } } catch (error) { return { success:
    false, error: error.message } }]. *)
Definition run (q : Query) (d : Db) : Outcome * Db :=
  let (settled, d') := supabase q d in
  let attempt :=
    r <- settled ;;
    match error r with
    | Some e => Throw e
    | None => Normal {| success := true; outcome_data := data r; outcome_error := None |}
    end in
  match attempt with
  | Normal o => (o, d')
  | Throw e =>
      ({| success := false; outcome_data := None; outcome_error := Some (error_message e) |}, d')
  end.

(** The row [createElection] inserts. *)
Definition newElection (electionData : JsObject) : JsObject :=
  [ (lit "title", Get electionData (lit "title"));
    (lit "description", js_or (Get electionData (lit "description")) JNull);
    (lit "is_open", JBool false) ].

Definition createElectionQuery (electionData : JsObject) : Query :=
  Insert (lit "elections") [newElection electionData].

Definition createElection (electionData : JsObject) (d : Db) : Outcome * Db :=
  run (createElectionQuery electionData) d.

Definition toggleElectionStatusQuery (electionId isOpen : JsVal) : Query :=
  UpdateEq (lit "elections") [(lit "is_open", isOpen)] (lit "id") electionId.

Definition toggleElectionStatus (electionId isOpen : JsVal) (d : Db) : Outcome * Db :=
  run (toggleElectionStatusQuery electionId isOpen) d.

Definition getElectionStatus (electionId : JsVal) (d : Db) : Outcome * Db :=
  run (SelectEq (lit "elections") (lit "id") electionId) d.

Definition createCandidate (electionId : JsVal) (candidateData : JsObject) (d : Db)
  : Outcome * Db :=
  run (Insert (lit "candidates")
         [ [ (lit "election_id", electionId);
             (lit "name", Get candidateData (lit "name"));
             (lit "position", Get candidateData (lit "position"));
             (lit "description", js_or (Get candidateData (lit "description")) JNull);
             (lit "image_url", js_or (Get candidateData (lit "image_url")) JNull) ] ]) d.

Definition updateCandidate (candidateId : JsVal) (updates : JsObject) (d : Db) : Outcome * Db :=
  run (UpdateEq (lit "candidates") updates (lit "id") candidateId) d.

(** The calls an administrator can make on elections and candidates. *)
Inductive Call : Type :=
| CreateElection (electionData : JsObject)
| ToggleElectionStatus (electionId isOpen : JsVal)
| GetElectionStatus (electionId : JsVal)
| CreateCandidate (electionId : JsVal) (candidateData : JsObject)
| UpdateCandidate (candidateId : JsVal) (updates : JsObject).

Definition call (c : Call) (d : Db) : Outcome * Db :=
  match c with
  | CreateElection electionData => createElection electionData d
  | ToggleElectionStatus electionId isOpen => toggleElectionStatus electionId isOpen d
  | GetElectionStatus electionId => getElectionStatus electionId d
  | CreateCandidate electionId candidateData => createCandidate electionId candidateData d
  | UpdateCandidate candidateId updates => updateCandidate candidateId updates d
  end.

Definition calls (cs : list Call) (d : Db) : Db :=
  List.fold_left (fun d c => snd (call c d)) cs d.

End WithClient.

(** ** The database behind the admin client *)

(** [o[k] = v]: overwrite the binding of [k], or add it at the end. *)
Fixpoint set_prop (o : JsObject) (k : jsstring) (v : JsVal) : JsObject :=
  match o with
  | [] => [(k, v)]
  | (k', v') :: rest =>
      if bool_decide (k' = k) then (k, v) :: rest else (k', v') :: set_prop rest k v
  end.

(** [{ ...row, ...changes }]. *)
Definition patch (row changes : JsObject) : JsObject :=
  List.fold_left (fun o kv => set_prop o (fst kv) (snd kv)) changes row.

Record Tables : Type := {
  elections : list JsObject;
  candidates : list JsObject;
  serial : Z
}.

Definition matches (column : jsstring) (value : JsVal) (row : JsObject) : bool :=
  strict_eq (Get row column) value.

Definition patch_matching (column : jsstring) (value : JsVal) (changes : JsObject)
  (rows : list JsObject) : list JsObject :=
  List.map (fun row => if matches column value row then patch row changes else row) rows.

(** [.single()]: exactly one row, else the error PGRST116. *)
Definition single (rows : list JsObject) : QueryResult :=
  match rows with
  | [row] => {| data := Some row; error := None |}
  | _ => {| data := None;
            error := Some {| error_message := JStr (lit "JSON object requested, multiple (or no) rows returned");
                             error_code := JStr (lit "PGRST116") |} |}
  end.

(** Rows as inserted: the database adds the [id]. *)
Fixpoint with_ids (rows : list JsObject) (n : Z) : list JsObject :=
  match rows with
  | [] => []
  | row :: rest => set_prop row (lit "id") (JNum n) :: with_ids rest (n + 1)
  end.

(** Modelled from the spec: the store keeps what is written to it. An
    insert stores the rows under fresh ids, an update overwrites the
    named columns of the rows that match the filter. *)
Definition store (q : Query) (t : Tables) : Completion QueryError QueryResult * Tables :=
  match q with
  | Insert table rows =>
      let stored := with_ids rows (serial t) in
      let n := serial t + Z.of_nat (List.length rows) in
      if bool_decide (table = lit "elections") then
        (Normal (single stored),
         {| elections := elections t ++ stored; candidates := candidates t; serial := n |})
      else if bool_decide (table = lit "candidates") then
        (Normal (single stored),
         {| elections := elections t; candidates := candidates t ++ stored; serial := n |})
      else
        (Normal {| data := None;
                   error := Some {| error_message := JStr (lit "relation does not exist");
                                    error_code := JStr (lit "42P01") |} |}, t)
  | UpdateEq table changes column value =>
      if bool_decide (table = lit "elections") then
        let rows := patch_matching column value changes (elections t) in
        (Normal (single (List.map (fun row => patch row changes)
                                  (List.filter (matches column value) (elections t)))),
         {| elections := rows; candidates := candidates t; serial := serial t |})
      else if bool_decide (table = lit "candidates") then
        let rows := patch_matching column value changes (candidates t) in
        (Normal (single (List.map (fun row => patch row changes)
                                  (List.filter (matches column value) (candidates t)))),
         {| elections := elections t; candidates := rows; serial := serial t |})
      else
        (Normal {| data := None;
                   error := Some {| error_message := JStr (lit "relation does not exist");
                                    error_code := JStr (lit "42P01") |} |}, t)
  | SelectEq table column value =>
      if bool_decide (table = lit "elections") then
        (Normal (single (List.filter (matches column value) (elections t))), t)
      else if bool_decide (table = lit "candidates") then
        (Normal (single (List.filter (matches column value) (candidates t))), t)
      else
        (Normal {| data := None;
                   error := Some {| error_message := JStr (lit "relation does not exist");
                                    error_code := JStr (lit "42P01") |} |}, t)
  end.

(** Every stored election with this id has the given session flag. *)
Definition session (electionId isOpen : JsVal) (t : Tables) : Prop :=
  forall row, In row (elections t) -> matches (lit "id") electionId row = true ->
              Get row (lit "is_open") = isOpen.

(** An election with this id is stored. *)
Definition stored (electionId : JsVal) (t : Tables) : Prop :=
  exists row, In row (elections t) /\ matches (lit "id") electionId row = true.

(** The ids in use are numbers below the next one the database gives. *)
Definition ids_below_serial (t : Tables) : Prop :=
  forall row n, In row (elections t) -> Get row (lit "id") = JNum n -> n < serial t.

(** A call that is not [toggleElectionStatus] on election [n]. *)
Definition not_toggle_of (n : Z) (c : Call) : Prop :=
  match c with
  | ToggleElectionStatus electionId _ => electionId <> JNum n
  | _ => True
  end.

End Admin.

(* ===================================================================== *)
(** * The specification's own wording, for comparison                      *)
(* ===================================================================== *)

Module Spec.

(** "wrapped to signed 32-bit". *)
Definition wrap_signed32 (x : Z) : Z :=
  let r := x mod 2 ^ 32 in
  if r <? 2 ^ 31 then r else r - 2 ^ 32.

(** "h := 0; for each character c of s in order, h := h*31 + charCode(c)
    wrapped to signed 32-bit". *)
Fixpoint rolling_from (h : Z) (s : jsstring) : Z :=
  match s with
  | [] => h
  | c :: rest => rolling_from (wrap_signed32 (h * 31 + c)) rest
  end.

Definition rolling_hash (s : jsstring) : Z := rolling_from 0 s.

(** Value of a base-36 digit [0-9a-z]. *)
Definition digit36 (c : Z) : option Z :=
  if (48 <=? c) && (c <=? 57) then Some (c - 48)
  else if (97 <=? c) && (c <=? 122) then Some (c - 87)
  else None.

(** The number a string of base-36 digits denotes. *)
Fixpoint value36_from (acc : Z) (ds : jsstring) : option Z :=
  match ds with
  | [] => Some acc
  | c :: rest =>
      match digit36 c with
      | Some d => value36_from (acc * 36 + d) rest
      | None => None
      end
  end.

(** [ds] is the base-36 representation of [n]: digits only, at least
    one, no leading zero except for zero itself, denoting [n]. *)
Definition represents36 (ds : jsstring) (n : Z) : Prop :=
  value36_from 0 ds = Some n /\
  ds <> [] /\
  (forall rest, ds = 48 :: rest -> rest = []).

(** A lowercase hexadecimal digit. *)
Definition isLowerHex (c : Z) : Prop := 48 <= c <= 57 \/ 97 <= c <= 102.

(** A probe that yields a value. *)
Definition settles {E A} (c : Completion E A) : Prop :=
  match c with
  | Normal _ => True
  | Throw _ => False
  end.




(** The rejection an async function of the client sees for an outcome
    of the platform's [fetch]. *)
Definition settled (outcome : Completion JsError Api.Response)
  : Completion Api.Exn Api.Response :=
  match outcome with
  | Normal response => Normal response
  | Throw e => Throw (Api.Raw e)
  end.

(** An outcome that the retry policy answers with another attempt: a
    transport failure, or a response that is neither a success nor a
    client error other than 429. *)
Definition retried (outcome : Completion JsError Api.Response) : Prop :=
  match outcome with
  | Normal response => Api.clientError response = false /\ Api.ok response = false
  | Throw _ => True
  end.

(** The events of [n] failed attempts numbered from [attempt], each
    followed by its backoff delay, and of one last attempt. *)
Fixpoint retryTrace (request : Api.Request) (n : nat) (attempt : Z) : list Api.Event :=
  match n with
  | O => [Api.EvFetch request]
  | S n' =>
      Api.EvFetch request :: Api.EvSleep (Api.RETRY_DELAY * 2 ^ attempt)
        :: retryTrace request n' (attempt + 1)
  end.

(** An outcome that is a value or a thrown [ApiError]. *)
Definition only_ApiError {A} (outcome : Completion Api.Exn A) : Prop :=
  match outcome with
  | Throw (Api.Raw _) => False
  | _ => True
  end.

(** An outcome of the shape [{ success: boolean, ... }]. *)
Definition result_shape (outcome : Completion Api.Exn Api.Json) : Prop :=
  exists o b, outcome = Normal (Api.JRow o) /\ Get o (lit "success") = JBool b.

(** The [ApiError] of the shared [catch] clause. *)
Definition networkError (text : jsstring) : Api.ApiError :=
  {| Api.message := text; Api.status := 0; Api.code := Api.NETWORK_ERROR |}.

(** The [code] an operation failed with. *)
Definition code_of_failure {A} (outcome : Completion Api.Exn A) : option Api.ErrorCode :=
  match outcome with
  | Throw (Api.Api e) => Some (Api.code e)
  | _ => None
  end.

(** The [ApiError] for status 409. *)
Definition alreadyVoted : Api.ApiError :=
  {| Api.message := lit "You have already voted"; Api.status := 409;
     Api.code := Api.ALREADY_VOTED |}.

(** A value that can be the id of a row. *)
Definition is_id (v : JsVal) : Prop :=
  match v with
  | JNum _ | JStr _ => True
  | _ => False
  end.

(** [w'] is [w] after the events [t], with the module state untouched. *)
Definition extends {Net} (w w' : Api.World Net) (t : list Api.Event) : Prop :=
  Api.trace w' = Api.trace w ++ t /\
  Api.MOCK_MODE w' = Api.MOCK_MODE w /\
  Api.MOCK_DATA w' = Api.MOCK_DATA w.

(** The URL and options of the lookup and of the insert that
    [ensureVoter] sends, and of the insert of [submitVote]. *)
Definition lookupUrl (SUPABASE_CONFIG_url : JsVal) (fingerprint : jsstring) : Api.Url :=
  Api.restUrl SUPABASE_CONFIG_url (lit "voters")
    [(lit "fingerprint", lit "eq." ++ fingerprint); (lit "select", lit "*")].

Definition lookupOptions : Api.Options :=
  {| Api.method := Api.GET; Api.body := None; Api.headers := [] |}.

Definition insertOptions (fingerprint : jsstring) : Api.Options :=
  {| Api.method := Api.POST; Api.body := Some [(lit "fingerprint", JStr fingerprint)];
     Api.headers := [] |}.

Definition voteOptions (voterId candidateId : JsVal) : Api.Options :=
  {| Api.method := Api.POST;
     Api.body := Some [(lit "voter_id", voterId); (lit "candidate_id", candidateId)];
     Api.headers := [] |}.

(** The requests of a trace. *)
Fixpoint attempts (t : list Api.Event) : list Api.Request :=
  match t with
  | [] => []
  | Api.EvFetch request :: rest => request :: attempts rest
  | Api.EvSleep _ :: rest => attempts rest
  end.

End Spec.

(* ===================================================================== *)
(** * The digest of the platform, for concrete environments               *)
(* ===================================================================== *)

(** [crypto.subtle.digest('SHA-256', new TextEncoder().encode(m))] is a
    primitive of the browser; the embedding takes it as a field of the
    environment. This module gives the function itself (SHA-256 as in
    FIPS 180-4, over the UTF-8 encoding of the string), so that concrete
    environments can hash as a browser does. *)
Module Sha256.

Definition K : list Z :=
  [ 1116352408; 1899447441; 3049323471; 3921009573; 961987163; 1508970993;
    2453635748; 2870763221; 3624381080; 310598401; 607225278; 1426881987;
    1925078388; 2162078206; 2614888103; 3248222580; 3835390401; 4022224774;
    264347078; 604807628; 770255983; 1249150122; 1555081692; 1996064986;
    2554220882; 2821834349; 2952996808; 3210313671; 3336571891; 3584528711;
    113926993; 338241895; 666307205; 773529912; 1294757372; 1396182291;
    1695183700; 1986661051; 2177026350; 2456956037; 2730485921; 2820302411;
    3259730800; 3345764771; 3516065817; 3600352804; 4094571909; 275423344;
    430227734; 506948616; 659060556; 883997877; 958139571; 1322822218;
    1537002063; 1747873779; 1955562222; 2024104815; 2227730452; 2361852424;
    2428436474; 2756734187; 3204031479; 3329325298 ].

Definition State : Type := Z * Z * Z * Z * Z * Z * Z * Z.

Definition H0 : State :=
  (1779033703, 3144134277, 1013904242, 2773480762, 1359893119, 2600822924,
   528734635, 1541459225).

Definition word (x : Z) : Z := x mod 2 ^ 32.
Definition rotr (n x : Z) : Z := word (Z.lor (Z.shiftr x n) (Z.shiftl x (32 - n))).
Definition shr (n x : Z) : Z := Z.shiftr x n.
Definition Ch (x y z : Z) : Z :=
  Z.lxor (Z.land x y) (Z.land (Z.lxor x (2 ^ 32 - 1)) z).
Definition Maj (x y z : Z) : Z :=
  Z.lxor (Z.lxor (Z.land x y) (Z.land x z)) (Z.land y z).
Definition bigSigma0 (x : Z) : Z := Z.lxor (Z.lxor (rotr 2 x) (rotr 13 x)) (rotr 22 x).
Definition bigSigma1 (x : Z) : Z := Z.lxor (Z.lxor (rotr 6 x) (rotr 11 x)) (rotr 25 x).
Definition smallSigma0 (x : Z) : Z := Z.lxor (Z.lxor (rotr 7 x) (rotr 18 x)) (shr 3 x).
Definition smallSigma1 (x : Z) : Z := Z.lxor (Z.lxor (rotr 17 x) (rotr 19 x)) (shr 10 x).

(** The next [n] words of the message schedule, from the sixteen words
    before them. *)
Fixpoint schedule (n : nat) (window : list Z) : list Z :=
  match n with
  | O => []
  | S n' =>
      let w := word (smallSigma1 (List.nth 14 window 0) + List.nth 9 window 0
                     + smallSigma0 (List.nth 1 window 0) + List.nth 0 window 0) in
      w :: schedule n' (List.tl window ++ [w])
  end.

Definition round (s : State) (kw : Z * Z) : State :=
  let '(a, b, c, d, e, f, g, h) := s in
  let T1 := h + bigSigma1 e + Ch e f g + fst kw + snd kw in
  let T2 := bigSigma0 a + Maj a b c in
  (word (T1 + T2), a, b, c, word (d + T1), e, f, g).

Definition compress (s : State) (block : list Z) : State :=
  let W := block ++ schedule 48 block in
  let '(a, b, c, d, e, f, g, h) := List.fold_left round (List.combine K W) s in
  let '(a0, b0, c0, d0, e0, f0, g0, h0) := s in
  (word (a0 + a), word (b0 + b), word (c0 + c), word (d0 + d),
   word (e0 + e), word (f0 + f), word (g0 + g), word (h0 + h)).

Definition word_of_bytes (bytes : list Z) : Z :=
  List.fold_left (fun acc b => acc * 256 + b) bytes 0.

Fixpoint words (n : nat) (bytes : list Z) : list Z :=
  match n with
  | O => []
  | S n' => word_of_bytes (List.firstn 4 bytes) :: words n' (List.skipn 4 bytes)
  end.

Fixpoint absorb (n : nat) (bytes : list Z) (s : State) : State :=
  match n with
  | O => s
  | S n' => absorb n' (List.skipn 64 bytes) (compress s (words 16 (List.firstn 64 bytes)))
  end.

Definition bytes_of_word (w : Z) : list Z :=
  [ w / 2 ^ 24 mod 256; w / 2 ^ 16 mod 256; w / 2 ^ 8 mod 256; w mod 256 ].

(** The message, the byte 128, zeros up to 56 modulo 64, and the length
    in bits on eight bytes. *)
Definition pad (bytes : list Z) : list Z :=
  let len := Z.of_nat (List.length bytes) in
  bytes ++ 128 :: List.repeat 0 (Z.to_nat ((55 - len) mod 64))
        ++ bytes_of_word (8 * len / 2 ^ 32) ++ bytes_of_word (8 * len).

Definition digest (bytes : list Z) : list Z :=
  let padded := pad bytes in
  let '(a, b, c, d, e, f, g, h) := absorb (List.length padded / 64) padded H0 in
  List.concat (List.map bytes_of_word [a; b; c; d; e; f; g; h]).

(** UTF-8 of a code point. *)
Definition encodePoint (cp : Z) : list Z :=
  if cp <? 128 then [cp]
  else if cp <? 2048 then [192 + cp / 64; 128 + cp mod 64]
  else if cp <? 65536 then [224 + cp / 4096; 128 + cp / 64 mod 64; 128 + cp mod 64]
  else [240 + cp / 262144; 128 + cp / 4096 mod 64; 128 + cp / 64 mod 64; 128 + cp mod 64].

(** [new TextEncoder().encode(s)]: surrogate pairs are one code point, a
    lone surrogate is encoded as U+FFFD. *)
Fixpoint encode (s : jsstring) : list Z :=
  match s with
  | [] => []
  | c :: rest =>
      if isHighSurrogate c then
        match rest with
        | d :: rest' =>
            if isLowSurrogate d then
              encodePoint (65536 + (c - 55296) * 1024 + (d - 56320)) ++ encode rest'
            else encodePoint 65533 ++ encode rest
        | [] => encodePoint 65533
        end
      else if isLowSurrogate c then encodePoint 65533 ++ encode rest
      else encodePoint c ++ encode rest
  end.

(** The digest primitive of a browser that has [crypto.subtle]. *)
Definition subtle_digest (message : jsstring) : Completion JsError (list Z) :=
  Normal (digest (encode message)).

End Sha256.

(* ===================================================================== *)
(** * Concrete environments                                                *)
(* ===================================================================== *)

Module Scenario.
Import Fingerprint.

(** A desktop browser: every feature present, canvas and WebGL absent,
    digest unavailable. *)
Definition desktop : BrowserEnv := {|
  navigator_userAgent := Normal (JStr (lit "UA1"));
  navigator_language := Normal (JStr (lit "en-US"));
  navigator_languages := Normal (Some [JStr (lit "en-US"); JStr (lit "en")]);
  navigator_platform := Normal (JStr (lit "Linux x86_64"));
  navigator_hardwareConcurrency := Normal (JNum 8);
  navigator_deviceMemory := Normal JUndefined;
  navigator_maxTouchPoints := Normal (JNum 0);
  screen_width := Normal (JNum 1920);
  screen_height := Normal (JNum 1080);
  screen_colorDepth := Normal (JNum 24);
  screen_pixelDepth := Normal (JNum 24);
  screen_availWidth := Normal (JNum 1920);
  screen_availHeight := Normal (JNum 1040);
  Intl_timeZone := Normal (JStr (lit "UTC"));
  Date_getTimezoneOffset := Normal (JNum 0);
  navigator_cookieEnabled := Normal (JBool true);
  navigator_doNotTrack := Normal JNull;
  navigator_plugins := Normal (Some []);
  document_createCanvas := Normal tt;
  canvas_getContext_2d := Normal false;
  canvas_draw := Normal tt;
  canvas_toDataURL := Normal (JStr (lit "data:,"));
  canvas_getContext_webgl := Throw DOMException;
  canvas_getContext_experimental_webgl := Normal false;
  gl_getExtension_debug := Normal false;
  gl_getParameter_vendor := Normal JNull;
  gl_getParameter_renderer := Normal JNull;
  crypto_digest := fun _ => Throw ReferenceError
|}.

(** The same browser without the [Intl] global: reading it throws. *)
Definition without_Intl : BrowserEnv := {|
  navigator_userAgent := navigator_userAgent desktop;
  navigator_language := navigator_language desktop;
  navigator_languages := navigator_languages desktop;
  navigator_platform := navigator_platform desktop;
  navigator_hardwareConcurrency := navigator_hardwareConcurrency desktop;
  navigator_deviceMemory := navigator_deviceMemory desktop;
  navigator_maxTouchPoints := navigator_maxTouchPoints desktop;
  screen_width := screen_width desktop;
  screen_height := screen_height desktop;
  screen_colorDepth := screen_colorDepth desktop;
  screen_pixelDepth := screen_pixelDepth desktop;
  screen_availWidth := screen_availWidth desktop;
  screen_availHeight := screen_availHeight desktop;
  Intl_timeZone := Throw ReferenceError;
  Date_getTimezoneOffset := Date_getTimezoneOffset desktop;
  navigator_cookieEnabled := navigator_cookieEnabled desktop;
  navigator_doNotTrack := navigator_doNotTrack desktop;
  navigator_plugins := navigator_plugins desktop;
  document_createCanvas := document_createCanvas desktop;
  canvas_getContext_2d := canvas_getContext_2d desktop;
  canvas_draw := canvas_draw desktop;
  canvas_toDataURL := canvas_toDataURL desktop;
  canvas_getContext_webgl := canvas_getContext_webgl desktop;
  canvas_getContext_experimental_webgl := canvas_getContext_experimental_webgl desktop;
  gl_getExtension_debug := gl_getExtension_debug desktop;
  gl_getParameter_vendor := gl_getParameter_vendor desktop;
  gl_getParameter_renderer := gl_getParameter_renderer desktop;
  crypto_digest := crypto_digest desktop
|}.


(** Two collections of the same three signals, in different orders. *)
Definition signalsA : JsObject :=
  [ (lit "userAgent", JStr (lit "UA1")); (lit "screenWidth", JNum 1920);
    (lit "language", JStr (lit "en")) ].
Definition signalsB : JsObject :=
  [ (lit "language", JStr (lit "en")); (lit "userAgent", JStr (lit "UA1"));
    (lit "screenWidth", JNum 1920) ].

(** The components that [generateFingerprint] of [voting.js] collects on
    the desktop browser, and the same pairs with the first two swapped. *)
Definition componentsA : JsObject :=
  [ (lit "userAgent", JStr (lit "UA1")); (lit "language", JStr (lit "en-US"));
    (lit "platform", JStr (lit "Linux x86_64"));
    (lit "screenResolution", JStr (lit "1920x1080"));
    (lit "timezone", JStr (lit "UTC")); (lit "cpuCores", JNum 8) ].
Definition componentsB : JsObject :=
  [ (lit "language", JStr (lit "en-US")); (lit "userAgent", JStr (lit "UA1"));
    (lit "platform", JStr (lit "Linux x86_64"));
    (lit "screenResolution", JStr (lit "1920x1080"));
    (lit "timezone", JStr (lit "UTC")); (lit "cpuCores", JNum 8) ].

(** The minimal signal set of the desktop browser, and the same pairs
    with the first two swapped. *)
Definition minimalA : JsObject :=
  [ (lit "userAgent", JStr (lit "UA1")); (lit "language", JStr (lit "en-US"));
    (lit "platform", JStr (lit "Linux x86_64")); (lit "screenWidth", JNum 1920);
    (lit "screenHeight", JNum 1080); (lit "timezone", JNum 0) ].
Definition minimalB : JsObject :=
  [ (lit "language", JStr (lit "en-US")); (lit "userAgent", JStr (lit "UA1"));
    (lit "platform", JStr (lit "Linux x86_64")); (lit "screenWidth", JNum 1920);
    (lit "screenHeight", JNum 1080); (lit "timezone", JNum 0) ].

(** A server that answers every request with status 503. *)
Definition always503 (request : Api.Request) (n : unit)
  : Completion JsError Api.Response * unit :=
  (Normal {| Api.response_status := 503; Api.response_json := Throw SyntaxError |}, n).

(** No network: every [fetch] fails at transport level. *)
Definition offline (request : Api.Request) (n : unit)
  : Completion JsError Api.Response * unit :=
  (Throw TypeError, n).

(** A server that answers every request with status 422. *)
Definition always422 (request : Api.Request) (n : unit)
  : Completion JsError Api.Response * unit :=
  (Normal {| Api.response_status := 422;
             Api.response_json := Normal (Api.JRow [(lit "message", JStr (lit "bad input"))]) |},
   n).

Definition configured_url : JsVal := JStr (lit "https://demo.supabase.co").
Definition configured_key : JsVal := JStr (lit "anon").

(** [toISOString] stand-in: the decimal time stamp. *)
Definition stamp (t : Z) : jsstring := numberToString t 10.

(** The client as it starts, configured, in front of a backend state. *)
Definition start {Net} (n : Net) : Api.World Net :=
  Api.initial_World configured_url configured_key n 0.

Definition votesUrl : Api.Url := Api.restUrl configured_url (lit "votes") [].
Definition getOptions : Api.Options :=
  {| Api.method := Api.GET; Api.body := None; Api.headers := [] |}.

(** A store with no voters and no votes. *)
Definition emptyDb : Store.Db :=
  {| Store.voters_table := []; Store.votes_table := [];
     Store.candidates_table := Api.candidates Api.MOCK_DATA_initial; Store.next_id := 1;
     Store.default_election := JNull |}.

(** The insert another session sends for a fingerprint. *)
Definition rivalInsert (fingerprint : jsstring) : Api.Request :=
  Api.withHeaders configured_key (Api.restUrl configured_url (lit "voters") [])
    (Spec.insertOptions fingerprint).

(** Two sessions with the same fingerprint: the other one inserts its
    voter right after this client's lookup was answered. *)
Definition race (fingerprint : jsstring) : Api.World Store.Remote :=
  start {| Store.db := emptyDb; Store.others := [[rivalInsert fingerprint]] |}.

(** The client alone in front of the empty store. *)
Definition alone : Api.World Store.Remote :=
  start {| Store.db := emptyDb; Store.others := [] |}.

(** A store in which the fingerprint [abc] is registered for the
    election [e1], and for no other; new voters are filed under [e2]. *)
Definition registeredElsewhere : Store.Db :=
  {| Store.voters_table :=
       [ [ (lit "id", JNum 1); (lit "election_id", JStr (lit "e1"));
           (lit "fingerprint", JStr (lit "abc")); (lit "created_at", JNum 1) ] ];
     Store.votes_table := [];
     Store.candidates_table := Api.candidates Api.MOCK_DATA_initial; Store.next_id := 2;
     Store.default_election := JStr (lit "e2") |}.

(** The client alone in front of that store. *)
Definition returning : Api.World Store.Remote :=
  start {| Store.db := registeredElsewhere; Store.others := [] |}.

(** Election data that asks for an open session. *)
Definition eagerElection : JsObject :=
  [ (lit "title", JStr (lit "Board 2025")); (lit "is_open", JBool true) ].

Definition noElections : Admin.Tables :=
  {| Admin.elections := []; Admin.candidates := []; Admin.serial := 1 |}.

End Scenario.

(* ===================================================================== *)
(** * Further notions used in the statements                               *)
(* ===================================================================== *)

Module Notions.

(** The six reads of the minimal signal set all yield a value. *)
Definition minimal_probes_settle (env : Fingerprint.BrowserEnv) : Prop :=
  Spec.settles (Fingerprint.navigator_userAgent env) /\
  Spec.settles (Fingerprint.navigator_language env) /\
  Spec.settles (Fingerprint.navigator_platform env) /\
  Spec.settles (Fingerprint.screen_width env) /\
  Spec.settles (Fingerprint.screen_height env) /\
  Spec.settles (Fingerprint.Date_getTimezoneOffset env).

(** The digest primitive, where it answers, answers with 32 bytes. *)
Definition digest_is_sha256 (env : Fingerprint.BrowserEnv) : Prop :=
  forall message hashArray,
    Fingerprint.crypto_digest env message = Normal hashArray ->
    List.length hashArray = 32%nat /\ Forall (fun b => 0 <= b < 256) hashArray.

(** The object without its property [k]. *)
Definition without (k : jsstring) (o : JsObject) : JsObject :=
  List.filter (fun kv => negb (bool_decide (fst kv = k))) o.

(** An environment with another digest primitive. *)
Definition with_digest (digest : jsstring -> Completion JsError (list Z))
  (env : Fingerprint.BrowserEnv) : Fingerprint.BrowserEnv := {|
  Fingerprint.navigator_userAgent := Fingerprint.navigator_userAgent env;
  Fingerprint.navigator_language := Fingerprint.navigator_language env;
  Fingerprint.navigator_languages := Fingerprint.navigator_languages env;
  Fingerprint.navigator_platform := Fingerprint.navigator_platform env;
  Fingerprint.navigator_hardwareConcurrency := Fingerprint.navigator_hardwareConcurrency env;
  Fingerprint.navigator_deviceMemory := Fingerprint.navigator_deviceMemory env;
  Fingerprint.navigator_maxTouchPoints := Fingerprint.navigator_maxTouchPoints env;
  Fingerprint.screen_width := Fingerprint.screen_width env;
  Fingerprint.screen_height := Fingerprint.screen_height env;
  Fingerprint.screen_colorDepth := Fingerprint.screen_colorDepth env;
  Fingerprint.screen_pixelDepth := Fingerprint.screen_pixelDepth env;
  Fingerprint.screen_availWidth := Fingerprint.screen_availWidth env;
  Fingerprint.screen_availHeight := Fingerprint.screen_availHeight env;
  Fingerprint.Intl_timeZone := Fingerprint.Intl_timeZone env;
  Fingerprint.Date_getTimezoneOffset := Fingerprint.Date_getTimezoneOffset env;
  Fingerprint.navigator_cookieEnabled := Fingerprint.navigator_cookieEnabled env;
  Fingerprint.navigator_doNotTrack := Fingerprint.navigator_doNotTrack env;
  Fingerprint.navigator_plugins := Fingerprint.navigator_plugins env;
  Fingerprint.document_createCanvas := Fingerprint.document_createCanvas env;
  Fingerprint.canvas_getContext_2d := Fingerprint.canvas_getContext_2d env;
  Fingerprint.canvas_draw := Fingerprint.canvas_draw env;
  Fingerprint.canvas_toDataURL := Fingerprint.canvas_toDataURL env;
  Fingerprint.canvas_getContext_webgl := Fingerprint.canvas_getContext_webgl env;
  Fingerprint.canvas_getContext_experimental_webgl :=
    Fingerprint.canvas_getContext_experimental_webgl env;
  Fingerprint.gl_getExtension_debug := Fingerprint.gl_getExtension_debug env;
  Fingerprint.gl_getParameter_vendor := Fingerprint.gl_getParameter_vendor env;
  Fingerprint.gl_getParameter_renderer := Fingerprint.gl_getParameter_renderer env;
  Fingerprint.crypto_digest := digest
|}.

(** The desktop browser with [crypto.subtle]: the digest is SHA-256. *)
Definition hashing : Fingerprint.BrowserEnv :=
  with_digest Sha256.subtle_digest Scenario.desktop.

(** A digest primitive for examples: 32 bytes, each the length of the
    message modulo 256. *)
Definition lengthDigest (message : jsstring) : Completion JsError (list Z) :=
  Normal (List.repeat (Z.of_nat (List.length message) mod 256) 32).

(** A signal set whose [cookieEnabled] is [undefined]. *)
Definition signalsWithoutCookies : JsObject :=
  [ (lit "userAgent", JStr (lit "UA1")); (lit "cookieEnabled", JUndefined);
    (lit "screenWidth", JNum 1920) ].

End Notions.

(* ===================================================================== *)
(** * Sequences of calls of the REST integration layer                     *)
(* ===================================================================== *)

Module Calls.
Import Api.

(** Total time of the timers of a trace. *)
Fixpoint slept (t : list Event) : Z :=
  match t with
  | [] => 0
  | EvFetch _ :: rest => slept rest
  | EvSleep ms :: rest => ms + slept rest
  end.

(** A call of one of the exported functions that look at [MOCK_MODE]
    or set it. ([isVotingOpen] and [getCurrentElection], exported too,
    go through the supabase client and are modelled with it.) *)
Inductive Call : Type :=
| FetchCandidates
| EnsureVoter (fingerprint : jsstring)
| SubmitVote (voterId candidateId : JsVal)
| SetMockMode (enabled : bool).

Section WithBackend.

Context {Net : Type}.
Variable backend : Request -> Net -> Completion JsError Response * Net.
Variable SUPABASE_CONFIG_url SUPABASE_CONFIG_anonKey : JsVal.
Variable toISOString : Z -> jsstring.

(** The world after a call, whatever its outcome. *)
Definition after (c : Call) (w : World Net) : World Net :=
  match c with
  | FetchCandidates =>
      snd (fetchCandidates backend SUPABASE_CONFIG_url SUPABASE_CONFIG_anonKey w)
  | EnsureVoter fingerprint =>
      snd (ensureVoter backend SUPABASE_CONFIG_url SUPABASE_CONFIG_anonKey toISOString
             fingerprint w)
  | SubmitVote voterId candidateId =>
      snd (submitVote backend SUPABASE_CONFIG_url SUPABASE_CONFIG_anonKey toISOString
             voterId candidateId w)
  | SetMockMode enabled => snd (setMockMode enabled w)
  end.

Definition after_all (cs : list Call) (w : World Net) : World Net :=
  List.fold_left (fun w c => after c w) cs w.

End WithBackend.

(** At most one stored vote per voter. *)
Definition one_vote_per_voter (d : MockData) : Prop :=
  forall voterId,
    (List.length (List.filter (fun v => strict_eq (Get v (lit "voter_id")) voterId)
                              (votes d)) <= 1)%nat.

(** Every stored vote names a candidate of the list. *)
Definition votes_name_candidates (d : MockData) : Prop :=
  forall vote, In vote (votes d) ->
    exists candidate, In candidate (candidates d) /\
                      Get candidate (lit "id") = Get vote (lit "candidate_id").

(** The client as it starts without configuration. *)
Definition unconfigured {Net} (n : Net) : World Net :=
  initial_World JUndefined JUndefined n 0.

(** A server whose lookups fail with status 500 and whose inserts are
    accepted. *)
Definition failingLookups (request : Request) (n : unit)
  : Completion JsError Response * unit :=
  match method (request_options request) with
  | GET => (Normal {| response_status := 500; response_json := Throw SyntaxError |}, n)
  | POST =>
      (Normal {| response_status := 201;
                 response_json := Normal (JRows [[(lit "id", JNum 41)]]) |}, n)
  end.

(** A server that answers every request with status 200 and the given
    body. *)
Definition answering (payload : Completion JsError Json) (request : Request) (n : unit)
  : Completion JsError Response * unit :=
  (Normal {| response_status := 200; response_json := payload |}, n).

End Calls.

(* ===================================================================== *)
(** * Escaping of text for markup, [escapeHtml]                            *)
(* ===================================================================== *)

Module Html.
Import Js.

(** What the [innerHTML] getter writes for one code unit of a text
    node: the ampersand, the no-break space and the two angle brackets
    are replaced by their entities, everything else is kept. *)
Definition escapeUnit (u : Z) : jsstring :=
  if u =? 38 then lit "&amp;"
  else if u =? 160 then lit "&nbsp;"
  else if u =? 60 then lit "&lt;"
  else if u =? 62 then lit "&gt;"
  else [u].

(** [div.textContent = text; div.innerHTML] on a fresh [div]: the
    element holds one text node with the string of [text]. *)
Definition innerHTML_of_textContent (text : JsVal) : jsstring :=
  List.flat_map escapeUnit (ToString text).

(** [escapeHtml(text)], the utility of [voting.js] and of
    [dashboard.js]. *)
Definition escapeHtml (text : JsVal) : jsstring :=
  if negb (truthy text) then []
  else innerHTML_of_textContent text.

End Html.

(* ===================================================================== *)
(** * Objects used as maps: grouping rows by position                      *)
(* ===================================================================== *)

Module Props.
Import Js.

(** An object created by [{}] whose values are of type [A]: its own
    properties in creation order. *)
Definition Obj (A : Type) : Type := list (jsstring * A).

(** The names such an object inherits from [Object.prototype]. *)
Definition Object_prototype_names : list jsstring :=
  List.map lit
    [ "constructor"; "hasOwnProperty"; "isPrototypeOf"; "propertyIsEnumerable";
      "toLocaleString"; "toString"; "valueOf"; "__proto__"; "__defineGetter__";
      "__defineSetter__"; "__lookupGetter__"; "__lookupSetter__" ]%string.

Definition inherited (k : jsstring) : bool :=
  bool_decide (In k Object_prototype_names).

(** The own property [k]. *)
Fixpoint own {A} (o : Obj A) (k : jsstring) : option A :=
  match o with
  | [] => None
  | (k', v) :: rest => if bool_decide (k' = k) then Some v else own rest k
  end.

(** [o[k] = v] for a name other than [__proto__]: the own property is
    overwritten where it is, or created last. *)
Fixpoint put {A} (o : Obj A) (k : jsstring) (v : A) : Obj A :=
  match o with
  | [] => [(k, v)]
  | (k', v') :: rest =>
      if bool_decide (k' = k) then (k, v) :: rest else (k', v') :: put rest k v
  end.

(** [o[k] = v] where [v] is an object: assigning to [__proto__] runs
    the inherited setter, which replaces the prototype and creates no
    own property. *)
Definition assign {A} (o : Obj A) (k : jsstring) (v : A) : Obj A :=
  if bool_decide (k = lit "__proto__") then o else put o k v.

(** Array indices: the canonical decimal strings of the integers from
    0 to 2^32 - 2. *)
Definition digitValue (u : Z) : option Z :=
  if (48 <=? u) && (u <=? 57) then Some (u - 48) else None.

Fixpoint parseDigits (s : jsstring) (acc : Z) : option Z :=
  match s with
  | [] => Some acc
  | u :: rest =>
      match digitValue u with
      | Some d => parseDigits rest (10 * acc + d)
      | None => None
      end
  end.

Definition arrayIndex (k : jsstring) : option Z :=
  match k with
  | [] => None
  | u :: rest =>
      if (u =? 48) && negb (bool_decide (rest = [])) then None
      else match parseDigits k 0 with
           | Some n => if n <=? 4294967294 then Some n else None
           | None => None
           end
  end.

Definition isArrayIndex (k : jsstring) : bool :=
  match arrayIndex k with Some _ => true | None => false end.

Definition index_of {A} (kv : jsstring * A) : Z :=
  match arrayIndex (fst kv) with Some n => n | None => 0 end.

Definition index_le {A} (a b : jsstring * A) : Prop := index_of a <= index_of b.

#[global] Instance index_le_dec {A} : RelDecision (@index_le A) :=
  fun a b => decide (index_of a <= index_of b).

(** [Object.entries(o)]: the array indices in ascending numeric order,
    then the other names in creation order. *)
Definition Object_entries {A} (o : Obj A) : list (jsstring * A) :=
  merge_sort index_le (List.filter (fun kv => isArrayIndex (fst kv)) o) ++
  List.filter (fun kv => negb (isArrayIndex (fst kv))) o.

(** The callback of the grouping [reduce]:
    [if (!acc[row.position]) acc[row.position] = [];
     acc[row.position].push(row); return acc].  An inherited name reads
    as a truthy value that has no [push]. *)
Definition group_step (acc : Obj (list JsObject)) (row : JsObject)
  : Completion JsError (Obj (list JsObject)) :=
  let key := ToString (Get row (lit "position")) in
  match own acc key with
  | Some members => Normal (put acc key (members ++ [row]))
  | None =>
      if inherited key then Throw TypeError
      else Normal (put acc key [row])
  end.

(** [rows.reduce(callback, acc)]. *)
Fixpoint reduce_groups (rows : list JsObject) (acc : Obj (list JsObject))
  : Completion JsError (Obj (list JsObject)) :=
  match rows with
  | [] => Normal acc
  | row :: rest =>
      match group_step acc row with
      | Normal acc' => reduce_groups rest acc'
      | Throw e => Throw e
      end
  end.

(** [rows.reduce(callback, {})], as [getCandidatesByPosition],
    [getResultsByPosition], [renderVotingForm] and [renderResults] have
    it. *)
Definition groupByPosition (rows : list JsObject) : Completion JsError (Obj (list JsObject)) :=
  reduce_groups rows [].

(** The rows of a position, in the order of the input. *)
Definition of_position (k : jsstring) (rows : list JsObject) : list JsObject :=
  List.filter (fun row => bool_decide (ToString (Get row (lit "position")) = k)) rows.

(** The group an object holds for a position with these rows: none
    when there is no row. *)
Definition holds (members : list JsObject) : option (list JsObject) :=
  match members with [] => None | _ => Some members end.

End Props.

(* ===================================================================== *)
(** * The query client, and the reports of [admin/js/api.js]               *)
(* ===================================================================== *)

Module Client.
Import Js.

(** What a query chain asks for. *)
Inductive Verb : Type :=
| Select (columns : jsstring) (count head : bool)
| InsertRows (rows : list JsObject)
| Update (changes : JsObject)
| Delete.

(** A query as the chain of client calls builds it:
    [from(table)], the verb, the [eq] filters and the [order] clauses
    in the order of the calls, [select()] after a write, [single()]. *)
Record Query : Type := {
  from : jsstring;
  verb : Verb;
  filters : list (jsstring * JsVal);
  order : list (jsstring * bool);
  returning : bool;
  single : bool
}.

(** The [data] of a reply: [null], one row, or an array of rows. *)
Inductive Data : Type :=
| DNull
| DRow (row : JsObject)
| DRows (rows : list JsObject).

(** [{ data, error, count }]. *)
Record Reply : Type := {
  data : Data;
  error : option Admin.QueryError;
  count : JsVal
}.

(** What a [catch] clause can receive: an error object of the client
    (from a reply, or a rejection), an error the engine raised, or an
    [Error] the code made with [new Error(message)]. *)
Inductive Failure : Type :=
| Reported (e : Admin.QueryError)
| Raised (e : JsError)
| Made (message : jsstring).

(** [data.name]: reading a property of [null] throws, an array has no
    such property. *)
Definition prop (d : Data) (name : jsstring) : Completion Failure JsVal :=
  match d with
  | DNull => Throw (Raised TypeError)
  | DRow row => Normal (Get row name)
  | DRows _ => Normal JUndefined
  end.

(** [data?.name]. *)
Definition optional_prop (d : Data) (name : jsstring) : JsVal :=
  match d with
  | DRow row => Get row name
  | _ => JUndefined
  end.

(** [data || []]. *)
Definition or_empty (d : Data) : Data :=
  match d with
  | DNull => DRows []
  | _ => d
  end.

(** The array on which [map] or [reduce] is called: these are methods
    of arrays only. *)
Definition as_array (d : Data) : Completion Failure (list JsObject) :=
  match d with
  | DRows rows => Normal rows
  | _ => Throw (Raised TypeError)
  end.

(** [new Error(message).message]: without an argument the inherited
    empty message is read. *)
Definition new_Error (message : JsVal) : Failure :=
  match message with
  | JUndefined => Made []
  | _ => Made (ToString message)
  end.

(** The session of a page with the service: the database behind the
    client, and the queries sent so far. *)
Record World (Db : Type) : Type := {
  db : Db;
  sent : list Query
}.
Arguments db {Db} w.
Arguments sent {Db} w.

Section WithClient.

Context {Db : Type}.
Variable supabase : Query -> Db -> Completion Admin.QueryError Reply * Db.

(** The message text of an error the engine raises. *)
Variable error_text : JsError -> jsstring.

(** [error.message] and [error.code] in a [catch] clause. *)
Definition message (f : Failure) : JsVal :=
  match f with
  | Reported e => Admin.error_message e
  | Raised e => JStr (error_text e)
  | Made text => JStr text
  end.

Definition code (f : Failure) : JsVal :=
  match f with
  | Reported e => Admin.error_code e
  | _ => JUndefined
  end.

Definition Q (A : Type) : Type := World Db -> Completion Failure A * World Db.

Definition retQ {A} (a : A) : Q A := fun w => (Normal a, w).

Definition throwQ {A} (f : Failure) : Q A := fun w => (Throw f, w).

Definition bindQ {A B} (m : Q A) (k : A -> Q B) : Q B :=
  fun w =>
    match m w with
    | (Normal a, w') => k a w'
    | (Throw f, w') => (Throw f, w')
    end.

(** A step that may throw and touches nothing. *)
Definition liftQ {A} (c : Completion Failure A) : Q A := fun w => (c, w).

(** [await query]. *)
Definition send (q : Query) : Q Reply :=
  fun w =>
    let (settled, d) := supabase q (db w) in
    (match settled with
     | Normal reply => Normal reply
     | Throw e => Throw (Reported e)
     end,
     {| db := d; sent := sent w ++ [q] |}).

(** [const { data, error } = await query; if (error) throw error]. *)
Definition checked (q : Query) : Q Reply :=
  bindQ (send q) (fun reply =>
    match error reply with
    | Some e => throwQ (Reported e)
    | None => retQ reply
    end).

(** [try { return body } catch (error) { return handler(error) }] in a
    function that returns a record in both cases. *)
Definition settle {A} (body : Q A) (handler : Failure -> A) : World Db -> A * World Db :=
  fun w =>
    match body w with
    | (Normal a, w') => (a, w')
    | (Throw f, w') => (handler f, w')
    end.

Declare Scope client_scope.
#[local] Notation "x <- c ;; k" := (bindQ c (fun x => k))
  (at level 100, c at next level, right associativity) : client_scope.
#[local] Open Scope client_scope.

(** ** Reports *)

Definition resultsQuery (electionId : JsVal) : Query :=
  {| from := lit "election_results"; verb := Select (lit "*") false false;
     filters := [(lit "election_id", electionId)];
     order := [(lit "position", true); (lit "total_votes", false)];
     returning := false; single := false |}.

Definition candidatesQuery (electionId : JsVal) : Query :=
  {| from := lit "candidates"; verb := Select (lit "*") false false;
     filters := [(lit "election_id", electionId)];
     order := [(lit "position", true); (lit "name", true)];
     returning := false; single := false |}.

(** [{ success, data, error }] of the operations that list rows. *)
Record Listing : Type := {
  listing_success : bool;
  listing_data : Data;
  listing_error : option JsVal
}.

Definition getElectionResults (electionId : JsVal) : World Db -> Listing * World Db :=
  settle
    (reply <- checked (resultsQuery electionId) ;;
     retQ {| listing_success := true; listing_data := or_empty (data reply);
             listing_error := None |})
    (fun error => {| listing_success := false; listing_data := DRows [];
                     listing_error := Some (message error) |}).

(** [{ success, data, error }] of the operations that group rows; the
    failure of [getCandidatesByPosition] has no [data]. *)
Record Grouping : Type := {
  grouping_success : bool;
  grouping_data : option (Props.Obj (list JsObject));
  grouping_error : option JsVal
}.

Definition raised {A} (c : Completion JsError A) : Completion Failure A :=
  match c with
  | Normal a => Normal a
  | Throw e => Throw (Raised e)
  end.

Definition getCandidatesByPosition (electionId : JsVal) : World Db -> Grouping * World Db :=
  settle
    (reply <- checked (candidatesQuery electionId) ;;
     rows <- liftQ (as_array (data reply)) ;;
     grouped <- liftQ (raised (Props.groupByPosition rows)) ;;
     retQ {| grouping_success := true; grouping_data := Some grouped;
             grouping_error := None |})
    (fun error => {| grouping_success := false; grouping_data := None;
                     grouping_error := Some (message error) |}).

Definition getResultsByPosition (electionId : JsVal) : World Db -> Grouping * World Db :=
  settle
    (reply <- checked (resultsQuery electionId) ;;
     rows <- liftQ (as_array (or_empty (data reply))) ;;
     grouped <- liftQ (raised (Props.groupByPosition rows)) ;;
     retQ {| grouping_success := true; grouping_data := Some grouped;
             grouping_error := None |})
    (fun error => {| grouping_success := false; grouping_data := Some [];
                     grouping_error := Some (message error) |}).

(** ** Statistics *)

(** A running total: a value, or [NaN]. *)
Inductive Total : Type :=
| NaN
| Value (v : JsVal).

(** [ToNumber] on the primitives other than strings; [None] is [NaN]. *)
Definition ToNumber (v : JsVal) : option Z :=
  match v with
  | JUndefined => None
  | JNull => Some 0
  | JBool b => Some (if b then 1 else 0)
  | JNum n => Some n
  | JStr _ => None
  end.

(** [sum + addend]: concatenation as soon as one side is a string,
    else the sum of the numbers. Numbers are integers here and the sum
    is the integer sum: that is the sum of JavaScript where the operands
    and the result are safe integers (at most [2^53 - 1] in absolute
    value); beyond, the sum of JavaScript is rounded. *)
Definition plus (sum : Total) (addend : JsVal) : Total :=
  match sum, addend with
  | Value (JStr s), _ => Value (JStr (s ++ ToString addend))
  | Value v, JStr s => Value (JStr (ToString v ++ s))
  | NaN, JStr s => Value (JStr (lit "NaN" ++ s))
  | Value v, _ =>
      match ToNumber v, ToNumber addend with
      | Some a, Some b => Value (JNum (a + b))
      | _, _ => NaN
      end
  | NaN, _ => NaN
  end.

(** [rows.reduce((sum, r) => sum + (r.total_votes || 0), 0)]. *)
Definition sumTotals (rows : list JsObject) : Total :=
  List.fold_left
    (fun sum r => plus sum (js_or (Get r (lit "total_votes")) (JNum 0)))
    rows (Value (JNum 0)).

Definition votersCountQuery (electionId : JsVal) : Query :=
  {| from := lit "voters"; verb := Select (lit "*") true true;
     filters := [(lit "election_id", electionId)]; order := [];
     returning := false; single := false |}.

Definition totalsQuery (electionId : JsVal) : Query :=
  {| from := lit "election_results"; verb := Select (lit "total_votes") false false;
     filters := [(lit "election_id", electionId)]; order := [];
     returning := false; single := false |}.

(** [{ success, data: { totalVotes, uniqueVoters }, error }]. *)
Record Statistics : Type := {
  statistics_success : bool;
  totalVotes : Total;
  uniqueVoters : JsVal;
  statistics_error : option JsVal
}.

Definition getVoteStatistics (electionId : JsVal) : World Db -> Statistics * World Db :=
  settle
    (voters <- checked (votersCountQuery electionId) ;;
     results <- checked (totalsQuery electionId) ;;
     rows <- liftQ (as_array (or_empty (data results))) ;;
     retQ {| statistics_success := true;
             totalVotes := sumTotals rows;
             uniqueVoters := js_or (count voters) (JNum 0);
             statistics_error := None |})
    (fun error => {| statistics_success := false;
                     totalVotes := Value (JNum 0);
                     uniqueVoters := JNum 0;
                     statistics_error := Some (message error) |}).

(** ** CSV export *)

Definition csvHeaders : list jsstring :=
  [lit "Position"; lit "Candidate Name"; lit "Total Votes"; lit "Percentage"].

(** The cells of a result, as the template literals print them. *)
Definition csvCells (result : JsObject) : list JsVal :=
  [ Get result (lit "position");
    Get result (lit "candidate_name");
    Get result (lit "total_votes");
    JStr (ToString (js_or (Get result (lit "vote_percentage")) (JNum 0)) ++ lit "%") ].

(** [row.map(cell => `"${cell}"`).join(',')]. *)
Definition csvLine (cells : list JsVal) : jsstring :=
  Array_join (lit ",")
    (List.map (fun cell => JStr ([34] ++ ToString cell ++ [34])) cells).

Definition csvContent (results : list JsObject) : jsstring :=
  Array_join [10]
    (List.map JStr
       (Array_join (lit ",") (List.map JStr csvHeaders) ::
        List.map (fun result => csvLine (csvCells result)) results)).

(** [{ success, data, error }] with the text of the file. *)
Record Export : Type := {
  export_success : bool;
  export_data : option jsstring;
  export_error : option JsVal
}.

Definition exportResultsToCSV (electionId : JsVal) : World Db -> Export * World Db :=
  settle
    (resultsResponse <- (fun w => let (r, w') := getElectionResults electionId w in
                                  (Normal r, w')) ;;
     if negb (listing_success resultsResponse) then
       throwQ (new_Error (match listing_error resultsResponse with
                          | Some text => text
                          | None => JUndefined
                          end))
     else
       results <- liftQ (as_array (listing_data resultsResponse)) ;;
       retQ {| export_success := true; export_data := Some (csvContent results);
               export_error := None |})
    (fun error => {| export_success := false; export_data := None;
                     export_error := Some (message error) |}).

(** ** Session status, [isVotingOpen] and [getCurrentElection] of the
    voter page *)

Definition openElectionQuery (columns : jsstring) : Query :=
  {| from := lit "elections"; verb := Select columns false false;
     filters := [(lit "is_open", JBool true)]; order := [];
     returning := false; single := true |}.

(** [{ success, isOpen, error }]. *)
Record Status : Type := {
  status_success : bool;
  isOpen : JsVal;
  status_error : option JsVal
}.

Definition isVotingOpen : World Db -> Status * World Db :=
  settle
    (reply <- send (openElectionQuery (lit "is_open")) ;;
     match error reply with
     | Some e =>
         if strict_eq (Admin.error_code e) (JStr (lit "PGRST116")) then
           retQ {| status_success := true; isOpen := JBool false; status_error := None |}
         else throwQ (Reported e)
     | None =>
         retQ {| status_success := true;
                 isOpen := js_or (optional_prop (data reply) (lit "is_open")) (JBool false);
                 status_error := None |}
     end)
    (fun error => {| status_success := false; isOpen := JBool false;
                     status_error := Some (message error) |}).

(** [{ success, data, error }] with the election. *)
Record Current : Type := {
  current_success : bool;
  current_data : option Data;
  current_error : option JsVal
}.

Definition getCurrentElection : World Db -> Current * World Db :=
  settle
    (reply <- send (openElectionQuery (lit "*")) ;;
     match error reply with
     | Some e =>
         if strict_eq (Admin.error_code e) (JStr (lit "PGRST116")) then
           retQ {| current_success := true; current_data := Some DNull;
                   current_error := None |}
         else throwQ (Reported e)
     | None =>
         retQ {| current_success := true; current_data := Some (data reply);
                 current_error := None |}
     end)
    (fun error => {| current_success := false; current_data := None;
                     current_error := Some (message error) |}).

End WithClient.
End Client.

(** Notions for the statements about the reports. *)
Module ReportNotions.
Import Js.

(** The number a [total_votes] cell stands for when it is a number,
    [null] or absent. *)
Definition cell_total (r : JsObject) : Z :=
  match Get r (lit "total_votes") with
  | JNum n => n
  | _ => 0
  end.

Definition numeric_total (r : JsObject) : Prop :=
  match Get r (lit "total_votes") with
  | JNum _ | JNull | JUndefined => True
  | _ => False
  end.

Definition sum_of_totals (rows : list JsObject) : Z :=
  List.fold_right (fun r acc => cell_total r + acc) 0 rows.

(** [Number.MAX_SAFE_INTEGER]: up to it in absolute value every integer
    is a number of JavaScript, and [+] on such integers is exact when its
    result is one of them too. *)
Definition MAX_SAFE_INTEGER : Z := 2 ^ 53 - 1.

Definition safe_integer (n : Z) : Prop := - MAX_SAFE_INTEGER <= n <= MAX_SAFE_INTEGER.

(** Every total, and every running sum from [sum] on in the order of
    the rows, is a safe integer. *)
Fixpoint exact_from (sum : Z) (rows : list JsObject) : Prop :=
  match rows with
  | [] => True
  | r :: rest =>
      safe_integer (cell_total r) /\ safe_integer (sum + cell_total r) /\
      exact_from (sum + cell_total r) rest
  end.

Definition exact_sums (rows : list JsObject) : Prop := exact_from 0 rows.

(** The pieces of a text between its line feeds. *)
Fixpoint lines_from (current : jsstring) (text : jsstring) : list jsstring :=
  match text with
  | [] => [current]
  | u :: rest =>
      if u =? 10 then current :: lines_from [] rest
      else lines_from (current ++ [u]) rest
  end.

Definition lines (text : jsstring) : list jsstring := lines_from [] text.

(** No cell of the result prints with a line feed in it. *)
Definition single_line (result : JsObject) : Prop :=
  Forall (fun cell => ~ In 10 (ToString cell)) (Client.csvCells result).

End ReportNotions.

(** Services for the examples of the reports. *)
Module Desk.
Import Js Client.

(** A service that gives the same reply to every query. *)
Definition replying (reply : Reply) (q : Query) (n : unit)
  : Completion Admin.QueryError Reply * unit :=
  (Normal reply, n).

(** The message texts of one engine. *)
Definition text (e : JsError) : jsstring :=
  match e with
  | TypeError => lit "TypeError"
  | ReferenceError => lit "ReferenceError"
  | SyntaxError => lit "SyntaxError"
  | DOMException => lit "DOMException"
  end.

Definition noRows : Reply := {| data := DNull; error := None; count := JNull |}.

Definition denied : Admin.QueryError :=
  {| Admin.error_message := JStr (lit "permission denied");
     Admin.error_code := JStr (lit "42501") |}.

Definition refusing : Reply := {| data := DNull; error := Some denied; count := JNull |}.

(** An error object without a message. *)
Definition silent : Reply :=
  {| data := DNull;
     error := Some {| Admin.error_message := JUndefined;
                      Admin.error_code := JStr (lit "500") |};
     count := JNull |}.

Definition results : list JsObject :=
  [ [ (lit "position", JStr (lit "President")); (lit "candidate_name", JStr (lit "Ann"));
      (lit "total_votes", JNum 2); (lit "vote_percentage", JNum 67) ];
    [ (lit "position", JStr (lit "President")); (lit "candidate_name", JStr (lit "Bob"));
      (lit "total_votes", JNum 1); (lit "vote_percentage", JNum 33) ];
    [ (lit "position", JStr (lit "Treasurer")); (lit "candidate_name", JStr (lit "Cy"));
      (lit "total_votes", JNull); (lit "vote_percentage", JNull) ] ].

(** A service with three voters and the results above: a count query
    is answered with the count, any other with the rows. *)
Definition tallies (q : Query) (n : unit) : Completion Admin.QueryError Reply * unit :=
  match verb q with
  | Select _ true _ => (Normal {| data := DNull; error := None; count := JNum 3 |}, n)
  | _ => (Normal {| data := DRows results; error := None; count := JNull |}, n)
  end.

Definition start : World unit := {| db := tt; sent := [] |}.

End Desk.

(* ===================================================================== *)
(** * The ballot page, [site/js/voting.js]                                 *)
(* ===================================================================== *)

Module Voting.
Import Js Client.

(** [{ candidateId, candidateName }], the choice kept for a position. *)
Record Choice : Type := {
  candidateId : JsVal;
  candidateName : JsVal
}.

(** What the page does to its elements and to the window, in order.
    The markup written into a container is recorded by what it lists;
    what is written to the console is not recorded. *)
Inductive Ui : Type :=
| Disabled (element : jsstring) (value : bool)
| TextContent (element : jsstring) (text : JsVal)
| ClassAdd (element class : jsstring)
| ClassRemove (element class : jsstring)
| Display (element value : jsstring)
| Positions (element : jsstring) (groups : list (jsstring * list JsObject))
| Summary (element : jsstring) (votes : list (jsstring * Choice))
| Alert (text : jsstring).

(** The module-level variables of the page, the service it talks to
    and what it has shown. *)
Record Page (Db : Type) : Type := {
  service : World Db;
  currentElection : Data;
  candidates : Data;
  voterFingerprint : JsVal;
  voterId : JsVal;
  selectedVotes : Props.Obj Choice;
  shown : list Ui
}.
Arguments service {Db} p.
Arguments currentElection {Db} p.
Arguments candidates {Db} p.
Arguments voterFingerprint {Db} p.
Arguments voterId {Db} p.
Arguments selectedVotes {Db} p.
Arguments shown {Db} p.

Section WithPage.

Context {Db : Type}.
Variable supabase : Query -> Db -> Completion Admin.QueryError Reply * Db.

(** The document: whether a lookup by id or by selector finds an
    element. *)
Variable document : jsstring -> bool.

Definition V (A : Type) : Type := Page Db -> Completion Failure A * Page Db.

Definition retV {A} (a : A) : V A := fun p => (Normal a, p).

Definition throwV {A} (f : Failure) : V A := fun p => (Throw f, p).

Definition bindV {A B} (m : V A) (k : A -> V B) : V B :=
  fun p =>
    match m p with
    | (Normal a, p') => k a p'
    | (Throw f, p') => (Throw f, p')
    end.

Definition catchV {A} (m : V A) (handler : Failure -> V A) : V A :=
  fun p =>
    match m p with
    | (Normal a, p') => (Normal a, p')
    | (Throw f, p') => handler f p'
    end.

Definition liftV {A} (c : Completion Failure A) : V A := fun p => (c, p).

Definition page : V (Page Db) := fun p => (Normal p, p).

Declare Scope voting_scope.
#[local] Notation "x <- c ;; k" := (bindV c (fun x => k))
  (at level 100, c at next level, right associativity) : voting_scope.
#[local] Notation "c ;;; k" := (bindV c (fun _ => k))
  (at level 100, right associativity) : voting_scope.
#[local] Open Scope voting_scope.

(** [await query]. *)
Definition query (q : Query) : V Reply :=
  fun p =>
    let (settled, w) := send supabase q (service p) in
    (settled,
     {| service := w; currentElection := currentElection p; candidates := candidates p;
        voterFingerprint := voterFingerprint p; voterId := voterId p;
        selectedVotes := selectedVotes p; shown := shown p |}).

Definition show (e : Ui) : V unit :=
  fun p =>
    (Normal tt,
     {| service := service p; currentElection := currentElection p;
        candidates := candidates p; voterFingerprint := voterFingerprint p;
        voterId := voterId p; selectedVotes := selectedVotes p;
        shown := shown p ++ [e] |}).

(** A statement that writes to the element a lookup returned: it
    throws when the lookup returned [null]. *)
Definition on (element : jsstring) (e : Ui) : V unit :=
  if document element then show e else throwV (Raised TypeError).

Definition set_currentElection (election : Data) : V unit :=
  fun p =>
    (Normal tt,
     {| service := service p; currentElection := election; candidates := candidates p;
        voterFingerprint := voterFingerprint p; voterId := voterId p;
        selectedVotes := selectedVotes p; shown := shown p |}).

Definition set_candidates (rows : Data) : V unit :=
  fun p =>
    (Normal tt,
     {| service := service p; currentElection := currentElection p; candidates := rows;
        voterFingerprint := voterFingerprint p; voterId := voterId p;
        selectedVotes := selectedVotes p; shown := shown p |}).

Definition set_voterId (id : JsVal) : V unit :=
  fun p =>
    (Normal tt,
     {| service := service p; currentElection := currentElection p;
        candidates := candidates p; voterFingerprint := voterFingerprint p;
        voterId := id; selectedVotes := selectedVotes p; shown := shown p |}).

(** ** Page states *)

Definition updateElectionStatus (isOpen : bool) : V unit :=
  if isOpen then
    on (lit ".status-dot") (ClassAdd (lit ".status-dot") (lit "open")) ;;;
    on (lit ".status-text") (TextContent (lit ".status-text") (JStr (lit "Voting Open")))
  else
    on (lit ".status-dot") (ClassAdd (lit ".status-dot") (lit "closed")) ;;;
    on (lit ".status-text") (TextContent (lit ".status-text") (JStr (lit "Voting Closed"))).

Definition showClosedState : V unit :=
  on (lit "loadingState") (ClassAdd (lit "loadingState") (lit "hidden")) ;;;
  on (lit "closedState") (ClassRemove (lit "closedState") (lit "hidden")) ;;;
  updateElectionStatus false.

(** [currentElection && !currentElection.is_open]. *)
Definition closedElection (election : Data) : bool :=
  match election with
  | DNull => false
  | _ => negb (truthy (optional_prop election (lit "is_open")))
  end.

Definition showVotedState : V unit :=
  on (lit "loadingState") (ClassAdd (lit "loadingState") (lit "hidden")) ;;;
  on (lit "votedState") (ClassRemove (lit "votedState") (lit "hidden")) ;;;
  p <- page ;;
  if closedElection (currentElection p) then
    on (lit "viewResultsBtn") (Display (lit "viewResultsBtn") (lit "inline-block"))
  else
    on (lit "viewResultsBtn") (Display (lit "viewResultsBtn") (lit "none")).

Definition showVotingForm : V unit :=
  on (lit "loadingState") (ClassAdd (lit "loadingState") (lit "hidden")) ;;;
  on (lit "votingForm") (ClassRemove (lit "votingForm") (lit "hidden")).

(** ** Loading *)

Definition voterLookup (electionId fingerprint : JsVal) : Query :=
  {| from := lit "voters"; verb := Select (lit "id") false false;
     filters := [(lit "election_id", electionId); (lit "fingerprint_hash", fingerprint)];
     order := []; returning := false; single := true |}.

(** [checkIfVoted()]: the [error] of the reply is not looked at, and
    whatever is thrown is answered with [false]. *)
Definition checkIfVoted : V bool :=
  catchV
    (p <- page ;;
     electionId <- liftV (prop (currentElection p) (lit "id")) ;;
     reply <- query (voterLookup electionId (voterFingerprint p)) ;;
     match data reply with
     | DNull => retV false
     | found =>
         id <- liftV (prop found (lit "id")) ;;
         set_voterId id ;;;
         retV true
     end)
    (fun _ => retV false).

(** [renderVotingForm()]; the listeners it attaches to the radio buttons
    at its end are not part of the model. *)
Definition renderVotingForm : V unit :=
  p <- page ;;
  title <- liftV (prop (currentElection p) (lit "title")) ;;
  on (lit "electionTitle") (TextContent (lit "electionTitle") title) ;;;
  description <- liftV (prop (currentElection p) (lit "description")) ;;
  on (lit "electionDescription")
     (TextContent (lit "electionDescription") (js_or description (JStr []))) ;;;
  rows <- liftV (as_array (candidates p)) ;;
  grouped <- liftV (raised (Props.groupByPosition rows)) ;;
  on (lit "positionsContainer")
     (Positions (lit "positionsContainer") (Props.Object_entries grouped)).

Definition loadCandidates : V unit :=
  catchV
    (p <- page ;;
     electionId <- liftV (prop (currentElection p) (lit "id")) ;;
     reply <- query (candidatesQuery electionId) ;;
     match error reply with
     | Some e => throwV (Reported e)
     | None =>
         set_candidates (or_empty (data reply)) ;;;
         renderVotingForm
     end)
    (fun _ => show (Alert (lit "Failed to load candidates. Please refresh the page."))).

Definition loadElection : V unit :=
  catchV
    (reply <- query (openElectionQuery (lit "*")) ;;
     match error reply with
     | Some e =>
         if strict_eq (Admin.error_code e) (JStr (lit "PGRST116")) then showClosedState
         else throwV (Reported e)
     | None =>
         set_currentElection (data reply) ;;;
         updateElectionStatus true ;;;
         hasVoted <- checkIfVoted ;;
         if (hasVoted : bool) then showVotedState
         else loadCandidates ;;; showVotingForm
     end)
    (fun _ => showClosedState).

(** ** The ballot *)

(** The state update of [handleCandidateSelection]:
    [selectedVotes[position] = { candidateId, candidateName }], with
    the values read from the radio button. *)
Definition recordSelection (position candidateId candidateName : JsVal) : V unit :=
  fun p =>
    (Normal tt,
     {| service := service p; currentElection := currentElection p;
        candidates := candidates p; voterFingerprint := voterFingerprint p;
        voterId := voterId p;
        selectedVotes :=
          Props.assign (selectedVotes p) (ToString position)
            {| candidateId := candidateId; candidateName := candidateName |};
        shown := shown p |}).

Definition showConfirmationModal : V unit :=
  p <- page ;;
  on (lit "confirmContent")
     (Summary (lit "confirmContent") (Props.Object_entries (selectedVotes p))) ;;;
  on (lit "confirmModal") (ClassRemove (lit "confirmModal") (lit "hidden")).

(** The [submit] handler of the ballot form: the positions are
    collected from the candidates and then not used. *)
Definition handleBallotSubmit : V unit :=
  p <- page ;;
  _ <- liftV (as_array (candidates p)) ;;
  match selectedVotes p with
  | [] => show (Alert (lit "Please select at least one candidate to vote for."))
  | _ => showConfirmationModal
  end.

Definition voterInsert (electionId fingerprint : JsVal) : Query :=
  {| from := lit "voters";
     verb := InsertRows [ [ (lit "election_id", electionId);
                            (lit "fingerprint_hash", fingerprint);
                            (lit "ip_address", JNull) ] ];
     filters := []; order := []; returning := true; single := true |}.

(** The row sent for one entry of the ballot. *)
Definition voteRow (voter : JsVal) (election : Data) (entry : jsstring * Choice)
  : Completion Failure JsObject :=
  match prop election (lit "id") with
  | Normal electionId =>
      Normal [ (lit "voter_id", voter);
               (lit "candidate_id", candidateId (snd entry));
               (lit "election_id", electionId);
               (lit "position", JStr (fst entry)) ]
  | Throw f => Throw f
  end.

(** [entries.map(callback)] with a callback that may throw. *)
Fixpoint mapRows {A} (f : A -> Completion Failure JsObject) (l : list A)
  : Completion Failure (list JsObject) :=
  match l with
  | [] => Normal []
  | a :: rest =>
      match f a with
      | Normal row =>
          match mapRows f rest with
          | Normal rows => Normal (row :: rows)
          | Throw e => Throw e
          end
      | Throw e => Throw e
      end
  end.

Definition votesInsert (rows : list JsObject) : Query :=
  {| from := lit "votes"; verb := InsertRows rows;
     filters := []; order := []; returning := false; single := false |}.

Definition submitVotes : V unit :=
  catchV
    (on (lit "confirmSubmitBtn") (Disabled (lit "confirmSubmitBtn") true) ;;;
     on (lit "confirmSubmitBtn")
        (TextContent (lit "confirmSubmitBtn") (JStr (lit "Submitting..."))) ;;;
     p <- page ;;
     electionId <- liftV (prop (currentElection p) (lit "id")) ;;
     reply <- query (voterInsert electionId (voterFingerprint p)) ;;
     match error reply with
     | Some voterError => throwV (Reported voterError)
     | None =>
         id <- liftV (prop (data reply) (lit "id")) ;;
         set_voterId id ;;;
         p <- page ;;
         votes <- liftV (mapRows (voteRow (voterId p) (currentElection p))
                           (Props.Object_entries (selectedVotes p))) ;;
         reply <- query (votesInsert votes) ;;
         match error reply with
         | Some votesError => throwV (Reported votesError)
         | None =>
             on (lit "confirmModal") (ClassAdd (lit "confirmModal") (lit "hidden")) ;;;
             on (lit "votingForm") (ClassAdd (lit "votingForm") (lit "hidden")) ;;;
             showVotedState
         end
     end)
    (fun _ =>
       show (Alert (lit "Failed to submit votes. Please try again.")) ;;;
       on (lit "confirmSubmitBtn") (Disabled (lit "confirmSubmitBtn") false) ;;;
       on (lit "confirmSubmitBtn")
          (TextContent (lit "confirmSubmitBtn") (JStr (lit "Confirm & Submit")))).

Definition set_voterFingerprint (fingerprint : JsVal) : V unit :=
  fun p =>
    (Normal tt,
     {| service := service p; currentElection := currentElection p;
        candidates := candidates p; voterFingerprint := fingerprint;
        voterId := voterId p; selectedVotes := selectedVotes p; shown := shown p |}).

(** [init()]: the fingerprint, then the election. *)
Definition init (env : Fingerprint.BrowserEnv) : V unit :=
  fingerprint <- liftV (raised (Fingerprint.generateFingerprint env)) ;;
  set_voterFingerprint (JStr fingerprint) ;;;
  loadElection.

End WithPage.

(** ** Notions for the statements *)

(** The page after some selections, made in order. *)
Definition selecting {Db} (selections : list (JsVal * JsVal * JsVal)) (p : Page Db) : Page Db :=
  List.fold_left
    (fun p selection =>
       snd (recordSelection (fst (fst selection)) (snd (fst selection)) (snd selection) p))
    selections p.

(** The state elements a page reveals, in order. *)
Fixpoint revealed (events : list Ui) : list jsstring :=
  match events with
  | [] => []
  | ClassRemove element class :: rest =>
      if bool_decide (class = lit "hidden") then element :: revealed rest
      else revealed rest
  | _ :: rest => revealed rest
  end.

(** A selection made on the page: position, candidate id, candidate name. *)
Definition Selection : Type := JsVal * JsVal * JsVal.

(** The last choice made for a position among some selections. *)
Fixpoint lastChoice (k : jsstring) (selections : list Selection) : option Choice :=
  match selections with
  | [] => None
  | (position, id, name) :: rest =>
      match lastChoice k rest with
      | Some c => Some c
      | None =>
          if bool_decide (ToString position = k)
          then Some {| candidateId := id; candidateName := name |}
          else None
      end
  end.

End Voting.

(** Pages and services for the examples of the ballot. *)
Module Ballots.
Import Js Client.

(** A document with every element the page looks up. *)
Definition complete (element : jsstring) : bool := true.

(** A service that stores voters, answering with the row, and refuses
    votes. *)
Definition votesRefused (q : Query) (n : unit) : Completion Admin.QueryError Reply * unit :=
  if bool_decide (from q = lit "voters") then
    (Normal {| data := DRow [(lit "id", JNum 9)]; error := None; count := JNull |}, n)
  else (Normal Desk.refusing, n).

(** Candidates for two positions. *)
Definition twoPositions : list JsObject :=
  [ [(lit "id", JNum 1); (lit "name", JStr (lit "Ann")); (lit "position", JStr (lit "President"))];
    [(lit "id", JNum 2); (lit "name", JStr (lit "Bob")); (lit "position", JStr (lit "President"))];
    [(lit "id", JNum 7); (lit "name", JStr (lit "Cy")); (lit "position", JStr (lit "Treasurer"))] ].

(** A page on an open election, with a choice for one of the two
    positions. *)
Definition chosen : Voting.Page unit :=
  {| Voting.service := Desk.start;
     Voting.currentElection := DRow [(lit "id", JNum 5); (lit "is_open", JBool true)];
     Voting.candidates := DRows twoPositions;
     Voting.voterFingerprint := JStr (lit "abc");
     Voting.voterId := JNull;
     Voting.selectedVotes :=
       [(lit "President",
         {| Voting.candidateId := JStr (lit "2"); Voting.candidateName := JStr (lit "Bob") |})];
     Voting.shown := [] |}.

(** A page as the script starts it. *)
Definition blank : Voting.Page unit :=
  {| Voting.service := Desk.start;
     Voting.currentElection := DNull;
     Voting.candidates := DRows [];
     Voting.voterFingerprint := JNull;
     Voting.voterId := JNull;
     Voting.selectedVotes := [];
     Voting.shown := [] |}.

End Ballots.

(* ===================================================================== *)
(** * The voter page, [site/js/app.js]                                     *)
(* ===================================================================== *)

Module App.
Import Js Api.

(** ** [parseInt] *)

(** White space and line terminators, which [parseInt] skips. *)
Definition isWhiteSpace (u : Z) : bool :=
  bool_decide (In u [9; 10; 11; 12; 13; 32; 160; 5760; 8192; 8193; 8194; 8195; 8196;
                     8197; 8198; 8199; 8200; 8201; 8202; 8232; 8233; 8239; 8287;
                     12288; 65279]).

Fixpoint skipWhiteSpace (s : jsstring) : jsstring :=
  match s with
  | u :: rest => if isWhiteSpace u then skipWhiteSpace rest else s
  | [] => []
  end.

(** The value of a code unit as a digit of the radix, if it is one. *)
Definition digitOf (radix u : Z) : option Z :=
  let d :=
    if (48 <=? u) && (u <=? 57) then u - 48
    else if (97 <=? u) && (u <=? 122) then u - 87
    else if (65 <=? u) && (u <=? 90) then u - 55
    else radix in
  if d <? radix then Some d else None.

(** The number written by the longest prefix of digits, [None] when
    there is no digit. *)
Fixpoint prefixValue (radix : Z) (s : jsstring) (seen : option Z) : option Z :=
  match s with
  | [] => seen
  | u :: rest =>
      match digitOf radix u with
      | Some d =>
          prefixValue radix rest
            (Some (radix * (match seen with Some n => n | None => 0 end) + d))
      | None => seen
      end
  end.

(** [parseInt(value)] with no radix; [None] is [NaN]. *)
Definition parseInt (value : JsVal) : option Z :=
  let s := skipWhiteSpace (ToString value) in
  let signed :=
    match s with
    | u :: rest =>
        if u =? 45 then (-1, rest) else if u =? 43 then (1, rest) else (1, s)
    | [] => (1, s)
    end in
  let based :=
    match snd signed with
    | zero :: x :: rest =>
        if (zero =? 48) && ((x =? 120) || (x =? 88)) then (16, rest)
        else (10, snd signed)
    | _ => (10, snd signed)
    end in
  match prefixValue (fst based) (snd based) None with
  | Some n => Some (fst signed * n)
  | None => None
  end.

(** ** State *)

(** [state.selectedCandidateId]: [null], [NaN] or a number. *)
Inductive Selected : Type :=
| Unselected
| NotANumber
| Candidate (id : Z).

(** The [state] object; its [error] field is never written and is left
    out. *)
Record State : Type := {
  candidates : Json;
  selectedCandidateId : Selected;
  voterId : JsVal;
  fingerprint : JsVal;
  isLoading : bool;
  hasVoted : bool
}.

Definition initial_State : State :=
  {| candidates := JRows []; selectedCandidateId := Unselected; voterId := JNull;
     fingerprint := JNull; isLoading := false; hasVoted := false |}.

(** What the page does to the document, in order; the markup written
    into the container is recorded by what it shows. *)
Inductive Ui : Type :=
| Skeleton
| CandidatesRendered (rows : list JsObject)
| ListenersSet
| MockIndicator
| CardSelected
| ButtonEnabled
| ButtonBusy
| ButtonRestored
| Confirmation (alreadyVoted : bool) (selectedCandidate : option JsObject)
| ErrorShown (text : JsVal).

Record Page (Net : Type) : Type := {
  state : State;
  world : World Net;
  screen : list Ui
}.
Arguments state {Net} p.
Arguments world {Net} p.
Arguments screen {Net} p.

(** [!state.selectedCandidateId] is false. *)
Definition selected (s : Selected) : bool :=
  match s with
  | Candidate id => negb (id =? 0)
  | _ => false
  end.

(** [c.id === state.selectedCandidateId]. *)
Definition is_selected (s : Selected) (c : JsObject) : bool :=
  match s with
  | Unselected => strict_eq (Get c (lit "id")) JNull
  | NotANumber => false
  | Candidate id => strict_eq (Get c (lit "id")) (JNum id)
  end.

(** [value.name] on parsed JSON: reading a property of [undefined] or
    [null] throws, other primitives and arrays have no such property. *)
Definition member (value : Json) (name : jsstring) : Completion JsError JsVal :=
  match value with
  | JPrim JUndefined | JPrim JNull => Throw TypeError
  | JPrim _ => Normal JUndefined
  | JRow o => Normal (Get o name)
  | JRows _ => Normal JUndefined
  end.

(** The rows on which [map] or [find] is called: these are methods of
    arrays only. *)
Definition array_of (value : Json) : Completion JsError (list JsObject) :=
  match value with
  | JRows rows => Normal rows
  | _ => Throw TypeError
  end.

(** Whether the card of a candidate can be written: without an image,
    [getInitials] calls [split] on the name, which only a string has. *)
Definition printable (candidate : JsObject) : bool :=
  truthy (Get candidate (lit "image_url")) ||
  match Get candidate (lit "name") with
  | JStr _ => true
  | _ => false
  end.

Section WithPage.

Context {Net : Type}.
Variable backend : Request -> Net -> Completion JsError Response * Net.
Variable SUPABASE_CONFIG_url SUPABASE_CONFIG_anonKey : JsVal.
Variable toISOString : Z -> jsstring.
Variable env : Fingerprint.BrowserEnv.

(** The message text of an error the engine raises. *)
Variable error_text : JsError -> jsstring.

(** The document: whether a lookup by selector finds an element; the
    answer is the same throughout one call. *)
Variable document : jsstring -> bool.

Definition P (A : Type) : Type := Page Net -> Completion Exn A * Page Net.

Definition retP {A} (a : A) : P A := fun p => (Normal a, p).

Definition throwP {A} (e : Exn) : P A := fun p => (Throw e, p).

Definition bindP {A B} (m : P A) (k : A -> P B) : P B :=
  fun p =>
    match m p with
    | (Normal a, p') => k a p'
    | (Throw e, p') => (Throw e, p')
    end.

Definition catchP {A} (m : P A) (handler : Exn -> P A) : P A :=
  fun p =>
    match m p with
    | (Normal a, p') => (Normal a, p')
    | (Throw e, p') => handler e p'
    end.

Declare Scope app_scope.
#[local] Notation "x <- c ;; k" := (bindP c (fun x => k))
  (at level 100, c at next level, right associativity) : app_scope.
#[local] Notation "c ;;; k" := (bindP c (fun _ => k))
  (at level 100, right associativity) : app_scope.
#[local] Open Scope app_scope.

Definition page : P (Page Net) := fun p => (Normal p, p).

(** A step of the platform that may throw. *)
Definition raw {A} (c : Completion JsError A) : P A :=
  fun p =>
    match c with
    | Normal a => (Normal a, p)
    | Throw e => (Throw (Raw e), p)
    end.

(** [await] of a function of the integration layer. *)
Definition api {A} (m : M A) : P A :=
  fun p =>
    let (settled, w) := m (world p) in
    (settled, {| state := state p; world := w; screen := screen p |}).

Definition update (f : State -> State) : P unit :=
  fun p => (Normal tt, {| state := f (state p); world := world p; screen := screen p |}).

Definition show (e : Ui) : P unit :=
  fun p => (Normal tt, {| state := state p; world := world p; screen := screen p ++ [e] |}).

(** A statement that writes to the element a lookup returned: it
    throws when the lookup returned [null]. *)
Definition on (selector : jsstring) (e : Ui) : P unit :=
  if document selector then show e else throwP (Raw TypeError).

(** [error.message] and [error.code === 'ALREADY_VOTED']. *)
Definition message_of (error : Exn) : JsVal :=
  match error with
  | Raw e => JStr (error_text e)
  | Api e => JStr (message e)
  end.

Definition is_ALREADY_VOTED (error : Exn) : bool :=
  match error with
  | Api e => match code e with ALREADY_VOTED => true | _ => false end
  | Raw _ => false
  end.

(** [showError(message)]: nothing is shown on a page without an error
    container. *)
Definition showError (text : JsVal) : P unit :=
  if document (lit ".error-container") then show (ErrorShown text) else retP tt.

Definition showSkeletonLoader : P unit := on (lit ".app-container") Skeleton.

Definition renderCandidates : P unit :=
  p <- page ;;
  rows <- raw (array_of (candidates (state p))) ;;
  if forallb printable rows then on (lit ".app-container") (CandidatesRendered rows)
  else throwP (Raw TypeError).

Definition setupEventListeners : P unit := on (lit ".submit-button") ListenersSet.

Definition init : P unit :=
  showSkeletonLoader ;;;
  catchP
    (hashed <- raw (Fingerprint.generateHashedFingerprint env) ;;
     update (fun s => {| candidates := candidates s;
                         selectedCandidateId := selectedCandidateId s;
                         voterId := voterId s; fingerprint := JStr hashed;
                         isLoading := isLoading s; hasVoted := hasVoted s |}) ;;;
     voter <- api (ensureVoter backend SUPABASE_CONFIG_url SUPABASE_CONFIG_anonKey
                     toISOString hashed) ;;
     id <- raw (member voter (lit "id")) ;;
     update (fun s => {| candidates := candidates s;
                         selectedCandidateId := selectedCandidateId s;
                         voterId := id; fingerprint := fingerprint s;
                         isLoading := isLoading s; hasVoted := hasVoted s |}) ;;;
     fetched <- api (fetchCandidates backend SUPABASE_CONFIG_url SUPABASE_CONFIG_anonKey) ;;
     update (fun s => {| candidates := fetched;
                         selectedCandidateId := selectedCandidateId s;
                         voterId := voterId s; fingerprint := fingerprint s;
                         isLoading := isLoading s; hasVoted := hasVoted s |}) ;;;
     renderCandidates ;;;
     setupEventListeners ;;;
     mock <- api isMockMode ;;
     if (mock : bool) then show MockIndicator else retP tt)
    (fun error =>
       showError (js_or (message_of error) (JStr (lit "Failed to load voting page")))).

(** [selectCandidate(card)] for a card whose [data-candidate-id] reads
    as [candidateId]. *)
Definition selectCandidate (candidateId : JsVal) : P unit :=
  show CardSelected ;;;
  update (fun s => {| candidates := candidates s;
                      selectedCandidateId :=
                        match parseInt candidateId with
                        | Some id => Candidate id
                        | None => NotANumber
                        end;
                      voterId := voterId s; fingerprint := fingerprint s;
                      isLoading := isLoading s; hasVoted := hasVoted s |}) ;;;
  on (lit ".submit-button") ButtonEnabled.

Definition showConfirmationScreen (alreadyVoted : bool) : P unit :=
  p <- page ;;
  rows <- raw (array_of (candidates (state p))) ;;
  let selectedCandidate :=
    List.find (is_selected (selectedCandidateId (state p))) rows in
  on (lit ".app-container") (Confirmation alreadyVoted selectedCandidate).

Definition set_isLoading (value : bool) : P unit :=
  update (fun s => {| candidates := candidates s;
                      selectedCandidateId := selectedCandidateId s;
                      voterId := voterId s; fingerprint := fingerprint s;
                      isLoading := value; hasVoted := hasVoted s |}).

Definition handleSubmit : P unit :=
  p <- page ;;
  match selectedCandidateId (state p) with
  | Candidate id =>
      if (id =? 0) || isLoading (state p) then retP tt
      else
        (if document (lit ".submit-button") then retP tt else throwP (Raw TypeError)) ;;;
        set_isLoading true ;;;
        show ButtonBusy ;;;
        catchP
          (_ <- api (submitVote backend SUPABASE_CONFIG_url SUPABASE_CONFIG_anonKey
                       toISOString (voterId (state p)) (JNum id)) ;;
           update (fun s => {| candidates := candidates s;
                               selectedCandidateId := selectedCandidateId s;
                               voterId := voterId s; fingerprint := fingerprint s;
                               isLoading := isLoading s; hasVoted := true |}) ;;;
           showConfirmationScreen false)
          (fun error =>
             set_isLoading false ;;;
             show ButtonRestored ;;;
             if is_ALREADY_VOTED error then showConfirmationScreen true
             else showError (js_or (message_of error) (JStr (lit "Failed to submit vote"))))
  | _ => retP tt
  end.

(** ** Keyboard navigation *)

(** The keys [handleKeyboardNavigation] moves the focus on. *)
Inductive Key : Type := ArrowDown | ArrowRight | ArrowUp | ArrowLeft | Home | End_.

(** [nextIndex] for a key, from the index of the card and the number of
    cards, of which there is at least one; [%] is the remainder of the
    truncated division. *)
Definition nextIndex (key : Key) (currentIndex length : Z) : Z :=
  match key with
  | ArrowDown | ArrowRight => Z.rem (currentIndex + 1) length
  | ArrowUp | ArrowLeft => Z.rem (currentIndex - 1 + length) length
  | Home => 0
  | End_ => length - 1
  end.

End WithPage.

(** What may follow the decimal digits of [n] in a text for [parseInt]
    to read [n]: nothing, or a unit that is no digit and, after a
    single zero, no [x]. *)
Definition ends_number (n : Z) (rest : jsstring) : Prop :=
  match rest with
  | [] => True
  | u :: _ => digitOf 10 u = None /\ (n = 0 -> u <> 120 /\ u <> 88)
  end.

(** The page as the script starts it, in front of a client state. *)
Definition start {Net} (w : World Net) : Page Net :=
  {| state := initial_State; world := w; screen := [] |}.

End App.

(** Pages for the examples of the voter page. *)
Module Visits.
Import Js Api.

(** A document with every element the page looks up. *)
Definition complete (selector : jsstring) : bool := true.

(** The page of a registered voter who has selected the candidate
    [id], in front of a client state. *)
Definition choosing {Net} (id : Z) (w : World Net) : App.Page Net :=
  {| App.state :=
       {| App.candidates := JRows (candidates MOCK_DATA_initial);
          App.selectedCandidateId := App.Candidate id;
          App.voterId := JStr (lit "abc");
          App.fingerprint := JStr (lit "abc");
          App.isLoading := false;
          App.hasVoted := false |};
     App.world := w;
     App.screen := [] |}.

(** The mock client after the voter [abc] has voted. *)
Definition voted : World unit :=
  Calls.after Scenario.offline JUndefined JUndefined Scenario.stamp
    (Calls.SubmitVote (JStr (lit "abc")) (JNum 1)) (Calls.unconfigured tt).

End Visits.

(* ===================================================================== *)
(** * Properties of the number and string primitives                       *)
(* ===================================================================== *)

Module JsFacts.

(** [ToNumber(s) > 0] on some strings. *)
Example stringIsPositive_examples :
  List.map (fun s => stringIsPositive (lit s))
    [ "5"; " 12 "; "0"; ""; "abc"; "-3"; "+7"; "0x1f"; "0X0"; "-0x1f"; "0b101"; "0o17";
      "Infinity"; "-Infinity"; "infinity"; "1e3"; ".5"; "5."; "."; "1e"; "1_000";
      "0.000"; "3e-324"; "2e-324"; "1e-400"; "1e400"; "12px" ]%string =
    [ true; true; false; false; false; false; true; true; false; false; true; true;
      true; false; false; true; true; true; false; false; false;
      false; true; false; false; true; false ].
Proof. vm_compute. reflexivity. Qed.

(** A lookup answered with an object whose [length] is the string ["2"]
    counts as found. *)
Example length_gt_zero_string :
  Api.length_gt_zero (Api.JRow [(lit "length", JStr (lit "2"))]) = Normal true.
Proof. vm_compute. reflexivity. Qed.

Lemma ToInt32_range x : - 2 ^ 31 <= ToInt32 x < 2 ^ 31.
Proof.
  unfold ToInt32.
  pose proof (Z.mod_pos_bound (x + 2 ^ 31) (2 ^ 32) ltac:(lia)). lia.
Qed.

Lemma ToInt32_mod x : ToInt32 x mod 2 ^ 32 = x mod 2 ^ 32.
Proof.
  unfold ToInt32.
  rewrite Zminus_mod, Zmod_mod, <- Zminus_mod.
  f_equal. lia.
Qed.

Lemma ToInt32_congr x y : x mod 2 ^ 32 = y mod 2 ^ 32 -> ToInt32 x = ToInt32 y.
Proof.
  intros H. unfold ToInt32.
  rewrite (Zplus_mod x), (Zplus_mod y), H. reflexivity.
Qed.

Lemma ToInt32_small x : - 2 ^ 31 <= x < 2 ^ 31 -> ToInt32 x = x.
Proof.
  intros H. unfold ToInt32. rewrite Z.mod_small; lia.
Qed.

Lemma ToInt32_idem x : ToInt32 (ToInt32 x) = ToInt32 x.
Proof. apply ToInt32_small, ToInt32_range. Qed.

Lemma ToInt32_wrap_signed32 x : ToInt32 x = Spec.wrap_signed32 x.
Proof.
  unfold Spec.wrap_signed32. cbv zeta.
  pose proof (Z.mod_pos_bound x (2 ^ 32) ltac:(lia)) as Hb.
  destruct (Z.ltb_spec (x mod 2 ^ 32) (2 ^ 31)).
  - rewrite <- (ToInt32_small (x mod 2 ^ 32)) by lia.
    apply ToInt32_congr. now rewrite Zmod_mod.
  - rewrite <- (ToInt32_small (x mod 2 ^ 32 - 2 ^ 32)) by lia.
    apply ToInt32_congr.
    rewrite Zminus_mod, Zmod_mod, Z_mod_same_full, Z.sub_0_r. now rewrite Zmod_mod.
Qed.

Lemma shl_5 x : shl x 5 = ToInt32 (x * 32).
Proof.
  unfold shl. change (5 mod 32) with 5.
  rewrite Z.shiftl_mul_pow2 by lia. change (2 ^ 5) with 32.
  apply ToInt32_congr.
  rewrite Zmult_mod, ToInt32_mod, <- Zmult_mod. reflexivity.
Qed.

Lemma band_diag x : band x x = ToInt32 x.
Proof. unfold band. apply Z.land_diag. Qed.

(** ** Digits *)

Lemma digits_small radix n : n < radix -> digits radix n = [digitChar n].
Proof.
  intros H. simp digits.
  destruct (Z_lt_dec radix 2); destruct (Z_lt_dec n radix); simpl; try reflexivity; lia.
Qed.

Lemma digits_step radix n :
  2 <= radix -> radix <= n ->
  digits radix n = digits radix (n / radix) ++ [digitChar (n mod radix)].
Proof.
  intros H1 H2. rewrite digits_equation_1.
  destruct (Z_lt_dec radix 2); destruct (Z_lt_dec n radix); simpl; try reflexivity; lia.
Qed.

Lemma digits_nonempty radix n : digits radix n <> [].
Proof.
  funelim (digits radix n); try discriminate.
  intros E. apply app_eq_nil in E. destruct E; discriminate.
Qed.

(** Fewer than [radix ^ k] means at most [k] digits. *)
Lemma digits_length radix (k : nat) : forall n,
  2 <= radix -> 0 <= n < radix ^ Z.of_nat (S k) ->
  (List.length (digits radix n) <= S k)%nat.
Proof.
  induction k as [| k IH]; intros n Hr Hn.
  - rewrite digits_small; [simpl; lia |].
    change (Z.of_nat 1) with 1 in Hn. rewrite Z.pow_1_r in Hn. lia.
  - destruct (Z_lt_dec n radix) as [Hlt | Hge].
    + rewrite digits_small by assumption. simpl. lia.
    + rewrite digits_step by lia. rewrite length_app. simpl.
      assert (0 <= n / radix < radix ^ Z.of_nat (S k)).
      { split; [apply Z.div_pos; lia |].
        apply Z.div_lt_upper_bound; [lia |].
        rewrite <- Z.pow_succ_r by lia.
        replace (Z.succ (Z.of_nat (S k))) with (Z.of_nat (S (S k))) by lia. lia. }
      specialize (IH (n / radix) Hr H). lia.
Qed.

Lemma digitChar_digit36 d : 0 <= d < 36 -> Spec.digit36 (digitChar d) = Some d.
Proof.
  intros H. unfold Spec.digit36, digitChar.
  destruct (Z.ltb_spec d 10).
  - replace ((48 <=? 48 + d) && (48 + d <=? 57)) with true by (symmetry; apply andb_true_iff; lia).
    f_equal. lia.
  - replace ((48 <=? 87 + d) && (87 + d <=? 57)) with false by (symmetry; apply andb_false_iff; lia).
    replace ((97 <=? 87 + d) && (87 + d <=? 122)) with true by (symmetry; apply andb_true_iff; lia).
    f_equal. lia.
Qed.

Lemma value36_from_app acc ds c d :
  Spec.digit36 c = Some d ->
  Spec.value36_from acc (ds ++ [c]) =
    match Spec.value36_from acc ds with
    | Some v => Some (v * 36 + d)
    | None => None
    end.
Proof.
  intros Hc. revert acc. induction ds as [| x ds IH]; intros acc; simpl.
  - now rewrite Hc.
  - destruct (Spec.digit36 x); [apply IH | reflexivity].
Qed.

Lemma value36_digits n : 0 <= n -> Spec.value36_from 0 (digits 36 n) = Some n.
Proof.
  intros Hn. funelim (digits 36 n); try lia.
  - simpl. rewrite digitChar_digit36 by lia. reflexivity.
  - rewrite (value36_from_app _ _ _ (n mod 36)).
    + rewrite H by (apply Z.div_pos; lia).
      f_equal. pose proof (Z.div_mod n 36 ltac:(lia)). lia.
    + apply digitChar_digit36. apply Z.mod_pos_bound. lia.
Qed.

(** No leading zero, except in the representation of zero. *)
Lemma digits_leading radix n rest :
  2 <= radix -> 0 < n -> digits radix n <> 48 :: rest.
Proof.
  intros Hr. revert rest. funelim (digits radix n); intros rest Hn; try lia.
  - unfold digitChar. destruct (Z.ltb_spec n 10); intros E; injection E; lia.
  - intros E.
    assert (Hq : 0 < n / radix) by (apply Z.div_str_pos; lia).
    pose proof (digits_nonempty radix (n / radix)) as Hne.
    destruct (digits radix (n / radix)) as [| x xs] eqn:Ed; [congruence |].
    simpl in E. injection E as -> _.
    exact (H Hr xs Hq eq_refl).
Qed.

Lemma numberToString_represents36 n :
  0 <= n -> Spec.represents36 (numberToString n 36) n.
Proof.
  intros Hn. unfold numberToString.
  destruct (Z.ltb_spec n 0); [lia |].
  split; [apply value36_digits; lia |].
  split; [apply digits_nonempty |].
  intros rest E.
  destruct (Z.eq_dec n 0) as [-> | Hpos].
  - rewrite digits_small in E by lia. now injection E.
  - exfalso. eapply (digits_leading 36 n rest); [lia | lia | exact E].
Qed.

Lemma find_app_None {A} (f : A -> bool) l1 l2 :
  List.find f l1 = None -> List.find f (l1 ++ l2) = List.find f l2.
Proof.
  induction l1 as [| x l1 IH]; simpl; [reflexivity |].
  destruct (f x); [discriminate | exact IH].
Qed.

Lemma strict_eq_refl v : strict_eq v v = true.
Proof.
  destruct v as [| | b | n | x]; simpl; try reflexivity.
  - now destruct b.
  - apply Z.eqb_refl.
  - now apply bool_decide_eq_true_2.
Qed.

Lemma strict_eq_JStr v x : strict_eq v (JStr x) = true -> v = JStr x.
Proof.
  destruct v; simpl; try discriminate.
  intros H. apply bool_decide_eq_true_1 in H. now subst.
Qed.

(** ** The order of [Array.prototype.sort] *)

Lemma units_leb_total a : forall b, units_leb a b = true \/ units_leb b a = true.
Proof.
  induction a as [| x a IH]; intros [| y b]; simpl; auto.
  destruct (IH b) as [H | H]; rewrite H;
    destruct (Z.ltb_spec x y), (Z.ltb_spec y x), (Z.eqb_spec x y), (Z.eqb_spec y x);
    simpl; auto; lia.
Qed.

Lemma units_leb_trans a : forall b c,
  units_leb a b = true -> units_leb b c = true -> units_leb a c = true.
Proof.
  induction a as [| x a IH]; intros [| y b] [| z c]; simpl; auto; try discriminate.
  intros H1 H2.
  apply orb_true_iff in H1. apply orb_true_iff in H2. apply orb_true_iff.
  rewrite andb_true_iff in *.
  rewrite Z.ltb_lt, Z.eqb_eq in *.
  destruct H1 as [H1 | [H1 H1']], H2 as [H2 | [H2 H2']]; try (left; lia).
  right. split; [lia | eauto].
Qed.

Lemma units_leb_antisym a : forall b,
  units_leb a b = true -> units_leb b a = true -> a = b.
Proof.
  induction a as [| x a IH]; intros [| y b]; simpl; auto; try discriminate.
  intros H1 H2.
  apply orb_true_iff in H1. apply orb_true_iff in H2.
  rewrite andb_true_iff in *.
  rewrite Z.ltb_lt, Z.eqb_eq in *.
  destruct H1 as [H1 | [H1 H1']], H2 as [H2 | [H2 H2']]; try lia.
  f_equal; [assumption | auto].
Qed.

#[global] Instance units_le_total : Total units_le.
Proof. intros a b. apply units_leb_total. Qed.

#[global] Instance units_le_trans : Transitive units_le.
Proof. intros a b c. apply units_leb_trans. Qed.

#[global] Instance units_le_antisym : AntiSymm (=) units_le.
Proof. intros a b. apply units_leb_antisym. Qed.

(** Sorting forgets the order in which the names were collected. *)
Lemma Array_sort_Permutation keys1 keys2 :
  keys1 ≡ₚ keys2 -> Array_sort keys1 = Array_sort keys2.
Proof.
  intros Hp. unfold Array_sort.
  apply (StronglySorted_unique units_le).
  - apply StronglySorted_merge_sort; apply _.
  - apply StronglySorted_merge_sort; apply _.
  - now rewrite !merge_sort_Permutation.
Qed.

(** ** Property lists and property reads *)

Lemma firstOccurrences_NoDup names : forall seen,
  NoDup names -> (forall P, P ∈ names -> P ∉ seen) ->
  firstOccurrences seen names = names.
Proof.
  induction names as [| P names IH]; intros seen Hnd Hfresh; simpl; [reflexivity |].
  apply NoDup_cons in Hnd as [Hnotin Hnd].
  rewrite bool_decide_eq_false_2 by (apply Hfresh; left).
  f_equal. apply IH; [assumption |].
  intros Q HQ Hseen. apply elem_of_cons in Hseen as [-> | Hseen].
  - contradiction.
  - apply (Hfresh Q); [now right | assumption].
Qed.

Lemma Get_absent o k : k ∉ Object_keys o -> Get o k = JUndefined.
Proof.
  induction o as [| [k' v] o IH]; simpl; intros Hk; [reflexivity |].
  apply not_elem_of_cons in Hk as [Hne Hk].
  rewrite bool_decide_eq_false_2 by congruence. now apply IH.
Qed.

Lemma Get_present o k v :
  NoDup (Object_keys o) -> (k, v) ∈ o -> Get o k = v.
Proof.
  induction o as [| [k' v'] o IH]; simpl; intros Hnd Hin.
  - now apply elem_of_nil in Hin.
  - apply NoDup_cons in Hnd as [Hnotin Hnd].
    apply elem_of_cons in Hin as [E | Hin].
    + injection E as <- <-. now rewrite bool_decide_eq_true_2.
    + rewrite bool_decide_eq_false_2; [now apply IH |].
      intros ->. apply Hnotin. unfold Object_keys.
      apply (list_elem_of_fmap_2 fst) in Hin. exact Hin.
Qed.

(** Reads do not depend on the insertion order of distinct names. *)
Lemma Get_Permutation o1 o2 k :
  NoDup (Object_keys o1) -> o1 ≡ₚ o2 -> Get o1 k = Get o2 k.
Proof.
  intros Hnd Hp.
  assert (Hk : Object_keys o1 ≡ₚ Object_keys o2) by (unfold Object_keys; now rewrite Hp).
  assert (Hnd2 : NoDup (Object_keys o2)) by now rewrite <- Hk.
  destruct (decide (k ∈ Object_keys o1)) as [Hin | Hout].
  - unfold Object_keys in Hin. apply list_elem_of_fmap in Hin as [[k' v] [-> Hin]]. simpl.
    rewrite (Get_present o1 k' v Hnd Hin).
    symmetry. apply Get_present; [assumption | now rewrite <- Hp].
  - rewrite (Get_absent o1 k Hout). symmetry. apply Get_absent. now rewrite <- Hk.
Qed.

Lemma members_ext o1 o2 K :
  (forall k, Get o1 k = Get o2 k) -> members o1 K = members o2 K.
Proof.
  intros H. induction K as [| P K IH]; simpl; [reflexivity |].
  now rewrite H, IH.
Qed.

End JsFacts.

(* ===================================================================== *)
(** * Properties of the fingerprint module                                 *)
(* ===================================================================== *)

Module FingerprintFacts.
Import Fingerprint JsFacts.

(** ** The fallback hash *)

Lemma fallbackHash_step_spec hash char :
  fallbackHash_step hash char = Spec.wrap_signed32 (hash * 31 + char).
Proof.
  unfold fallbackHash_step. cbv zeta.
  rewrite band_diag, shl_5, <- ToInt32_wrap_signed32.
  apply ToInt32_congr.
  rewrite Zplus_mod, Zminus_mod, ToInt32_mod, <- Zminus_mod, <- Zplus_mod.
  f_equal. lia.
Qed.

Lemma fold_fallbackHash_step str : forall hash,
  List.fold_left fallbackHash_step str hash = Spec.rolling_from hash str.
Proof.
  induction str as [| c str IH]; intros hash; simpl; [reflexivity |].
  rewrite IH, fallbackHash_step_spec. reflexivity.
Qed.

Lemma rolling_from_range str : forall hash,
  - 2 ^ 31 <= hash < 2 ^ 31 -> - 2 ^ 31 <= Spec.rolling_from hash str < 2 ^ 31.
Proof.
  induction str as [| c str IH]; intros hash Hh; simpl; [exact Hh |].
  apply IH. rewrite <- ToInt32_wrap_signed32. apply ToInt32_range.
Qed.

Lemma rolling_hash_range str : - 2 ^ 31 <= Spec.rolling_hash str < 2 ^ 31.
Proof. apply rolling_from_range. lia. Qed.

Lemma fallbackHash_unfold str :
  fallbackHash str = numberToString (Z.abs (Spec.rolling_hash str)) 36.
Proof. unfold fallbackHash. cbv zeta. now rewrite fold_fallbackHash_step. Qed.

Lemma fallbackHash_length str : (List.length (fallbackHash str) <= 6)%nat.
Proof.
  rewrite fallbackHash_unfold. unfold numberToString.
  pose proof (rolling_hash_range str) as Hr.
  destruct (Z.ltb_spec (Z.abs (Spec.rolling_hash str)) 0); [lia |].
  apply (digits_length 36 5); [lia |].
  change (36 ^ Z.of_nat 6) with 2176782336. lia.
Qed.

Example fallbackHash_hello : fallbackHash (lit "hello") = lit "1n1e4y".
Proof. reflexivity. Qed.

(** A negative rolling hash (-609428141): the digits are those of its
    absolute value. *)
Example fallbackHash_pangram :
  fallbackHash (lit "The quick brown fox jumps over the lazy dog") = lit "a2u5rh".
Proof. reflexivity. Qed.

(** ** The hexadecimal form of a digest *)

Lemma digitChar_lowerHex d : 0 <= d < 16 -> Spec.isLowerHex (digitChar d).
Proof.
  intros H. unfold Spec.isLowerHex, digitChar. destruct (Z.ltb_spec d 10); lia.
Qed.

Lemma digits16_lowerHex n : 0 <= n -> Forall Spec.isLowerHex (digits 16 n).
Proof.
  intros Hn. funelim (digits 16 n); try lia.
  - constructor; [apply digitChar_lowerHex; lia | constructor].
  - apply Forall_app. split.
    + apply H. apply Z.div_pos; lia.
    + constructor; [| constructor].
      apply digitChar_lowerHex. apply Z.mod_pos_bound. lia.
Qed.

Lemma hexByte b :
  0 <= b < 256 ->
  List.length (padStart (numberToString b 16) 2 48) = 2%nat /\
  Forall Spec.isLowerHex (padStart (numberToString b 16) 2 48).
Proof.
  intros Hb. unfold padStart, numberToString.
  destruct (Z.ltb_spec b 0); [lia |].
  pose proof (digits_length 16 1 b ltac:(lia) ltac:(change (16 ^ Z.of_nat 2) with 256; lia)) as Hle.
  pose proof (digits_nonempty 16 b) as Hne.
  split.
  - rewrite length_app, repeat_length.
    destruct (digits 16 b); [congruence | simpl in *; lia].
  - apply Forall_app. split.
    + apply List.Forall_forall. intros x Hx. apply repeat_spec in Hx. subst x.
      unfold Spec.isLowerHex. lia.
    + apply digits16_lowerHex. lia.
Qed.

Lemma hexOfBytes_form hashArray :
  Forall (fun b => 0 <= b < 256) hashArray ->
  List.length (hexOfBytes hashArray) = (2 * List.length hashArray)%nat /\
  Forall Spec.isLowerHex (hexOfBytes hashArray).
Proof.
  unfold hexOfBytes. induction 1 as [| b bs Hb _ [IHl IHf]]; simpl.
  - split; [reflexivity | constructor].
  - destruct (hexByte b Hb) as [Hl Hf]. split.
    + rewrite length_app, Hl, IHl. lia.
    + apply Forall_app. split; assumption.
Qed.

(** C7. For every string, [fallbackHash] is the base-36 representation
    of the absolute value of the signed 32-bit rolling hash
    [h := h*31 + charCode] of the specification; it depends on the string
    only ([sha256Hash] returns it whatever else the environment holds,
    whenever the digest is unavailable); and, having at most 6 digits, it
    never has the form of the 64 lowercase hexadecimal digits that the
    digest path produces. *)
Theorem fallbackHash_base36_rolling_hash (str : jsstring) (hashArray : list Z) :
  List.length hashArray = 32%nat ->
  Forall (fun b => 0 <= b < 256) hashArray ->
  Spec.represents36 (fallbackHash str) (Z.abs (Spec.rolling_hash str)) /\
  (forall env e, crypto_digest env str = Throw e ->
                 sha256Hash env str = Normal (fallbackHash str)) /\
  (forall env, crypto_digest env str = Normal hashArray ->
               sha256Hash env str = Normal (hexOfBytes hashArray)) /\
  List.length (hexOfBytes hashArray) = 64%nat /\
  Forall Spec.isLowerHex (hexOfBytes hashArray) /\
  (List.length (fallbackHash str) <= 6)%nat /\
  fallbackHash str <> hexOfBytes hashArray.
Proof.
  intros Hlen Hbytes.
  destruct (hexOfBytes_form hashArray Hbytes) as [Hl Hf].
  pose proof (fallbackHash_length str) as Hshort.
  repeat split.
  - rewrite fallbackHash_unfold. apply numberToString_represents36. lia.
  - rewrite fallbackHash_unfold. apply numberToString_represents36. lia.
  - rewrite fallbackHash_unfold. apply numberToString_represents36. lia.
  - intros env e He. unfold sha256Hash. now rewrite He.
  - intros env He. unfold sha256Hash. now rewrite He.
  - rewrite Hl, Hlen. reflexivity.
  - exact Hf.
  - exact Hshort.
  - intros E. rewrite E, Hl, Hlen in Hshort. simpl in Hshort. lia.
Qed.

(** The fallback hash of ["hello"] against an all-zero digest. *)
Lemma fallbackHash_base36_rolling_hash_witness :
  Spec.represents36 (fallbackHash (lit "hello")) (Z.abs (Spec.rolling_hash (lit "hello"))) /\
  fallbackHash (lit "hello") <> hexOfBytes (List.repeat 0 32).
Proof.
  pose proof (fallbackHash_base36_rolling_hash (lit "hello") (List.repeat 0 32)
                eq_refl
                ltac:(repeat constructor; lia)) as H.
  split; [apply H | apply H].
Defined.

(** ** Canonical serialization *)

Lemma sorted_keys_property_list o :
  NoDup (Object_keys o) ->
  firstOccurrences [] (Array_sort (Object_keys o)) = Array_sort (Object_keys o).
Proof.
  intros Hnd. apply firstOccurrences_NoDup.
  - unfold Array_sort. now rewrite merge_sort_Permutation.
  - intros P _. apply not_elem_of_nil.
Qed.

Lemma hashSignals_never_throws env signals :
  exists fingerprint, hashSignals env signals = Normal fingerprint.
Proof.
  unfold hashSignals, sha256Hash. cbv zeta.
  destruct (crypto_digest env _); simpl; eauto.
Qed.

(** When collection succeeds, the fingerprint is the hash of the
    collected signals. *)
Lemma generateHashedFingerprint_collected env signals :
  collectSignals env = Normal signals ->
  generateHashedFingerprint env = hashSignals env signals.
Proof.
  intros Hc. unfold generateHashedFingerprint. rewrite Hc. simpl.
  destruct (hashSignals_never_throws env signals) as [f ->]. reflexivity.
Qed.

Example canonical_string_of_signalsA :
  JSON_stringify_with Scenario.signalsA (Array_sort (Object_keys Scenario.signalsA)) =
  [123] ++ QuoteJSONString (lit "language") ++ [58] ++ QuoteJSONString (lit "en") ++ [44]
  ++ QuoteJSONString (lit "screenWidth") ++ [58] ++ lit "1920" ++ [44]
  ++ QuoteJSONString (lit "userAgent") ++ [58] ++ QuoteJSONString (lit "UA1") ++ [125].
Proof. vm_compute. reflexivity. Qed.

(** ** Probing *)







(** A throw anywhere in the canvas probing gives the empty string. *)
Lemma getCanvasFingerprint_caught env :
  ~ Spec.settles (document_createCanvas env) \/
  ~ Spec.settles (canvas_getContext_2d env) \/
  ~ Spec.settles (canvas_draw env) \/
  ~ Spec.settles (canvas_toDataURL env) ->
  getCanvasFingerprint env = Normal (JStr []).
Proof.
  unfold getCanvasFingerprint.
  destruct (document_createCanvas env); simpl; auto.
  destruct (canvas_getContext_2d env) as [[|] |]; simpl; auto.
  destruct (canvas_draw env); simpl; auto.
  destruct (canvas_toDataURL env); simpl; auto.
  intros [H | [H | [H | H]]]; exfalso; apply H; exact I.
Qed.

Ltac settle probe :=
  let v := fresh "v" in
  let E := fresh "E" in
  destruct probe as [v | ?] eqn:E; [| contradiction].


Ltac probe_in H c :=
  let E := fresh "E" in
  destruct c eqn:E; cbn [bind] in H; [| discriminate H].



(** When collection throws, the fingerprint is the fallback hash of the
    minimal signal set. *)
Lemma generateHashedFingerprint_fallback env e :
  collectSignals env = Throw e ->
  generateHashedFingerprint env =
    bind (minimalSignals env) (fun m => Normal (fallbackHash (JSON_stringify m))).
Proof.
  intros Hc. unfold generateHashedFingerprint. rewrite Hc. reflexivity.
Qed.





(** ** Which serialization each fingerprint hashes *)

Lemma JSON_stringify_insertion_order o :
  NoDup (Object_keys o) -> JSON_stringify o = SerializeJSONObject o (Object_keys o).
Proof.
  intros Hnd. unfold JSON_stringify. rewrite firstOccurrences_NoDup; [reflexivity | exact Hnd |].
  intros P _. apply not_elem_of_nil.
Qed.

Lemma minimalSignals_keys env minimal :
  minimalSignals env = Normal minimal ->
  Object_keys minimal =
    List.map lit ["userAgent"; "language"; "platform"; "screenWidth"; "screenHeight";
                  "timezone"]%string.
Proof.
  unfold minimalSignals. intros H.
  probe_in H (navigator_userAgent env). probe_in H (navigator_language env).
  probe_in H (navigator_platform env). probe_in H (screen_width env).
  probe_in H (screen_height env). probe_in H (Date_getTimezoneOffset env).
  injection H as <-. reflexivity.
Qed.

(** The digest of the concrete environments is SHA-256 of the UTF-8
    encoding: the test vectors of the standard, and a string of two-,
    three- and four-byte characters. *)
Example sha256_abc :
  hexOfBytes (Sha256.digest (Sha256.encode (lit "abc"))) =
  lit "ba7816bf8f01cfea414140de5dae2223b00361a396177a9cb410ff61f20015ad".
Proof. vm_compute. reflexivity. Qed.

Example sha256_empty :
  hexOfBytes (Sha256.digest (Sha256.encode [])) =
  lit "e3b0c44298fc1c149afbf4c8996fb92427ae41e4649b934ca495991b7852b855".
Proof. vm_compute. reflexivity. Qed.

Example sha256_two_blocks :
  hexOfBytes (Sha256.digest
                (Sha256.encode (lit "abcdbcdecdefdefgefghfghighijhijkijkljklmklmnlmnomnopnopq"))) =
  lit "248d6a61d20638b8e5c026930c3e6039a33ce45964ff2167f6ecedd419db06c1".
Proof. vm_compute. reflexivity. Qed.

Example sha256_utf8 :
  hexOfBytes (Sha256.digest (Sha256.encode [233; 8364; 55357; 56832])) =
  lit "df9226927fd572c1ee66eec85de1bb139497614899f36e4e90474cb71f6ef9d0".
Proof. vm_compute. reflexivity. Qed.

(** C4, as stated, fails for two of the three places where a fingerprint
    is hashed. [generateFingerprint] of [voting.js] and the fallback of
    [generateHashedFingerprint] call [JSON.stringify] without a list of
    sorted keys, so the members are written in insertion order: the same
    key/value pairs in another order give another string and another
    fingerprint. Here the components of the desktop browser are hashed
    with SHA-256, once in the order of the object literal and once with
    the first two pairs swapped; and the minimal signal set is hashed
    with the fallback hash in both orders. *)
Lemma hashComponents_depends_on_order :
  (Scenario.componentsA ≡ₚ Scenario.componentsB /\
   NoDup (Object_keys Scenario.componentsA) /\
   generateFingerprint Notions.hashing =
     hashComponents Notions.hashing Scenario.componentsA /\
   hashComponents Notions.hashing Scenario.componentsA =
     Normal (lit "3a56161afd67232667d64b5391f8070782472a30caa0b24b56b30c3fab6c65b5") /\
   hashComponents Notions.hashing Scenario.componentsB =
     Normal (lit "7bd4d2ffd87c62ee9e2187334cc7b0ee826b781dc6d7c5989e69fdb6a0c55cdb") /\
   hashComponents Notions.hashing Scenario.componentsA <>
     hashComponents Notions.hashing Scenario.componentsB) /\
  (Scenario.minimalA ≡ₚ Scenario.minimalB /\
   NoDup (Object_keys Scenario.minimalA) /\
   generateHashedFingerprint Scenario.without_Intl =
     Normal (fallbackHash (JSON_stringify Scenario.minimalA)) /\
   fallbackHash (JSON_stringify Scenario.minimalA) = lit "c6bbe0" /\
   fallbackHash (JSON_stringify Scenario.minimalB) = lit "n00vxu" /\
   fallbackHash (JSON_stringify Scenario.minimalA) <>
     fallbackHash (JSON_stringify Scenario.minimalB)).
Proof.
  assert (HA : hashComponents Notions.hashing Scenario.componentsA =
               Normal (lit "3a56161afd67232667d64b5391f8070782472a30caa0b24b56b30c3fab6c65b5"))
    by (vm_compute; reflexivity).
  assert (HB : hashComponents Notions.hashing Scenario.componentsB =
               Normal (lit "7bd4d2ffd87c62ee9e2187334cc7b0ee826b781dc6d7c5989e69fdb6a0c55cdb"))
    by (vm_compute; reflexivity).
  assert (HmA : fallbackHash (JSON_stringify Scenario.minimalA) = lit "c6bbe0")
    by reflexivity.
  assert (HmB : fallbackHash (JSON_stringify Scenario.minimalB) = lit "n00vxu")
    by reflexivity.
  split.
  - split; [apply perm_swap |].
    split; [apply (bool_decide_unpack _); vm_compute; reflexivity |].
    split; [reflexivity |].
    split; [exact HA |]. split; [exact HB |].
    rewrite HA, HB. intros H. apply (f_equal (fun c => match c with
                                                        | Normal (d :: _) => d
                                                        | _ => 0
                                                        end)) in H.
    vm_compute in H. discriminate H.
  - split; [apply perm_swap |].
    split; [apply (bool_decide_unpack _); vm_compute; reflexivity |].
    split; [reflexivity |].
    split; [exact HmA |]. split; [exact HmB |].
    rewrite HmA, HmB. intros H. apply (f_equal (fun d => List.hd 0 d)) in H.
    vm_compute in H. discriminate H.
Qed.

(** C4, amended. On the hashing path of [generateHashedFingerprint] the
    fingerprint is the hash of the canonical string: the property list
    handed to [JSON.stringify] is the list of the key names sorted
    ascending, the members are written in that order, and the
    fingerprint is the hexadecimal form of the digest of that string (the
    fallback hash of that string when the digest is unavailable). So two
    collections of the same key/value pairs, in whatever order, give the
    same canonical string and the same fingerprint, and the fingerprint
    depends on the pairs and on the digest primitive only. The two other
    places hash the string of [JSON.stringify] without a key list, whose
    members stand in insertion order: [generateFingerprint] of
    [voting.js] takes the digest of its six components written in the
    order of the object literal, and the fallback of
    [generateHashedFingerprint] the fallback hash of the minimal signal
    set written in the order of its object literal. *)
Theorem hashSignals_order_independent
  (env1 env2 : BrowserEnv) (signals1 signals2 : JsObject) :
  NoDup (Object_keys signals1) ->
  signals1 ≡ₚ signals2 ->
  (forall m, crypto_digest env1 m = crypto_digest env2 m) ->
  let sorted := Array_sort (Object_keys signals1) in
  let canonical := SerializeJSONObject signals1 sorted in
  (StronglySorted units_le sorted /\ sorted ≡ₚ Object_keys signals1) /\
  (JSON_stringify_with signals1 (Array_sort (Object_keys signals1)) = canonical /\
   JSON_stringify_with signals2 (Array_sort (Object_keys signals2)) = canonical) /\
  (forall hashArray,
     crypto_digest env1 canonical = Normal hashArray ->
     hashSignals env1 signals1 = Normal (hexOfBytes hashArray) /\
     hashSignals env2 signals2 = Normal (hexOfBytes hashArray)) /\
  (forall e,
     crypto_digest env1 canonical = Throw e ->
     hashSignals env1 signals1 = Normal (fallbackHash canonical) /\
     hashSignals env2 signals2 = Normal (fallbackHash canonical)) /\
  hashSignals env1 signals1 = hashSignals env2 signals2 /\
  (collectSignals env1 = Normal signals1 ->
   collectSignals env2 = Normal signals2 ->
   generateHashedFingerprint env1 = hashSignals env1 signals1 /\
   generateHashedFingerprint env2 = generateHashedFingerprint env1) /\
  (JSON_stringify signals1 = SerializeJSONObject signals1 (Object_keys signals1) /\
   hashComponents env1 signals1 =
     bind (crypto_digest env1 (SerializeJSONObject signals1 (Object_keys signals1)))
          (fun hashArray => Normal (hexOfBytes hashArray))) /\
  (forall userAgent language platform width height timezone cpuCores,
     navigator_userAgent env1 = Normal userAgent ->
     navigator_language env1 = Normal language ->
     navigator_platform env1 = Normal platform ->
     screen_width env1 = Normal width ->
     screen_height env1 = Normal height ->
     Intl_timeZone env1 = Normal timezone ->
     navigator_hardwareConcurrency env1 = Normal cpuCores ->
     let components :=
       [ (lit "userAgent", userAgent); (lit "language", language);
         (lit "platform", platform);
         (lit "screenResolution", JStr (ToString width ++ lit "x" ++ ToString height));
         (lit "timezone", timezone);
         (lit "cpuCores", js_or cpuCores (JStr (lit "unknown"))) ] in
     generateFingerprint env1 =
       bind (crypto_digest env1 (SerializeJSONObject components (Object_keys components)))
            (fun hashArray => Normal (hexOfBytes hashArray))) /\
  (forall e minimal,
     collectSignals env1 = Throw e ->
     minimalSignals env1 = Normal minimal ->
     generateHashedFingerprint env1 =
       Normal (fallbackHash (SerializeJSONObject minimal (Object_keys minimal)))).
Proof.
  intros Hnd Hp Hd. cbv zeta.
  assert (Hk : Object_keys signals1 ≡ₚ Object_keys signals2)
    by (unfold Object_keys; now rewrite Hp).
  assert (Hc1 : JSON_stringify_with signals1 (Array_sort (Object_keys signals1)) =
                SerializeJSONObject signals1 (Array_sort (Object_keys signals1)))
    by (unfold JSON_stringify_with; now rewrite sorted_keys_property_list).
  assert (Hc2 : JSON_stringify_with signals2 (Array_sort (Object_keys signals2)) =
                SerializeJSONObject signals1 (Array_sort (Object_keys signals1))).
  { rewrite <- Hc1. unfold JSON_stringify_with, SerializeJSONObject.
    rewrite (Array_sort_Permutation _ _ Hk).
    rewrite (members_ext signals1 signals2); [reflexivity |].
    intros k. now apply Get_Permutation. }
  assert (Hsame : hashSignals env1 signals1 = hashSignals env2 signals2).
  { unfold hashSignals, sha256Hash. cbv zeta. rewrite Hc1, Hc2, Hd. reflexivity. }
  split; [split; [apply StronglySorted_merge_sort; apply _ |] |].
  { unfold Array_sort. apply merge_sort_Permutation. }
  split; [split; [exact Hc1 | exact Hc2] |].
  split.
  { intros hashArray Hdigest.
    assert (H1 : hashSignals env1 signals1 = Normal (hexOfBytes hashArray))
      by (unfold hashSignals, sha256Hash; cbv zeta; rewrite Hc1, Hdigest; reflexivity).
    split; [exact H1 | now rewrite <- Hsame]. }
  split.
  { intros e Hdigest.
    assert (H1 : hashSignals env1 signals1 =
                 Normal (fallbackHash
                           (SerializeJSONObject signals1 (Array_sort (Object_keys signals1)))))
      by (unfold hashSignals, sha256Hash; cbv zeta; rewrite Hc1, Hdigest; reflexivity).
    split; [exact H1 | now rewrite <- Hsame]. }
  split; [exact Hsame |].
  split.
  { intros Hcol1 Hcol2.
    rewrite (generateHashedFingerprint_collected env1 signals1 Hcol1),
            (generateHashedFingerprint_collected env2 signals2 Hcol2).
    split; [reflexivity | now symmetry]. }
  split.
  { split; [now apply JSON_stringify_insertion_order |].
    unfold hashComponents. cbv zeta.
    now rewrite JSON_stringify_insertion_order. }
  split.
  { intros userAgent language platform width height timezone cpuCores
           Hua Hl Hpl Hw Hh Htz Hcpu.
    unfold generateFingerprint. rewrite Hua, Hl, Hpl, Hw, Hh, Htz, Hcpu. cbn [bind].
    unfold hashComponents. cbv zeta.
    rewrite JSON_stringify_insertion_order; [reflexivity |].
    apply (bool_decide_unpack _). vm_compute. reflexivity. }
  intros e minimal Hcol Hmin.
  rewrite (generateHashedFingerprint_fallback env1 e Hcol), Hmin. cbn [bind].
  rewrite JSON_stringify_insertion_order; [reflexivity |].
  rewrite (minimalSignals_keys env1 minimal Hmin).
  apply (bool_decide_unpack _). vm_compute. reflexivity.
Qed.

(** Three signals collected in two different orders, hashed with
    SHA-256: one canonical string, one fingerprint. *)
Lemma hashSignals_order_independent_witness :
  hashSignals Notions.hashing Scenario.signalsA =
    Normal (lit "c7ffd85f144d3daa564b471129e7b6a5c6b9a8c8a3b674ef84a98bfd077914ed") /\
  hashSignals Notions.hashing Scenario.signalsB =
    Normal (lit "c7ffd85f144d3daa564b471129e7b6a5c6b9a8c8a3b674ef84a98bfd077914ed").
Proof.
  destruct (hashSignals_order_independent Notions.hashing Notions.hashing
              Scenario.signalsA Scenario.signalsB) as (_ & _ & H & _).
  - apply (bool_decide_unpack _). vm_compute. reflexivity.
  - unfold Scenario.signalsA, Scenario.signalsB.
    apply Permutation_sym.
    apply (Permutation_cons_append
             [(lit "userAgent", JStr (lit "UA1")); (lit "screenWidth", JNum 1920)]
             (lit "language", JStr (lit "en"))).
  - reflexivity.
  - destruct (H _ eq_refl) as [HA HB]. rewrite HA, HB.
    split; vm_compute; reflexivity.
Defined.

End FingerprintFacts.

(* ===================================================================== *)
(** * Properties of the REST integration layer                             *)
(* ===================================================================== *)

Module ApiFacts.
Import Api.

Section Generic.

Context {Net : Type}.
Variable backend : Request -> Net -> Completion JsError Response * Net.
Variable SUPABASE_CONFIG_url SUPABASE_CONFIG_anonKey : JsVal.
Variable toISOString : Z -> jsstring.

#[local] Abbreviation fetchWithRetry := (Api.fetchWithRetry backend SUPABASE_CONFIG_anonKey).
#[local] Abbreviation withHeaders := (Api.withHeaders SUPABASE_CONFIG_anonKey).
#[local] Abbreviation fetch := (Api.fetch backend).

Lemma fetch_eq request w :
  fetch request w =
    (Spec.settled (fst (backend request (net w))),
     fetched request (snd (backend request (net w))) w).
Proof.
  unfold Api.fetch. destruct (backend request (net w)) as [[r | e] n]; reflexivity.
Qed.

(** The function satisfies the recursive equation of the source. *)
Lemma fetchWithRetry_unfold url options retryCount w :
  fetchWithRetry url options retryCount w =
    match fetch (withHeaders url options) w with
    | (Normal response, w1) =>
        if clientError response then (Normal response, w1)
        else if negb (ok response) && (retryCount <? MAX_RETRIES) then
          fetchWithRetry url options (retryCount + 1) (snd (sleep (backoff retryCount) w1))
        else (Normal response, w1)
    | (Throw error, w1) =>
        if retryCount <? MAX_RETRIES then
          fetchWithRetry url options (retryCount + 1) (snd (sleep (backoff retryCount) w1))
        else (Throw error, w1)
    end.
Proof.
  rewrite fetchWithRetry_equation_1.
  destruct (fetch (withHeaders url options) w) as [[response | error] w1]; simpl.
  - destruct (clientError response); simpl; [reflexivity |].
    destruct (ok response); simpl; [reflexivity |].
    destruct (Z_lt_dec retryCount MAX_RETRIES) as [Hlt | Hge]; simpl.
    + apply Z.ltb_lt in Hlt. now rewrite Hlt.
    + apply Z.ltb_nlt in Hge. now rewrite Hge.
  - destruct (Z_lt_dec retryCount MAX_RETRIES) as [Hlt | Hge]; simpl.
    + apply Z.ltb_lt in Hlt. now rewrite Hlt.
    + apply Z.ltb_nlt in Hge. now rewrite Hge.
Qed.

(** A success or a client error is returned after one attempt. *)
Lemma fetchWithRetry_direct url options retryCount w response n :
  backend (withHeaders url options) (net w) = (Normal response, n) ->
  clientError response = true \/ ok response = true ->
  fetchWithRetry url options retryCount w =
    (Normal response, fetched (withHeaders url options) n w).
Proof.
  intros Hb Hr. rewrite fetchWithRetry_unfold, fetch_eq, Hb. simpl.
  destruct Hr as [-> | ->]; [reflexivity |].
  destruct (clientError response); reflexivity.
Qed.

(** Against answers that are all retried, the attempts run to the
    ceiling: [MAX_RETRIES - retryCount] delayed retries, then the outcome
    of the last attempt. *)
Lemma fetchWithRetry_exhausts url options (k : nat) : forall retryCount w,
  (forall request n, Spec.retried (fst (backend request n))) ->
  0 <= retryCount -> Z.to_nat (MAX_RETRIES - retryCount) = k ->
  exists n w',
    fetchWithRetry url options retryCount w =
      (Spec.settled (fst (backend (withHeaders url options) n)), w') /\
    trace w' = trace w ++ Spec.retryTrace (withHeaders url options) k retryCount /\
    MOCK_MODE w' = MOCK_MODE w /\ MOCK_DATA w' = MOCK_DATA w.
Proof.
  induction k as [| k IH]; intros retryCount w Hall Hpos Hk.
  - exists (net w). eexists.
    rewrite fetchWithRetry_unfold, fetch_eq.
    pose proof (Hall (withHeaders url options) (net w)) as Hr.
    assert (Hge : (retryCount <? MAX_RETRIES) = false) by (apply Z.ltb_ge; unfold MAX_RETRIES in *; lia).
    destruct (fst (backend (withHeaders url options) (net w))) as [response | e]; simpl in *.
    + destruct Hr as [-> ->]. rewrite Hge. simpl. repeat split.
    + rewrite Hge. repeat split.
  - assert (Hlt : (retryCount <? MAX_RETRIES) = true) by (apply Z.ltb_lt; unfold MAX_RETRIES in *; lia).
    set (w1 := fetched (withHeaders url options) (snd (backend (withHeaders url options) (net w))) w).
    destruct (IH (retryCount + 1) (snd (sleep (backoff retryCount) w1)) Hall ltac:(lia)
                ltac:(unfold MAX_RETRIES in *; lia)) as (n & w' & Hf & Ht & Hm & Hd).
    exists n, w'.
    rewrite fetchWithRetry_unfold, fetch_eq. fold w1.
    pose proof (Hall (withHeaders url options) (net w)) as Hr.
    destruct (fst (backend (withHeaders url options) (net w))) as [response | e]; simpl in Hr |- *.
    + destruct Hr as [-> ->]. rewrite Hlt. simpl.
      split; [exact Hf |]. split; [| split; assumption].
      rewrite Ht. simpl. rewrite <- !app_assoc. reflexivity.
    + rewrite Hlt.
      split; [exact Hf |]. split; [| split; assumption].
      rewrite Ht. simpl. rewrite <- !app_assoc. reflexivity.
Qed.

(** C5. Against a server that always answers 503, and likewise when
    every attempt fails at transport level, [fetchWithRetry] started at
    [retryCount = 0] makes exactly [MAX_RETRIES + 1 = 4] attempts, sleeping
    [RETRY_DELAY * 2 ^ attempt] (1000, 2000, 4000 ms) before each retry,
    and then hands the caller the last outcome: the 503 response, or the
    transport error. A response with status in [400, 500) other than 429
    is returned after a single attempt. *)
Theorem retry_ceiling (url : Url) (options : Options) (w : World Net) :
  let request := withHeaders url options in
  let exhausted :=
    [ EvFetch request; EvSleep 1000; EvFetch request; EvSleep 2000;
      EvFetch request; EvSleep 4000; EvFetch request ] in
  List.length (Spec.attempts exhausted) = Z.to_nat (MAX_RETRIES + 1) /\
  ((forall request n, exists json n',
       backend request n =
         (Normal {| response_status := 503; response_json := json |}, n')) ->
   exists response w',
     fetchWithRetry url options 0 w = (Normal response, w') /\
     response_status response = 503 /\
     trace w' = trace w ++ exhausted) /\
  ((forall request n, exists e n', backend request n = (Throw e, n')) ->
   exists e w',
     fetchWithRetry url options 0 w = (Throw (Raw e), w') /\
     trace w' = trace w ++ exhausted) /\
  (forall response n,
     backend request (net w) = (Normal response, n) ->
     400 <= response_status response < 500 ->
     response_status response <> 429 ->
     exists w',
       fetchWithRetry url options 0 w = (Normal response, w') /\
       trace w' = trace w ++ [EvFetch request]).
Proof.
  cbv zeta. split; [reflexivity |]. split; [| split].
  - intros Hall.
    destruct (fetchWithRetry_exhausts url options 3 0 w) as (n & w' & Hf & Ht & _).
    + intros request n. destruct (Hall request n) as (json & n' & ->). simpl.
      split; reflexivity.
    + lia.
    + reflexivity.
    + destruct (Hall (withHeaders url options) n) as (json & n' & Hb).
      rewrite Hb in Hf. simpl in Hf.
      eexists. exists w'. split; [exact Hf |]. split; [reflexivity | exact Ht].
  - intros Hall.
    destruct (fetchWithRetry_exhausts url options 3 0 w) as (n & w' & Hf & Ht & _).
    + intros request n. destruct (Hall request n) as (e & n' & ->). exact I.
    + lia.
    + reflexivity.
    + destruct (Hall (withHeaders url options) n) as (e & n' & Hb).
      rewrite Hb in Hf. simpl in Hf.
      exists e, w'. split; [exact Hf | exact Ht].
  - intros response n Hb Hs Hne.
    eexists. split.
    + apply (fetchWithRetry_direct url options 0 w response n Hb).
      left. unfold clientError.
      apply andb_true_iff. split; [apply andb_true_iff; split |].
      * apply Z.leb_le. lia.
      * apply Z.ltb_lt. lia.
      * apply negb_true_iff, Z.eqb_neq. exact Hne.
    + reflexivity.
Qed.

(** ** The three operations against any backend *)

#[local] Abbreviation restUrl := (Api.restUrl SUPABASE_CONFIG_url).
#[local] Abbreviation fetchCandidates :=
  (Api.fetchCandidates backend SUPABASE_CONFIG_url SUPABASE_CONFIG_anonKey).
#[local] Abbreviation ensureVoter :=
  (Api.ensureVoter backend SUPABASE_CONFIG_url SUPABASE_CONFIG_anonKey toISOString).
#[local] Abbreviation submitVote :=
  (Api.submitVote backend SUPABASE_CONFIG_url SUPABASE_CONFIG_anonKey toISOString).

Lemma attempts_app t1 t2 : Spec.attempts (t1 ++ t2) = Spec.attempts t1 ++ Spec.attempts t2.
Proof.
  induction t1 as [| [request | ms] t1 IH]; simpl; [reflexivity | now rewrite IH | exact IH].
Qed.

Lemma extends_trans (w w1 w2 : World Net) t1 t2 :
  Spec.extends w w1 t1 -> Spec.extends w1 w2 t2 -> Spec.extends w w2 (t1 ++ t2).
Proof.
  intros (Ht1 & Hm1 & Hd1) (Ht2 & Hm2 & Hd2). unfold Spec.extends.
  rewrite Ht2, Ht1, Hm2, Hm1, Hd2, Hd1, app_assoc. repeat split.
Qed.

Lemma fetched_extends request n (w : World Net) :
  Spec.extends w (Api.fetched request n w) [EvFetch request].
Proof. repeat split. Qed.

Lemma retry_extends request n ms (w : World Net) :
  Spec.extends w (snd (sleep ms (Api.fetched request n w))) [EvFetch request; EvSleep ms].
Proof. unfold Spec.extends. simpl. rewrite <- app_assoc. repeat split. Qed.

(** Whatever [fetchWithRetry] does, it sends one and the same request,
    and leaves the module state alone. *)
Lemma fetchWithRetry_trace url options (k : nat) : forall retryCount w,
  Z.to_nat (MAX_RETRIES - retryCount) = k ->
  exists t,
    Spec.extends w (snd (fetchWithRetry url options retryCount w)) t /\
    Forall (eq (withHeaders url options)) (Spec.attempts t) /\
    Spec.attempts t <> [].
Proof.
  assert (Hone : forall (w : World Net) (n : Net),
            exists t, Spec.extends w (Api.fetched (withHeaders url options) n w) t /\
                      Forall (eq (withHeaders url options)) (Spec.attempts t) /\
                      Spec.attempts t <> []).
  { intros w n. exists [EvFetch (withHeaders url options)].
    split; [apply fetched_extends |]. split; [repeat constructor | discriminate]. }
  induction k as [| k IH]; intros retryCount w Hk;
    rewrite fetchWithRetry_unfold, fetch_eq;
    destruct (fst (backend (withHeaders url options) (net w))) as [response | e];
    cbn [Spec.settled].
  - assert (Hge : (retryCount <? MAX_RETRIES) = false) by (apply Z.ltb_ge; lia).
    rewrite Hge, andb_false_r. destruct (clientError response); apply Hone.
  - assert (Hge : (retryCount <? MAX_RETRIES) = false) by (apply Z.ltb_ge; lia).
    rewrite Hge. apply Hone.
  - destruct (clientError response); [apply Hone |].
    destruct (negb (ok response) && (retryCount <? MAX_RETRIES)) eqn:Hgo; [| apply Hone].
    apply andb_true_iff in Hgo as [_ Hlt]. apply Z.ltb_lt in Hlt.
    edestruct (IH (retryCount + 1)) as (t & He & Hreq & Hne); [lia |].
    eexists. split; [eapply extends_trans; [apply retry_extends | exact He] |].
    rewrite attempts_app. simpl. split; [constructor; [reflexivity | exact Hreq] | discriminate].
  - destruct (retryCount <? MAX_RETRIES) eqn:Hlt; [| apply Hone].
    apply Z.ltb_lt in Hlt.
    edestruct (IH (retryCount + 1)) as (t & He & Hreq & Hne); [lia |].
    eexists. split; [eapply extends_trans; [apply retry_extends | exact He] |].
    rewrite attempts_app. simpl. split; [constructor; [reflexivity | exact Hreq] | discriminate].
Qed.

Lemma fetchWithRetry_never_ApiError url options retryCount w e :
  fst (fetchWithRetry url options retryCount w) <> Throw (Api e).
Proof.
  remember (Z.to_nat (MAX_RETRIES - retryCount)) as k eqn:Hk.
  revert retryCount w Hk. induction k as [| k IH]; intros retryCount w Hk;
    rewrite fetchWithRetry_unfold, fetch_eq;
    destruct (fst (backend (withHeaders url options) (net w))) as [response | e0]; simpl.
  - assert (Hge : (retryCount <? MAX_RETRIES) = false) by (apply Z.ltb_ge; lia).
    rewrite Hge, andb_false_r. destruct (clientError response); discriminate.
  - assert (Hge : (retryCount <? MAX_RETRIES) = false) by (apply Z.ltb_ge; lia).
    rewrite Hge. discriminate.
  - destruct (clientError response); [discriminate |].
    destruct (negb (ok response) && (retryCount <? MAX_RETRIES)) eqn:Hgo; [| discriminate].
    apply andb_true_iff in Hgo as [_ Hlt]. apply Z.ltb_lt in Hlt.
    apply IH. lia.
  - destruct (retryCount <? MAX_RETRIES) eqn:Hlt; [| discriminate].
    apply Z.ltb_lt in Hlt. apply IH. lia.
Qed.

(** The shared [catch] clause lets nothing but an [ApiError] out. *)
Lemma catch_only_ApiError {A} (m : @M Net A) text (w : World Net) :
  Spec.only_ApiError (fst (catchM m (rethrowAsNetworkError text) w)).
Proof.
  unfold catchM. destruct (m w) as [[a | [e | e]] w']; simpl; exact I.
Qed.

(** What [submitVote] does with the outcome of its single call of
    [fetchWithRetry], outside mock mode. *)
Lemma submitVote_remote voterId candidateId w :
  MOCK_MODE w = false ->
  submitVote voterId candidateId w =
    let posted :=
      fetchWithRetry (restUrl (lit "votes") [])
        {| method := POST;
           body := Some [(lit "voter_id", voterId); (lit "candidate_id", candidateId)];
           headers := [] |} 0 w in
    match posted with
    | (Normal response, w1) =>
        if ok response then
          match bind (response_json response) index_zero with
          | Normal vote => (Normal vote, w1)
          | Throw _ => (Throw (Api (Spec.networkError (lit "Failed to submit vote"))), w1)
          end
        else
          (Throw (Api (mapError (response_status response) (json_or_empty response))), w1)
    | (Throw (Raw _), w1) =>
        (Throw (Api (Spec.networkError (lit "Failed to submit vote"))), w1)
    | (Throw (Api e), w1) => (Throw (Api e), w1)
    end.
Proof.
  intros Hmode. unfold Api.submitVote, bindM, get_world, catchM. rewrite Hmode. cbv zeta.
  destruct (Api.fetchWithRetry _ _ _ _ _ w) as [[response | [e | e]] w1]; try reflexivity.
  destruct (ok response); simpl; [| reflexivity].
  unfold await. destruct (response_json response) as [votes | e]; simpl; [| reflexivity].
  destruct (index_zero votes); reflexivity.
Qed.

(** What [ensureVoter] does with the outcomes of its calls of
    [fetchWithRetry], outside mock mode: a lookup, and an insert when the
    lookup found nothing. *)
#[local] Abbreviation lookupUrl := (Spec.lookupUrl SUPABASE_CONFIG_url).
#[local] Abbreviation lookupOptions := Spec.lookupOptions.
#[local] Abbreviation insertOptions := Spec.insertOptions.

Lemma ensureVoter_found fingerprint w getResponse w1 voters voter :
  MOCK_MODE w = false ->
  fetchWithRetry (lookupUrl fingerprint) lookupOptions 0 w = (Normal getResponse, w1) ->
  ok getResponse = true ->
  response_json getResponse = Normal voters ->
  length_gt_zero voters = Normal true ->
  index_zero voters = Normal voter ->
  ensureVoter fingerprint w = (Normal voter, w1).
Proof.
  intros Hmode Hget Hok Hjson Hlen Hidx.
  unfold Api.ensureVoter, bindM, get_world, catchM. rewrite Hmode. cbv zeta.
  unfold Spec.lookupUrl, Spec.lookupOptions in Hget. rewrite Hget, Hok.
  unfold await. rewrite Hjson, Hlen, Hidx. reflexivity.
Qed.

Lemma ensureVoter_not_found fingerprint w getResponse w1 :
  MOCK_MODE w = false ->
  fetchWithRetry (lookupUrl fingerprint) lookupOptions 0 w = (Normal getResponse, w1) ->
  ok getResponse = false \/ response_json getResponse = Normal (JRows []) ->
  ensureVoter fingerprint w =
    match fetchWithRetry (restUrl (lit "voters") []) (insertOptions fingerprint) 0 w1 with
    | (Normal createResponse, w2) =>
        if ok createResponse then
          match bind (response_json createResponse) index_zero with
          | Normal voter => (Normal voter, w2)
          | Throw _ => (Throw (Api (Spec.networkError (lit "Failed to register voter"))), w2)
          end
        else
          (Throw (Api (mapError (response_status createResponse)
                         (json_or_empty createResponse))), w2)
    | (Throw (Raw _), w2) =>
        (Throw (Api (Spec.networkError (lit "Failed to register voter"))), w2)
    | (Throw (Api e), w2) => (Throw (Api e), w2)
    end.
Proof.
  intros Hmode Hget Hnone.
  unfold Api.ensureVoter, bindM, get_world, catchM. rewrite Hmode. cbv zeta.
  unfold Spec.lookupUrl, Spec.lookupOptions in Hget. rewrite Hget.
  unfold Spec.insertOptions.
  destruct (ok getResponse) eqn:Hok.
  - destruct Hnone as [Hf | Hj]; [discriminate |].
    unfold await at 1. rewrite Hj. simpl.
    destruct (Api.fetchWithRetry _ _ _ _ _ w1) as [[createResponse | [e | e]] w2];
      try reflexivity.
    destruct (ok createResponse); simpl; [| reflexivity].
    unfold await. destruct (response_json createResponse) as [vs | e]; simpl; [| reflexivity].
    destruct (index_zero vs); reflexivity.
  - simpl.
    destruct (Api.fetchWithRetry _ _ _ _ _ w1) as [[createResponse | [e | e]] w2];
      try reflexivity.
    destruct (ok createResponse); simpl; [| reflexivity].
    unfold await. destruct (response_json createResponse) as [vs | e]; simpl; [| reflexivity].
    destruct (index_zero vs); reflexivity.
Qed.

#[local] Abbreviation candidatesUrl :=
  (restUrl (lit "candidates") [(lit "select", lit "*"); (lit "order", lit "id.asc")]).

(** What [fetchCandidates] does with the outcome of its single call of
    [fetchWithRetry], outside mock mode. *)
Lemma fetchCandidates_remote (w : World Net) :
  MOCK_MODE w = false ->
  fetchCandidates w =
    match fetchWithRetry candidatesUrl lookupOptions 0 w with
    | (Normal response, w1) =>
        if ok response then
          match response_json response with
          | Normal candidates => (Normal candidates, w1)
          | Throw _ =>
              (Throw (Api (Spec.networkError (lit "Failed to fetch candidates"))), w1)
          end
        else
          (Throw (Api (mapError (response_status response) (json_or_empty response))), w1)
    | (Throw (Raw _), w1) =>
        (Throw (Api (Spec.networkError (lit "Failed to fetch candidates"))), w1)
    | (Throw (Api e), w1) => (Throw (Api e), w1)
    end.
Proof.
  intros Hmode. unfold Api.fetchCandidates, bindM, get_world, catchM. rewrite Hmode.
  cbv zeta. unfold lookupOptions.
  destruct (Api.fetchWithRetry _ _ _ _ _ w) as [[response | [e | e]] w1]; try reflexivity.
  destruct (ok response); simpl; [| reflexivity].
  unfold await. destruct (response_json response); reflexivity.
Qed.

(** A lookup that fails at transport level ends the operation. *)
Lemma ensureVoter_lookup_throws fingerprint w e w1 :
  MOCK_MODE w = false ->
  fetchWithRetry (lookupUrl fingerprint) lookupOptions 0 w = (Throw (Raw e), w1) ->
  ensureVoter fingerprint w =
    (Throw (Api (Spec.networkError (lit "Failed to register voter"))), w1).
Proof.
  intros Hmode Hget.
  unfold Api.ensureVoter, bindM, get_world, catchM. rewrite Hmode. cbv zeta.
  unfold Spec.lookupUrl, Spec.lookupOptions in Hget. rewrite Hget. reflexivity.
Qed.

(** So does a successful lookup whose body cannot be read as a list. *)
Lemma ensureVoter_lookup_unreadable fingerprint w getResponse w1 :
  MOCK_MODE w = false ->
  fetchWithRetry (lookupUrl fingerprint) lookupOptions 0 w = (Normal getResponse, w1) ->
  ok getResponse = true ->
  (exists e, response_json getResponse = Throw e) \/
  (exists voters e, response_json getResponse = Normal voters /\
                    length_gt_zero voters = Throw e) ->
  ensureVoter fingerprint w =
    (Throw (Api (Spec.networkError (lit "Failed to register voter"))), w1).
Proof.
  intros Hmode Hget Hok Hbad.
  unfold Api.ensureVoter, bindM, get_world, catchM. rewrite Hmode. cbv zeta.
  unfold Spec.lookupUrl, Spec.lookupOptions in Hget. rewrite Hget, Hok.
  unfold await.
  destruct Hbad as [[e ->] | (voters & e & -> & ->)]; reflexivity.
Qed.

(** A lookup that is answered without a voter - not a success, or a
    success whose list is empty - is followed by the insert, and the
    outcome of the insert is the outcome of the operation. *)
Lemma ensureVoter_inserts fingerprint w getResponse w1 :
  MOCK_MODE w = false ->
  fetchWithRetry (lookupUrl fingerprint) lookupOptions 0 w = (Normal getResponse, w1) ->
  ok getResponse = false \/
  (exists voters, response_json getResponse = Normal voters /\
                  length_gt_zero voters = Normal false) ->
  ensureVoter fingerprint w =
    match fetchWithRetry (restUrl (lit "voters") []) (insertOptions fingerprint) 0 w1 with
    | (Normal createResponse, w2) =>
        if ok createResponse then
          match bind (response_json createResponse) index_zero with
          | Normal voter => (Normal voter, w2)
          | Throw _ => (Throw (Api (Spec.networkError (lit "Failed to register voter"))), w2)
          end
        else
          (Throw (Api (mapError (response_status createResponse)
                         (json_or_empty createResponse))), w2)
    | (Throw (Raw _), w2) =>
        (Throw (Api (Spec.networkError (lit "Failed to register voter"))), w2)
    | (Throw (Api e), w2) => (Throw (Api e), w2)
    end.
Proof.
  intros Hmode Hget Hnone.
  unfold Api.ensureVoter, bindM, get_world, catchM. rewrite Hmode. cbv zeta.
  unfold Spec.lookupUrl, Spec.lookupOptions in Hget. rewrite Hget.
  unfold Spec.insertOptions.
  destruct (ok getResponse) eqn:Hok.
  - destruct Hnone as [Hf | (voters & Hj & Hl)]; [discriminate |].
    unfold await at 1 2. rewrite Hj, Hl. simpl.
    destruct (Api.fetchWithRetry _ _ _ _ _ w1) as [[createResponse | [e | e]] w2];
      try reflexivity.
    destruct (ok createResponse); simpl; [| reflexivity].
    unfold await. destruct (response_json createResponse) as [vs | e]; simpl; [| reflexivity].
    destruct (index_zero vs); reflexivity.
  - simpl.
    destruct (Api.fetchWithRetry _ _ _ _ _ w1) as [[createResponse | [e | e]] w2];
      try reflexivity.
    destruct (ok createResponse); simpl; [| reflexivity].
    unfold await. destruct (response_json createResponse) as [vs | e]; simpl; [| reflexivity].
    destruct (index_zero vs); reflexivity.
Qed.

(** Outside mock mode [submitVote] touches the world through its one
    call of [fetchWithRetry] only: every request it sends is the insert
    of the vote. *)
Lemma submitVote_requests voterId candidateId (w : World Net) :
  MOCK_MODE w = false ->
  exists t,
    Spec.extends w (snd (submitVote voterId candidateId w)) t /\
    Forall (eq (withHeaders (restUrl (lit "votes") []) (Spec.voteOptions voterId candidateId)))
           (Spec.attempts t) /\
    Spec.attempts t <> [].
Proof.
  intros Hmode.
  assert (Hw : snd (submitVote voterId candidateId w) =
               snd (fetchWithRetry (restUrl (lit "votes") [])
                      (Spec.voteOptions voterId candidateId) 0 w)).
  { rewrite (submitVote_remote voterId candidateId w Hmode). cbv zeta.
    unfold Spec.voteOptions.
    destruct (Api.fetchWithRetry _ _ _ _ _ w) as [[response | [e | e]] w1]; try reflexivity.
    destruct (ok response); [| reflexivity].
    destruct (bind _ _); reflexivity. }
  rewrite Hw. eapply fetchWithRetry_trace. reflexivity.
Qed.

(** ** Mock mode *)

Lemma ensureVoter_mock fingerprint (w : World Net) :
  MOCK_MODE w = true ->
  exists w1,
    ensureVoter fingerprint w =
      (Normal (JRow (mockVoter toISOString fingerprint (now w + 200))), w1) /\
    MOCK_MODE w1 = true /\
    fingerprint ∈ voters (MOCK_DATA w1) /\
    (fingerprint ∈ voters (MOCK_DATA w) -> MOCK_DATA w1 = MOCK_DATA w).
Proof.
  intros Hmode.
  unfold Api.ensureVoter, bindM, get_world. rewrite Hmode. simpl.
  destruct (bool_decide (fingerprint ∈ voters (MOCK_DATA w))) eqn:Hin; simpl.
  - eexists. split; [reflexivity |]. simpl. split; [exact Hmode |].
    split; [now apply bool_decide_eq_true_1 in Hin | reflexivity].
  - eexists. split; [reflexivity |]. simpl. split; [exact Hmode |].
    split; [apply elem_of_app; right; now left |].
    intros Hyes. apply bool_decide_eq_false_1 in Hin. contradiction.
Qed.

(** In mock mode registration is idempotent on the in-memory set. *)
Lemma ensureVoter_mock_idempotent fingerprint (w : World Net) :
  MOCK_MODE w = true ->
  exists voter1 voter2 w1 w2,
    ensureVoter fingerprint w = (Normal (JRow voter1), w1) /\
    ensureVoter fingerprint w1 = (Normal (JRow voter2), w2) /\
    Get voter1 (lit "id") = Get voter2 (lit "id") /\
    MOCK_DATA w2 = MOCK_DATA w1.
Proof.
  intros Hmode.
  destruct (ensureVoter_mock fingerprint w Hmode) as (w1 & H1 & Hmode1 & Hin1 & _).
  destruct (ensureVoter_mock fingerprint w1 Hmode1) as (w2 & H2 & _ & _ & Hsame).
  do 2 eexists. exists w1, w2.
  split; [exact H1 |]. split; [exact H2 |]. split; [reflexivity | exact (Hsame Hin1)].
Qed.

Lemma submitVote_mock_first voterId candidateId (w : World Net) :
  MOCK_MODE w = true ->
  List.find (fun v => strict_eq (Get v (lit "voter_id")) voterId) (votes (MOCK_DATA w)) = None ->
  List.find (fun c => strict_eq (Get c (lit "id")) candidateId) (candidates (MOCK_DATA w))
    <> None ->
  exists vote w1,
    submitVote voterId candidateId w = (Normal (JRow vote), w1) /\
    MOCK_MODE w1 = true /\
    Get vote (lit "voter_id") = voterId /\
    votes (MOCK_DATA w1) = votes (MOCK_DATA w) ++ [vote].
Proof.
  intros Hmode Hnone Hcand.
  unfold Api.submitVote, bindM, get_world. rewrite Hmode. simpl.
  rewrite Hnone.
  destruct (find _ (candidates (MOCK_DATA w))) as [c |] eqn:Hc; [| congruence].
  simpl. do 2 eexists. split; [reflexivity |]. simpl. repeat split. exact Hmode.
Qed.

Lemma submitVote_mock_again voterId candidateId vote (w : World Net) :
  MOCK_MODE w = true ->
  List.find (fun v => strict_eq (Get v (lit "voter_id")) voterId) (votes (MOCK_DATA w)) =
    Some vote ->
  exists w2,
    submitVote voterId candidateId w = (Throw (Api Spec.alreadyVoted), w2) /\
    MOCK_DATA w2 = MOCK_DATA w.
Proof.
  intros Hmode Hsome.
  unfold Api.submitVote, bindM, get_world. rewrite Hmode. simpl.
  rewrite Hsome. eexists. split; reflexivity.
Qed.

(** In mock mode the second vote of a voter is refused and the
    in-memory list of votes stays as it is. *)
Lemma submitVote_mock_duplicate voterId candidateId candidateId' (w : World Net) :
  MOCK_MODE w = true ->
  List.find (fun v => strict_eq (Get v (lit "voter_id")) voterId) (votes (MOCK_DATA w)) = None ->
  List.find (fun c => strict_eq (Get c (lit "id")) candidateId) (candidates (MOCK_DATA w))
    <> None ->
  exists vote w1 w2,
    submitVote voterId candidateId w = (Normal (JRow vote), w1) /\
    votes (MOCK_DATA w1) = votes (MOCK_DATA w) ++ [vote] /\
    submitVote voterId candidateId' w1 = (Throw (Api Spec.alreadyVoted), w2) /\
    MOCK_DATA w2 = MOCK_DATA w1.
Proof.
  intros Hmode Hnone Hcand.
  destruct (submitVote_mock_first voterId candidateId w Hmode Hnone Hcand)
    as (vote & w1 & H1 & Hmode1 & Hid & Hvotes).
  destruct (submitVote_mock_again voterId candidateId' vote w1 Hmode1) as (w2 & H2 & Hsame).
  { rewrite Hvotes, (JsFacts.find_app_None _ _ _ Hnone). simpl.
    rewrite Hid, JsFacts.strict_eq_refl. reflexivity. }
  exists vote, w1, w2. repeat split; assumption.
Qed.

(** The rejected insert, against any backend. Outside mock mode, when
    the lookup found no voter and the insert is answered with status 409,
    [ensureVoter] throws the [ApiError] that [mapError] gives for 409,
    with code [ALREADY_VOTED]: the world it leaves is the one right after
    the insert, so nothing is read again. The function is documented as
    returning the voter ("Ensure voter exists in database (create if not
    exists)"), and its mock branch returns the voter when the fingerprint
    is registered already. *)
Theorem ensureVoter_conflict_is_thrown
  (fingerprint : jsstring) (w w1 w2 : World Net) (getResponse createResponse : Response) :
  MOCK_MODE w = false ->
  fetchWithRetry (lookupUrl fingerprint) lookupOptions 0 w = (Normal getResponse, w1) ->
  ok getResponse = false \/ response_json getResponse = Normal (JRows []) ->
  fetchWithRetry (restUrl (lit "voters") []) (insertOptions fingerprint) 0 w1 =
    (Normal createResponse, w2) ->
  response_status createResponse = 409 ->
  ensureVoter fingerprint w = (Throw (Api Spec.alreadyVoted), w2) /\
  code Spec.alreadyVoted = ALREADY_VOTED.
Proof.
  intros Hmode Hget Hnone Hpost Hstatus. split; [| reflexivity].
  rewrite (ensureVoter_not_found fingerprint w getResponse w1 Hmode Hget Hnone), Hpost.
  unfold ok. rewrite Hstatus. reflexivity.
Qed.

(** C9, amended. Each of the three operations ends with its payload, or
    with a thrown [ApiError]; no other exception gets out, and no
    [{ success: ... }] value is built. Outside mock mode the outcome
    follows the final answer of [fetchWithRetry], which is a response or
    a transport error:
    - [fetchCandidates] returns the parsed body of a success, [submitVote]
      and the insert of [ensureVoter] its first element;
    - a response that is not a success is thrown as the [ApiError] of
      [mapError] (status, and the parsed body or an empty object), by
      [fetchCandidates], by [submitVote] and for the insert of
      [ensureVoter];
    - the lookup of [ensureVoter] is different: the first element of a
      non-empty list is the voter, and a response that is not a success
      is not thrown - like an empty list, it is followed by the insert;
    - a transport error, and a success whose body cannot be read, are
      thrown as an [ApiError] with code [NETWORK_ERROR], status 0 and the
      text of the operation.
    In mock mode [fetchCandidates] returns the candidates of [MOCK_DATA],
    [ensureVoter] the voter object of the fingerprint, and [submitVote]
    the new vote, or the [ApiError] 409 or 422. *)
Theorem failures_are_thrown_ApiErrors
  (fingerprint : jsstring) (voterId candidateId : JsVal) (w : World Net) :
  (Spec.only_ApiError (fst (fetchCandidates w)) /\
   Spec.only_ApiError (fst (ensureVoter fingerprint w)) /\
   Spec.only_ApiError (fst (submitVote voterId candidateId w))) /\
  (forall url options w0 e, fst (fetchWithRetry url options 0 w0) <> Throw (Api e)) /\
  (MOCK_MODE w = false ->
   (forall final w1,
      fetchWithRetry candidatesUrl lookupOptions 0 w = (final, w1) ->
      (forall response candidates,
         final = Normal response -> ok response = true ->
         response_json response = Normal candidates ->
         fetchCandidates w = (Normal candidates, w1)) /\
      (forall response,
         final = Normal response -> ok response = false ->
         fetchCandidates w =
           (Throw (Api (mapError (response_status response) (json_or_empty response))), w1)) /\
      (forall response e,
         final = Normal response -> ok response = true ->
         response_json response = Throw e ->
         fetchCandidates w =
           (Throw (Api (Spec.networkError (lit "Failed to fetch candidates"))), w1)) /\
      (forall e,
         final = Throw (Raw e) ->
         fetchCandidates w =
           (Throw (Api (Spec.networkError (lit "Failed to fetch candidates"))), w1))) /\
   (forall final w1,
      fetchWithRetry (restUrl (lit "votes") []) (Spec.voteOptions voterId candidateId) 0 w =
        (final, w1) ->
      (forall response vote,
         final = Normal response -> ok response = true ->
         bind (response_json response) index_zero = Normal vote ->
         submitVote voterId candidateId w = (Normal vote, w1)) /\
      (forall response,
         final = Normal response -> ok response = false ->
         submitVote voterId candidateId w =
           (Throw (Api (mapError (response_status response) (json_or_empty response))), w1)) /\
      (forall response e,
         final = Normal response -> ok response = true ->
         bind (response_json response) index_zero = Throw e ->
         submitVote voterId candidateId w =
           (Throw (Api (Spec.networkError (lit "Failed to submit vote"))), w1)) /\
      (forall e,
         final = Throw (Raw e) ->
         submitVote voterId candidateId w =
           (Throw (Api (Spec.networkError (lit "Failed to submit vote"))), w1))) /\
   (forall looked w1,
      fetchWithRetry (lookupUrl fingerprint) lookupOptions 0 w = (looked, w1) ->
      (forall getResponse voters voter,
         looked = Normal getResponse -> ok getResponse = true ->
         response_json getResponse = Normal voters ->
         length_gt_zero voters = Normal true ->
         index_zero voters = Normal voter ->
         ensureVoter fingerprint w = (Normal voter, w1)) /\
      (forall getResponse,
         looked = Normal getResponse -> ok getResponse = true ->
         (exists e, response_json getResponse = Throw e) \/
         (exists voters e, response_json getResponse = Normal voters /\
                           length_gt_zero voters = Throw e) ->
         ensureVoter fingerprint w =
           (Throw (Api (Spec.networkError (lit "Failed to register voter"))), w1)) /\
      (forall e,
         looked = Throw (Raw e) ->
         ensureVoter fingerprint w =
           (Throw (Api (Spec.networkError (lit "Failed to register voter"))), w1)) /\
      (forall getResponse final w2,
         looked = Normal getResponse ->
         ok getResponse = false \/
         (exists voters, response_json getResponse = Normal voters /\
                         length_gt_zero voters = Normal false) ->
         fetchWithRetry (restUrl (lit "voters") []) (insertOptions fingerprint) 0 w1 =
           (final, w2) ->
         (forall createResponse voter,
            final = Normal createResponse -> ok createResponse = true ->
            bind (response_json createResponse) index_zero = Normal voter ->
            ensureVoter fingerprint w = (Normal voter, w2)) /\
         (forall createResponse,
            final = Normal createResponse -> ok createResponse = false ->
            ensureVoter fingerprint w =
              (Throw (Api (mapError (response_status createResponse)
                             (json_or_empty createResponse))), w2)) /\
         (forall createResponse e,
            final = Normal createResponse -> ok createResponse = true ->
            bind (response_json createResponse) index_zero = Throw e ->
            ensureVoter fingerprint w =
              (Throw (Api (Spec.networkError (lit "Failed to register voter"))), w2)) /\
         (forall e,
            final = Throw (Raw e) ->
            ensureVoter fingerprint w =
              (Throw (Api (Spec.networkError (lit "Failed to register voter"))), w2))))) /\
  (MOCK_MODE w = true ->
   fst (fetchCandidates w) = Normal (JRows (candidates (MOCK_DATA w))) /\
   fst (ensureVoter fingerprint w) =
     Normal (JRow (mockVoter toISOString fingerprint (now w + 200))) /\
   fst (submitVote voterId candidateId w) =
     match List.find (fun v => strict_eq (Get v (lit "voter_id")) voterId)
                     (votes (MOCK_DATA w)) with
     | Some _ => Throw (Api Spec.alreadyVoted)
     | None =>
         match List.find (fun c => strict_eq (Get c (lit "id")) candidateId)
                         (candidates (MOCK_DATA w)) with
         | None =>
             Throw (Api {| message := lit "Invalid candidate"; status := 422;
                           code := INVALID_DATA |})
         | Some _ =>
             Normal (JRow [ (lit "id", JNum (now w + 400)); (lit "voter_id", voterId);
                            (lit "candidate_id", candidateId);
                            (lit "created_at", JStr (toISOString (now w + 400))) ])
         end
     end).
Proof.
  split; [split; [| split] |].
  - unfold Api.fetchCandidates, bindM, get_world.
    destruct (MOCK_MODE w); [exact I | apply catch_only_ApiError].
  - unfold Api.ensureVoter, bindM, get_world.
    destruct (MOCK_MODE w); [| apply catch_only_ApiError].
    simpl. destruct (bool_decide _); exact I.
  - unfold Api.submitVote, bindM, get_world.
    destruct (MOCK_MODE w); [| apply catch_only_ApiError].
    simpl. destruct (find _ _); [exact I |]. destruct (find _ _); exact I.
  - split; [intros url options w0 e; apply fetchWithRetry_never_ApiError |].
    split.
    + intros Hmode. split; [| split].
      * intros final w1 Hf. rewrite (fetchCandidates_remote w Hmode), Hf.
        split; [| split; [| split]].
        -- intros response cs -> Hok Hjson. cbv beta iota. now rewrite Hok, Hjson.
        -- intros response -> Hok. cbv beta iota. now rewrite Hok.
        -- intros response e -> Hok Hjson. cbv beta iota. now rewrite Hok, Hjson.
        -- intros e ->. reflexivity.
      * intros final w1 Hf.
        rewrite (submitVote_remote voterId candidateId w Hmode). cbv zeta.
        unfold Spec.voteOptions in Hf. rewrite Hf.
        split; [| split; [| split]].
        -- intros response vote -> Hok Hread. cbv beta iota. now rewrite Hok, Hread.
        -- intros response -> Hok. cbv beta iota. now rewrite Hok.
        -- intros response e -> Hok Hread. cbv beta iota. now rewrite Hok, Hread.
        -- intros e ->. reflexivity.
      * intros looked w1 Hlook.
        split; [| split; [| split]].
        -- intros getResponse vs voter -> Hok Hjson Hlen Hidx.
           exact (ensureVoter_found fingerprint w getResponse w1 vs voter
                    Hmode Hlook Hok Hjson Hlen Hidx).
        -- intros getResponse -> Hok Hbad.
           exact (ensureVoter_lookup_unreadable fingerprint w getResponse w1
                    Hmode Hlook Hok Hbad).
        -- intros e ->. exact (ensureVoter_lookup_throws fingerprint w e w1 Hmode Hlook).
        -- intros getResponse final w2 -> Hnone Hf.
           rewrite (ensureVoter_inserts fingerprint w getResponse w1 Hmode Hlook Hnone), Hf.
           split; [| split; [| split]].
           ++ intros createResponse voter -> Hok Hread. cbv beta iota.
              now rewrite Hok, Hread.
           ++ intros createResponse -> Hok. cbv beta iota. now rewrite Hok.
           ++ intros createResponse e -> Hok Hread. cbv beta iota.
              now rewrite Hok, Hread.
           ++ intros e ->. reflexivity.
    + intros Hmode. split; [| split].
      * unfold Api.fetchCandidates, bindM, get_world. rewrite Hmode. reflexivity.
      * destruct (ensureVoter_mock fingerprint w Hmode) as (w1 & -> & _). reflexivity.
      * unfold Api.submitVote, bindM, get_world. rewrite Hmode. simpl.
        destruct (find _ (votes (MOCK_DATA w))); [reflexivity |].
        destruct (find _ (candidates (MOCK_DATA w))); reflexivity.
Qed.

End Generic.

(** C1. The code does not do what the claim says, nor what its own
    documentation promises ("Ensure voter exists in database (create if
    not exists)", returning the voter object). When another session
    inserts the same fingerprint between this client's lookup and its
    insert, the insert is rejected with status 409 and [ensureVoter]
    throws [ALREADY_VOTED] ("You have already voted") for a device that
    has not voted. The voter row exists in the store, but the client sent
    a lookup and an insert and nothing after them: it does not read the
    row again. *)
Lemma ensureVoter_race_throws_ALREADY_VOTED :
  let result :=
    Api.ensureVoter Store.backend Scenario.configured_url Scenario.configured_key
      Scenario.stamp (lit "abc") (Scenario.race (lit "abc")) in
  fst result = Throw (Api Spec.alreadyVoted) /\
  ~ (exists voter, fst result = Normal voter) /\
  List.map (fun row => Get row (lit "fingerprint"))
           (Store.voters_table (Store.db (net (snd result)))) = [JStr (lit "abc")] /\
  List.map (fun request => method (request_options request))
           (Spec.attempts (trace (snd result))) = [GET; POST].
Proof.
  cbv zeta.
  assert (H : fst (Api.ensureVoter Store.backend Scenario.configured_url
                     Scenario.configured_key Scenario.stamp (lit "abc")
                     (Scenario.race (lit "abc"))) = Throw (Api Spec.alreadyVoted))
    by (vm_compute; reflexivity).
  split; [exact H |]. split.
  - intros [voter Hv]. rewrite H in Hv. discriminate.
  - split; vm_compute; reflexivity.
Qed.

(** The race of two sessions, through the general statement. *)
Lemma ensureVoter_conflict_is_thrown_witness :
  fst (Api.ensureVoter Store.backend Scenario.configured_url Scenario.configured_key
         Scenario.stamp (lit "abc") (Scenario.race (lit "abc"))) =
  Throw (Api Spec.alreadyVoted).
Proof.
  pose (w1 := snd (Api.fetchWithRetry Store.backend Scenario.configured_key
                     (Spec.lookupUrl Scenario.configured_url (lit "abc"))
                     Spec.lookupOptions 0 (Scenario.race (lit "abc")))).
  pose (w2 := snd (Api.fetchWithRetry Store.backend Scenario.configured_key
                     (Api.restUrl Scenario.configured_url (lit "voters") [])
                     (Spec.insertOptions (lit "abc")) 0 w1)).
  destruct (ensureVoter_conflict_is_thrown Store.backend Scenario.configured_url
              Scenario.configured_key Scenario.stamp (lit "abc")
              (Scenario.race (lit "abc")) w1 w2
              (Store.respond 200 (JRows [])) Store.conflict) as [H _].
  - reflexivity.
  - vm_compute. reflexivity.
  - right. reflexivity.
  - vm_compute. reflexivity.
  - reflexivity.
  - rewrite H. reflexivity.
Defined.

(** C9, as stated, fails: against a server that answers 503,
    [submitVote] ends by throwing an [ApiError]; it returns no
    [{ success: false }] value. *)
Lemma submitVote_throws_instead_of_result :
  let outcome :=
    fst (Api.submitVote Scenario.always503 Scenario.configured_url Scenario.configured_key
           Scenario.stamp (JNum 7) (JNum 1) (Scenario.start tt)) in
  outcome =
    Throw (Api {| message := lit "Server error. Please try again"; status := 503;
                  code := SERVER_ERROR |}) /\
  ~ Spec.result_shape outcome.
Proof.
  cbv zeta.
  assert (H : fst (Api.submitVote Scenario.always503 Scenario.configured_url
                     Scenario.configured_key Scenario.stamp (JNum 7) (JNum 1)
                     (Scenario.start tt)) =
              Throw (Api {| message := lit "Server error. Please try again"; status := 503;
                            code := SERVER_ERROR |}))
    by (vm_compute; reflexivity).
  split; [exact H |].
  intros (o & b & Ho & _). rewrite H in Ho. discriminate.
Qed.

(** The 503 server, the dead network and the 422 server through the
    amended statement; and a registration in front of the empty store,
    which returns the new row. *)
Lemma failures_are_thrown_ApiErrors_witness :
  Spec.code_of_failure
    (fst (Api.submitVote Scenario.always503 Scenario.configured_url Scenario.configured_key
            Scenario.stamp (JNum 7) (JNum 1) (Scenario.start tt))) = Some SERVER_ERROR /\
  Spec.code_of_failure
    (fst (Api.submitVote Scenario.offline Scenario.configured_url Scenario.configured_key
            Scenario.stamp (JNum 7) (JNum 1) (Scenario.start tt))) = Some NETWORK_ERROR /\
  Spec.code_of_failure
    (fst (Api.fetchCandidates Scenario.always422 Scenario.configured_url
            Scenario.configured_key (Scenario.start tt))) = Some INVALID_DATA /\
  fst (Api.ensureVoter Store.backend Scenario.configured_url Scenario.configured_key
         Scenario.stamp (lit "abc") Scenario.alone) =
    Normal (JRow (Store.voter_row JNull (JStr (lit "abc")) Scenario.emptyDb)).
Proof.
  split; [| split; [| split]].
  - destruct (failures_are_thrown_ApiErrors Scenario.always503 Scenario.configured_url
                Scenario.configured_key Scenario.stamp (lit "abc") (JNum 7) (JNum 1)
                (Scenario.start tt)) as (_ & _ & H & _).
    destruct (H eq_refl) as (_ & Hvote & _).
    destruct (Hvote _ _ (surjective_pairing _)) as (_ & Hfail & _).
    rewrite (Hfail {| response_status := 503; response_json := Throw SyntaxError |});
      [reflexivity | vm_compute; reflexivity | reflexivity].
  - destruct (failures_are_thrown_ApiErrors Scenario.offline Scenario.configured_url
                Scenario.configured_key Scenario.stamp (lit "abc") (JNum 7) (JNum 1)
                (Scenario.start tt)) as (_ & _ & H & _).
    destruct (H eq_refl) as (_ & Hvote & _).
    destruct (Hvote _ _ (surjective_pairing _)) as (_ & _ & _ & Hdead).
    rewrite (Hdead TypeError); [reflexivity | vm_compute; reflexivity].
  - destruct (failures_are_thrown_ApiErrors Scenario.always422 Scenario.configured_url
                Scenario.configured_key Scenario.stamp (lit "abc") (JNum 7) (JNum 1)
                (Scenario.start tt)) as (_ & _ & H & _).
    destruct (H eq_refl) as (Hlist & _).
    destruct (Hlist _ _ (surjective_pairing _)) as (_ & Hfail & _).
    rewrite (Hfail {| response_status := 422;
                      response_json :=
                        Normal (JRow [(lit "message", JStr (lit "bad input"))]) |});
      [reflexivity | vm_compute; reflexivity | reflexivity].
  - destruct (failures_are_thrown_ApiErrors Store.backend Scenario.configured_url
                Scenario.configured_key Scenario.stamp (lit "abc") (JNum 7) (JNum 1)
                Scenario.alone) as (_ & _ & H & _).
    destruct (H eq_refl) as (_ & _ & Hvoter).
    destruct (Hvoter _ _ (surjective_pairing _)) as (_ & _ & _ & Hinsert).
    specialize (Hinsert (Store.respond 200 (JRows [])) _ _
                  ltac:(vm_compute; reflexivity)
                  ltac:(right; exists (JRows []); split; reflexivity)
                  (surjective_pairing _)).
    destruct Hinsert as (Hnew & _).
    rewrite (Hnew (Store.respond 201
                     (JRows [Store.voter_row JNull (JStr (lit "abc")) Scenario.emptyDb]))
                  (JRow (Store.voter_row JNull (JStr (lit "abc")) Scenario.emptyDb)));
      [reflexivity | vm_compute; reflexivity | reflexivity | reflexivity].
Defined.

(** Four attempts against the server that always answers 503 and against
    a dead network; one attempt against the server that answers 422. *)
Lemma retry_ceiling_witness :
  (exists response w',
     fetchWithRetry Scenario.always503 Scenario.configured_key
       Scenario.votesUrl Scenario.getOptions 0 (Scenario.start tt) = (Normal response, w') /\
     response_status response = 503 /\
     List.length (Spec.attempts (trace w')) = 4%nat) /\
  (exists e w',
     fetchWithRetry Scenario.offline Scenario.configured_key
       Scenario.votesUrl Scenario.getOptions 0 (Scenario.start tt) = (Throw (Raw e), w') /\
     List.length (Spec.attempts (trace w')) = 4%nat) /\
  (exists response w',
     fetchWithRetry Scenario.always422 Scenario.configured_key
       Scenario.votesUrl Scenario.getOptions 0 (Scenario.start tt) = (Normal response, w') /\
     List.length (Spec.attempts (trace w')) = 1%nat).
Proof.
  split; [| split].
  - destruct (retry_ceiling Scenario.always503 Scenario.configured_key
                Scenario.votesUrl Scenario.getOptions (Scenario.start tt))
      as (_ & H & _ & _).
    destruct H as (response & w' & Hf & Hs & Ht).
    + intros request n. eexists. exists n. reflexivity.
    + exists response, w'. split; [exact Hf |]. split; [exact Hs |].
      rewrite Ht. reflexivity.
  - destruct (retry_ceiling Scenario.offline Scenario.configured_key
                Scenario.votesUrl Scenario.getOptions (Scenario.start tt))
      as (_ & _ & H & _).
    destruct H as (e & w' & Hf & Ht).
    + intros request n. exists TypeError, n. reflexivity.
    + exists e, w'. split; [exact Hf |]. rewrite Ht. reflexivity.
  - destruct (retry_ceiling Scenario.always422 Scenario.configured_key
                Scenario.votesUrl Scenario.getOptions (Scenario.start tt))
      as (_ & _ & _ & H).
    destruct (H _ tt eq_refl) as (w' & Hf & Ht).
    + simpl. lia.
    + simpl. lia.
    + eexists. exists w'. split; [exact Hf |]. rewrite Ht. reflexivity.
Defined.

(** C6. The error mapper sends 409, 422, 429, 500, 503 and 404 to
    [ALREADY_VOTED], [INVALID_DATA], [RATE_LIMIT], [SERVER_ERROR],
    [SERVER_ERROR] and [UNKNOWN_ERROR]; 502 is a [SERVER_ERROR] too; every
    status outside the six named ones is an [UNKNOWN_ERROR] whose message
    is the message of the store's answer when there is a non-empty one,
    and a fixed text otherwise. The status is kept in every case. *)
Theorem mapError_table (status : Z) (data : Json) :
  code (mapError 409 data) = ALREADY_VOTED /\
  code (mapError 422 data) = INVALID_DATA /\
  code (mapError 429 data) = RATE_LIMIT /\
  code (mapError 500 data) = SERVER_ERROR /\
  code (mapError 502 data) = SERVER_ERROR /\
  code (mapError 503 data) = SERVER_ERROR /\
  code (mapError 404 data) = UNKNOWN_ERROR /\
  Api.status (mapError status data) = status /\
  (~ In status [409; 422; 429; 500; 502; 503] ->
   code (mapError status data) = UNKNOWN_ERROR /\
   message (mapError status data) =
     if truthy (data_message data) then ToString (data_message data)
     else lit "An error occurred").
Proof.
  repeat (split; [reflexivity |]).
  split.
  - unfold mapError.
    repeat match goal with |- context [if ?c then _ else _] => destruct c end; reflexivity.
  - intros Hout. unfold mapError.
    assert (Hs : (status =? 409) = false /\ (status =? 422) = false /\
                 (status =? 429) = false /\ (status =? 500) = false /\
                 (status =? 502) = false /\ (status =? 503) = false).
    { repeat split; apply Z.eqb_neq; intros ->; apply Hout; simpl; tauto. }
    destruct Hs as (-> & -> & -> & -> & -> & ->). simpl.
    split; [reflexivity |]. unfold js_or.
    destruct (truthy (data_message data)); reflexivity.
Qed.

(** Status 404 with the store's message, and without one. *)
Lemma mapError_table_witness :
  message (mapError 404 (JRow [(lit "message", JStr (lit "Not Found"))])) = lit "Not Found" /\
  message (mapError 404 (JRow [])) = lit "An error occurred".
Proof.
  split.
  - apply (mapError_table 404 (JRow [(lit "message", JStr (lit "Not Found"))])).
    simpl. intros H. repeat (destruct H as [H | H]; [discriminate H |]). exact H.
  - apply (mapError_table 404 (JRow [])).
    simpl. intros H. repeat (destruct H as [H | H]; [discriminate H |]). exact H.
Defined.

(** ** The operations in front of the store *)

Section StoreBacked.

Variable SUPABASE_CONFIG_url SUPABASE_CONFIG_anonKey : JsVal.
Variable toISOString : Z -> jsstring.

#[local] Abbreviation fetchWithRetry :=
  (Api.fetchWithRetry Store.backend SUPABASE_CONFIG_anonKey).
#[local] Abbreviation withHeaders := (Api.withHeaders SUPABASE_CONFIG_anonKey).
#[local] Abbreviation restUrl := (Api.restUrl SUPABASE_CONFIG_url).
#[local] Abbreviation lookupUrl := (Spec.lookupUrl SUPABASE_CONFIG_url).
#[local] Abbreviation ensureVoter :=
  (Api.ensureVoter Store.backend SUPABASE_CONFIG_url SUPABASE_CONFIG_anonKey toISOString).
#[local] Abbreviation submitVote :=
  (Api.submitVote Store.backend SUPABASE_CONFIG_url SUPABASE_CONFIG_anonKey toISOString).
#[local] Abbreviation byFingerprint f := (Store.has_value (lit "fingerprint") (JStr f)).
#[local] Abbreviation byVoter v := (Store.has_value (lit "voter_id") v).

(** The store answers with a success or a client error: never a status
    that is retried. *)
Lemma store_answers request d :
  clientError (fst (Store.serve request d)) = true \/ ok (fst (Store.serve request d)) = true.
Proof.
  unfold Store.serve, Store.insert_voter, Store.insert_vote. cbv zeta.
  repeat case_match; simpl; auto.
Qed.

(** So every call of [fetchWithRetry] is one request, and without other
    sessions the store moves by that request alone. *)
Lemma store_fetchWithRetry url options retryCount (w : World Store.Remote) :
  Store.others (net w) = [] ->
  fetchWithRetry url options retryCount w =
    (Normal (fst (Store.serve (withHeaders url options) (Store.db (net w)))),
     Api.fetched (withHeaders url options)
       {| Store.db := snd (Store.serve (withHeaders url options) (Store.db (net w)));
          Store.others := [] |} w).
Proof.
  intros Hquiet.
  apply fetchWithRetry_direct; [| apply store_answers].
  unfold Store.backend. rewrite Hquiet.
  destruct (Store.serve _ _). reflexivity.
Qed.

Lemma serve_lookup fingerprint d :
  Store.serve (withHeaders (lookupUrl fingerprint) Spec.lookupOptions) d =
    (Store.respond 200 (JRows (List.filter (byFingerprint fingerprint) (Store.voters_table d))),
     d).
Proof. reflexivity. Qed.

Lemma serve_insert_voter fingerprint d :
  Store.serve (withHeaders (restUrl (lit "voters") []) (Spec.insertOptions fingerprint)) d =
    if existsb (Store.same_voter (Store.default_election d) (JStr fingerprint))
               (Store.voters_table d)
    then (Store.conflict, d)
    else (Store.respond 201 (JRows [Store.newVoter fingerprint d]),
          Store.add_voter (Store.newVoter fingerprint d) d).
Proof. reflexivity. Qed.

Lemma serve_insert_vote voterId candidateId d :
  Store.serve (withHeaders (restUrl (lit "votes") []) (Spec.voteOptions voterId candidateId)) d =
    if existsb (byVoter voterId) (Store.votes_table d) then (Store.conflict, d)
    else (Store.respond 201 (JRows [Store.vote_row voterId candidateId d]),
          Store.add_vote (Store.vote_row voterId candidateId d) d).
Proof. reflexivity. Qed.

Lemma existsb_filter_nil {A} (f : A -> bool) l :
  List.filter f l = [] -> existsb f l = false.
Proof.
  induction l as [| x l IH]; simpl; [reflexivity |].
  destruct (f x); [discriminate | exact IH].
Qed.

(** Where no row has the fingerprint, no election has a voter with it. *)
Lemma no_fingerprint_no_voter election fingerprint rows :
  List.filter (byFingerprint fingerprint) rows = [] ->
  existsb (Store.same_voter election (JStr fingerprint)) rows = false.
Proof.
  induction rows as [| row rows IH]; simpl; [reflexivity |].
  unfold Store.same_voter at 1.
  destruct (byFingerprint fingerprint row); [discriminate |].
  rewrite andb_false_r. exact IH.
Qed.

(** A lookup that finds [voter] first returns it and leaves the store. *)
Lemma ensureVoter_existing fingerprint voter rest (w : World Store.Remote) :
  MOCK_MODE w = false ->
  Store.others (net w) = [] ->
  List.filter (byFingerprint fingerprint) (Store.voters_table (Store.db (net w))) =
    voter :: rest ->
  exists w1,
    ensureVoter fingerprint w = (Normal (JRow voter), w1) /\
    MOCK_MODE w1 = false /\
    net w1 = net w.
Proof.
  intros Hmode Hquiet Hfound.
  eexists. split; [| split].
  - eapply (ensureVoter_found Store.backend); [exact Hmode | | | | |].
    + rewrite (store_fetchWithRetry _ _ _ w Hquiet), serve_lookup, Hfound. reflexivity.
    + reflexivity.
    + reflexivity.
    + reflexivity.
    + reflexivity.
  - exact Hmode.
  - simpl. destruct (net w) as [d o]. simpl in *. now subst o.
Qed.

(** A lookup that finds nothing is followed by the insert, which the
    store accepts: the new row is filed under the default of the store. *)
Lemma ensureVoter_fresh fingerprint (w : World Store.Remote) :
  MOCK_MODE w = false ->
  Store.others (net w) = [] ->
  List.filter (byFingerprint fingerprint) (Store.voters_table (Store.db (net w))) = [] ->
  exists w1,
    ensureVoter fingerprint w =
      (Normal (JRow (Store.newVoter fingerprint (Store.db (net w)))), w1) /\
    MOCK_MODE w1 = false /\
    net w1 =
      {| Store.db := Store.add_voter (Store.newVoter fingerprint (Store.db (net w)))
                       (Store.db (net w));
         Store.others := [] |} /\
    Spec.attempts (trace w1) =
      Spec.attempts (trace w) ++
      [ withHeaders (lookupUrl fingerprint) Spec.lookupOptions;
        withHeaders (restUrl (lit "voters") []) (Spec.insertOptions fingerprint) ].
Proof.
  intros Hmode Hquiet Hnone.
  eexists. split; [| split; [| split]].
  - rewrite (ensureVoter_not_found Store.backend SUPABASE_CONFIG_url SUPABASE_CONFIG_anonKey
               toISOString fingerprint w _ _ Hmode
               (store_fetchWithRetry _ _ _ w Hquiet)).
    + rewrite store_fetchWithRetry by reflexivity.
      cbn [net Api.fetched Store.db].
      rewrite !serve_lookup. cbn [fst snd].
      rewrite serve_insert_voter, (no_fingerprint_no_voter _ _ _ Hnone).
      reflexivity.
    + right. rewrite serve_lookup, Hnone. reflexivity.
  - exact Hmode.
  - reflexivity.
  - cbn [trace Api.fetched]. rewrite !attempts_app, <- app_assoc. reflexivity.
Qed.

(** C2, amended. [ensureVoter] takes the fingerprint only: it looks the
    voter up by fingerprint, whatever the election of the row, and the
    insert it sends names no election. Outside mock mode and with no
    other session between the calls, for every state of the store, two
    calls in sequence return the same voter row - hence the same id -,
    which is the first row of the store with that fingerprint, and the
    second call leaves the store as the first one left it. Where the
    store held no row with the fingerprint, the first call sends the
    lookup and the insert [{ fingerprint }], the store appends exactly
    one row, filed under its default, and then holds exactly that one
    row with the fingerprint; where it held some, the store is not
    touched at all, so every pair of election and fingerprint keeps the
    rows it had - none, for an election the fingerprint was not
    registered in. *)
Theorem ensureVoter_idempotent (fingerprint : jsstring) (w : World Store.Remote) :
  MOCK_MODE w = false ->
  Store.others (net w) = [] ->
  let before := Store.voters_table (Store.db (net w)) in
  exists voter w1 w2,
    ensureVoter fingerprint w = (Normal (JRow voter), w1) /\
    ensureVoter fingerprint w1 = (Normal (JRow voter), w2) /\
    Get voter (lit "fingerprint") = JStr fingerprint /\
    net w2 = net w1 /\
    List.head (List.filter (byFingerprint fingerprint)
                           (Store.voters_table (Store.db (net w2)))) = Some voter /\
    List.length (List.filter (byFingerprint fingerprint)
                             (Store.voters_table (Store.db (net w2)))) =
      Nat.max 1 (List.length (List.filter (byFingerprint fingerprint) before)) /\
    (List.filter (byFingerprint fingerprint) before = [] ->
       voter = Store.newVoter fingerprint (Store.db (net w)) /\
       Store.voters_table (Store.db (net w1)) = before ++ [voter] /\
       Spec.attempts (trace w1) =
         Spec.attempts (trace w) ++
         [ withHeaders (lookupUrl fingerprint) Spec.lookupOptions;
           withHeaders (restUrl (lit "voters") []) (Spec.insertOptions fingerprint) ]) /\
    (List.filter (byFingerprint fingerprint) before <> [] ->
       net w1 = net w /\
       forall election,
         Store.voters_for election fingerprint (Store.db (net w2)) =
         Store.voters_for election fingerprint (Store.db (net w))).
Proof.
  intros Hmode Hquiet. cbv zeta.
  destruct (List.filter (byFingerprint fingerprint) (Store.voters_table (Store.db (net w))))
    as [| voter rest] eqn:Hrows.
  - destruct (ensureVoter_fresh fingerprint w Hmode Hquiet Hrows)
      as (w1 & H1 & Hmode1 & Hnet1 & Hsent).
    assert (Hrows1 : List.filter (byFingerprint fingerprint)
                       (Store.voters_table (Store.db (net w1))) =
                     [Store.newVoter fingerprint (Store.db (net w))]).
    { rewrite Hnet1. cbn [Store.db Store.add_voter Store.voters_table].
      rewrite List.filter_app, Hrows. cbn [List.filter app].
      unfold Store.has_value, Store.newVoter, Store.voter_row.
      change (Get _ (lit "fingerprint")) with (JStr fingerprint).
      now rewrite JsFacts.strict_eq_refl. }
    destruct (ensureVoter_existing fingerprint _ _ w1 Hmode1 ltac:(now rewrite Hnet1) Hrows1)
      as (w2 & H2 & _ & Hnet2).
    exists (Store.newVoter fingerprint (Store.db (net w))), w1, w2.
    split; [exact H1 |]. split; [exact H2 |]. split; [reflexivity |].
    split; [exact Hnet2 |]. rewrite Hnet2, Hrows1.
    split; [reflexivity |]. split; [reflexivity |].
    split; [| intros Hsome; now contradiction Hsome].
    intros _. split; [reflexivity |]. rewrite Hnet1. split; [reflexivity | exact Hsent].
  - destruct (ensureVoter_existing fingerprint _ _ w Hmode Hquiet Hrows)
      as (w1 & H1 & Hmode1 & Hnet1).
    assert (Hrows1 : List.filter (byFingerprint fingerprint)
                       (Store.voters_table (Store.db (net w1))) = voter :: rest)
      by now rewrite Hnet1.
    destruct (ensureVoter_existing fingerprint _ _ w1 Hmode1 ltac:(now rewrite Hnet1) Hrows1)
      as (w2 & H2 & _ & Hnet2).
    exists voter, w1, w2.
    split; [exact H1 |]. split; [exact H2 |]. split.
    { assert (Hin : In voter (List.filter (byFingerprint fingerprint)
                                 (Store.voters_table (Store.db (net w)))))
        by (rewrite Hrows; now left).
      apply List.filter_In in Hin as [_ Hv].
      now apply JsFacts.strict_eq_JStr. }
    split; [exact Hnet2 |]. rewrite Hnet2, Hrows1.
    split; [reflexivity |]. split; [simpl; lia |].
    split; [intros Hnone; discriminate Hnone |].
    intros _. split; [exact Hnet1 |]. intros election. now rewrite Hnet1.
Qed.

(** C3. Outside mock mode and with no other session between the calls,
    for every voter id (a number or a string) and every state of the
    store in which that voter has not voted, the
    first [submitVote] stores exactly one vote, the voter's, and the
    second one is answered with [ALREADY_VOTED] and leaves the stored
    votes as they were. Each call sends one request, the insert; and
    against any backend whatever, every request [submitVote] sends is
    that insert: nothing is read before it. *)
Theorem submitVote_duplicate_rejected
  (voterId candidateId candidateId' : JsVal) (w : World Store.Remote) :
  MOCK_MODE w = false ->
  Store.others (net w) = [] ->
  Spec.is_id voterId ->
  existsb (byVoter voterId) (Store.votes_table (Store.db (net w))) = false ->
  (exists vote w1 w2,
     submitVote voterId candidateId w = (Normal (JRow vote), w1) /\
     Store.votes_table (Store.db (net w1)) = Store.votes_table (Store.db (net w)) ++ [vote] /\
     Get vote (lit "voter_id") = voterId /\
     submitVote voterId candidateId' w1 = (Throw (Api Spec.alreadyVoted), w2) /\
     net w2 = net w1 /\
     Spec.attempts (trace w1) =
       Spec.attempts (trace w) ++
       [withHeaders (restUrl (lit "votes") []) (Spec.voteOptions voterId candidateId)] /\
     Spec.attempts (trace w2) =
       Spec.attempts (trace w1) ++
       [withHeaders (restUrl (lit "votes") []) (Spec.voteOptions voterId candidateId')]) /\
  (forall Net (backend : Request -> Net -> Completion JsError Response * Net) (w : World Net),
     MOCK_MODE w = false ->
     exists t,
       Spec.extends w
         (snd (Api.submitVote backend SUPABASE_CONFIG_url SUPABASE_CONFIG_anonKey toISOString
                 voterId candidateId w)) t /\
       Forall (eq (withHeaders (restUrl (lit "votes") [])
                     (Spec.voteOptions voterId candidateId)))
              (Spec.attempts t) /\
       Spec.attempts t <> []).
Proof.
  intros Hmode Hquiet _ Hnew. split.
  - set (vote := Store.vote_row voterId candidateId (Store.db (net w))).
    set (d1 := Store.add_vote vote (Store.db (net w))).
    set (w1 := Api.fetched
                 (withHeaders (restUrl (lit "votes") []) (Spec.voteOptions voterId candidateId))
                 {| Store.db := d1; Store.others := [] |} w).
    set (w2 := Api.fetched
                 (withHeaders (restUrl (lit "votes") []) (Spec.voteOptions voterId candidateId'))
                 {| Store.db := d1; Store.others := [] |} w1).
    assert (Hagain : existsb (byVoter voterId) (Store.votes_table d1) = true).
    { unfold d1. cbn [Store.add_vote Store.votes_table].
      rewrite existsb_app, Hnew. cbn [existsb orb].
      unfold Store.has_value, vote, Store.vote_row.
      change (Get _ (lit "voter_id")) with voterId.
      now rewrite JsFacts.strict_eq_refl. }
    exists vote, w1, w2.
    split; [| split; [| split; [| split; [| split; [| split]]]]].
    + rewrite (submitVote_remote Store.backend _ _ _ voterId candidateId w Hmode). cbv zeta.
      change {| method := POST;
                body := Some [(lit "voter_id", voterId); (lit "candidate_id", candidateId)];
                headers := [] |} with (Spec.voteOptions voterId candidateId).
      rewrite (store_fetchWithRetry _ _ _ w Hquiet), serve_insert_vote, Hnew. reflexivity.
    + reflexivity.
    + reflexivity.
    + rewrite (submitVote_remote Store.backend _ _ _ voterId candidateId' w1 Hmode). cbv zeta.
      change {| method := POST;
                body := Some [(lit "voter_id", voterId); (lit "candidate_id", candidateId')];
                headers := [] |} with (Spec.voteOptions voterId candidateId').
      rewrite (store_fetchWithRetry _ _ _ w1 eq_refl), serve_insert_vote.
      cbn [net w1 Api.fetched Store.db]. rewrite Hagain. reflexivity.
    + reflexivity.
    + unfold w1. cbn [trace Api.fetched]. rewrite attempts_app. reflexivity.
    + unfold w2. cbn [trace Api.fetched]. rewrite attempts_app. reflexivity.
  - intros Net backend w0 Hmode0.
    apply (submitVote_requests backend SUPABASE_CONFIG_url SUPABASE_CONFIG_anonKey
             toISOString voterId candidateId w0 Hmode0).
Qed.

End StoreBacked.

(** Registration twice in front of the empty store: one row. *)
Lemma ensureVoter_idempotent_witness :
  exists voter w1 w2,
    Api.ensureVoter Store.backend Scenario.configured_url Scenario.configured_key
      Scenario.stamp (lit "abc") Scenario.alone = (Normal (JRow voter), w1) /\
    Api.ensureVoter Store.backend Scenario.configured_url Scenario.configured_key
      Scenario.stamp (lit "abc") w1 = (Normal (JRow voter), w2) /\
    net w2 = net w1 /\
    Store.voters_table (Store.db (net w2)) = [voter] /\
    Get voter (lit "fingerprint") = JStr (lit "abc").
Proof.
  destruct (ensureVoter_idempotent Scenario.configured_url Scenario.configured_key
              Scenario.stamp (lit "abc") Scenario.alone)
    as (voter & w1 & w2 & H1 & H2 & Hf & Hnet & _ & _ & Hfresh & _).
  - reflexivity.
  - reflexivity.
  - destruct (Hfresh eq_refl) as (Hvoter & Htable & _).
    exists voter, w1, w2. split; [exact H1 |]. split; [exact H2 |].
    split; [exact Hnet |]. rewrite Hnet, Htable. split; [reflexivity | exact Hf].
Defined.

(** C2, as stated, fails: [ensureVoter] has no election among its
    parameters and filters the voters on the fingerprint alone. In front
    of a store that holds the fingerprint [abc] for the election [e1]
    only, and that would file a new voter under [e2], two calls made on
    behalf of the pair [(e2, abc)] both return the row of [e1] - the same
    id, and the store is left as it was -, and the store holds no row
    for the pair [(e2, abc)], not exactly one. *)
Lemma ensureVoter_ignores_election :
  let call :=
    Api.ensureVoter Store.backend Scenario.configured_url Scenario.configured_key
      Scenario.stamp (lit "abc") in
  let first := call Scenario.returning in
  let second := call (snd first) in
  exists voter,
    fst first = Normal (JRow voter) /\
    fst second = Normal (JRow voter) /\
    Get voter (lit "id") = JNum 1 /\
    Get voter (lit "election_id") = JStr (lit "e1") /\
    Store.db (net (snd second)) = Scenario.registeredElsewhere /\
    Store.voters_for (JStr (lit "e2")) (lit "abc") (Store.db (net (snd second))) = [] /\
    List.length (Store.voters_for (JStr (lit "e2")) (lit "abc")
                                  (Store.db (net (snd second)))) <> 1%nat.
Proof.
  cbv zeta. eexists.
  split; [vm_compute; reflexivity |].
  split; [vm_compute; reflexivity |].
  split; [reflexivity |]. split; [reflexivity |].
  split; [vm_compute; reflexivity |].
  split; [vm_compute; reflexivity |].
  vm_compute. discriminate.
Qed.

(** Voter 7 votes for candidate 1, then for candidate 2. *)
Lemma submitVote_duplicate_rejected_witness :
  exists vote w1 w2,
    Api.submitVote Store.backend Scenario.configured_url Scenario.configured_key
      Scenario.stamp (JNum 7) (JNum 1) Scenario.alone = (Normal (JRow vote), w1) /\
    Api.submitVote Store.backend Scenario.configured_url Scenario.configured_key
      Scenario.stamp (JNum 7) (JNum 2) w1 = (Throw (Api Spec.alreadyVoted), w2) /\
    Store.votes_table (Store.db (net w2)) = [vote].
Proof.
  destruct (submitVote_duplicate_rejected Scenario.configured_url Scenario.configured_key
              Scenario.stamp (JNum 7) (JNum 1) (JNum 2) Scenario.alone)
    as [(vote & w1 & w2 & H1 & Hv & _ & H2 & Hnet & _) _].
  - reflexivity.
  - reflexivity.
  - exact I.
  - reflexivity.
  - exists vote, w1, w2. split; [exact H1 |]. split; [exact H2 |].
    rewrite Hnet, Hv. reflexivity.
Defined.

End ApiFacts.

(* ===================================================================== *)
(** * Properties of the admin API                                          *)
(* ===================================================================== *)

Module AdminFacts.
Import Admin.

Lemma snd_run {Db} (supabase : Query -> Db -> Completion QueryError QueryResult * Db) q d :
  snd (run supabase q d) = snd (supabase q d).
Proof.
  unfold run. destruct (supabase q d) as [[r | e] d']; simpl; [| reflexivity].
  destruct (error r); reflexivity.
Qed.

Lemma Get_set_prop_same o k v : Get (set_prop o k v) k = v.
Proof.
  induction o as [| [k' v'] o IH]; simpl.
  - now rewrite bool_decide_eq_true_2.
  - destruct (bool_decide (k' = k)) eqn:E; simpl.
    + now rewrite bool_decide_eq_true_2.
    + now rewrite E.
Qed.

Lemma Get_set_prop_other o k v k' : k <> k' -> Get (set_prop o k v) k' = Get o k'.
Proof.
  intros Hne. induction o as [| [k0 v0] o IH]; simpl.
  - now rewrite bool_decide_eq_false_2.
  - destruct (bool_decide (k0 = k)) eqn:E; simpl.
    + apply bool_decide_eq_true_1 in E. subst k0.
      now rewrite !bool_decide_eq_false_2.
    + destruct (bool_decide (k0 = k')); [reflexivity | exact IH].
Qed.

Lemma matches_id_JNum n electionId row :
  Get row (lit "id") = JNum n -> matches (lit "id") electionId row = true ->
  electionId = JNum n.
Proof.
  unfold matches. intros ->. destruct electionId; simpl; try discriminate.
  intros H. apply Z.eqb_eq in H. now subst.
Qed.

Lemma store_insert_election row t :
  store (Insert (lit "elections") [row]) t =
    (Normal (single [set_prop row (lit "id") (JNum (serial t))]),
     {| elections := elections t ++ [set_prop row (lit "id") (JNum (serial t))];
        candidates := candidates t; serial := serial t + 1 |}).
Proof. reflexivity. Qed.

(** Toggling rewrites [is_open] and nothing else of an election. *)
Lemma toggled_row row isOpen :
  Get (patch row [(lit "is_open", isOpen)]) (lit "is_open") = isOpen /\
  Get (patch row [(lit "is_open", isOpen)]) (lit "id") = Get row (lit "id").
Proof.
  unfold patch. simpl. split.
  - apply Get_set_prop_same.
  - apply Get_set_prop_other. discriminate.
Qed.

(** What each call does to the table of elections. *)
Lemma elections_after_call c t :
  (exists electionData,
     c = CreateElection electionData /\
     elections (snd (call store c t)) =
       elections t ++ [set_prop (newElection electionData) (lit "id") (JNum (serial t))] /\
     serial (snd (call store c t)) = serial t + 1) \/
  (exists electionId isOpen,
     c = ToggleElectionStatus electionId isOpen /\
     elections (snd (call store c t)) =
       patch_matching (lit "id") electionId [(lit "is_open", isOpen)] (elections t) /\
     serial (snd (call store c t)) = serial t) \/
  (elections (snd (call store c t)) = elections t /\
   serial t <= serial (snd (call store c t)) /\
   forall n, not_toggle_of n c).
Proof.
  destruct c as [electionData | electionId isOpen | electionId | electionId candidateData
                 | candidateId updates]; cbn [call];
    unfold createElection, toggleElectionStatus, getElectionStatus, createCandidate,
      updateCandidate; rewrite snd_run.
  - left. exists electionData. repeat split.
  - right. left. exists electionId, isOpen. repeat split.
  - right. right. repeat split. simpl. lia.
  - right. right. repeat split. simpl. lia.
  - right. right. repeat split. simpl. lia.
Qed.

(** A closed, stored election stays so under every call that is not a
    toggle of it. *)
Lemma closed_preserved n c t :
  not_toggle_of n c ->
  session (JNum n) (JBool false) t /\ stored (JNum n) t /\ n < serial t /\ ids_below_serial t ->
  session (JNum n) (JBool false) (snd (call store c t)) /\
  stored (JNum n) (snd (call store c t)) /\
  n < serial (snd (call store c t)) /\
  ids_below_serial (snd (call store c t)).
Proof.
  intros Hc (Hclosed & (r0 & Hr0 & Hm0) & Hn & Hids).
  destruct (elections_after_call c t)
    as [(electionData & -> & He & Hs) | [(electionId & isOpen & -> & He & Hs) | (He & Hs & _)]].
  - repeat split.
    + intros row Hin Hm. rewrite He in Hin. apply in_app_or in Hin as [Hin | [<- | []]].
      * now apply Hclosed.
      * exfalso.
        pose proof (matches_id_JNum (serial t) (JNum n) _
                      (Get_set_prop_same _ _ _) Hm) as E.
        injection E as E. lia.
    + exists r0. split; [rewrite He; apply in_or_app; now left | exact Hm0].
    + lia.
    + intros row m Hin Hid. rewrite He in Hin. apply in_app_or in Hin as [Hin | [<- | []]].
      * specialize (Hids row m Hin Hid). lia.
      * rewrite Get_set_prop_same in Hid. injection Hid as <-. lia.
  - simpl in Hc.
    assert (Hkeep : forall row m, Get row (lit "id") = JNum m ->
                                  matches (lit "id") electionId row = true -> m <> n).
    { intros row m Hid Hm ->. apply Hc. eapply matches_id_JNum; eassumption. }
    repeat split.
    + intros row Hin Hm. rewrite He in Hin. unfold patch_matching in Hin.
      apply in_map_iff in Hin as (row0 & <- & Hin0).
      destruct (matches (lit "id") electionId row0) eqn:Hm1.
      * exfalso.
        destruct (toggled_row row0 isOpen) as [_ Hid].
        unfold matches in Hm. rewrite Hid in Hm.
        unfold matches in Hm1.
        destruct (Get row0 (lit "id")) eqn:Hg; simpl in Hm; try discriminate.
        apply Z.eqb_eq in Hm. subst n0.
        apply (Hkeep row0 n); [exact Hg | | reflexivity].
        unfold matches. now rewrite Hg.
      * now apply Hclosed.
    + exists r0. split; [| exact Hm0].
      rewrite He. unfold patch_matching. apply in_map_iff. exists r0. split; [| exact Hr0].
      destruct (matches (lit "id") electionId r0) eqn:Hm1; [| reflexivity].
      exfalso. unfold matches in Hm0.
      destruct (Get r0 (lit "id")) eqn:Hg; simpl in Hm0; try discriminate.
      apply Z.eqb_eq in Hm0. subst n0.
      now apply (Hkeep r0 n).
    + lia.
    + intros row m Hin Hid. rewrite He in Hin. unfold patch_matching in Hin.
      apply in_map_iff in Hin as (row0 & <- & Hin0). rewrite Hs.
      destruct (matches (lit "id") electionId row0).
      * destruct (toggled_row row0 isOpen) as [_ Hsame]. rewrite Hsame in Hid.
        exact (Hids row0 m Hin0 Hid).
      * exact (Hids row0 m Hin0 Hid).
  - repeat split.
    + intros row Hin Hm. rewrite He in Hin. now apply Hclosed.
    + exists r0. split; [now rewrite He | exact Hm0].
    + lia.
    + intros row m Hin Hid. rewrite He in Hin. specialize (Hids row m Hin Hid). lia.
Qed.

Lemma closed_preserved_calls n cs : forall t,
  Forall (not_toggle_of n) cs ->
  session (JNum n) (JBool false) t /\ stored (JNum n) t /\ n < serial t /\ ids_below_serial t ->
  session (JNum n) (JBool false) (calls store cs t) /\
  stored (JNum n) (calls store cs t) /\
  n < serial (calls store cs t) /\
  ids_below_serial (calls store cs t).
Proof.
  induction cs as [| c cs IH]; intros t Hcs Hinv; [exact Hinv |].
  apply Forall_cons in Hcs as [Hc Hcs].
  unfold calls. simpl. apply IH; [exact Hcs |].
  now apply closed_preserved.
Qed.

(** C10. For every [electionData], whatever title, description or
    [is_open] it supplies, the row that [createElection] hands to the
    insert has [is_open] equal to [false]; the stored election is thus
    closed, it stays closed under every later sequence of admin calls
    that does not toggle it, and [toggleElectionStatus] on it sets the
    flag it is given. *)
Theorem createElection_inserts_closed
  (electionData : JsObject) (t : Tables) (later : list Call) (isOpen : JsVal) :
  ids_below_serial t ->
  Forall (not_toggle_of (serial t)) later ->
  Get (newElection electionData) (lit "is_open") = JBool false /\
  (forall Db (supabase : Query -> Db -> Completion QueryError QueryResult * Db) d,
     createElection supabase electionData d =
       run supabase (Insert (lit "elections") [newElection electionData]) d) /\
  (exists row,
     fst (createElection store electionData t) =
       {| success := true; outcome_data := Some row; outcome_error := None |} /\
     Get row (lit "id") = JNum (serial t) /\
     Get row (lit "is_open") = JBool false /\
     elections (snd (createElection store electionData t)) = elections t ++ [row]) /\
  session (JNum (serial t)) (JBool false)
    (calls store later (snd (createElection store electionData t))) /\
  stored (JNum (serial t)) (calls store later (snd (createElection store electionData t))) /\
  session (JNum (serial t)) isOpen
    (snd (toggleElectionStatus store (JNum (serial t)) isOpen
            (calls store later (snd (createElection store electionData t))))).
Proof.
  intros Hids Hlater.
  split; [reflexivity |]. split; [reflexivity |].
  split.
  { exists (set_prop (newElection electionData) (lit "id") (JNum (serial t))).
    repeat split. }
  assert (Hinv : session (JNum (serial t)) (JBool false)
                   (snd (createElection store electionData t)) /\
                 stored (JNum (serial t)) (snd (createElection store electionData t)) /\
                 serial t < serial (snd (createElection store electionData t)) /\
                 ids_below_serial (snd (createElection store electionData t))).
  { unfold createElection, createElectionQuery.
    rewrite snd_run, store_insert_election.
    unfold session, stored, ids_below_serial. cbn [snd elections serial]. repeat split.
    - intros row Hin Hm. apply in_app_or in Hin as [Hin | [<- | []]].
      + exfalso. unfold matches in Hm.
        destruct (Get row (lit "id")) eqn:Hg; simpl in Hm; try discriminate.
        apply Z.eqb_eq in Hm. subst n.
        specialize (Hids row (serial t) Hin Hg). lia.
      + reflexivity.
    - eexists. split; [apply in_or_app; right; now left |].
      unfold matches. rewrite Get_set_prop_same. apply JsFacts.strict_eq_refl.
    - lia.
    - intros row m Hin Hid.
      apply in_app_or in Hin as [Hin | [<- | []]].
      + specialize (Hids row m Hin Hid). lia.
      + rewrite Get_set_prop_same in Hid. injection Hid as <-. lia. }
  destruct (closed_preserved_calls (serial t) later _ Hlater Hinv) as (Hclosed & Hstored & _).
  split; [exact Hclosed |]. split; [exact Hstored |].
  intros row Hin Hm.
  unfold toggleElectionStatus in Hin. rewrite snd_run in Hin. simpl in Hin.
  unfold patch_matching in Hin. apply in_map_iff in Hin as (row0 & <- & Hin0).
  destruct (toggled_row row0 isOpen) as [Hflag Hid].
  destruct (matches (lit "id") (JNum (serial t)) row0) eqn:Hm0; [exact Hflag |].
  unfold matches in Hm, Hm0. congruence.
Qed.

(** An election whose data ask for [is_open: true], created in an empty
    database, after a later creation and a look at its status. *)
Lemma createElection_inserts_closed_witness :
  session (JNum 1) (JBool false)
    (calls store [CreateElection Scenario.eagerElection; GetElectionStatus (JNum 1)]
       (snd (createElection store Scenario.eagerElection Scenario.noElections))) /\
  stored (JNum 1)
    (calls store [CreateElection Scenario.eagerElection; GetElectionStatus (JNum 1)]
       (snd (createElection store Scenario.eagerElection Scenario.noElections))).
Proof.
  destruct (createElection_inserts_closed Scenario.eagerElection Scenario.noElections
              [CreateElection Scenario.eagerElection; GetElectionStatus (JNum 1)]
              (JBool true))
    as (_ & _ & _ & Hclosed & Hstored & _).
  - intros row n [].
  - repeat constructor.
  - split; [exact Hclosed | exact Hstored].
Defined.

End AdminFacts.

(* ===================================================================== *)
(** * Further properties of the fingerprint module                         *)
(* ===================================================================== *)

Module FingerprintMore.
Import Fingerprint JsFacts FingerprintFacts.

Lemma collectSignals_reads_minimal env signals :
  collectSignals env = Normal signals -> Notions.minimal_probes_settle env.
Proof.
  unfold collectSignals, Notions.minimal_probes_settle. intros H.
  probe_in H (navigator_userAgent env). probe_in H (navigator_language env).
  probe_in H (navigator_languages env). probe_in H (navigator_platform env).
  probe_in H (navigator_hardwareConcurrency env). probe_in H (navigator_deviceMemory env).
  probe_in H (navigator_maxTouchPoints env). probe_in H (screen_width env).
  probe_in H (screen_height env). probe_in H (screen_colorDepth env).
  probe_in H (screen_pixelDepth env). probe_in H (screen_availWidth env).
  probe_in H (screen_availHeight env). probe_in H (Intl_timeZone env).
  probe_in H (Date_getTimezoneOffset env).
  repeat split.
Qed.

Lemma minimalSignals_settles env :
  Notions.minimal_probes_settle env <-> exists m, minimalSignals env = Normal m.
Proof.
  unfold Notions.minimal_probes_settle, Spec.settles, minimalSignals. split.
  - intros (H1 & H2 & H3 & H4 & H5 & H6).
    settle (navigator_userAgent env). settle (navigator_language env).
    settle (navigator_platform env). settle (screen_width env).
    settle (screen_height env). settle (Date_getTimezoneOffset env).
    cbn [bind]. eauto.
  - intros [m H].
    probe_in H (navigator_userAgent env). probe_in H (navigator_language env).
    probe_in H (navigator_platform env). probe_in H (screen_width env).
    probe_in H (screen_height env). probe_in H (Date_getTimezoneOffset env).
    repeat split.
Qed.

(** [generateHashedFingerprint] returns exactly when the minimal reads
    settle. *)
Lemma generateHashedFingerprint_returns (env : BrowserEnv) :
  Notions.minimal_probes_settle env <->
  exists fingerprint, generateHashedFingerprint env = Normal fingerprint.
Proof.
  split.
  - intros Hmin. destruct (collectSignals env) as [signals | e] eqn:Hc.
    + rewrite (generateHashedFingerprint_collected env signals Hc).
      apply hashSignals_never_throws.
    + rewrite (generateHashedFingerprint_fallback env e Hc).
      apply minimalSignals_settles in Hmin as [m ->]. simpl. eauto.
  - intros [f Hf]. destruct (collectSignals env) as [signals | e] eqn:Hc.
    + exact (collectSignals_reads_minimal env signals Hc).
    + rewrite (generateHashedFingerprint_fallback env e Hc) in Hf.
      apply minimalSignals_settles.
      destruct (minimalSignals env) as [m |]; [eauto | discriminate].
Qed.

(** X1. [generateHashedFingerprint] returns a fingerprint exactly when
    the six reads of the minimal signal set (user agent, language,
    platform, screen width and height, time zone offset) do not throw:
    every other failure, of a probe or of the digest, is absorbed. *)
Theorem generateHashedFingerprint_returns_iff (env : BrowserEnv) :
  Notions.minimal_probes_settle env <->
  exists fingerprint, generateHashedFingerprint env = Normal fingerprint.
Proof. exact (generateHashedFingerprint_returns env). Qed.

Lemma fallbackHash_nonempty str : (1 <= List.length (fallbackHash str))%nat.
Proof.
  rewrite fallbackHash_unfold. unfold numberToString.
  destruct (Z.abs (Spec.rolling_hash str) <? 0); simpl; [lia |].
  pose proof (digits_nonempty 36 (Z.abs (Spec.rolling_hash str))) as Hne.
  destruct (digits 36 _); [congruence | simpl; lia].
Qed.

(** X2. With a digest primitive that answers with 32 bytes, a
    fingerprint returned by [generateHashedFingerprint] has one of two
    forms: 64 lowercase hexadecimal digits (signals collected and
    digest computed), or the output of [fallbackHash], 1 to 6
    characters long (digest failed, or collection failed). *)
Theorem fingerprint_has_two_forms (env : BrowserEnv) (fingerprint : jsstring) :
  Notions.digest_is_sha256 env ->
  generateHashedFingerprint env = Normal fingerprint ->
  (List.length fingerprint = 64%nat /\ Forall Spec.isLowerHex fingerprint /\
   exists signals, collectSignals env = Normal signals) \/
  ((1 <= List.length fingerprint <= 6)%nat /\
   exists str, fingerprint = fallbackHash str).
Proof.
  intros Hsha Hf. destruct (collectSignals env) as [signals | e] eqn:Hc.
  - rewrite (generateHashedFingerprint_collected env signals Hc) in Hf.
    unfold hashSignals, sha256Hash in Hf. cbv zeta in Hf.
    destruct (crypto_digest env _) as [hashArray | e] eqn:Hd; simpl in Hf;
      injection Hf as <-.
    + left. destruct (Hsha _ _ Hd) as [Hlen Hbytes].
      destruct (hexOfBytes_form hashArray Hbytes) as [Hl Hhex].
      split; [rewrite Hl, Hlen; reflexivity |]. split; [exact Hhex | eauto].
    + right. split; [split; [apply fallbackHash_nonempty | apply fallbackHash_length] |].
      eauto.
  - rewrite (generateHashedFingerprint_fallback env e Hc) in Hf.
    destruct (minimalSignals env) as [m |]; [| discriminate].
    simpl in Hf. injection Hf as <-.
    right. split; [split; [apply fallbackHash_nonempty | apply fallbackHash_length] |].
    eauto.
Qed.

(** The desktop browser with a digest: 64 hexadecimal digits. *)
Lemma fingerprint_has_two_forms_witness :
  exists fingerprint,
    generateHashedFingerprint (Notions.with_digest Notions.lengthDigest Scenario.desktop) =
      Normal fingerprint /\
    List.length fingerprint = 64%nat.
Proof.
  eexists. split; [vm_compute; reflexivity |].
  destruct (fingerprint_has_two_forms
              (Notions.with_digest Notions.lengthDigest Scenario.desktop) _
              ltac:(intros message hashArray H; injection H as <-;
                    split; [reflexivity |];
                    repeat (constructor; [apply Z.mod_pos_bound; lia |]); constructor)
              ltac:(vm_compute; reflexivity)) as [[H _] | [[_ H] _]].
  - exact H.
  - vm_compute in H. lia.
Defined.

(** ** Signals that are [undefined] *)

Lemma members_skip_undefined o k K :
  Get o k = JUndefined ->
  members o K = members o (List.filter (fun P => negb (bool_decide (P = k))) K).
Proof.
  intros Hk. induction K as [| P K IH]; simpl; [reflexivity |].
  destruct (bool_decide (P = k)) eqn:E; simpl.
  - apply bool_decide_eq_true_1 in E. subst P. rewrite Hk. simpl. exact IH.
  - now rewrite IH.
Qed.

Lemma Get_without k o k' : k' <> k -> Get (Notions.without k o) k' = Get o k'.
Proof.
  intros Hne. induction o as [| [k0 v0] o IH]; simpl; [reflexivity |].
  destruct (bool_decide (k0 = k)) eqn:E; simpl.
  - apply bool_decide_eq_true_1 in E. subst k0.
    rewrite bool_decide_eq_false_2 by congruence. exact IH.
  - now rewrite IH.
Qed.

Lemma members_without k o K :
  ~ In k K -> members (Notions.without k o) K = members o K.
Proof.
  induction K as [| P K IH]; simpl; intros Hout; [reflexivity |].
  rewrite Get_without by (intros ->; apply Hout; now left).
  rewrite IH by (intros Hin; apply Hout; now right). reflexivity.
Qed.

Lemma keys_without k o :
  Object_keys (Notions.without k o) =
  List.filter (fun P => negb (bool_decide (P = k))) (Object_keys o).
Proof.
  unfold Object_keys, Notions.without.
  induction o as [| [k0 v0] o IH]; simpl; [reflexivity |].
  destruct (bool_decide (k0 = k)); simpl; now rewrite IH.
Qed.

Lemma filter_Permutation {A} (f : A -> bool) l l' :
  l ≡ₚ l' -> List.filter f l ≡ₚ List.filter f l'.
Proof.
  induction 1 as [| x l l' _ IH | x y l | l l' l'' _ IH1 _ IH2]; simpl.
  - reflexivity.
  - destruct (f x); [now constructor | exact IH].
  - destruct (f x), (f y); try reflexivity. apply perm_swap.
  - now transitivity (List.filter f l').
Qed.

Lemma filter_StronglySorted {A} (R : relation A) (f : A -> bool) l :
  StronglySorted R l -> StronglySorted R (List.filter f l).
Proof.
  induction 1 as [| x l Hs IH Hx]; simpl; [constructor |].
  destruct (f x); [| exact IH].
  constructor; [exact IH |].
  apply List.Forall_forall. intros y Hy. apply List.filter_In in Hy as [Hy _].
  revert y Hy. now apply List.Forall_forall.
Qed.

(** Sorting and dropping a name commute. *)
Lemma Array_sort_filter f keys :
  Array_sort (List.filter f keys) = List.filter f (Array_sort keys).
Proof.
  unfold Array_sort. apply (StronglySorted_unique units_le).
  - apply StronglySorted_merge_sort; apply _.
  - apply filter_StronglySorted, StronglySorted_merge_sort; apply _.
  - rewrite merge_sort_Permutation. apply filter_Permutation.
    now rewrite merge_sort_Permutation.
Qed.

(** X3. A signal whose value is [undefined] - as [cookieEnabled] is when
    the browser lacks it, being recorded without a sentinel - leaves no
    trace in the canonical string: the signal set hashes exactly like
    the set without that key. *)
Theorem undefined_signal_is_omitted (env : BrowserEnv) (signals : JsObject) (k : jsstring) :
  NoDup (Object_keys signals) ->
  Get signals k = JUndefined ->
  JSON_stringify_with signals (Array_sort (Object_keys signals)) =
    JSON_stringify_with (Notions.without k signals)
      (Array_sort (Object_keys (Notions.without k signals))) /\
  hashSignals env signals = hashSignals env (Notions.without k signals).
Proof.
  intros Hnd Hk.
  assert (Hnd' : NoDup (Object_keys (Notions.without k signals))).
  { rewrite keys_without. apply NoDup_ListNoDup, List.NoDup_filter, NoDup_ListNoDup, Hnd. }
  assert (Hs : JSON_stringify_with signals (Array_sort (Object_keys signals)) =
               JSON_stringify_with (Notions.without k signals)
                 (Array_sort (Object_keys (Notions.without k signals)))).
  { unfold JSON_stringify_with.
    rewrite (sorted_keys_property_list signals Hnd).
    rewrite (sorted_keys_property_list _ Hnd').
    unfold SerializeJSONObject.
    rewrite (members_skip_undefined signals k _ Hk).
    rewrite keys_without, Array_sort_filter.
    rewrite members_without; [reflexivity |].
    intros Hin. apply List.filter_In in Hin as [_ Hin].
    now rewrite bool_decide_eq_true_2 in Hin. }
  split; [exact Hs |].
  unfold hashSignals. cbv zeta. now rewrite Hs.
Qed.

(** A signal set with [cookieEnabled: undefined] hashes like the set of
    its two other signals. *)
Lemma undefined_signal_is_omitted_witness :
  hashSignals Scenario.desktop Notions.signalsWithoutCookies =
  hashSignals Scenario.desktop
    [ (lit "userAgent", JStr (lit "UA1")); (lit "screenWidth", JNum 1920) ].
Proof.
  apply (undefined_signal_is_omitted Scenario.desktop Notions.signalsWithoutCookies
           (lit "cookieEnabled")).
  - apply (bool_decide_unpack _). vm_compute. reflexivity.
  - reflexivity.
Defined.

(** X4. [generateFingerprint] of the ballot page has no fallback: where
    the digest primitive is unavailable it throws, while
    [generateHashedFingerprint] in the same environment still returns
    whenever the minimal reads succeed. When [generateFingerprint] does
    return, its result is the hexadecimal form of a digest. *)
Theorem generateFingerprint_needs_digest (env : BrowserEnv) :
  (forall message, ~ Spec.settles (crypto_digest env message)) ->
  Notions.minimal_probes_settle env ->
  ~ Spec.settles (generateFingerprint env) /\
  Spec.settles (generateHashedFingerprint env).
Proof.
  intros Hnone Hmin. split.
  - unfold generateFingerprint, hashComponents. cbv zeta.
    destruct (navigator_userAgent env); simpl; auto.
    destruct (navigator_language env); simpl; auto.
    destruct (navigator_platform env); simpl; auto.
    destruct (screen_width env); simpl; auto.
    destruct (screen_height env); simpl; auto.
    destruct (Intl_timeZone env); simpl; auto.
    destruct (navigator_hardwareConcurrency env); simpl; auto.
    match goal with |- context [crypto_digest env ?m] => specialize (Hnone m) end.
    destruct (crypto_digest env _); simpl in *; auto.
  - apply generateHashedFingerprint_returns in Hmin as [f ->]. exact I.
Qed.

(** The desktop browser, whose digest primitive is missing. *)
Lemma generateFingerprint_needs_digest_witness :
  ~ Spec.settles (generateFingerprint Scenario.desktop) /\
  Spec.settles (generateHashedFingerprint Scenario.desktop).
Proof.
  apply (generateFingerprint_needs_digest Scenario.desktop).
  - intros message H. exact H.
  - vm_compute. tauto.
Defined.

End FingerprintMore.

(* ===================================================================== *)
(** * Further properties of the REST integration layer                     *)
(* ===================================================================== *)

Module ApiMore.
Import Api JsFacts ApiFacts.

Lemma slept_app t1 t2 : Calls.slept (t1 ++ t2) = Calls.slept t1 + Calls.slept t2.
Proof.
  induction t1 as [| [request | ms] t1 IH]; simpl; lia.
Qed.

Lemma strict_eq_true a b : strict_eq a b = true <-> a = b.
Proof.
  split; [| intros ->; apply strict_eq_refl].
  destruct a, b; simpl; try discriminate; try reflexivity.
  - intros H. apply Bool.eqb_prop in H. now subst.
  - intros H. apply Z.eqb_eq in H. now subst.
  - intros H. apply bool_decide_eq_true_1 in H. now subst.
Qed.

Section Generic.

Context {Net : Type}.
Variable backend : Request -> Net -> Completion JsError Response * Net.
Variable SUPABASE_CONFIG_url SUPABASE_CONFIG_anonKey : JsVal.
Variable toISOString : Z -> jsstring.

#[local] Abbreviation fetchWithRetry := (Api.fetchWithRetry backend SUPABASE_CONFIG_anonKey).
#[local] Abbreviation withHeaders := (Api.withHeaders SUPABASE_CONFIG_anonKey).
#[local] Abbreviation restUrl := (Api.restUrl SUPABASE_CONFIG_url).
#[local] Abbreviation lookupUrl := (Spec.lookupUrl SUPABASE_CONFIG_url).
#[local] Abbreviation fetchCandidates :=
  (Api.fetchCandidates backend SUPABASE_CONFIG_url SUPABASE_CONFIG_anonKey).
#[local] Abbreviation ensureVoter :=
  (Api.ensureVoter backend SUPABASE_CONFIG_url SUPABASE_CONFIG_anonKey toISOString).
#[local] Abbreviation submitVote :=
  (Api.submitVote backend SUPABASE_CONFIG_url SUPABASE_CONFIG_anonKey toISOString).
#[local] Abbreviation candidatesUrl :=
  (restUrl (lit "candidates") [(lit "select", lit "*"); (lit "order", lit "id.asc")]).

Lemma fetchWithRetry_budget url options (k : nat) : forall retryCount (w : World Net),
  0 <= retryCount <= MAX_RETRIES ->
  Z.to_nat (MAX_RETRIES - retryCount) = k ->
  exists t,
    Spec.extends w (snd (fetchWithRetry url options retryCount w)) t /\
    Forall (eq (withHeaders url options)) (Spec.attempts t) /\
    (1 <= List.length (Spec.attempts t) <= S k)%nat /\
    0 <= Calls.slept t <= RETRY_DELAY * (2 ^ MAX_RETRIES - 2 ^ retryCount).
Proof.
  assert (Hone : forall retryCount (w : World Net) (n : Net) j,
            0 <= retryCount <= MAX_RETRIES ->
            exists t,
              Spec.extends w (Api.fetched (withHeaders url options) n w) t /\
              Forall (eq (withHeaders url options)) (Spec.attempts t) /\
              (1 <= List.length (Spec.attempts t) <= S j)%nat /\
              0 <= Calls.slept t <= RETRY_DELAY * (2 ^ MAX_RETRIES - 2 ^ retryCount)).
  { intros retryCount w n j Hrc. exists [EvFetch (withHeaders url options)].
    split; [apply fetched_extends |]. split; [repeat constructor |].
    split; [simpl; lia |]. simpl.
    assert (2 ^ retryCount <= 2 ^ MAX_RETRIES) by (apply Z.pow_le_mono_r; lia).
    unfold RETRY_DELAY. lia. }
  induction k as [| k IH]; intros retryCount w Hrc Hk;
    rewrite fetchWithRetry_unfold, fetch_eq;
    destruct (fst (backend (withHeaders url options) (net w))) as [response | e];
    cbn [Spec.settled].
  - assert (Hge : (retryCount <? MAX_RETRIES) = false) by (apply Z.ltb_ge; lia).
    rewrite Hge, andb_false_r. destruct (clientError response); now apply Hone.
  - assert (Hge : (retryCount <? MAX_RETRIES) = false) by (apply Z.ltb_ge; lia).
    rewrite Hge. now apply Hone.
  - destruct (clientError response); [now apply Hone |].
    destruct (negb (ok response) && (retryCount <? MAX_RETRIES)) eqn:Hgo; [| now apply Hone].
    apply andb_true_iff in Hgo as [_ Hlt]. apply Z.ltb_lt in Hlt.
    edestruct (IH (retryCount + 1)) as (t & He & Hreq & Hlen & Hsl);
      [lia | lia |].
    eexists. split; [eapply extends_trans; [apply retry_extends | exact He] |].
    rewrite attempts_app, slept_app. cbn [Spec.attempts Calls.slept app List.length].
    split; [constructor; [reflexivity | exact Hreq] |].
    split; [lia |].
    unfold backoff.
    rewrite Z.pow_add_r in Hsl by lia. change (2 ^ 1) with 2 in Hsl.
    assert (0 < 2 ^ retryCount) by (apply Z.pow_pos_nonneg; lia).
    unfold RETRY_DELAY in *. change (2 ^ MAX_RETRIES) with 8 in *.
    set (p := 2 ^ retryCount) in *. lia.
  - destruct (retryCount <? MAX_RETRIES) eqn:Hlt; [| now apply Hone].
    apply Z.ltb_lt in Hlt.
    edestruct (IH (retryCount + 1)) as (t & He & Hreq & Hlen & Hsl);
      [lia | lia |].
    eexists. split; [eapply extends_trans; [apply retry_extends | exact He] |].
    rewrite attempts_app, slept_app. cbn [Spec.attempts Calls.slept app List.length].
    split; [constructor; [reflexivity | exact Hreq] |].
    split; [lia |].
    unfold backoff.
    rewrite Z.pow_add_r in Hsl by lia. change (2 ^ 1) with 2 in Hsl.
    assert (0 < 2 ^ retryCount) by (apply Z.pow_pos_nonneg; lia).
    unfold RETRY_DELAY in *. change (2 ^ MAX_RETRIES) with 8 in *.
    set (p := 2 ^ retryCount) in *. lia.
Qed.

(** X5. Whatever the server and the network do, one call of
    [fetchWithRetry] (started at [retryCount = 0]) sends the same request
    between one and four times, sets timers for at most 7000 ms in all
    between the attempts, and leaves the module state ([MOCK_MODE],
    [MOCK_DATA]) as it was. *)
Theorem fetchWithRetry_is_bounded (url : Url) (options : Options) (w : World Net) :
  exists t,
    Spec.extends w (snd (fetchWithRetry url options 0 w)) t /\
    Forall (eq (withHeaders url options)) (Spec.attempts t) /\
    (1 <= List.length (Spec.attempts t) <= 4)%nat /\
    0 <= Calls.slept t <= 7000.
Proof.
  destruct (fetchWithRetry_budget url options 3 0 w ltac:(unfold MAX_RETRIES; lia) eq_refl)
    as (t & He & Hreq & Hlen & Hsl).
  change (RETRY_DELAY * (2 ^ MAX_RETRIES - 2 ^ 0)) with 7000 in Hsl.
  exists t. split; [exact He |]. split; [exact Hreq |]. split; [lia | exact Hsl].
Qed.

(** ** What each operation sends *)

Lemma fetchCandidates_world (w : World Net) :
  MOCK_MODE w = false ->
  snd (fetchCandidates w) = snd (fetchWithRetry candidatesUrl Spec.lookupOptions 0 w).
Proof.
  intros Hmode. rewrite (fetchCandidates_remote _ _ _ w Hmode).
  destruct (Api.fetchWithRetry _ _ _ _ _ w) as [[response | [e | e]] w1]; try reflexivity.
  destruct (ok response); [| reflexivity].
  destruct (response_json response); reflexivity.
Qed.

Lemma submitVote_world voterId candidateId (w : World Net) :
  MOCK_MODE w = false ->
  snd (submitVote voterId candidateId w) =
  snd (fetchWithRetry (restUrl (lit "votes") []) (Spec.voteOptions voterId candidateId) 0 w).
Proof.
  intros Hmode. rewrite (submitVote_remote _ _ _ _ voterId candidateId w Hmode). cbv zeta.
  unfold Spec.voteOptions.
  destruct (Api.fetchWithRetry _ _ _ _ _ w) as [[response | [e | e]] w1]; try reflexivity.
  destruct (ok response); [| reflexivity].
  destruct (bind _ _); reflexivity.
Qed.

(** After the lookup, [ensureVoter] either stops or goes through its one
    insert. *)
Lemma ensureVoter_world fingerprint (w : World Net) :
  MOCK_MODE w = false ->
  snd (ensureVoter fingerprint w) =
    snd (fetchWithRetry (lookupUrl fingerprint) Spec.lookupOptions 0 w) \/
  snd (ensureVoter fingerprint w) =
    snd (fetchWithRetry (restUrl (lit "voters") []) (Spec.insertOptions fingerprint) 0
           (snd (fetchWithRetry (lookupUrl fingerprint) Spec.lookupOptions 0 w))).
Proof.
  intros Hmode. unfold Api.ensureVoter, bindM, get_world, catchM. rewrite Hmode. cbv zeta.
  unfold Spec.lookupUrl, Spec.lookupOptions, Spec.insertOptions.
  destruct (Api.fetchWithRetry _ _ _ _ _ w) as [[getResponse | [e | e]] w1];
    cbn [snd]; auto.
  unfold await.
  destruct (ok getResponse); cbn [negb].
  - destruct (response_json getResponse) as [voters | e]; [| left; reflexivity].
    destruct (length_gt_zero voters) as [[|] | e]; [| | left; reflexivity].
    + destruct (index_zero voters); left; reflexivity.
    + right. simpl.
      destruct (Api.fetchWithRetry _ _ _ _ _ w1) as [[createResponse | [e | e]] w2];
        try reflexivity.
      destruct (ok createResponse); simpl; [| reflexivity].
      unfold await. destruct (response_json createResponse) as [vs | e]; simpl;
        [| reflexivity].
      destruct (index_zero vs); reflexivity.
  - right. simpl.
    destruct (Api.fetchWithRetry _ _ _ _ _ w1) as [[createResponse | [e | e]] w2];
      try reflexivity.
    destruct (ok createResponse); simpl; [| reflexivity].
    unfold await. destruct (response_json createResponse) as [vs | e]; simpl;
      [| reflexivity].
    destruct (index_zero vs); reflexivity.
Qed.

(** The requests of each operation, outside mock mode. *)
Lemma operations_stay_in_budget
  (fingerprint : jsstring) (voterId candidateId : JsVal) (w : World Net) :
  MOCK_MODE w = false ->
  (exists t,
     Spec.extends w (snd (fetchCandidates w)) t /\
     (1 <= List.length (Spec.attempts t) <= 4)%nat /\
     Forall (eq (withHeaders candidatesUrl Spec.lookupOptions)) (Spec.attempts t)) /\
  (exists t,
     Spec.extends w (snd (ensureVoter fingerprint w)) t /\
     (1 <= List.length (Spec.attempts t) <= 8)%nat /\
     Forall (fun request =>
               request = withHeaders (lookupUrl fingerprint) Spec.lookupOptions \/
               request = withHeaders (restUrl (lit "voters") [])
                           (Spec.insertOptions fingerprint))
            (Spec.attempts t)) /\
  (exists t,
     Spec.extends w (snd (submitVote voterId candidateId w)) t /\
     (1 <= List.length (Spec.attempts t) <= 4)%nat /\
     Forall (eq (withHeaders (restUrl (lit "votes") [])
                   (Spec.voteOptions voterId candidateId)))
            (Spec.attempts t)).
Proof.
  intros Hmode. split; [| split].
  - rewrite (fetchCandidates_world w Hmode).
    destruct (fetchWithRetry_budget candidatesUrl Spec.lookupOptions 3 0 w
                ltac:(unfold MAX_RETRIES; lia) eq_refl)
      as (t & He & Hreq & Hlen & _).
    exists t. auto.
  - destruct (fetchWithRetry_budget (lookupUrl fingerprint) Spec.lookupOptions 3 0 w
                ltac:(unfold MAX_RETRIES; lia) eq_refl)
      as (t1 & He1 & Hreq1 & Hlen1 & _).
    destruct (ensureVoter_world fingerprint w Hmode) as [-> | ->].
    + exists t1. split; [exact He1 |]. split; [lia |].
      eapply Forall_impl; [exact Hreq1 |]. intros request <-. now left.
    + destruct (fetchWithRetry_budget (restUrl (lit "voters") [])
                  (Spec.insertOptions fingerprint) 3 0
                  (snd (fetchWithRetry (lookupUrl fingerprint) Spec.lookupOptions 0 w))
                  ltac:(unfold MAX_RETRIES; lia) eq_refl)
        as (t2 & He2 & Hreq2 & Hlen2 & _).
      exists (t1 ++ t2). split; [eapply extends_trans; eassumption |].
      rewrite attempts_app, length_app. split; [lia |].
      apply Forall_app. split.
      * eapply Forall_impl; [exact Hreq1 |]. intros request <-. now left.
      * eapply Forall_impl; [exact Hreq2 |]. intros request <-. now right.
  - rewrite (submitVote_world voterId candidateId w Hmode).
    destruct (fetchWithRetry_budget (restUrl (lit "votes") [])
                (Spec.voteOptions voterId candidateId) 3 0 w
                ltac:(unfold MAX_RETRIES; lia) eq_refl)
      as (t & He & Hreq & Hlen & _).
    exists t. auto.
Qed.

(** X6. Outside mock mode each operation stays within its budget of
    requests, whatever the backend does: [fetchCandidates] and
    [submitVote] send their one request one to four times,
    [ensureVoter] sends one to eight requests, each of them its lookup
    or its insert; no operation touches [MOCK_MODE] or [MOCK_DATA]. *)
Theorem request_budgets
  (fingerprint : jsstring) (voterId candidateId : JsVal) (w : World Net) :
  MOCK_MODE w = false ->
  (exists t,
     Spec.extends w (snd (fetchCandidates w)) t /\
     (1 <= List.length (Spec.attempts t) <= 4)%nat /\
     Forall (eq (withHeaders candidatesUrl Spec.lookupOptions)) (Spec.attempts t)) /\
  (exists t,
     Spec.extends w (snd (ensureVoter fingerprint w)) t /\
     (1 <= List.length (Spec.attempts t) <= 8)%nat /\
     Forall (fun request =>
               request = withHeaders (lookupUrl fingerprint) Spec.lookupOptions \/
               request = withHeaders (restUrl (lit "voters") [])
                           (Spec.insertOptions fingerprint))
            (Spec.attempts t)) /\
  (exists t,
     Spec.extends w (snd (submitVote voterId candidateId w)) t /\
     (1 <= List.length (Spec.attempts t) <= 4)%nat /\
     Forall (eq (withHeaders (restUrl (lit "votes") [])
                   (Spec.voteOptions voterId candidateId)))
            (Spec.attempts t)).
Proof. exact (operations_stay_in_budget fingerprint voterId candidateId w). Qed.

(** ** Failures of the lookup, and bodies that are not rows *)

(** X7. When the lookup of [ensureVoter] fails at transport level (all
    attempts), the operation fails with [NETWORK_ERROR] and sends no
    insert; when the lookup is answered, but not with a success, the
    insert is sent all the same, and the row it returns is the voter. *)
Theorem ensureVoter_after_failed_lookup
  (fingerprint : jsstring) (w w1 : World Net)
  (looked : Completion Exn Response) :
  MOCK_MODE w = false ->
  fetchWithRetry (lookupUrl fingerprint) Spec.lookupOptions 0 w = (looked, w1) ->
  (forall e, looked = Throw (Raw e) ->
     ensureVoter fingerprint w =
       (Throw (Api (Spec.networkError (lit "Failed to register voter"))), w1)) /\
  (forall getResponse createResponse w2 voter rest,
     looked = Normal getResponse ->
     ok getResponse = false ->
     fetchWithRetry (restUrl (lit "voters") []) (Spec.insertOptions fingerprint) 0 w1 =
       (Normal createResponse, w2) ->
     ok createResponse = true ->
     response_json createResponse = Normal (JRows (voter :: rest)) ->
     ensureVoter fingerprint w = (Normal (JRow voter), w2)).
Proof.
  intros Hmode Hlook. split.
  - intros e ->.
    unfold Api.ensureVoter, bindM, get_world, catchM. rewrite Hmode. cbv zeta.
    unfold Spec.lookupUrl, Spec.lookupOptions in Hlook. rewrite Hlook. reflexivity.
  - intros getResponse createResponse w2 voter rest -> Hfail Hcreate Hok Hbody.
    rewrite (ensureVoter_not_found _ _ _ _ fingerprint w getResponse w1 Hmode Hlook
               (or_introl Hfail)).
    rewrite Hcreate, Hok, Hbody. reflexivity.
Qed.

(** [fetchCandidates] hands on the parsed body of a successful
    response as it is, whatever JSON it holds; a successful response
    whose body cannot be parsed is an [ApiError] with code
    [NETWORK_ERROR], not an empty list. *)
Theorem fetchCandidates_body (w w1 : World Net) (response : Response) :
  MOCK_MODE w = false ->
  fetchWithRetry candidatesUrl Spec.lookupOptions 0 w = (Normal response, w1) ->
  ok response = true ->
  fetchCandidates w =
    match response_json response with
    | Normal candidates => (Normal candidates, w1)
    | Throw _ => (Throw (Api (Spec.networkError (lit "Failed to fetch candidates"))), w1)
    end.
Proof.
  intros Hmode Hget Hok. rewrite (fetchCandidates_remote _ _ _ w Hmode), Hget, Hok.
  destruct (response_json response); reflexivity.
Qed.

(** X8. When the insert of [submitVote] is answered with a success, an
    empty array as body makes the operation resolve to [undefined]; a
    [null] body or one that cannot be parsed makes it fail with
    [NETWORK_ERROR]; otherwise it resolves to the first row. *)
Theorem submitVote_body (voterId candidateId : JsVal) (w w1 : World Net)
  (response : Response) :
  MOCK_MODE w = false ->
  fetchWithRetry (restUrl (lit "votes") []) (Spec.voteOptions voterId candidateId) 0 w =
    (Normal response, w1) ->
  ok response = true ->
  (response_json response = Normal (JRows []) ->
   submitVote voterId candidateId w = (Normal (JPrim JUndefined), w1)) /\
  (forall vote rest, response_json response = Normal (JRows (vote :: rest)) ->
   submitVote voterId candidateId w = (Normal (JRow vote), w1)) /\
  (response_json response = Normal (JPrim JNull) \/
   (exists e, response_json response = Throw e) ->
   submitVote voterId candidateId w =
     (Throw (Api (Spec.networkError (lit "Failed to submit vote"))), w1)).
Proof.
  intros Hmode Hpost Hok.
  rewrite (submitVote_remote _ _ _ _ voterId candidateId w Hmode). cbv zeta.
  unfold Spec.voteOptions in Hpost. rewrite Hpost, Hok.
  split; [| split].
  - intros ->. reflexivity.
  - intros vote rest ->. reflexivity.
  - intros [-> | [e ->]]; reflexivity.
Qed.

(** ** Mock mode *)

Lemma fetchCandidates_mock (w : World Net) :
  MOCK_MODE w = true ->
  fetchCandidates w = (Normal (JRows (candidates (MOCK_DATA w))), snd (sleep 300 w)).
Proof.
  intros Hmode. unfold Api.fetchCandidates, bindM, get_world. rewrite Hmode. reflexivity.
Qed.

Lemma ensureVoter_mock_world fingerprint (w : World Net) :
  MOCK_MODE w = true ->
  snd (ensureVoter fingerprint w) =
    if bool_decide (fingerprint ∈ voters (MOCK_DATA w)) then snd (sleep 200 w)
    else snd (set_MOCK_DATA {| candidates := candidates (MOCK_DATA w);
                               voters := voters (MOCK_DATA w) ++ [fingerprint];
                               votes := votes (MOCK_DATA w) |} (snd (sleep 200 w))).
Proof.
  intros Hmode. unfold Api.ensureVoter, bindM, get_world. rewrite Hmode. simpl.
  destruct (bool_decide (fingerprint ∈ voters (MOCK_DATA w))); reflexivity.
Qed.

Lemma submitVote_mock voterId candidateId (w : World Net) :
  MOCK_MODE w = true ->
  submitVote voterId candidateId w =
    match List.find (fun v => strict_eq (Get v (lit "voter_id")) voterId)
                    (votes (MOCK_DATA w)),
          List.find (fun c => strict_eq (Get c (lit "id")) candidateId)
                    (candidates (MOCK_DATA w)) with
    | Some _, _ => (Throw (Api Spec.alreadyVoted), snd (sleep 400 w))
    | None, None =>
        (Throw (Api {| message := lit "Invalid candidate"; status := 422;
                       code := INVALID_DATA |}), snd (sleep 400 w))
    | None, Some _ =>
        let vote := [ (lit "id", JNum (now w + 400)); (lit "voter_id", voterId);
                      (lit "candidate_id", candidateId);
                      (lit "created_at", JStr (toISOString (now w + 400))) ] in
        (Normal (JRow vote),
         snd (set_MOCK_DATA {| candidates := candidates (MOCK_DATA w);
                               voters := voters (MOCK_DATA w);
                               votes := votes (MOCK_DATA w) ++ [vote] |}
                (snd (sleep 400 w))))
    end.
Proof.
  intros Hmode. unfold Api.submitVote, bindM, get_world. rewrite Hmode. simpl.
  destruct (find _ (votes (MOCK_DATA w))); [reflexivity |].
  destruct (find _ (candidates (MOCK_DATA w))); reflexivity.
Qed.

Lemma find_none_iff {A} (p : A -> bool) (l : list A) :
  List.find p l = None <-> forall x, In x l -> p x = false.
Proof.
  split; [apply List.find_none |].
  induction l as [| a l IH]; [reflexivity |]. intros H. simpl.
  rewrite (H a (or_introl eq_refl)). apply IH. intros x Hx. apply H. now right.
Qed.

Lemma find_none_filter {A} (p : A -> bool) (l : list A) :
  List.find p l = None -> List.filter p l = [].
Proof.
  induction l as [| a l IH]; [reflexivity |]. simpl.
  destruct (p a); [discriminate | exact IH].
Qed.

(** X9. In mock mode [submitVote] checks the voter before the
    candidate: a voter with a stored vote gets [ALREADY_VOTED] whatever
    candidate is named, a voter without one who names no candidate of
    the list gets [INVALID_DATA] with status 422; a rejected call stores
    nothing. *)
Theorem submitVote_mock_rejections (voterId candidateId : JsVal) (w : World Net) :
  MOCK_MODE w = true ->
  (forall vote, In vote (votes (MOCK_DATA w)) -> Get vote (lit "voter_id") = voterId ->
     fst (submitVote voterId candidateId w) = Throw (Api Spec.alreadyVoted)) /\
  ((forall vote, In vote (votes (MOCK_DATA w)) -> Get vote (lit "voter_id") <> voterId) ->
   (forall candidate, In candidate (candidates (MOCK_DATA w)) ->
      Get candidate (lit "id") <> candidateId) ->
   fst (submitVote voterId candidateId w) =
     Throw (Api {| message := lit "Invalid candidate"; status := 422;
                   code := INVALID_DATA |})) /\
  (forall e, fst (submitVote voterId candidateId w) = Throw e ->
     MOCK_DATA (snd (submitVote voterId candidateId w)) = MOCK_DATA w).
Proof.
  intros Hmode. rewrite (submitVote_mock voterId candidateId w Hmode).
  split; [| split].
  - intros vote Hin Hid.
    destruct (find _ (votes (MOCK_DATA w))) eqn:Hfind; [reflexivity |].
    pose proof (List.find_none _ _ Hfind vote Hin) as Hno. cbv beta in Hno.
    rewrite Hid, strict_eq_refl in Hno. discriminate.
  - intros Hvotes Hcands.
    destruct (find _ (votes (MOCK_DATA w))) as [vote |] eqn:Hfind.
    { apply List.find_some in Hfind as [Hin Heq]. apply strict_eq_true in Heq.
      destruct (Hvotes vote Hin Heq). }
    destruct (find _ (candidates (MOCK_DATA w))) as [candidate |] eqn:Hcand; [| reflexivity].
    apply List.find_some in Hcand as [Hin Heq]. apply strict_eq_true in Heq.
    destruct (Hcands candidate Hin Heq).
  - intros e.
    destruct (find _ (votes (MOCK_DATA w))); [reflexivity |].
    destruct (find _ (candidates (MOCK_DATA w))); [discriminate | reflexivity].
Qed.

(** What one call can do to the mock data: nothing, add a voter, or
    append the vote of a voter that had none, for a listed candidate. *)
Lemma after_MOCK_DATA (c : Calls.Call) (w : World Net) :
  let d := MOCK_DATA w in
  let d' := MOCK_DATA (Calls.after backend SUPABASE_CONFIG_url SUPABASE_CONFIG_anonKey
                         toISOString c w) in
  d' = d \/
  (exists fingerprint,
     d' = {| candidates := candidates d; voters := voters d ++ [fingerprint];
             votes := votes d |}) \/
  (exists vote candidate,
     List.find (fun v => strict_eq (Get v (lit "voter_id")) (Get vote (lit "voter_id")))
               (votes d) = None /\
     In candidate (candidates d) /\
     Get candidate (lit "id") = Get vote (lit "candidate_id") /\
     d' = {| candidates := candidates d; voters := voters d; votes := votes d ++ [vote] |}).
Proof.
  cbv zeta. destruct c as [| fingerprint | voterId candidateId | enabled]; cbn [Calls.after].
  - destruct (MOCK_MODE w) eqn:Hmode.
    + rewrite (fetchCandidates_mock w Hmode). now left.
    + destruct (operations_stay_in_budget (lit "") JNull JNull w Hmode) as ((t & (_ & _ & Hd) & _) & _).
      now left.
  - destruct (MOCK_MODE w) eqn:Hmode.
    + rewrite (ensureVoter_mock_world fingerprint w Hmode).
      destruct (bool_decide (fingerprint ∈ voters (MOCK_DATA w))); [now left |].
      right. left. exists fingerprint. reflexivity.
    + destruct (operations_stay_in_budget fingerprint JNull JNull w Hmode)
        as (_ & (t & (_ & _ & Hd) & _) & _).
      now left.
  - destruct (MOCK_MODE w) eqn:Hmode.
    + rewrite (submitVote_mock voterId candidateId w Hmode).
      destruct (find _ (votes (MOCK_DATA w))) eqn:Hvote; [now left |].
      destruct (find _ (candidates (MOCK_DATA w))) as [candidate |] eqn:Hcand; [| now left].
      right. right. eexists. exists candidate.
      apply List.find_some in Hcand as [Hin Heq]. apply strict_eq_true in Heq.
      split; [| split; [| split]]; [| | | reflexivity]; [exact Hvote | exact Hin | exact Heq].
    + destruct (operations_stay_in_budget (lit "") voterId candidateId w Hmode)
        as (_ & _ & (t & (_ & _ & Hd) & _)).
      now left.
  - now left.
Qed.

Lemma after_keeps (c : Calls.Call) (w : World Net) :
  let w' := Calls.after backend SUPABASE_CONFIG_url SUPABASE_CONFIG_anonKey
              toISOString c w in
  Calls.one_vote_per_voter (MOCK_DATA w) ->
  Calls.votes_name_candidates (MOCK_DATA w) ->
  candidates (MOCK_DATA w') = candidates (MOCK_DATA w) /\
  Calls.one_vote_per_voter (MOCK_DATA w') /\
  Calls.votes_name_candidates (MOCK_DATA w') /\
  (exists new, votes (MOCK_DATA w') = votes (MOCK_DATA w) ++ new) /\
  (forall fingerprint, In fingerprint (voters (MOCK_DATA w)) ->
                       In fingerprint (voters (MOCK_DATA w'))).
Proof.
  cbv zeta. intros Hone Hnames.
  destruct (after_MOCK_DATA c w) as [-> | [(fingerprint & ->) | (vote & candidate & H)]].
  - split; [reflexivity |]. split; [exact Hone |]. split; [exact Hnames |].
    split; [exists []; now rewrite app_nil_r | auto].
  - split; [reflexivity |]. split; [exact Hone |]. split; [exact Hnames |].
    split; [exists []; now rewrite app_nil_r |].
    cbn [voters]. intros f Hf. apply in_or_app. now left.
  - destruct H as (Hnone & Hin & Hid & ->). cbn [candidates votes voters].
    split; [reflexivity |]. split; [| split; [| split; [now exists [vote] | auto]]].
    + intros voterId. cbn [votes]. rewrite List.filter_app, length_app. cbn [List.filter].
      destruct (strict_eq (Get vote (lit "voter_id")) voterId) eqn:Heq.
      * apply strict_eq_true in Heq. subst voterId.
        rewrite (find_none_filter _ _ Hnone). simpl. lia.
      * specialize (Hone voterId). simpl. lia.
    + intros v Hv. cbn [votes candidates] in *. apply in_app_or in Hv as [Hv | [<- | []]].
      * exact (Hnames v Hv).
      * exists candidate. split; assumption.
Qed.

(** X10. The mock data keeps its shape under any sequence of calls of
    the exported functions, in either mode and mixed with
    [setMockMode]: the candidate list never changes, no voter holds two
    stored votes, every stored vote names a listed candidate, stored
    votes are only appended and voters only added. *)
Theorem mock_data_invariants (cs : list Calls.Call) (w : World Net) :
  let w' := Calls.after_all backend SUPABASE_CONFIG_url SUPABASE_CONFIG_anonKey
              toISOString cs w in
  Calls.one_vote_per_voter (MOCK_DATA w) ->
  Calls.votes_name_candidates (MOCK_DATA w) ->
  candidates (MOCK_DATA w') = candidates (MOCK_DATA w) /\
  Calls.one_vote_per_voter (MOCK_DATA w') /\
  Calls.votes_name_candidates (MOCK_DATA w') /\
  (exists new, votes (MOCK_DATA w') = votes (MOCK_DATA w) ++ new) /\
  (forall fingerprint, In fingerprint (voters (MOCK_DATA w)) ->
                       In fingerprint (voters (MOCK_DATA w'))).
Proof.
  cbv zeta. revert w. induction cs as [| c cs IH]; intros w Hone Hnames.
  - split; [reflexivity |]. split; [exact Hone |]. split; [exact Hnames |].
    split; [exists []; now rewrite app_nil_r | auto].
  - destruct (after_keeps c w Hone Hnames) as (Hc & Hone1 & Hnames1 & (new1 & Hv1) & Hf1).
    destruct (IH _ Hone1 Hnames1) as (Hc' & Hone' & Hnames' & (new' & Hv') & Hf').
    cbn [Calls.after_all List.fold_left]. unfold Calls.after_all in *.
    split; [now rewrite Hc', Hc |]. split; [exact Hone' |]. split; [exact Hnames' |].
    split; [exists (new1 ++ new'); now rewrite Hv', Hv1, <- app_assoc | auto].
Qed.

Lemma after_mock_offline (c : Calls.Call) (w : World Net) :
  MOCK_MODE w = true ->
  c <> Calls.SetMockMode false ->
  let w' := Calls.after backend SUPABASE_CONFIG_url SUPABASE_CONFIG_anonKey
              toISOString c w in
  MOCK_MODE w' = true /\ net w' = net w /\
  Spec.attempts (trace w') = Spec.attempts (trace w).
Proof.
  intros Hmode Hc. cbv zeta.
  destruct c as [| fingerprint | voterId candidateId | enabled]; cbn [Calls.after].
  - rewrite (fetchCandidates_mock w Hmode). cbn [snd sleep MOCK_MODE net trace].
    rewrite attempts_app. cbn. rewrite app_nil_r. auto.
  - rewrite (ensureVoter_mock_world fingerprint w Hmode).
    destruct (bool_decide _); cbn [snd sleep set_MOCK_DATA MOCK_MODE net trace];
      rewrite attempts_app; cbn; rewrite app_nil_r; auto.
  - rewrite (submitVote_mock voterId candidateId w Hmode).
    destruct (find _ (votes (MOCK_DATA w)));
      [| destruct (find _ (candidates (MOCK_DATA w)))];
      cbn [snd sleep set_MOCK_DATA MOCK_MODE net trace];
      rewrite attempts_app; cbn; rewrite app_nil_r; auto.
  - destruct enabled; [| congruence]. cbn. auto.
Qed.

(** X11. A client that starts without a configured URL or key is in
    mock mode, and [fetchCandidates], [ensureVoter], [submitVote] and
    [setMockMode(true)], called on it in any number and order, send no
    request through [fetch]: the network is left as it was.
    ([isVotingOpen] and [getCurrentElection] are not among these calls:
    they query the session through the supabase client whatever
    [MOCK_MODE] is.) *)
Theorem unconfigured_client_is_offline (cs : list Calls.Call) (n : Net) (t : Z) :
  truthy SUPABASE_CONFIG_url = false \/ truthy SUPABASE_CONFIG_anonKey = false ->
  ~ In (Calls.SetMockMode false) cs ->
  let w' := Calls.after_all backend SUPABASE_CONFIG_url SUPABASE_CONFIG_anonKey
              toISOString cs
              (initial_World SUPABASE_CONFIG_url SUPABASE_CONFIG_anonKey n t) in
  MOCK_MODE w' = true /\ net w' = n /\ Spec.attempts (trace w') = [].
Proof.
  intros Hconf Hcs. cbv zeta.
  assert (Hgen : forall (w : World Net),
             MOCK_MODE w = true ->
             let w' := Calls.after_all backend SUPABASE_CONFIG_url SUPABASE_CONFIG_anonKey
                         toISOString cs w in
             MOCK_MODE w' = true /\ net w' = net w /\
             Spec.attempts (trace w') = Spec.attempts (trace w)).
  { cbv zeta. induction cs as [| c cs IH]; intros w Hmode; [auto |].
    cbn [Calls.after_all List.fold_left]. unfold Calls.after_all in IH.
    destruct (after_mock_offline c w Hmode) as (Hm & Hn & Ha).
    { intros ->. apply Hcs. now left. }
    destruct (IH (fun H => Hcs (or_intror H)) _ Hm) as (Hm' & Hn' & Ha').
    split; [exact Hm' |]. split; congruence. }
  apply (Hgen (initial_World SUPABASE_CONFIG_url SUPABASE_CONFIG_anonKey n t)).
  unfold initial_World. cbn [MOCK_MODE].
  destruct Hconf as [-> | ->]; [reflexivity | apply Bool.orb_true_r].
Qed.

End Generic.

(** ** The theorems at concrete servers *)

Lemma request_budgets_witness :
  MOCK_MODE (Scenario.start tt) = false /\
  exists t,
    Spec.extends (Scenario.start tt)
      (snd (Api.ensureVoter Scenario.always503 Scenario.configured_url
              Scenario.configured_key Scenario.stamp (lit "abc") (Scenario.start tt))) t /\
    (1 <= List.length (Spec.attempts t) <= 8)%nat.
Proof.
  split; [reflexivity |].
  destruct (request_budgets Scenario.always503 Scenario.configured_url
              Scenario.configured_key Scenario.stamp (lit "abc") (JNum 7) (JNum 1)
              (Scenario.start tt) eq_refl) as (_ & (t & He & Hlen & _) & _).
  exists t. split; assumption.
Defined.

Lemma ensureVoter_after_failed_lookup_witness :
  exists w2,
    Api.ensureVoter Calls.failingLookups Scenario.configured_url Scenario.configured_key
      Scenario.stamp (lit "abc") (Scenario.start tt) =
    (Normal (JRow [(lit "id", JNum 41)]), w2).
Proof.
  eexists.
  eapply (proj2 (ensureVoter_after_failed_lookup Calls.failingLookups
                   Scenario.configured_url Scenario.configured_key Scenario.stamp
                   (lit "abc") (Scenario.start tt) _ _ eq_refl
                   (surjective_pairing _))).
  - vm_compute. reflexivity.
  - reflexivity.
  - vm_compute. reflexivity.
  - reflexivity.
  - reflexivity.
Defined.

Lemma fetchCandidates_body_witness :
  exists w1,
    Api.fetchCandidates (Calls.answering (Normal (JPrim JNull))) Scenario.configured_url
      Scenario.configured_key (Scenario.start tt) = (Normal (JPrim JNull), w1).
Proof.
  eexists.
  erewrite (fetchCandidates_body (Calls.answering (Normal (JPrim JNull)))
              Scenario.configured_url Scenario.configured_key (Scenario.start tt));
    cycle 1; [reflexivity | vm_compute; reflexivity | reflexivity | reflexivity].
Defined.

Lemma submitVote_body_witness :
  exists w1,
    Api.submitVote (Calls.answering (Normal (JRows []))) Scenario.configured_url
      Scenario.configured_key Scenario.stamp (JNum 7) (JNum 1) (Scenario.start tt) =
    (Normal (JPrim JUndefined), w1).
Proof.
  exists (snd (Api.fetchWithRetry (Calls.answering (Normal (JRows [])))
                 Scenario.configured_key
                 (Api.restUrl Scenario.configured_url (lit "votes") [])
                 (Spec.voteOptions (JNum 7) (JNum 1)) 0 (Scenario.start tt))).
  destruct (submitVote_body (Calls.answering (Normal (JRows [])))
              Scenario.configured_url Scenario.configured_key Scenario.stamp
              (JNum 7) (JNum 1) (Scenario.start tt)
              (snd (Api.fetchWithRetry (Calls.answering (Normal (JRows [])))
                      Scenario.configured_key
                      (Api.restUrl Scenario.configured_url (lit "votes") [])
                      (Spec.voteOptions (JNum 7) (JNum 1)) 0 (Scenario.start tt)))
              {| response_status := 200; response_json := Normal (JRows []) |})
    as (H & _).
  - reflexivity.
  - vm_compute. reflexivity.
  - reflexivity.
  - exact (H eq_refl).
Defined.

Lemma submitVote_mock_rejections_witness :
  let w := Calls.after Scenario.offline JUndefined JUndefined Scenario.stamp
             (Calls.SubmitVote (JStr (lit "abc")) (JNum 1)) (Calls.unconfigured tt) in
  fst (Api.submitVote Scenario.offline JUndefined JUndefined Scenario.stamp
         (JStr (lit "abc")) (JNum 99) w) = Throw (Api Spec.alreadyVoted) /\
  fst (Api.submitVote Scenario.offline JUndefined JUndefined Scenario.stamp
         (JStr (lit "xyz")) (JNum 99) w) =
    Throw (Api {| message := lit "Invalid candidate"; status := 422; code := INVALID_DATA |}).
Proof.
  cbv zeta. split.
  - destruct (submitVote_mock_rejections Scenario.offline JUndefined JUndefined
                Scenario.stamp (JStr (lit "abc")) (JNum 99)
                (Calls.after Scenario.offline JUndefined JUndefined Scenario.stamp
                   (Calls.SubmitVote (JStr (lit "abc")) (JNum 1)) (Calls.unconfigured tt))
                eq_refl) as (H & _).
    eapply H; [left; reflexivity | reflexivity].
  - destruct (submitVote_mock_rejections Scenario.offline JUndefined JUndefined
                Scenario.stamp (JStr (lit "xyz")) (JNum 99)
                (Calls.after Scenario.offline JUndefined JUndefined Scenario.stamp
                   (Calls.SubmitVote (JStr (lit "abc")) (JNum 1)) (Calls.unconfigured tt))
                eq_refl) as (_ & H & _).
    apply H.
    + intros vote Hin. vm_compute in Hin. destruct Hin as [<- | []]. discriminate.
    + intros candidate Hin. vm_compute in Hin.
      destruct Hin as [<- | [<- | [<- | []]]]; discriminate.
Defined.

Lemma mock_data_invariants_witness :
  Calls.one_vote_per_voter
    (MOCK_DATA
       (Calls.after_all Scenario.offline JUndefined JUndefined Scenario.stamp
          [ Calls.EnsureVoter (lit "abc");
            Calls.SubmitVote (JStr (lit "abc")) (JNum 1);
            Calls.SubmitVote (JStr (lit "abc")) (JNum 2);
            Calls.SetMockMode false;
            Calls.FetchCandidates;
            Calls.SetMockMode true;
            Calls.SubmitVote (JStr (lit "abc")) (JNum 3) ]
          (Calls.unconfigured tt))).
Proof.
  destruct (mock_data_invariants Scenario.offline JUndefined JUndefined Scenario.stamp
              [ Calls.EnsureVoter (lit "abc");
                Calls.SubmitVote (JStr (lit "abc")) (JNum 1);
                Calls.SubmitVote (JStr (lit "abc")) (JNum 2);
                Calls.SetMockMode false;
                Calls.FetchCandidates;
                Calls.SetMockMode true;
                Calls.SubmitVote (JStr (lit "abc")) (JNum 3) ]
              (Calls.unconfigured tt)) as (_ & H & _).
  - intros voterId. simpl. lia.
  - intros vote [].
  - exact H.
Defined.

Lemma unconfigured_client_is_offline_witness :
  let n := {| Store.db := Scenario.emptyDb; Store.others := [] |} in
  net (Calls.after_all Store.backend JUndefined JUndefined Scenario.stamp
         [ Calls.EnsureVoter (lit "abc"); Calls.FetchCandidates;
           Calls.SubmitVote (JStr (lit "abc")) (JNum 1) ]
         (initial_World JUndefined JUndefined n 0)) = n.
Proof.
  cbv zeta.
  destruct (unconfigured_client_is_offline Store.backend JUndefined JUndefined
              Scenario.stamp
              [ Calls.EnsureVoter (lit "abc"); Calls.FetchCandidates;
                Calls.SubmitVote (JStr (lit "abc")) (JNum 1) ]
              {| Store.db := Scenario.emptyDb; Store.others := [] |} 0)
    as (_ & H & _).
  - left. reflexivity.
  - intros [H | [H | [H | []]]]; discriminate.
  - exact H.
Defined.

End ApiMore.

(* ===================================================================== *)
(** * Properties of [escapeHtml]                                           *)
(* ===================================================================== *)

Module HtmlFacts.
Import Html.

Lemma escapeUnit_nonempty u : escapeUnit u <> [].
Proof.
  unfold escapeUnit.
  destruct (u =? 38); [discriminate |]. destruct (u =? 160); [discriminate |].
  destruct (u =? 60); [discriminate |]. destruct (u =? 62); discriminate.
Qed.

Lemma escapeUnit_no_bracket u : ~ In 60 (escapeUnit u) /\ ~ In 62 (escapeUnit u).
Proof.
  unfold escapeUnit.
  destruct (u =? 38) eqn:E1; [split; vm_compute; intuition discriminate |].
  destruct (u =? 160) eqn:E2; [split; vm_compute; intuition discriminate |].
  destruct (u =? 60) eqn:E3; [split; vm_compute; intuition discriminate |].
  destruct (u =? 62) eqn:E4; [split; vm_compute; intuition discriminate |].
  apply Z.eqb_neq in E3, E4. split; intros [H | []]; congruence.
Qed.

Lemma ToString_truthy v : truthy v = true -> ToString v <> [].
Proof.
  destruct v as [| | [|] | n | s]; simpl; try discriminate.
  - intros _. unfold numberToString. destruct (n <? 0); [discriminate |].
    apply JsFacts.digits_nonempty.
  - destruct s; [discriminate | discriminate].
Qed.

(** X12. The text [escapeHtml] returns never holds an angle bracket,
    whatever it is given, and it is empty exactly for a falsy argument
    (so the number 0 is rendered as nothing). *)
Theorem escapeHtml_never_emits_markup (text : JsVal) :
  ~ In 60 (escapeHtml text) /\
  ~ In 62 (escapeHtml text) /\
  (escapeHtml text = [] <-> truthy text = false).
Proof.
  unfold escapeHtml, innerHTML_of_textContent.
  destruct (truthy text) eqn:Ht; cbn [negb].
  - assert (Hno : forall s, ~ In 60 (List.flat_map escapeUnit s) /\
                            ~ In 62 (List.flat_map escapeUnit s)).
    { induction s as [| u s [IH1 IH2]]; [split; intros [] |].
      destruct (escapeUnit_no_bracket u) as [H1 H2]. cbn [List.flat_map].
      split; intros H; apply in_app_or in H; tauto. }
    destruct (Hno (ToString text)) as [H1 H2].
    split; [exact H1 |]. split; [exact H2 |]. split; [| discriminate].
    pose proof (ToString_truthy text Ht) as Hne.
    destruct (ToString text) as [| u s]; [congruence |]. cbn [List.flat_map].
    intros E. apply app_eq_nil in E as [E _]. destruct (escapeUnit_nonempty u E).
  - split; [intros [] |]. split; [intros [] |]. split; reflexivity.
Qed.

(** X13. [escapeHtml] returns a string unchanged when it holds no
    ampersand, angle bracket or no-break space: quotation marks are not
    escaped, although the pages place the result inside double-quoted
    attribute values. *)
Theorem escapeHtml_keeps_quotes (s : jsstring) :
  Forall (fun u => u <> 38 /\ u <> 60 /\ u <> 62 /\ u <> 160) s ->
  escapeHtml (JStr s) = s.
Proof.
  intros Hs. unfold escapeHtml, innerHTML_of_textContent.
  destruct s as [| u0 s0]; [reflexivity |]. cbn [truthy negb ToString].
  induction Hs as [| u s (H1 & H2 & H3 & H4) _ IH]; [reflexivity |].
  cbn [List.flat_map]. rewrite IH. unfold escapeUnit.
  apply Z.eqb_neq in H1, H2, H3, H4. rewrite H1, H2, H3, H4. reflexivity.
Qed.

Lemma escapeHtml_keeps_quotes_witness :
  escapeHtml (JStr [120; 34; 32; 111; 110; 61; 39]) = [120; 34; 32; 111; 110; 61; 39].
Proof.
  apply (escapeHtml_keeps_quotes [120; 34; 32; 111; 110; 61; 39]).
  repeat (constructor; [lia |]). constructor.
Defined.

End HtmlFacts.

(* ===================================================================== *)
(** * Properties of the grouping by position                               *)
(* ===================================================================== *)

Module PropsFacts.
Import Props.

Lemma own_put_same {A} (o : Obj A) k v : own (put o k v) k = Some v.
Proof.
  induction o as [| [k' v'] o IH]; simpl.
  - now rewrite bool_decide_eq_true_2.
  - destruct (bool_decide (k' = k)) eqn:E; simpl.
    + now rewrite bool_decide_eq_true_2.
    + now rewrite E.
Qed.

Lemma own_put_other {A} (o : Obj A) k v k' : k <> k' -> own (put o k v) k' = own o k'.
Proof.
  intros Hne. induction o as [| [k0 v0] o IH]; simpl.
  - now rewrite bool_decide_eq_false_2.
  - destruct (bool_decide (k0 = k)) eqn:E; simpl.
    + apply bool_decide_eq_true_1 in E. subst k0.
      now rewrite !bool_decide_eq_false_2.
    + now rewrite IH.
Qed.

Lemma own_None {A} (o : Obj A) k : own o k = None <-> ~ In k (List.map fst o).
Proof.
  induction o as [| [k' v'] o IH]; simpl; [tauto |].
  destruct (bool_decide (k' = k)) eqn:E.
  - apply bool_decide_eq_true_1 in E. split; [discriminate | tauto].
  - apply bool_decide_eq_false_1 in E. rewrite IH. tauto.
Qed.

Lemma own_Some_In {A} (o : Obj A) k v : own o k = Some v -> In k (List.map fst o).
Proof.
  induction o as [| [k' v'] o IH]; simpl; [discriminate |].
  destruct (bool_decide (k' = k)) eqn:E.
  - apply bool_decide_eq_true_1 in E. now left.
  - intros H. right. now apply IH.
Qed.

Lemma keys_put_old {A} (o : Obj A) k v :
  In k (List.map fst o) -> List.map fst (put o k v) = List.map fst o.
Proof.
  induction o as [| [k' v'] o IH]; simpl; [tauto |].
  destruct (bool_decide (k' = k)) eqn:E; simpl.
  - apply bool_decide_eq_true_1 in E. now subst.
  - apply bool_decide_eq_false_1 in E. intros [H | H]; [congruence |].
    now rewrite IH.
Qed.

Lemma keys_put_new {A} (o : Obj A) k v :
  ~ In k (List.map fst o) -> List.map fst (put o k v) = List.map fst o ++ [k].
Proof.
  induction o as [| [k' v'] o IH]; simpl; [reflexivity |].
  intros Hno. rewrite bool_decide_eq_false_2 by tauto. simpl.
  rewrite IH by tauto. reflexivity.
Qed.

Lemma of_position_snoc k rows row :
  of_position k (rows ++ [row]) =
  of_position k rows ++
  (if bool_decide (ToString (Get row (lit "position")) = k) then [row] else []).
Proof.
  unfold of_position. rewrite List.filter_app. reflexivity.
Qed.

Lemma holds_snoc members row : holds (members ++ [row]) = Some (members ++ [row]).
Proof. destruct members; reflexivity. Qed.

Lemma group_step_keeps acc seen row acc' :
  NoDup (List.map fst acc) ->
  (forall k, own acc k = holds (of_position k seen)) ->
  group_step acc row = Normal acc' ->
  NoDup (List.map fst acc') /\
  (forall k, own acc' k = holds (of_position k (seen ++ [row]))).
Proof.
  intros Hnd Hown. unfold group_step.
  set (key := ToString (Get row (lit "position"))).
  assert (Hstep : forall members,
            members = of_position key seen ->
            forall k, own (put acc key (members ++ [row])) k =
                      holds (of_position k (seen ++ [row]))).
  { intros members -> k. rewrite of_position_snoc. fold key.
    destruct (bool_decide (key = k)) eqn:E.
    - apply bool_decide_eq_true_1 in E. subst k.
      rewrite own_put_same, holds_snoc. reflexivity.
    - apply bool_decide_eq_false_1 in E.
      rewrite own_put_other by exact E. rewrite app_nil_r. apply Hown. }
  destruct (own acc key) as [members |] eqn:Hkey.
  - intros [= <-]. split.
    + rewrite keys_put_old; [exact Hnd |].
      exact (own_Some_In _ _ _ Hkey).
    + apply Hstep.
      pose proof (Hown key) as H. rewrite Hkey in H.
      destruct (of_position key seen); [discriminate | now injection H].
  - destruct (inherited key); [discriminate |]. intros [= <-].
    pose proof (proj1 (own_None acc key) Hkey) as Hnew. split.
    + rewrite keys_put_new by exact Hnew. apply NoDup_app. split; [exact Hnd |].
      split; [| apply NoDup_singleton].
      intros k Hk Hk'. apply list_elem_of_singleton in Hk'. subst k.
      apply Hnew. now apply list_elem_of_In.
    + pose proof (Hown key) as H. rewrite Hkey in H.
      destruct (of_position key seen) eqn:Hpos; [| discriminate].
      change [row] with ([] ++ [row]). apply Hstep. first [reflexivity | now rewrite Hpos].
Qed.

Lemma reduce_groups_keeps rows : forall acc seen groups,
  NoDup (List.map fst acc) ->
  (forall k, own acc k = holds (of_position k seen)) ->
  reduce_groups rows acc = Normal groups ->
  NoDup (List.map fst groups) /\
  (forall k, own groups k = holds (of_position k (seen ++ rows))).
Proof.
  induction rows as [| row rows IH]; intros acc seen groups Hnd Hown; simpl.
  - intros [= <-]. rewrite app_nil_r. auto.
  - destruct (group_step acc row) as [acc' | e] eqn:Hstep; [| discriminate].
    destruct (group_step_keeps acc seen row acc' Hnd Hown Hstep) as [Hnd' Hown'].
    intros Hred. destruct (IH acc' (seen ++ [row]) groups Hnd' Hown' Hred) as [H1 H2].
    split; [exact H1 |]. intros k. rewrite H2, <- app_assoc. reflexivity.
Qed.

(** X14. When the grouping by position returns, it is a partition of
    the rows: no position appears twice, and the group of a position is
    the list of the rows with that position, in their order in the
    input, a position without rows having no group. *)
Theorem groupByPosition_partitions (rows : list JsObject) (groups : Obj (list JsObject)) :
  groupByPosition rows = Normal groups ->
  NoDup (List.map fst groups) /\
  (forall k members,
     own groups k = Some members <-> members = of_position k rows /\ members <> []).
Proof.
  intros Hg.
  destruct (reduce_groups_keeps rows [] [] groups) as [Hnd Hown];
    [constructor | reflexivity | exact Hg |].
  split; [exact Hnd |]. intros k members. rewrite Hown. cbn [app].
  destruct (of_position k rows) as [| r l] eqn:Hpos; cbn [holds].
  - split; [discriminate | intros [-> H]; congruence].
  - split; [intros [= <-]; split; [reflexivity | discriminate] | intros [-> _]; reflexivity].
Qed.

Lemma groupByPosition_partitions_witness :
  let president := [(lit "name", JStr (lit "Ann")); (lit "position", JStr (lit "President"))] in
  let treasurer := [(lit "name", JStr (lit "Bob")); (lit "position", JStr (lit "Treasurer"))] in
  let rival := [(lit "name", JStr (lit "Cy")); (lit "position", JStr (lit "President"))] in
  exists groups,
    groupByPosition [president; treasurer; rival] = Normal groups /\
    own groups (lit "President") = Some [president; rival].
Proof.
  cbv zeta.
  exists [ (lit "President",
            [ [(lit "name", JStr (lit "Ann")); (lit "position", JStr (lit "President"))];
              [(lit "name", JStr (lit "Cy")); (lit "position", JStr (lit "President"))] ]);
           (lit "Treasurer",
            [ [(lit "name", JStr (lit "Bob")); (lit "position", JStr (lit "Treasurer"))] ]) ].
  assert (Hg : groupByPosition
                 [ [(lit "name", JStr (lit "Ann")); (lit "position", JStr (lit "President"))];
                   [(lit "name", JStr (lit "Bob")); (lit "position", JStr (lit "Treasurer"))];
                   [(lit "name", JStr (lit "Cy")); (lit "position", JStr (lit "President"))] ] =
               Normal
                 [ (lit "President",
                    [ [(lit "name", JStr (lit "Ann")); (lit "position", JStr (lit "President"))];
                      [(lit "name", JStr (lit "Cy")); (lit "position", JStr (lit "President"))] ]);
                   (lit "Treasurer",
                    [ [(lit "name", JStr (lit "Bob")); (lit "position", JStr (lit "Treasurer"))] ]) ])
    by (vm_compute; reflexivity).
  split; [exact Hg |].
  apply (proj2 (groupByPosition_partitions _ _ Hg)).
  split; [vm_compute; reflexivity | discriminate].
Defined.

Lemma reduce_groups_inherited rows : forall acc,
  (forall k, In k (List.map fst acc) -> inherited k = false) ->
  (Exists (fun row => inherited (ToString (Get row (lit "position"))) = true) rows ->
   reduce_groups rows acc = Throw TypeError) /\
  (Forall (fun row => inherited (ToString (Get row (lit "position"))) = false) rows ->
   exists groups, reduce_groups rows acc = Normal groups).
Proof.
  induction rows as [| row rows IH]; intros acc Hacc.
  - split; [intros H; inversion H | intros _; now exists acc].
  - cbn [reduce_groups]. unfold group_step.
    set (key := ToString (Get row (lit "position"))).
    destruct (inherited key) eqn:Hkey.
    + assert (Hnone : own acc key = None).
      { apply own_None. intros Hin. apply Hacc in Hin. congruence. }
      rewrite Hnone. split; [reflexivity |].
      intros H. apply List.Forall_inv in H. fold key in H. congruence.
    + assert (Hnext : forall v k, In k (List.map fst (put acc key v)) -> inherited k = false).
      { intros v k Hin.
        destruct (own acc key) as [members |] eqn:Hown.
        - rewrite keys_put_old in Hin by exact (own_Some_In _ _ _ Hown). now apply Hacc.
        - rewrite keys_put_new in Hin by (now apply own_None).
          apply in_app_or in Hin as [Hin | [<- | []]]; [now apply Hacc | exact Hkey]. }
      destruct (own acc key) as [members |].
      * destruct (IH _ (Hnext (members ++ [row]))) as [H1 H2]. split.
        -- intros H. apply List.Exists_cons in H as [H | H]; [fold key in H; congruence |].
           now apply H1.
        -- intros H. apply H2. now apply List.Forall_inv_tail in H.
      * destruct (IH _ (Hnext [row])) as [H1 H2]. split.
        -- intros H. apply List.Exists_cons in H as [H | H]; [fold key in H; congruence |].
           now apply H1.
        -- intros H. apply H2. now apply List.Forall_inv_tail in H.
Qed.

(** X15. The grouping throws a [TypeError] exactly when some row has a
    position named like a member of [Object.prototype] ([constructor],
    [toString], [valueOf], ...): one such row makes the whole grouping
    fail, and without such a row it returns. *)
Theorem groupByPosition_inherited_names (rows : list JsObject) :
  (Exists (fun row => In (ToString (Get row (lit "position"))) Object_prototype_names) rows ->
   groupByPosition rows = Throw TypeError) /\
  (Forall (fun row => ~ In (ToString (Get row (lit "position"))) Object_prototype_names) rows ->
   exists groups, groupByPosition rows = Normal groups).
Proof.
  destruct (reduce_groups_inherited rows []) as [H1 H2]; [intros k [] |].
  split.
  - intros H. apply H1. eapply List.Exists_impl; [| exact H].
    intros row Hin. now apply bool_decide_eq_true_2.
  - intros H. apply H2. eapply List.Forall_impl; [| exact H].
    intros row Hin. now apply bool_decide_eq_false_2.
Qed.

Lemma groupByPosition_inherited_names_witness :
  groupByPosition
    [ [(lit "name", JStr (lit "Ann")); (lit "position", JStr (lit "President"))];
      [(lit "name", JStr (lit "Bob")); (lit "position", JStr (lit "constructor"))] ] =
  Throw TypeError.
Proof.
  apply (proj1 (groupByPosition_inherited_names _)).
  apply List.Exists_cons_tl, List.Exists_cons_hd. vm_compute. tauto.
Defined.

End PropsFacts.

(* ===================================================================== *)
(** * Properties of the reports and of the session status                  *)
(* ===================================================================== *)

Module ClientFacts.
Import Client ReportNotions.

Lemma sumTotals_from rows : forall a,
  Forall numeric_total rows ->
  List.fold_left
    (fun sum r => plus sum (js_or (Get r (lit "total_votes")) (JNum 0)))
    rows (Value (JNum a)) = Value (JNum (a + sum_of_totals rows)).
Proof.
  induction rows as [| r rows IH]; intros a Hrows; simpl.
  - f_equal. f_equal. lia.
  - inversion Hrows as [| ? ? Hr Hrest]; subst.
    unfold numeric_total in Hr. unfold cell_total.
    destruct (Get r (lit "total_votes")) as [| | b | n | s] eqn:Hget; try contradiction.
    + cbn. rewrite (IH _ Hrest). f_equal. f_equal. lia.
    + cbn. rewrite (IH _ Hrest). f_equal. f_equal. lia.
    + unfold js_or. cbn [truthy]. destruct (n =? 0) eqn:Hn; cbn.
      * apply Z.eqb_eq in Hn. subst n. rewrite (IH _ Hrest). f_equal. f_equal. lia.
      * rewrite (IH _ Hrest). f_equal. f_equal. lia.
Qed.

(** The running total is never [NaN]: a missing total counts as 0. *)
Lemma sumTotals_not_NaN rows : sumTotals rows <> NaN.
Proof.
  unfold sumTotals.
  assert (H : forall v, List.fold_left
                          (fun sum r => plus sum (js_or (Get r (lit "total_votes")) (JNum 0)))
                          rows (Value v) <> NaN /\ v <> JUndefined \/ v = JUndefined);
    [| destruct (H (JNum 0)) as [[H1 _] | H1]; [exact H1 | discriminate]].
  induction rows as [| r rows IH]; intros v.
  - destruct v; try (left; split; discriminate). now right.
  - destruct v as [| | b | n | s]; [now right | | | |]; left; (split; [| discriminate]);
      cbn [List.fold_left]; unfold js_or;
      destruct (Get r (lit "total_votes")) as [| | b' | n' | s'];
      cbn [truthy]; try destruct b'; try destruct (negb (n' =? 0)); try destruct s';
      cbn [plus ToNumber];
      match goal with
      | |- fold_left _ _ (Value ?x) <> NaN =>
          destruct (IH x) as [[H _] | H]; [exact H | discriminate]
      end.
Qed.

Lemma lines_from_plain s : forall current rest,
  ~ In 10 s ->
  lines_from current (s ++ rest) = lines_from (current ++ s) rest.
Proof.
  induction s as [| u s IH]; intros current rest Hs; simpl.
  - now rewrite app_nil_r.
  - destruct (u =? 10) eqn:E.
    + apply Z.eqb_eq in E. subst u. exfalso. apply Hs. now left.
    + rewrite IH by (intros H; apply Hs; now right).
      now rewrite <- app_assoc.
Qed.

Lemma lines_join first rest :
  Forall (fun line => ~ In 10 line) (first :: rest) ->
  lines (Array_join [10] (List.map JStr (first :: rest))) = first :: rest.
Proof.
  unfold lines. revert first. induction rest as [| second rest IH]; intros first Hall.
  - cbn. inversion Hall; subst.
    rewrite <- (app_nil_r first) at 1. rewrite lines_from_plain by assumption. reflexivity.
  - inversion Hall as [| ? ? Hfirst Hrest]; subst.
    change (Array_join [10] (List.map JStr (first :: second :: rest)))
      with (first ++ [10] ++ Array_join [10] (List.map JStr (second :: rest))).
    rewrite lines_from_plain by assumption. cbn [app lines_from].
    change (10 =? 10) with true. cbn iota. f_equal. apply IH. exact Hrest.
Qed.

Lemma csvLine_plain result :
  single_line result -> ~ In 10 (csvLine (csvCells result)).
Proof.
  unfold single_line, csvCells, csvLine. intros H.
  inversion H as [| ? ? H1 H']; subst. inversion H' as [| ? ? H2 H'']; subst.
  inversion H'' as [| ? ? H3 H''']; subst. inversion H''' as [| ? ? H4 _]; subst.
  cbn [List.map Array_join join_item ToString] in *.
  intros Hin. rewrite !in_app_iff in Hin. rewrite in_app_iff in H4.
  change (lit ",") with [44] in Hin. change (lit "%") with [37] in Hin.
  cbn [In] in Hin. intuition (try discriminate).
Qed.

Section Generic.

Context {Db : Type}.
Variable supabase : Query -> Db -> Completion Admin.QueryError Reply * Db.
Variable error_text : JsError -> jsstring.

#[local] Abbreviation send := (Client.send supabase).
#[local] Abbreviation checked := (Client.checked supabase).
#[local] Abbreviation message := (Client.message error_text).
#[local] Abbreviation getElectionResults := (Client.getElectionResults supabase error_text).
#[local] Abbreviation getCandidatesByPosition :=
  (Client.getCandidatesByPosition supabase error_text).
#[local] Abbreviation getResultsByPosition :=
  (Client.getResultsByPosition supabase error_text).
#[local] Abbreviation getVoteStatistics := (Client.getVoteStatistics supabase error_text).
#[local] Abbreviation exportResultsToCSV := (Client.exportResultsToCSV supabase error_text).
#[local] Abbreviation isVotingOpen := (Client.isVotingOpen supabase error_text).
#[local] Abbreviation getCurrentElection := (Client.getCurrentElection supabase error_text).

Lemma send_answered q (w : World Db) reply d :
  supabase q (db w) = (Normal reply, d) ->
  send q w = (Normal reply, {| db := d; sent := sent w ++ [q] |}).
Proof. intros H. unfold Client.send. now rewrite H. Qed.

Lemma send_rejected q (w : World Db) e d :
  supabase q (db w) = (Throw e, d) ->
  send q w = (Throw (Reported e), {| db := d; sent := sent w ++ [q] |}).
Proof. intros H. unfold Client.send. now rewrite H. Qed.

Lemma checked_ok q (w : World Db) reply d :
  supabase q (db w) = (Normal reply, d) -> error reply = None ->
  checked q w = (Normal reply, {| db := d; sent := sent w ++ [q] |}).
Proof.
  intros H He. unfold Client.checked, bindQ. rewrite (send_answered _ _ _ _ H), He.
  reflexivity.
Qed.

Lemma checked_error q (w : World Db) reply d e :
  supabase q (db w) = (Normal reply, d) -> error reply = Some e ->
  checked q w = (Throw (Reported e), {| db := d; sent := sent w ++ [q] |}).
Proof.
  intros H He. unfold Client.checked, bindQ. rewrite (send_answered _ _ _ _ H), He.
  reflexivity.
Qed.

Lemma checked_rejected q (w : World Db) d e :
  supabase q (db w) = (Throw e, d) ->
  checked q w = (Throw (Reported e), {| db := d; sent := sent w ++ [q] |}).
Proof.
  intros H. unfold Client.checked, bindQ. rewrite (send_rejected _ _ _ _ H). reflexivity.
Qed.

(** X16. On replies without an error, [getCandidatesByPosition]
    succeeds exactly when the data is an array no row of which has a
    position named like a member of [Object.prototype]; a reply whose
    data is [null] is a failure for it, and a success with no group for
    [getResultsByPosition], which otherwise succeeds on the same
    condition. *)
Theorem grouped_reports (electionId : JsVal) (w : World Db)
  (candidates results : Reply) (d1 d2 : Db) :
  supabase (candidatesQuery electionId) (db w) = (Normal candidates, d1) ->
  error candidates = None ->
  supabase (resultsQuery electionId) (db w) = (Normal results, d2) ->
  error results = None ->
  (grouping_success (fst (getCandidatesByPosition electionId w)) = true <->
   exists rows, data candidates = DRows rows /\
     Forall (fun row => ~ In (ToString (Get row (lit "position")))
                             Props.Object_prototype_names) rows) /\
  (grouping_success (fst (getResultsByPosition electionId w)) = true <->
   exists rows, or_empty (data results) = DRows rows /\
     Forall (fun row => ~ In (ToString (Get row (lit "position")))
                             Props.Object_prototype_names) rows) /\
  (data results = DNull ->
   fst (getResultsByPosition electionId w) =
     {| grouping_success := true; grouping_data := Some []; grouping_error := None |}).
Proof.
  intros Hc Hce Hr Hre.
  assert (Hgroup : forall rows,
            (exists groups, Props.groupByPosition rows = Normal groups) <->
            Forall (fun row => ~ In (ToString (Get row (lit "position")))
                                    Props.Object_prototype_names) rows).
  { intros rows. unfold Props.groupByPosition.
    destruct (PropsFacts.reduce_groups_inherited rows []) as [H1 H2]; [intros k [] |].
    split.
    - intros [groups Hg]. apply List.Forall_forall. intros row Hin Hbad.
      rewrite H1 in Hg; [discriminate |].
      apply List.Exists_exists. exists row. split; [exact Hin |].
      now apply bool_decide_eq_true_2.
    - intros Hall. apply H2. eapply List.Forall_impl; [| exact Hall].
      intros row Hno. now apply bool_decide_eq_false_2. }
  split; [| split].
  - unfold Client.getCandidatesByPosition, settle, bindQ.
    rewrite (checked_ok _ _ _ _ Hc Hce). unfold liftQ.
    destruct (data candidates) as [| row | rows]; cbn.
    + split; [discriminate | intros (rows & H & _); discriminate].
    + split; [discriminate | intros (rows & H & _); discriminate].
    + destruct (Props.groupByPosition rows) as [groups | e] eqn:Hg; cbn.
      * split; [| reflexivity]. intros _. exists rows. split; [reflexivity |].
        apply Hgroup. now exists groups.
      * split; [discriminate |]. intros (rows' & [= <-] & Hall).
        apply Hgroup in Hall as [groups Hg']. congruence.
  - unfold Client.getResultsByPosition, settle, bindQ.
    rewrite (checked_ok _ _ _ _ Hr Hre). unfold liftQ.
    destruct (or_empty (data results)) as [| row | rows]; cbn.
    + split; [discriminate | intros (rows & H & _); discriminate].
    + split; [discriminate | intros (rows & H & _); discriminate].
    + destruct (Props.groupByPosition rows) as [groups | e] eqn:Hg; cbn.
      * split; [| reflexivity]. intros _. exists rows. split; [reflexivity |].
        apply Hgroup. now exists groups.
      * split; [discriminate |]. intros (rows' & [= <-] & Hall).
        apply Hgroup in Hall as [groups Hg']. congruence.
  - intros Hnull. unfold Client.getResultsByPosition, settle, bindQ.
    rewrite (checked_ok _ _ _ _ Hr Hre), Hnull. reflexivity.
Qed.

(** X17. When both queries of [getVoteStatistics] are answered without
    an error, every [total_votes] is a number, [null] or absent, and
    the totals and their running sums are safe integers (at most
    [2^53 - 1] in absolute value, where addition is exact), the reported
    total is the sum of the numbers, and the number of voters is the
    count of the first reply, 0 when it has none. *)
Theorem getVoteStatistics_sums (electionId : JsVal) (w : World Db)
  (voters results : Reply) (d1 d2 : Db) (rows : list JsObject) :
  supabase (votersCountQuery electionId) (db w) = (Normal voters, d1) ->
  error voters = None ->
  supabase (totalsQuery electionId) d1 = (Normal results, d2) ->
  error results = None ->
  or_empty (data results) = DRows rows ->
  Forall numeric_total rows ->
  exact_sums rows ->
  fst (getVoteStatistics electionId w) =
    {| statistics_success := true;
       totalVotes := Value (JNum (sum_of_totals rows));
       uniqueVoters := js_or (count voters) (JNum 0);
       statistics_error := None |}.
Proof.
  intros Hv Hve Hr Hre Hrows Hnum _.
  unfold Client.getVoteStatistics, settle, bindQ.
  rewrite (checked_ok _ _ _ _ Hv Hve).
  rewrite (checked_ok (totalsQuery electionId) {| db := d1; sent := _ |} results d2 Hr Hre).
  unfold liftQ. rewrite Hrows. cbn. unfold sumTotals.
  rewrite (sumTotals_from rows 0 Hnum). reflexivity.
Qed.

(** [getVoteStatistics] stops at the first query that reports an
    error: the totals are not asked for, both figures are reported as
    0 and the error carries the message of the reply. *)
Theorem getVoteStatistics_stops_at_first_error (electionId : JsVal) (w : World Db)
  (voters : Reply) (d1 : Db) (e : Admin.QueryError) :
  supabase (votersCountQuery electionId) (db w) = (Normal voters, d1) ->
  error voters = Some e ->
  getVoteStatistics electionId w =
    ({| statistics_success := false;
        totalVotes := Value (JNum 0);
        uniqueVoters := JNum 0;
        statistics_error := Some (Admin.error_message e) |},
     {| db := d1; sent := sent w ++ [votersCountQuery electionId] |}).
Proof.
  intros Hv Hve. unfold Client.getVoteStatistics, settle, bindQ.
  rewrite (checked_error _ _ _ _ _ Hv Hve). reflexivity.
Qed.

(** X18. When the results are answered without an error and no cell
    prints with a line feed, the exported text has the header as its
    first line and then one line per result, in the order of the
    reply; a reply without data gives the header alone. *)
Theorem exportResultsToCSV_lines (electionId : JsVal) (w : World Db)
  (reply : Reply) (d : Db) (rows : list JsObject) :
  supabase (resultsQuery electionId) (db w) = (Normal reply, d) ->
  error reply = None ->
  or_empty (data reply) = DRows rows ->
  Forall single_line rows ->
  exists text,
    fst (exportResultsToCSV electionId w) =
      {| export_success := true; export_data := Some text; export_error := None |} /\
    lines text =
      lit "Position,Candidate Name,Total Votes,Percentage" ::
      List.map (fun result => csvLine (csvCells result)) rows.
Proof.
  intros Hq He Hrows Hplain.
  exists (csvContent rows). split.
  - unfold Client.exportResultsToCSV, Client.getElectionResults, settle, bindQ.
    rewrite (checked_ok _ _ _ _ Hq He). cbn. unfold liftQ. rewrite Hrows. reflexivity.
  - unfold csvContent. rewrite lines_join; [reflexivity |].
    constructor.
    + vm_compute. intuition discriminate.
    + apply List.Forall_forall. intros line Hin. apply List.in_map_iff in Hin as (r & <- & Hr).
      apply csvLine_plain. exact (proj1 (List.Forall_forall _ _) Hplain r Hr).
Qed.

(** When the results query reports an error, the export fails
    with the text of that error's message: a message that is not a
    string is converted to one, and a missing message becomes the empty
    string. *)
Theorem exportResultsToCSV_failure (electionId : JsVal) (w : World Db)
  (reply : Reply) (d : Db) (e : Admin.QueryError) :
  supabase (resultsQuery electionId) (db w) = (Normal reply, d) ->
  error reply = Some e ->
  exportResultsToCSV electionId w =
    ({| export_success := false; export_data := None;
        export_error :=
          Some (JStr (match Admin.error_message e with
                      | JUndefined => []
                      | text => ToString text
                      end)) |},
     {| db := d; sent := sent w ++ [resultsQuery electionId] |}).
Proof.
  intros Hq He.
  unfold Client.exportResultsToCSV, Client.getElectionResults, settle, bindQ.
  rewrite (checked_error _ _ _ _ _ Hq He). cbn.
  destruct (Admin.error_message e); reflexivity.
Qed.

(** X19. [isVotingOpen] sends one query and reports an open session
    only for a reply without error whose row has a truthy [is_open]; it
    reports a failure exactly when the client rejects or reports an
    error whose code is not [PGRST116], the code of an empty result,
    which counts as a closed session. *)
Theorem isVotingOpen_reports (w : World Db) :
  let q := openElectionQuery (lit "is_open") in
  let r := fst (isVotingOpen w) in
  sent (snd (isVotingOpen w)) = sent w ++ [q] /\
  (truthy (isOpen r) = true <->
   exists reply row,
     fst (supabase q (db w)) = Normal reply /\ error reply = None /\
     data reply = DRow row /\ truthy (Get row (lit "is_open")) = true) /\
  (status_success r = false <->
   (exists e, fst (supabase q (db w)) = Throw e) \/
   (exists reply e,
      fst (supabase q (db w)) = Normal reply /\ error reply = Some e /\
      Admin.error_code e <> JStr (lit "PGRST116"))).
Proof.
  cbv zeta. unfold Client.isVotingOpen, settle, bindQ, Client.send.
  destruct (supabase (openElectionQuery (lit "is_open")) (db w)) as [[reply | e] d];
    cbn [fst snd].
  - destruct (error reply) as [e |] eqn:He.
    + destruct (strict_eq (Admin.error_code e) (JStr (lit "PGRST116"))) eqn:Hcode; cbn -[lit].
      * apply ApiMore.strict_eq_true in Hcode.
        split; [reflexivity |]. split.
        -- split; [discriminate | intros (reply' & row & [= <-] & H & _); congruence].
        -- split; [discriminate |].
           intros [(e' & H) | (reply' & e' & [= <-] & H1 & H2)]; [discriminate |].
           congruence.
      * split; [reflexivity |]. split.
        -- split; [discriminate | intros (reply' & row & [= <-] & H & _); congruence].
        -- split; [| reflexivity]. intros _. right. exists reply, e.
           split; [reflexivity |]. split; [exact He |].
           intros Heq. apply ApiMore.strict_eq_true in Heq. congruence.
    + cbn -[lit]. split; [reflexivity |]. split.
      * unfold js_or, optional_prop. destruct (data reply) as [| row | rows] eqn:Hd.
        -- cbn -[lit]. split; [discriminate | intros (reply' & row & [= <-] & _ & H & _); congruence].
        -- destruct (truthy (Get row (lit "is_open"))) eqn:Ht.
           ++ split; [| intros _; exact Ht]. intros _. exists reply, row. auto.
           ++ cbn -[lit]. split; [discriminate |].
              intros (reply' & row' & [= <-] & _ & H & Ht'). congruence.
        -- cbn -[lit]. split; [discriminate | intros (reply' & row & [= <-] & _ & H & _); congruence].
      * split; [discriminate |].
        intros [(e' & H) | (reply' & e' & [= <-] & H1 & H2)]; [discriminate | congruence].
  - cbn -[lit]. split; [reflexivity |]. split.
    + split; [discriminate | intros (reply' & row & H & _); discriminate].
    + split; [| reflexivity]. intros _. left. now exists e.
Qed.

End Generic.

(** ** The theorems at concrete services *)

Lemma grouped_reports_witness :
  grouping_success
    (fst (Client.getCandidatesByPosition (Desk.replying Desk.noRows) Desk.text
            (JNum 1) Desk.start)) = false /\
  fst (Client.getResultsByPosition (Desk.replying Desk.noRows) Desk.text
         (JNum 1) Desk.start) =
    {| grouping_success := true; grouping_data := Some []; grouping_error := None |}.
Proof.
  destruct (grouped_reports (Desk.replying Desk.noRows) Desk.text (JNum 1) Desk.start
              Desk.noRows Desk.noRows tt tt eq_refl eq_refl eq_refl eq_refl)
    as (H1 & _ & H3).
  split; [| exact (H3 eq_refl)].
  destruct (grouping_success _) eqn:E; [| reflexivity].
  destruct (proj1 H1 eq_refl) as (rows & H & _). discriminate.
Defined.

Lemma getVoteStatistics_sums_witness :
  fst (Client.getVoteStatistics Desk.tallies Desk.text (JNum 1) Desk.start) =
    {| statistics_success := true; totalVotes := Value (JNum 3);
       uniqueVoters := JNum 3; statistics_error := None |}.
Proof.
  apply (getVoteStatistics_sums Desk.tallies Desk.text (JNum 1) Desk.start
           {| data := DNull; error := None; count := JNum 3 |}
           {| data := DRows Desk.results; error := None; count := JNull |}
           tt tt Desk.results eq_refl eq_refl eq_refl eq_refl eq_refl).
  - repeat constructor.
  - vm_compute. intuition discriminate.
Defined.

Lemma getVoteStatistics_stops_at_first_error_witness :
  sent (snd (Client.getVoteStatistics (Desk.replying Desk.refusing) Desk.text
               (JNum 1) Desk.start)) = [votersCountQuery (JNum 1)].
Proof.
  rewrite (getVoteStatistics_stops_at_first_error (Desk.replying Desk.refusing) Desk.text
             (JNum 1) Desk.start Desk.refusing tt Desk.denied eq_refl eq_refl).
  reflexivity.
Defined.

Lemma exportResultsToCSV_lines_witness :
  exists text,
    fst (Client.exportResultsToCSV Desk.tallies Desk.text (JNum 1) Desk.start) =
      {| export_success := true; export_data := Some text; export_error := None |} /\
    List.length (lines text) = 4%nat.
Proof.
  destruct (exportResultsToCSV_lines Desk.tallies Desk.text (JNum 1) Desk.start
              {| data := DRows Desk.results; error := None; count := JNull |}
              tt Desk.results eq_refl eq_refl eq_refl) as (text & H1 & H2).
  - unfold Desk.results.
    repeat (constructor;
            [unfold single_line, csvCells;
             repeat (constructor; [vm_compute; intuition discriminate |]); constructor |]).
    constructor.
  - exists text. split; [exact H1 |]. rewrite H2. reflexivity.
Defined.

Lemma exportResultsToCSV_failure_witness :
  fst (Client.exportResultsToCSV (Desk.replying Desk.silent) Desk.text (JNum 1) Desk.start) =
    {| export_success := false; export_data := None; export_error := Some (JStr []) |}.
Proof.
  rewrite (exportResultsToCSV_failure (Desk.replying Desk.silent) Desk.text (JNum 1)
             Desk.start Desk.silent tt _ eq_refl eq_refl).
  reflexivity.
Defined.

End ClientFacts.

(* ===================================================================== *)
(** * Properties of the ballot page                                        *)
(* ===================================================================== *)

Module VotingFacts.
Import Client Voting.

Lemma own_assign {A} (o : Props.Obj A) key v k :
  k <> lit "__proto__" ->
  Props.own (Props.assign o key v) k =
    if bool_decide (key = k) then Some v else Props.own o k.
Proof.
  intros Hk. unfold Props.assign.
  destruct (bool_decide (key = lit "__proto__")) eqn:Hp.
  - apply bool_decide_eq_true_1 in Hp. subst key.
    rewrite bool_decide_eq_false_2 by congruence. reflexivity.
  - destruct (bool_decide (key = k)) eqn:E.
    + apply bool_decide_eq_true_1 in E. subst k. apply PropsFacts.own_put_same.
    + apply bool_decide_eq_false_1 in E. now apply PropsFacts.own_put_other.
Qed.

Lemma own_assign_proto {A} (o : Props.Obj A) key v :
  Props.own (Props.assign o key v) (lit "__proto__") = Props.own o (lit "__proto__").
Proof.
  unfold Props.assign.
  destruct (bool_decide (key = lit "__proto__")) eqn:Hp; [reflexivity |].
  apply bool_decide_eq_false_1 in Hp. now apply PropsFacts.own_put_other.
Qed.

(** X20. The ballot keeps one choice per position, the last one made:
    after any selections, the choice recorded for a position is that
    of the last selection naming it, or the earlier choice if none
    does.  A selection for a position named [__proto__] is never
    recorded. *)
Theorem last_selection_wins {Db} (selections : list Selection) (p : Page Db)
  (k : jsstring) :
  k <> lit "__proto__" ->
  Props.own (selectedVotes (selecting selections p)) k =
    match lastChoice k selections with
    | Some choice => Some choice
    | None => Props.own (selectedVotes p) k
    end /\
  Props.own (selectedVotes (selecting selections p)) (lit "__proto__") =
    Props.own (selectedVotes p) (lit "__proto__").
Proof.
  intros Hk. revert p.
  induction selections as [| [[position id] name] rest IH]; intros p; [split; reflexivity |].
  unfold selecting in *. cbn [List.fold_left fst snd].
  destruct (IH (snd (recordSelection position id name p))) as [IH1 IH2].
  split.
  - rewrite IH1. cbn [lastChoice].
    destruct (lastChoice k rest); [reflexivity |].
    cbn [recordSelection snd selectedVotes]. rewrite own_assign by exact Hk.
    destruct (bool_decide (ToString position = k)); reflexivity.
  - rewrite IH2. cbn [recordSelection snd selectedVotes]. apply own_assign_proto.
Qed.

Lemma last_selection_wins_witness :
  Props.own
    (selectedVotes
       (selecting [ (JStr (lit "President"), JStr (lit "1"), JStr (lit "Ann"));
                    (JStr (lit "Treasurer"), JStr (lit "7"), JStr (lit "Cy"));
                    (JStr (lit "President"), JStr (lit "2"), JStr (lit "Bob")) ]
          Ballots.blank))
    (lit "President") =
  Some {| candidateId := JStr (lit "2"); candidateName := JStr (lit "Bob") |}.
Proof.
  refine (proj1 (last_selection_wins _ Ballots.blank (lit "President") _)).
  discriminate.
Defined.

Section Generic.

Context {Db : Type}.
Variable supabase : Query -> Db -> Completion Admin.QueryError Reply * Db.
Variable document : jsstring -> bool.

#[local] Abbreviation checkIfVoted := (Voting.checkIfVoted supabase).
#[local] Abbreviation loadCandidates := (Voting.loadCandidates supabase document).
#[local] Abbreviation loadElection := (Voting.loadElection supabase document).
#[local] Abbreviation submitVotes := (Voting.submitVotes supabase document).
#[local] Abbreviation handleBallotSubmit := (Voting.handleBallotSubmit document).
#[local] Abbreviation init := (Voting.init supabase document).

(** X21. [checkIfVoted] answers, and answers [true] only when there is
    a current election and the lookup is answered with data: a lookup
    that is rejected, or answered without data, reads as not having
    voted, and the [error] of the reply plays no part. *)
Theorem checkIfVoted_fails_open (p : Page Db) :
  exists voted,
    fst (checkIfVoted p) = Normal voted /\
    (voted = true <->
     exists electionId reply,
       prop (currentElection p) (lit "id") = Normal electionId /\
       fst (supabase (voterLookup electionId (voterFingerprint p)) (db (service p))) =
         Normal reply /\
       data reply <> DNull).
Proof.
  unfold Voting.checkIfVoted, catchV, bindV, page, liftV, query, send.
  destruct (prop (currentElection p) (lit "id")) as [electionId | f] eqn:Hid.
  - destruct (supabase (voterLookup electionId (voterFingerprint p)) (db (service p)))
      as [[reply | e] d] eqn:Hq.
    + destruct (data reply) as [| row | rows] eqn:Hdata; cbn.
      * exists false. split; [reflexivity |]. split; [discriminate |].
        intros (id' & reply' & [= <-] & H & Hne). rewrite Hq in H. cbn in H.
        injection H as <-. congruence.
      * exists true. split; [reflexivity |]. split; [| reflexivity].
        intros _. exists electionId, reply. rewrite Hq. cbn.
        split; [reflexivity |]. split; [reflexivity | congruence].
      * exists true. split; [reflexivity |]. split; [| reflexivity].
        intros _. exists electionId, reply. rewrite Hq. cbn.
        split; [reflexivity |]. split; [reflexivity | congruence].
    + cbn. exists false. split; [reflexivity |]. split; [discriminate |].
      intros (id' & reply' & [= <-] & H & _). rewrite Hq in H. discriminate.
  - cbn. exists false. split; [reflexivity |]. split; [discriminate |].
    intros (id' & reply' & H & _). discriminate.
Qed.

(** ** Steps that only show *)

Lemma revealed_app l1 l2 : revealed (l1 ++ l2) = revealed l1 ++ revealed l2.
Proof.
  induction l1 as [| e l1 IH]; [reflexivity |].
  destruct e; cbn [app revealed]; try exact IH.
  destruct (bool_decide (class = lit "hidden")); [cbn; now rewrite IH | exact IH].
Qed.

Lemma on_present element e (p : Page Db) :
  document element = true -> on document element e p = show e p.
Proof. intros H. unfold on. now rewrite H. Qed.

Section Present.

Hypothesis present : forall element, document element = true.

Lemma updateElectionStatus_present isOpen (p : Page Db) :
  exists p',
    updateElectionStatus document isOpen p = (Normal tt, p') /\
    revealed (shown p') = revealed (shown p) /\
    service p' = service p /\ currentElection p' = currentElection p /\
    voterFingerprint p' = voterFingerprint p.
Proof.
  unfold updateElectionStatus, bindV, on. destruct isOpen; rewrite !present; cbn;
    (eexists; split; [reflexivity |]); cbn; rewrite !revealed_app; cbn;
    rewrite !app_nil_r; auto.
Qed.

Lemma showClosedState_present (p : Page Db) :
  exists p',
    showClosedState document p = (Normal tt, p') /\
    revealed (shown p') = revealed (shown p) ++ [lit "closedState"].
Proof.
  unfold showClosedState, updateElectionStatus, bindV, on. rewrite !present. cbn.
  eexists. split; [reflexivity |]. cbn. rewrite !revealed_app. cbn.
  rewrite !app_nil_r. reflexivity.
Qed.

Lemma showVotedState_present (p : Page Db) :
  exists p',
    showVotedState document p = (Normal tt, p') /\
    revealed (shown p') = revealed (shown p) ++ [lit "votedState"].
Proof.
  unfold showVotedState, bindV, on, page. rewrite !present. cbn.
  destruct (closedElection (currentElection p)); rewrite ?present; cbn;
    (eexists; split; [reflexivity |]); cbn; rewrite !revealed_app; cbn;
    rewrite !app_nil_r; reflexivity.
Qed.

Lemma showVotingForm_present (p : Page Db) :
  exists p',
    showVotingForm document p = (Normal tt, p') /\
    revealed (shown p') = revealed (shown p) ++ [lit "votingForm"].
Proof.
  unfold showVotingForm, bindV, on. rewrite !present. cbn.
  eexists. split; [reflexivity |]. cbn. rewrite !revealed_app. cbn.
  rewrite !app_nil_r. reflexivity.
Qed.

Lemma renderVotingForm_quiet (p : Page Db) :
  revealed (shown (snd (renderVotingForm document p))) = revealed (shown p).
Proof.
  unfold renderVotingForm, bindV, on, page, liftV. rewrite !present.
  destruct (prop (currentElection p) (lit "title")); [| reflexivity]. cbn -[lit].
  destruct (prop (currentElection p) (lit "description")); cbn -[lit];
    [| rewrite revealed_app; cbn -[lit]; now rewrite app_nil_r].
  destruct (as_array (candidates p)) as [rows | f]; cbn -[lit];
    [| rewrite !revealed_app; cbn -[lit]; now rewrite !app_nil_r].
  destruct (raised (Props.groupByPosition rows)); cbn -[lit];
    rewrite !revealed_app; cbn -[lit]; now rewrite !app_nil_r.
Qed.

Lemma loadCandidates_quiet (p : Page Db) :
  exists p',
    loadCandidates p = (Normal tt, p') /\
    revealed (shown p') = revealed (shown p).
Proof.
  unfold Voting.loadCandidates, catchV, bindV, page, liftV.
  destruct (prop (currentElection p) (lit "id")) as [electionId | f].
  - unfold query at 1, send.
    destruct (supabase (candidatesQuery electionId) (db (service p))) as [[reply | e] d].
    + destruct (error reply).
      * cbn -[lit]. eexists. split; [reflexivity |]. cbn -[lit]. rewrite revealed_app. cbn -[lit].
        now rewrite app_nil_r.
      * unfold set_candidates at 1.
        match goal with
        | |- context [renderVotingForm document ?q] =>
            pose proof (renderVotingForm_quiet q) as Hq;
            destruct (renderVotingForm document q) as [[[] | f] p1]
        end.
        -- eexists. split; [reflexivity |]. exact Hq.
        -- cbn -[lit]. eexists. split; [reflexivity |]. cbn -[lit]. rewrite revealed_app. cbn -[lit].
           rewrite app_nil_r. exact Hq.
    + cbn -[lit]. eexists. split; [reflexivity |]. cbn -[lit]. rewrite revealed_app. cbn -[lit].
      now rewrite app_nil_r.
  - cbn -[lit]. eexists. split; [reflexivity |]. cbn -[lit]. rewrite revealed_app. cbn -[lit].
    now rewrite app_nil_r.
Qed.

Lemma checkIfVoted_decides (p : Page Db) :
  exists p',
    checkIfVoted p =
      (Normal
         match prop (currentElection p) (lit "id") with
         | Throw _ => false
         | Normal electionId =>
             match supabase (voterLookup electionId (voterFingerprint p))
                     (db (service p)) with
             | (Normal found, _) =>
                 match data found with DNull => false | _ => true end
             | (Throw _, _) => false
             end
         end, p') /\
    shown p' = shown p.
Proof.
  unfold Voting.checkIfVoted, catchV, bindV, page, liftV, query, send.
  destruct (prop (currentElection p) (lit "id")) as [electionId | f].
  - destruct (supabase (voterLookup electionId (voterFingerprint p)) (db (service p)))
      as [[reply | e] d].
    + destruct (data reply); cbn; eexists; split; reflexivity.
    + cbn. eexists. split; reflexivity.
  - cbn. eexists. split; reflexivity.
Qed.

(** X22. With the elements of the page in place, [loadElection]
    returns and reveals exactly one of the three states.  It is the
    closed state when the election query is rejected or reports any
    error; otherwise the voted state when the voter lookup is answered
    with data, and the voting form in every other case: no election
    row, a rejected lookup, a lookup without data. *)
Theorem loadElection_reveals_one_state (p : Page Db) :
  fst (loadElection p) = Normal tt /\
  revealed (shown (snd (loadElection p))) =
    revealed (shown p) ++
    [ match supabase (openElectionQuery (lit "*")) (db (service p)) with
      | (Throw _, _) => lit "closedState"
      | (Normal reply, d) =>
          match error reply with
          | Some _ => lit "closedState"
          | None =>
              match prop (data reply) (lit "id") with
              | Throw _ => lit "votingForm"
              | Normal electionId =>
                  match supabase (voterLookup electionId (voterFingerprint p)) d with
                  | (Normal found, _) =>
                      match data found with
                      | DNull => lit "votingForm"
                      | _ => lit "votedState"
                      end
                  | (Throw _, _) => lit "votingForm"
                  end
              end
          end
      end ].
Proof.
  assert (H : exists p',
             loadElection p = (Normal tt, p') /\
             revealed (shown p') =
               revealed (shown p) ++
               [ match supabase (openElectionQuery (lit "*")) (db (service p)) with
                 | (Throw _, _) => lit "closedState"
                 | (Normal reply, d) =>
                     match error reply with
                     | Some _ => lit "closedState"
                     | None =>
                         match prop (data reply) (lit "id") with
                         | Throw _ => lit "votingForm"
                         | Normal electionId =>
                             match supabase (voterLookup electionId (voterFingerprint p)) d with
                             | (Normal found, _) =>
                                 match data found with
                                 | DNull => lit "votingForm"
                                 | _ => lit "votedState"
                                 end
                             | (Throw _, _) => lit "votingForm"
                             end
                         end
                     end
                 end ]);
    [| destruct H as (p' & -> & H); split; [reflexivity | exact H]].
  unfold Voting.loadElection, catchV, bindV. unfold query at 1, send.
  destruct (supabase (openElectionQuery (lit "*")) (db (service p))) as [[reply | e] d].
  - destruct (error reply) as [e |].
    + destruct (strict_eq (Admin.error_code e) (JStr (lit "PGRST116"))).
      * match goal with
        | |- context [showClosedState document ?q] =>
            destruct (showClosedState_present q) as (p1 & -> & H1)
        end.
        exists p1. split; [reflexivity | exact H1].
      * unfold throwV.
        match goal with
        | |- context [showClosedState document ?q] =>
            destruct (showClosedState_present q) as (p1 & -> & H1)
        end.
        exists p1. split; [reflexivity | exact H1].
    + unfold set_currentElection at 1.
      match goal with
      | |- context [updateElectionStatus document true ?q] =>
          destruct (updateElectionStatus_present true q)
            as (p1 & -> & H1 & Hs & Hc & Hf)
      end.
      cbn [service currentElection voterFingerprint shown] in H1, Hs, Hc, Hf.
      destruct (checkIfVoted_decides p1) as (p2 & -> & H2).
      rewrite Hc, Hf, Hs. cbn [db].
      destruct (prop (data reply) (lit "id")) as [electionId | f].
      * destruct (supabase (voterLookup electionId (voterFingerprint p)) d)
          as [[found | e] d'].
        -- destruct (data found).
           ++ destruct (loadCandidates_quiet p2) as (p3 & -> & H3).
              destruct (showVotingForm_present p3) as (p4 & -> & H4).
              exists p4. split; [reflexivity |]. now rewrite H4, H3, H2, H1.
           ++ destruct (showVotedState_present p2) as (p3 & -> & H3).
              exists p3. split; [reflexivity |]. now rewrite H3, H2, H1.
           ++ destruct (showVotedState_present p2) as (p3 & -> & H3).
              exists p3. split; [reflexivity |]. now rewrite H3, H2, H1.
        -- destruct (loadCandidates_quiet p2) as (p3 & -> & H3).
           destruct (showVotingForm_present p3) as (p4 & -> & H4).
           exists p4. split; [reflexivity |]. now rewrite H4, H3, H2, H1.
      * destruct (loadCandidates_quiet p2) as (p3 & -> & H3).
        destruct (showVotingForm_present p3) as (p4 & -> & H4).
        exists p4. split; [reflexivity |]. now rewrite H4, H3, H2, H1.
  - match goal with
    | |- context [showClosedState document ?q] =>
        destruct (showClosedState_present q) as (p1 & -> & H1)
    end.
    exists p1. split; [reflexivity | exact H1].
Qed.

End Present.

(** ** Submitting the ballot *)

Lemma mapRows_voteRow (voter : JsVal) (election : JsObject) entries :
  mapRows (voteRow voter (DRow election)) entries =
    Normal (List.map (fun entry : jsstring * Choice =>
                        [ (lit "voter_id", voter);
                          (lit "candidate_id", candidateId (snd entry));
                          (lit "election_id", Get election (lit "id"));
                          (lit "position", JStr (fst entry)) ]) entries).
Proof.
  induction entries as [| entry entries IH]; [reflexivity |].
  cbn [mapRows List.map]. unfold voteRow at 1. cbn [prop]. now rewrite IH.
Qed.

Lemma service_show e (p : Page Db) : service (snd (show e p)) = service p.
Proof. reflexivity. Qed.

Lemma service_on element e (p : Page Db) :
  service (snd (on document element e p)) = service p.
Proof. unfold on. destruct (document element); reflexivity. Qed.

(** What follows the second insert, and the [catch] clause, send
    nothing. *)
Lemma service_showVotedState (p : Page Db) :
  service (snd (showVotedState document p)) = service p.
Proof.
  unfold showVotedState, bindV, page, on.
  destruct (document (lit "loadingState")); [| reflexivity]. cbn -[lit].
  destruct (document (lit "votedState")); [| reflexivity]. cbn -[lit].
  destruct (closedElection (currentElection p));
    destruct (document (lit "viewResultsBtn")); reflexivity.
Qed.

Lemma service_finish (p : Page Db) :
  service
    (snd ((bindV (on document (lit "confirmModal")
                    (ClassAdd (lit "confirmModal") (lit "hidden")))
            (fun _ => bindV (on document (lit "votingForm")
                               (ClassAdd (lit "votingForm") (lit "hidden")))
                        (fun _ => showVotedState document))) p)) = service p.
Proof.
  unfold bindV, on.
  destruct (document (lit "confirmModal")); [| reflexivity]. cbn -[lit showVotedState].
  destruct (document (lit "votingForm")); [| reflexivity]. cbn -[lit showVotedState].
  match goal with
  | |- context [showVotedState document ?q] =>
      pose proof (service_showVotedState q) as H;
      destruct (showVotedState document q) as [[[] | f] p1]
  end; exact H.
Qed.

Lemma service_recover (f : Failure) (p : Page Db) :
  service
    (snd ((bindV (show (Alert (lit "Failed to submit votes. Please try again.")))
            (fun _ => bindV (on document (lit "confirmSubmitBtn")
                               (Disabled (lit "confirmSubmitBtn") false))
                        (fun _ => on document (lit "confirmSubmitBtn")
                                    (TextContent (lit "confirmSubmitBtn")
                                       (JStr (lit "Confirm & Submit")))))) p)) =
  service p.
Proof.
  unfold bindV, on. cbn -[lit].
  destruct (document (lit "confirmSubmitBtn")); reflexivity.
Qed.

(** X23. [submitVotes] sends at most two queries, both inserts and in
    this order: the voter row, then, only when that insert was answered
    without error and with a row, one insert with a vote row per
    position of the ballot.  Nothing is sent after a failing insert:
    a stored voter row is not taken back when the votes are refused. *)
Theorem submitVotes_sends (p : Page Db) :
  let p' := snd (submitVotes p) in
  sent (service p') = sent (service p) \/
  exists electionId,
    prop (currentElection p) (lit "id") = Normal electionId /\
    (sent (service p') =
       sent (service p) ++ [voterInsert electionId (voterFingerprint p)] \/
     exists reply d voter rows,
       supabase (voterInsert electionId (voterFingerprint p)) (db (service p)) =
         (Normal reply, d) /\
       error reply = None /\
       prop (data reply) (lit "id") = Normal voter /\
       mapRows (voteRow voter (currentElection p))
         (Props.Object_entries (selectedVotes p)) = Normal rows /\
       sent (service p') =
         sent (service p) ++
         [voterInsert electionId (voterFingerprint p); votesInsert rows]).
Proof.
  cbv zeta. unfold Voting.submitVotes, catchV.
  match goal with
  | |- context [match ?body p with _ => _ end] => set (attempt := body p)
  end.
  assert (Hrecover : forall f q,
            service (snd ((fun p0 : Page Db =>
               ((bindV (show (Alert (lit "Failed to submit votes. Please try again.")))
                  (fun _ => bindV (on document (lit "confirmSubmitBtn")
                                     (Disabled (lit "confirmSubmitBtn") false))
                              (fun _ => on document (lit "confirmSubmitBtn")
                                          (TextContent (lit "confirmSubmitBtn")
                                             (JStr (lit "Confirm & Submit")))))) p0)) q))
            = service q) by (intros f q; apply (service_recover f q)).
  assert (Hcatch :
            service (snd (match attempt with
                          | (Normal a, p') => (Normal a, p')
                          | (Throw f, p') =>
                              (bindV (show (Alert (lit "Failed to submit votes. Please try again.")))
                                 (fun _ => bindV (on document (lit "confirmSubmitBtn")
                                                    (Disabled (lit "confirmSubmitBtn") false))
                                             (fun _ => on document (lit "confirmSubmitBtn")
                                                         (TextContent (lit "confirmSubmitBtn")
                                                            (JStr (lit "Confirm & Submit"))))))
                                p'
                          end)) = service (snd attempt)).
  { destruct attempt as [[a | f] q]; [reflexivity | apply (service_recover f q)]. }
  rewrite Hcatch. clear Hcatch Hrecover.
  remember (sent (service (snd attempt))) as result eqn:Hres.
  unfold attempt in Hres. clear attempt.
  unfold bindV at 1, on at 1 in Hres.
  destruct (document (lit "confirmSubmitBtn")) eqn:Hbtn; [| left; exact Hres].
  cbn -[lit bindV on query showVotedState mapRows Props.Object_entries] in Hres.
  unfold bindV at 1, on at 1 in Hres. rewrite Hbtn in Hres.
  cbn -[lit bindV on query showVotedState mapRows Props.Object_entries] in Hres.
  unfold bindV at 1, page at 1 in Hres.
  cbn -[lit bindV on query showVotedState mapRows Props.Object_entries] in Hres.
  unfold bindV at 1, liftV at 1 in Hres.
  destruct (prop (currentElection p) (lit "id")) as [electionId | f] eqn:Hid;
    [| left; exact Hres].
  right. exists electionId. split; [reflexivity |].
  cbn -[lit bindV on query showVotedState mapRows Props.Object_entries] in Hres.
  unfold bindV at 1, query at 1, send in Hres.
  cbn -[lit bindV on query showVotedState mapRows Props.Object_entries] in Hres.
  destruct (supabase (voterInsert electionId (voterFingerprint p)) (db (service p)))
    as [[reply | e] d] eqn:Hq1; [| left; exact Hres].
  destruct (error reply) as [voterError |] eqn:He1; [left; exact Hres |].
  unfold bindV at 1, liftV at 1 in Hres.
  destruct (prop (data reply) (lit "id")) as [voter | f] eqn:Hvoter; [| left; exact Hres].
  cbn -[lit bindV on query showVotedState mapRows Props.Object_entries] in Hres.
  unfold bindV at 1 in Hres.
  cbn -[lit bindV on query showVotedState mapRows Props.Object_entries] in Hres.
  unfold bindV at 1 in Hres.
  cbn -[lit bindV on query showVotedState mapRows Props.Object_entries] in Hres.
  unfold bindV at 1, liftV at 1 in Hres.
  destruct (mapRows (voteRow voter (currentElection p))
              (Props.Object_entries (selectedVotes p))) as [rows | f] eqn:Hrows;
    [| left; exact Hres].
  right. exists reply, d, voter, rows.
  split; [first [reflexivity | assumption] |]. split; [exact He1 |].
  split; [first [reflexivity | assumption] |].
  split; [first [reflexivity | assumption] |].
  unfold bindV at 1, query at 1, send in Hres.
  cbn -[lit bindV on showVotedState] in Hres.
  destruct (supabase (votesInsert rows) d) as [[reply2 | e2] d2];
    [| cbn -[lit] in Hres; now rewrite <- app_assoc in Hres].
  destruct (error reply2) as [votesError |];
    [cbn -[lit] in Hres; now rewrite <- app_assoc in Hres |].
  rewrite service_finish in Hres. cbn -[lit] in Hres. now rewrite <- app_assoc in Hres.
Qed.

(** When the voter row is stored and the votes are then refused,
    [submitVotes] returns after an alert with the button enabled
    again: the voter id is kept, the ballot is untouched, and the two
    inserts are all that was sent. *)
Theorem submitVotes_refused_votes (p : Page Db) (election voter : JsObject)
  (reply reply2 : Reply) (d d2 : Db) (e : Admin.QueryError) :
  let register := voterInsert (Get election (lit "id")) (voterFingerprint p) in
  let votes :=
    votesInsert
      (List.map (fun entry : jsstring * Choice =>
                   [ (lit "voter_id", Get voter (lit "id"));
                     (lit "candidate_id", candidateId (snd entry));
                     (lit "election_id", Get election (lit "id"));
                     (lit "position", JStr (fst entry)) ])
                (Props.Object_entries (selectedVotes p))) in
  document (lit "confirmSubmitBtn") = true ->
  currentElection p = DRow election ->
  supabase register (db (service p)) = (Normal reply, d) ->
  error reply = None ->
  data reply = DRow voter ->
  supabase votes d = (Normal reply2, d2) ->
  error reply2 = Some e ->
  submitVotes p =
    (Normal tt,
     {| service := {| db := d2; sent := sent (service p) ++ [register; votes] |};
        currentElection := currentElection p;
        candidates := candidates p;
        voterFingerprint := voterFingerprint p;
        voterId := Get voter (lit "id");
        selectedVotes := selectedVotes p;
        shown := shown p ++
                 [ Disabled (lit "confirmSubmitBtn") true;
                   TextContent (lit "confirmSubmitBtn") (JStr (lit "Submitting..."));
                   Alert (lit "Failed to submit votes. Please try again.");
                   Disabled (lit "confirmSubmitBtn") false;
                   TextContent (lit "confirmSubmitBtn") (JStr (lit "Confirm & Submit")) ] |}).
Proof.
  cbv zeta. intros Hbtn Hel Hq1 He1 Hvoter Hq2 He2.
  unfold Voting.submitVotes, catchV, bindV, on, page, liftV, query, send, set_voterId,
    show, throwV.
  repeat (progress (cbn [prop service currentElection voterFingerprint voterId
                         selectedVotes candidates shown db sent fst snd];
                    rewrite ?Hbtn, ?Hel, ?Hq1, ?He1, ?Hvoter, ?mapRows_voteRow,
                      ?Hq2, ?He2)).
  rewrite <- !app_assoc. reflexivity.
Qed.

(** X24. The submit handler of the ballot asks for one selection and
    no more: with an empty ballot it alerts and reveals nothing, and
    with any selection it reveals the confirmation, whatever positions
    the candidates have. *)
Theorem handleBallotSubmit_asks_one_selection (p : Page Db) (rows : list JsObject) :
  candidates p = DRows rows ->
  document (lit "confirmContent") = true ->
  document (lit "confirmModal") = true ->
  fst (handleBallotSubmit p) = Normal tt /\
  (selectedVotes p = [] ->
   shown (snd (handleBallotSubmit p)) =
     shown p ++ [Alert (lit "Please select at least one candidate to vote for.")]) /\
  (selectedVotes p <> [] ->
   revealed (shown (snd (handleBallotSubmit p))) =
     revealed (shown p) ++ [lit "confirmModal"]).
Proof.
  intros Hc Hcontent Hmodal.
  unfold Voting.handleBallotSubmit, showConfirmationModal, bindV, page, liftV, on.
  rewrite Hc. cbn [as_array]. rewrite Hcontent, Hmodal.
  destruct (selectedVotes p) as [| entry entries]; cbn -[lit Props.Object_entries].
  - split; [reflexivity |]. split; [reflexivity | congruence].
  - split; [reflexivity |]. split; [discriminate |]. intros _.
    rewrite !revealed_app. cbn. now rewrite app_nil_r.
Qed.

(** X25. The ballot page does not start where [crypto.subtle.digest]
    is unavailable: [init] rejects before the election is asked for,
    with nothing sent and nothing shown. *)
Theorem init_needs_digest (env : Fingerprint.BrowserEnv) (p : Page Db) :
  (forall message, ~ Spec.settles (Fingerprint.crypto_digest env message)) ->
  exists e, init env p = (Throw (Raised e), p).
Proof.
  intros Hdigest. unfold Voting.init, bindV, liftV.
  destruct (Fingerprint.generateFingerprint env) as [fingerprint | e] eqn:Hfp;
    [| now exists e].
  exfalso. revert Hfp.
  unfold Fingerprint.generateFingerprint, Fingerprint.hashComponents, Js.bind.
  repeat match goal with
         | |- context [match ?c with Normal _ => _ | Throw _ => _ end] =>
             lazymatch c with
             | Fingerprint.crypto_digest env ?m =>
                 pose proof (Hdigest m) as Hm;
                 destruct (Fingerprint.crypto_digest env m); [destruct Hm; exact I |]
             | _ => destruct c
             end
         end; discriminate.
Qed.

End Generic.

(** ** The theorems at concrete pages *)

Lemma submitVotes_refused_votes_witness :
  voterId (snd (Voting.submitVotes Ballots.votesRefused Ballots.complete Ballots.chosen)) =
    JNum 9 /\
  List.length (sent (service (snd (Voting.submitVotes Ballots.votesRefused
                                     Ballots.complete Ballots.chosen)))) = 2%nat.
Proof.
  rewrite (submitVotes_refused_votes Ballots.votesRefused Ballots.complete Ballots.chosen
             [(lit "id", JNum 5); (lit "is_open", JBool true)]
             [(lit "id", JNum 9)]
             {| data := DRow [(lit "id", JNum 9)]; error := None; count := JNull |}
             Desk.refusing tt tt Desk.denied
             eq_refl eq_refl eq_refl eq_refl eq_refl eq_refl eq_refl).
  split; reflexivity.
Defined.

Lemma handleBallotSubmit_asks_one_selection_witness :
  revealed (shown (snd (Voting.handleBallotSubmit Ballots.complete Ballots.chosen))) =
    [lit "confirmModal"].
Proof.
  refine (proj2 (proj2 (handleBallotSubmit_asks_one_selection
                          Ballots.complete Ballots.chosen Ballots.twoPositions
                          eq_refl eq_refl eq_refl)) _).
  discriminate.
Defined.

Lemma loadElection_reveals_one_state_witness :
  revealed (shown (snd (Voting.loadElection (Desk.replying Desk.noRows) Ballots.complete
                          Ballots.blank))) = [lit "votingForm"].
Proof.
  destruct (loadElection_reveals_one_state (Desk.replying Desk.noRows) Ballots.complete
              (fun _ => eq_refl) Ballots.blank) as [_ H].
  exact H.
Defined.

Lemma init_needs_digest_witness :
  exists e,
    Voting.init (Desk.replying Desk.noRows) Ballots.complete Scenario.desktop
      Ballots.blank = (Throw (Raised e), Ballots.blank).
Proof.
  apply (init_needs_digest (Desk.replying Desk.noRows) Ballots.complete Scenario.desktop).
  intros message H. exact H.
Defined.

End VotingFacts.

(* ===================================================================== *)
(** * Properties of the voter page                                         *)
(* ===================================================================== *)

Module AppFacts.
Import Api App.

(** ** Reading the candidate id *)

Lemma digitOf_digitChar d : 0 <= d < 10 -> digitOf 10 (digitChar d) = Some d.
Proof.
  intros Hd. unfold digitOf, digitChar.
  replace (d <? 10) with true by (symmetry; apply Z.ltb_lt; lia).
  replace (48 <=? 48 + d) with true by (symmetry; apply Z.leb_le; lia).
  replace (48 + d <=? 57) with true by (symmetry; apply Z.leb_le; lia).
  cbn [andb]. replace (48 + d - 48) with d by lia.
  replace (d <? 10) with true by (symmetry; apply Z.ltb_lt; lia). reflexivity.
Qed.

Lemma digits10_digit n : 0 <= n -> Forall (fun u => 48 <= u <= 57) (digits 10 n).
Proof.
  intros Hn. funelim (digits 10 n); try lia.
  - constructor; [| constructor]. unfold digitChar.
    replace (n <? 10) with true by (symmetry; apply Z.ltb_lt; lia). lia.
  - apply Forall_app. split.
    + apply H. apply Z.div_pos; lia.
    + constructor; [| constructor]. unfold digitChar.
      pose proof (Z.mod_pos_bound n 10 ltac:(lia)) as Hm.
      replace (n mod 10 <? 10) with true by (symmetry; apply Z.ltb_lt; lia). lia.
Qed.

Lemma prefixValue_digits n : forall rest,
  0 <= n ->
  prefixValue 10 (digits 10 n ++ rest) None = prefixValue 10 rest (Some n).
Proof.
  funelim (digits 10 n); intros rest Hn; try lia.
  - cbn [app prefixValue]. rewrite digitOf_digitChar by lia.
    replace (10 * 0 + n) with n by lia. reflexivity.
  - rewrite <- app_assoc. rewrite H by (apply Z.div_pos; lia).
    cbn [app prefixValue].
    pose proof (Z.mod_pos_bound n 10 ltac:(lia)) as Hm.
    rewrite digitOf_digitChar by lia.
    replace (10 * (n / 10) + n mod 10) with n by (rewrite <- Z.div_mod; lia).
    reflexivity.
Qed.

Lemma digit_not_space u : 48 <= u <= 57 -> isWhiteSpace u = false.
Proof.
  intros Hu. unfold isWhiteSpace. apply bool_decide_eq_false_2.
  cbn [In]. intros H. repeat (destruct H as [H | H]; [lia |]). exact H.
Qed.

Lemma prefixValue_ends n rest :
  ends_number n rest -> prefixValue 10 rest (Some n) = Some n.
Proof.
  destruct rest as [| u rest]; [reflexivity |]. intros [Hu _]. cbn [prefixValue].
  now rewrite Hu.
Qed.

Lemma parseInt_unsigned n rest :
  0 <= n -> ends_number n rest ->
  let s := digits 10 n ++ rest in
  skipWhiteSpace s = s /\
  (match s with
   | u :: tail =>
       if u =? 45 then (-1, tail) else if u =? 43 then (1, tail) else (1, s)
   | [] => (1, s)
   end) = (1, s) /\
  (match s with
   | zero :: x :: tail =>
       if (zero =? 48) && ((x =? 120) || (x =? 88)) then (16, tail) else (10, s)
   | _ => (10, s)
   end) = (10, s) /\
  prefixValue 10 s None = Some n.
Proof.
  intros Hn Hends. cbv zeta.
  pose proof (digits10_digit n Hn) as Hdigits.
  pose proof (JsFacts.digits_nonempty 10 n) as Hne.
  pose proof (prefixValue_digits n rest Hn) as Hvalue.
  rewrite (prefixValue_ends n rest Hends) in Hvalue.
  destruct (digits 10 n) as [| c ds] eqn:Hds; [congruence |].
  inversion Hdigits as [| ? ? Hc Hrest]; subst.
  cbn [app skipWhiteSpace]. rewrite (digit_not_space c Hc).
  replace (c =? 45) with false by (symmetry; apply Z.eqb_neq; lia).
  replace (c =? 43) with false by (symmetry; apply Z.eqb_neq; lia).
  split; [reflexivity |]. split; [reflexivity |]. split; [| exact Hvalue].
  destruct (ds ++ rest) as [| x tail] eqn:Htail; [reflexivity |].
  destruct (c =? 48) eqn:Hzero; [| reflexivity].
  apply Z.eqb_eq in Hzero. subst c.
  assert (n = 0) as ->.
  { destruct (Z.eq_dec n 0) as [E | E]; [exact E |].
    exfalso. apply (JsFacts.digits_leading 10 n ds); [lia | lia | exact Hds]. }
  rewrite JsFacts.digits_small in Hds by lia. injection Hds as <-.
  cbn [app] in Htail. subst rest. destruct Hends as [_ Hx].
  destruct (Hx eq_refl) as [H1 H2].
  replace (x =? 120) with false by (symmetry; apply Z.eqb_neq; lia).
  replace (x =? 88) with false by (symmetry; apply Z.eqb_neq; lia).
  reflexivity.
Qed.

Lemma parseInt_decimal n rest :
  ends_number n rest ->
  parseInt (JStr (numberToString n 10 ++ rest)) = Some n.
Proof.
  intros Hends. unfold parseInt. cbn [ToString]. unfold numberToString.
  destruct (Z.ltb_spec n 0) as [Hneg | Hpos].
  - assert (Hends' : ends_number (- n) rest).
    { destruct rest as [| u rest]; [exact I |]. destruct Hends as [H1 _].
      split; [exact H1 | lia]. }
    destruct (parseInt_unsigned (- n) rest ltac:(lia) Hends') as (_ & _ & H3 & H4).
    cbn [app skipWhiteSpace]. change (isWhiteSpace 45) with false. cbn iota.
    change (45 =? 45) with true. cbn iota. cbn [fst snd].
    rewrite H3. cbn [fst snd]. rewrite H4. f_equal. lia.
  - destruct (parseInt_unsigned n rest Hpos Hends) as (H1 & H2 & H3 & H4).
    rewrite H1, H2. cbn [fst snd]. rewrite H3. cbn [fst snd]. rewrite H4.
    f_equal. lia.
Qed.

Section Generic.

Context {Net : Type}.
Variable backend : Request -> Net -> Completion JsError Response * Net.
Variable SUPABASE_CONFIG_url SUPABASE_CONFIG_anonKey : JsVal.
Variable toISOString : Z -> jsstring.
Variable env : Fingerprint.BrowserEnv.
Variable error_text : JsError -> jsstring.
Variable document : jsstring -> bool.

#[local] Abbreviation submitVote :=
  (Api.submitVote backend SUPABASE_CONFIG_url SUPABASE_CONFIG_anonKey toISOString).
#[local] Abbreviation ensureVoter :=
  (Api.ensureVoter backend SUPABASE_CONFIG_url SUPABASE_CONFIG_anonKey toISOString).
#[local] Abbreviation fetchCandidates :=
  (Api.fetchCandidates backend SUPABASE_CONFIG_url SUPABASE_CONFIG_anonKey).
#[local] Abbreviation handleSubmit :=
  (App.handleSubmit backend SUPABASE_CONFIG_url SUPABASE_CONFIG_anonKey toISOString
     error_text document).
#[local] Abbreviation init :=
  (App.init backend SUPABASE_CONFIG_url SUPABASE_CONFIG_anonKey toISOString env
     error_text document).
#[local] Abbreviation selectCandidate := (App.selectCandidate (Net := Net) document).

(** X26. The id [selectCandidate] records is the integer the card's
    [data-candidate-id] starts with: the decimal text of a number reads
    back as that number (for the integers a JavaScript number holds
    exactly), and whatever follows the digits is dropped. *)
Theorem selectCandidate_reads_integer (n : Z) (rest : jsstring) (p : Page Net) :
  Z.abs n <= 2 ^ 53 ->
  ends_number n rest ->
  selectedCandidateId
    (state (snd (selectCandidate (JStr (ToString (JNum n) ++ rest)) p))) = Candidate n.
Proof.
  intros _ Hends. cbn [ToString].
  unfold App.selectCandidate, bindP, show, update, on.
  rewrite (parseInt_decimal n rest Hends).
  destruct (document (lit ".submit-button")); reflexivity.
Qed.

(** ** Submitting *)

Lemma handleSubmit_guard (p : Page Net) :
  selected (selectedCandidateId (state p)) = false \/ isLoading (state p) = true ->
  handleSubmit p = (Normal tt, p).
Proof.
  intros H. unfold App.handleSubmit, bindP, page.
  destruct (selectedCandidateId (state p)) as [| | id]; try reflexivity.
  cbn [selected] in H. destruct (id =? 0); [reflexivity |]. cbn [negb orb] in *.
  destruct H as [H | H]; [discriminate |]. now rewrite H.
Qed.

(** X27. A vote that is accepted is final for the page: [handleSubmit]
    shows the confirmation for the selected candidate, sets [hasVoted]
    and leaves [isLoading] set, so that every later call of
    [handleSubmit], whatever the document then holds, returns at once
    without a request. *)
Theorem handleSubmit_votes_once (p : Page Net) (id : Z) (vote : Json) (w' : World Net)
  (rows : list JsObject) :
  selectedCandidateId (state p) = Candidate id ->
  id <> 0 ->
  isLoading (state p) = false ->
  document (lit ".submit-button") = true ->
  document (lit ".app-container") = true ->
  candidates (state p) = JRows rows ->
  submitVote (voterId (state p)) (JNum id) (world p) = (Normal vote, w') ->
  exists p',
    handleSubmit p = (Normal tt, p') /\
    world p' = w' /\
    hasVoted (state p') = true /\
    screen p' =
      screen p ++
      [ ButtonBusy;
        Confirmation false
          (List.find (fun c => strict_eq (Get c (lit "id")) (JNum id)) rows) ] /\
    forall document',
      App.handleSubmit backend SUPABASE_CONFIG_url SUPABASE_CONFIG_anonKey toISOString
        error_text document' p' = (Normal tt, p').
Proof.
  intros Hsel Hid Hload Hbutton Hcontainer Hrows Hvote.
  apply Z.eqb_neq in Hid.
  assert (Hguard : forall document' (q : Page Net),
            selectedCandidateId (state q) = Candidate id ->
            isLoading (state q) = true ->
            App.handleSubmit backend SUPABASE_CONFIG_url SUPABASE_CONFIG_anonKey
              toISOString error_text document' q = (Normal tt, q)).
  { intros document' q Hq Hl. unfold App.handleSubmit, bindP, page.
    rewrite Hq, Hid, Hl. reflexivity. }
  unfold App.handleSubmit at 1.
  repeat (progress (cbv beta iota zeta delta
                      [bindP page catchP api update show set_isLoading
                       showConfirmationScreen raw on retP throwP];
                    rewrite ?Hsel, ?Hload, ?Hid, ?Hbutton, ?Hvote, ?Hrows, ?Hcontainer;
                    cbn [orb array_of is_selected state world screen candidates selectedCandidateId])).
  eexists. split; [reflexivity |]. cbn [state world screen hasVoted].
  split; [reflexivity |]. split; [reflexivity |].
  split; [now rewrite <- app_assoc |].
  intros document'. apply Hguard; reflexivity.
Qed.

(** X28. A vote that is rejected leaves the page ready for another
    attempt: [isLoading] is cleared, [hasVoted] is as before and the
    button is restored.  The rejection [ALREADY_VOTED] is shown as the
    confirmation of an earlier vote, any other one as its message in
    the error container, if the page has one. *)
Theorem handleSubmit_rejected (p : Page Net) (id : Z) (error : Exn) (w' : World Net)
  (rows : list JsObject) :
  selectedCandidateId (state p) = Candidate id ->
  id <> 0 ->
  isLoading (state p) = false ->
  document (lit ".submit-button") = true ->
  document (lit ".app-container") = true ->
  candidates (state p) = JRows rows ->
  submitVote (voterId (state p)) (JNum id) (world p) = (Throw error, w') ->
  exists p',
    handleSubmit p = (Normal tt, p') /\
    world p' = w' /\
    isLoading (state p') = false /\
    hasVoted (state p') = hasVoted (state p) /\
    screen p' =
      screen p ++ [ButtonBusy; ButtonRestored] ++
      (if is_ALREADY_VOTED error then
         [Confirmation true
            (List.find (fun c => strict_eq (Get c (lit "id")) (JNum id)) rows)]
       else if document (lit ".error-container") then
         [ErrorShown (js_or (message_of error_text error)
                            (JStr (lit "Failed to submit vote")))]
       else []).
Proof.
  intros Hsel Hid Hload Hbutton Hcontainer Hrows Hvote.
  apply Z.eqb_neq in Hid.
  unfold App.handleSubmit.
  repeat (progress (cbv beta iota zeta delta
                      [bindP page catchP api update show set_isLoading raw retP throwP];
                    rewrite ?Hsel, ?Hload, ?Hid, ?Hbutton, ?Hvote;
                    cbn [orb state world screen])).
  destruct (is_ALREADY_VOTED error).
  - repeat (progress (cbv beta iota zeta delta
                        [bindP page catchP api update show set_isLoading
                         showConfirmationScreen raw on retP throwP];
                      rewrite ?Hsel, ?Hrows, ?Hcontainer;
                      cbn [orb array_of is_selected state world screen candidates selectedCandidateId])).
    eexists. split; [reflexivity |]. cbn [state world screen hasVoted isLoading].
    split; [reflexivity |]. split; [reflexivity |]. split; [reflexivity |].
    now rewrite <- !app_assoc.
  - unfold showError. destruct (document (lit ".error-container")).
    + cbv beta iota zeta delta [show].
      eexists. split; [reflexivity |]. cbn [state world screen hasVoted isLoading].
      split; [reflexivity |]. split; [reflexivity |]. split; [reflexivity |].
      now rewrite <- !app_assoc.
    + cbv beta iota zeta delta [retP].
      eexists. split; [reflexivity |]. cbn [state world screen hasVoted isLoading].
      split; [reflexivity |]. split; [reflexivity |]. split; [reflexivity |].
      now rewrite <- !app_assoc.
Qed.

(** ** Loading *)

(** X29. [init] registers the voter before it asks for the candidates,
    and stops there when the registration fails: the state keeps no
    voter id and no candidates, nothing is requested after
    [ensureVoter], and the error is shown only if the page already has
    an error container.  When the registration and the candidates both
    come back, the voter id is the [id] of the voter and the mock
    indicator is shown in mock mode. *)
Theorem init_registers_then_loads (p : Page Net) (hashed : jsstring) :
  document (lit ".app-container") = true ->
  Fingerprint.generateHashedFingerprint env = Normal hashed ->
  (forall error w',
     ensureVoter hashed (world p) = (Throw error, w') ->
     init p =
       (Normal tt,
        {| state := {| candidates := candidates (state p);
                       selectedCandidateId := selectedCandidateId (state p);
                       voterId := voterId (state p);
                       fingerprint := JStr hashed;
                       isLoading := isLoading (state p);
                       hasVoted := hasVoted (state p) |};
           world := w';
           screen := screen p ++ Skeleton ::
                     (if document (lit ".error-container") then
                        [ErrorShown (js_or (message_of error_text error)
                                           (JStr (lit "Failed to load voting page")))]
                      else []) |})) /\
  (forall voter w1 id rows w2,
     ensureVoter hashed (world p) = (Normal voter, w1) ->
     member voter (lit "id") = Normal id ->
     fetchCandidates w1 = (Normal (JRows rows), w2) ->
     forallb printable rows = true ->
     document (lit ".submit-button") = true ->
     init p =
       (Normal tt,
        {| state := {| candidates := JRows rows;
                       selectedCandidateId := selectedCandidateId (state p);
                       voterId := id;
                       fingerprint := JStr hashed;
                       isLoading := isLoading (state p);
                       hasVoted := hasVoted (state p) |};
           world := w2;
           screen := screen p ++ [Skeleton; CandidatesRendered rows; ListenersSet] ++
                     (if MOCK_MODE w2 then [MockIndicator] else []) |})).
Proof.
  intros Hcontainer Hfp. split.
  - intros error w' Hvoter. unfold App.init, showSkeletonLoader, showError.
    repeat (progress (cbv beta iota zeta delta
                        [bindP page catchP api update show raw on retP throwP];
                      rewrite ?Hcontainer, ?Hfp, ?Hvoter;
                      cbn [state world screen])).
    destruct (document (lit ".error-container"));
      cbv beta iota zeta delta [show retP]; cbn [state world screen];
      rewrite <- ?app_assoc; reflexivity.
  - intros voter w1 id rows w2 Hvoter Hid Hfetch Hprint Hbutton.
    unfold App.init, showSkeletonLoader, renderCandidates, setupEventListeners.
    repeat (progress (cbv beta iota zeta delta
                        [bindP page catchP api update show raw on retP throwP isMockMode];
                      rewrite ?Hcontainer, ?Hfp, ?Hvoter, ?Hid, ?Hfetch, ?Hprint, ?Hbutton;
                      cbn [array_of state world screen candidates])).
    destruct (MOCK_MODE w2); cbn [state world screen]; rewrite <- ?app_assoc; reflexivity.
Qed.

(** ** Keyboard *)

(** X30. The arrow keys move the focus round the cards: the next index
    is always the index of a card, down after up and up after down
    come back to the same card, and the ends wrap. *)
Theorem arrows_cycle (currentIndex length : Z) :
  0 <= currentIndex < length ->
  (forall key, 0 <= nextIndex key currentIndex length < length) /\
  nextIndex ArrowUp (nextIndex ArrowDown currentIndex length) length = currentIndex /\
  nextIndex ArrowDown (nextIndex ArrowUp currentIndex length) length = currentIndex /\
  nextIndex ArrowDown (length - 1) length = 0 /\
  nextIndex ArrowUp 0 length = length - 1.
Proof.
  intros Hi.
  assert (Hrem : forall a, 0 <= a -> Z.rem a length = a mod length)
    by (intros a Ha; apply Z.rem_mod_nonneg; lia).
  assert (Hdown : Z.rem (currentIndex + 1) length =
                  if currentIndex + 1 =? length then 0 else currentIndex + 1).
  { rewrite Hrem by lia. destruct (Z.eqb_spec (currentIndex + 1) length) as [E | E].
    - rewrite E. apply Z.mod_same. lia.
    - apply Z.mod_small. lia. }
  assert (Hup : Z.rem (currentIndex - 1 + length) length =
                if currentIndex =? 0 then length - 1 else currentIndex - 1).
  { rewrite Hrem by lia. destruct (Z.eqb_spec currentIndex 0) as [E | E].
    - subst. replace (0 - 1 + length) with (length - 1) by lia. apply Z.mod_small. lia.
    - replace (currentIndex - 1 + length) with (currentIndex - 1 + 1 * length) by lia.
      rewrite Z.mod_add by lia. apply Z.mod_small. lia. }
  split; [| split; [| split; [| split]]].
  - intros key. destruct key; cbn [nextIndex]; rewrite ?Hdown, ?Hup;
      try destruct (Z.eqb_spec (currentIndex + 1) length);
      try destruct (Z.eqb_spec currentIndex 0); lia.
  - cbn [nextIndex]. rewrite Hdown.
    destruct (Z.eqb_spec (currentIndex + 1) length) as [E | E].
    + replace (0 - 1 + length) with (length - 1) by lia.
      rewrite Hrem by lia. rewrite Z.mod_small by lia. lia.
    + replace (currentIndex + 1 - 1 + length) with (currentIndex + 1 * length) by lia.
      rewrite Hrem by lia. rewrite Z.mod_add by lia. apply Z.mod_small. lia.
  - cbn [nextIndex]. rewrite Hup.
    destruct (Z.eqb_spec currentIndex 0) as [E | E].
    + replace (length - 1 + 1) with length by lia.
      rewrite Hrem by lia. rewrite Z.mod_same by lia. lia.
    + replace (currentIndex - 1 + 1) with currentIndex by lia.
      rewrite Hrem by lia. apply Z.mod_small. lia.
  - cbn [nextIndex]. replace (length - 1 + 1) with length by lia.
    rewrite Hrem by lia. apply Z.mod_same. lia.
  - cbn [nextIndex]. replace (0 - 1 + length) with (length - 1) by lia.
    rewrite Hrem by lia. apply Z.mod_small. lia.
Qed.

End Generic.

Lemma selectCandidate_reads_integer_witness :
  selectedCandidateId
    (state (snd (App.selectCandidate (fun _ => true) (JStr (lit "12ab-77"))
                   (App.start (Calls.unconfigured tt))))) = Candidate 12.
Proof.
  apply (selectCandidate_reads_integer (fun _ => true) 12 (lit "ab-77")
           (App.start (Calls.unconfigured tt))).
  - cbn. lia.
  - split; [reflexivity | lia].
Defined.

Lemma handleSubmit_votes_once_witness :
  hasVoted
    (state (snd (App.handleSubmit Scenario.offline JUndefined JUndefined Scenario.stamp
                   Desk.text Visits.complete
                   (Visits.choosing 2 (Calls.unconfigured tt))))) = true.
Proof.
  destruct (Api.submitVote Scenario.offline JUndefined JUndefined Scenario.stamp
              (JStr (lit "abc")) (JNum 2) (Calls.unconfigured tt))
    as [[vote | e] w'] eqn:Hvote; [| vm_compute in Hvote; discriminate].
  destruct (handleSubmit_votes_once Scenario.offline JUndefined JUndefined Scenario.stamp
              Desk.text Visits.complete (Visits.choosing 2 (Calls.unconfigured tt))
              2 vote w' (Api.candidates MOCK_DATA_initial)
              eq_refl ltac:(lia) eq_refl eq_refl eq_refl eq_refl Hvote)
    as (p' & -> & _ & H & _).
  exact H.
Defined.

Lemma handleSubmit_rejected_witness :
  exists selectedCandidate,
    screen (snd (App.handleSubmit Scenario.offline JUndefined JUndefined Scenario.stamp
                   Desk.text Visits.complete (Visits.choosing 2 Visits.voted))) =
      [ButtonBusy; ButtonRestored; Confirmation true selectedCandidate].
Proof.
  destruct (Api.submitVote Scenario.offline JUndefined JUndefined Scenario.stamp
              (JStr (lit "abc")) (JNum 2) Visits.voted)
    as [[vote | error] w'] eqn:Hvote; [vm_compute in Hvote; discriminate |].
  assert (Herror : is_ALREADY_VOTED error = true).
  { vm_compute in Hvote. injection Hvote as <- _. reflexivity. }
  destruct (handleSubmit_rejected Scenario.offline JUndefined JUndefined Scenario.stamp
              Desk.text Visits.complete (Visits.choosing 2 Visits.voted)
              2 error w' (Api.candidates MOCK_DATA_initial)
              eq_refl ltac:(lia) eq_refl eq_refl eq_refl eq_refl Hvote)
    as (p' & -> & _ & _ & _ & H).
  rewrite Herror in H. eexists. exact H.
Defined.

Lemma init_registers_then_loads_witness :
  screen (snd (App.init Scenario.offline JUndefined JUndefined Scenario.stamp
                 (Notions.with_digest Notions.lengthDigest Scenario.desktop)
                 Desk.text Visits.complete (App.start (Calls.unconfigured tt)))) =
    [Skeleton; CandidatesRendered (Api.candidates MOCK_DATA_initial); ListenersSet;
     MockIndicator].
Proof.
  let h := eval vm_compute in (Fingerprint.generateHashedFingerprint
                  (Notions.with_digest Notions.lengthDigest Scenario.desktop)) in
  lazymatch h with
  | Normal ?hashed =>
      let r := eval vm_compute in
        (Api.ensureVoter Scenario.offline JUndefined JUndefined Scenario.stamp hashed
           (Calls.unconfigured tt)) in
      lazymatch r with
      | (Normal ?voter, ?w1) =>
          let f := eval vm_compute in
            (Api.fetchCandidates Scenario.offline JUndefined JUndefined w1) in
          lazymatch f with
          | (Normal (JRows ?rows), ?w2) =>
              rewrite (proj2 (init_registers_then_loads Scenario.offline JUndefined
                                JUndefined Scenario.stamp
                                (Notions.with_digest Notions.lengthDigest
                                   Scenario.desktop)
                                Desk.text Visits.complete
                                (App.start (Calls.unconfigured tt))
                                hashed eq_refl ltac:(vm_compute; reflexivity))
                         voter w1 (JStr hashed) rows w2
                         ltac:(vm_compute; reflexivity) ltac:(vm_compute; reflexivity)
                         ltac:(vm_compute; reflexivity) ltac:(vm_compute; reflexivity)
                         eq_refl)
          end
      end
  end.
  vm_compute. reflexivity.
Defined.

Lemma arrows_cycle_witness : nextIndex ArrowDown 2 3 = 0.
Proof.
  exact (proj1 (proj2 (proj2 (proj2 (arrows_cycle 2 3 ltac:(lia)))))).
Defined.

End AppFacts.
